(** * Elastic DCA engine: a shallow embedding of [apps/server/main.py]

    The engine is one Python module with two globals ([state] and
    [price_history]), a handful of helpers and three request handlers
    ([handle_tick], [update_settings], [control]).  This development
    embeds them as functions over an explicit [Globals] value and proves
    properties of the decision pipeline.

    Modelling conventions.
    - Python [float] values (prices, volumes, money, clock readings) are
      exact rationals [Q]; the comparisons the code makes are the boolean
      comparisons on [Q].  Rounding, infinities and NaN are not modelled
      there.  Where a property turns on rounding, the function is given a
      second time on IEEE binary64 numbers (module [Binary64]).
    - Python [str] values are [string]s over the code points 0..255.
    - [Dict[str, RowExecStats]] is a [gmap Z RowExecStats.t]: every key the
      code writes is [str(idx)] for an integer [idx], and every key it
      reads goes through [int(k)] or [str(i)], so a key is identified
      with the integer it prints.
    - [save_state()] only writes the snapshot file and is a no-op on the
      in-memory state; [print] only logs.  Both are left out.
    - The clock and the uuid generator are inputs of a tick ([Env]).
    - Python integers are [Z].  CPython refuses to convert between [int]
      and [str] beyond 4300 digits: [int(s)] is [None] on such a string,
      and [str(n)] raises when [Py.str_raises n].  A request body with a
      longer integer is not decoded, and a length ([len]) never has that
      many digits, so the one statement of [handle_tick] that can raise
      is [str(new_idx)] in Scenario B of the hedge monitor, where
      [new_idx] follows the largest key of an execution map.  The
      exception leaves the mutations made so far in place and reaches
      the catch-all [except Exception] of [handle_tick], which replies
      WAIT. *)

From Stdlib Require Import Ascii String QArith Qabs Lqa ZArith Lia DecimalString DecimalPos.
From Stdlib Require PrimFloat FloatOps SpecFloat.
From stdpp Require Import base gmap strings list sorting.

Local Open Scope string_scope.
Local Open Scope Z_scope.
Local Open Scope list_scope.
Local Set Warnings "-clear-no-such-hyp".

(** ** Python built-ins used by the module *)

Module Py.

(** [bool(s)] for a string: the empty string is falsy. *)
Definition truthy (s : string) : bool :=
  match s with EmptyString => false | String _ _ => true end.

(** [needle in hay] on strings: substring containment.  The empty
    needle is contained in every string. *)
Fixpoint str_in (needle hay : string) : bool :=
  String.prefix needle hay ||
  match hay with
  | EmptyString => false
  | String _ rest => str_in needle rest
  end.

Fixpoint rev_string (acc s : string) : string :=
  match s with
  | EmptyString => acc
  | String c rest => rev_string (String c acc) rest
  end.

(** [s.split(sep)] for a non-empty separator: non-overlapping
    occurrences, scanned left to right.  [skip] counts the characters
    of a separator that was just recognised and is still being
    consumed; [cur] is the current piece, reversed. *)
Fixpoint split_go (sep : string) (skip : nat) (cur s : string) : list string :=
  match s with
  | EmptyString => [rev_string "" cur]
  | String c rest =>
      match skip with
      | S k => split_go sep k cur rest
      | O =>
          if String.prefix sep s
          then rev_string "" cur :: split_go sep (String.length sep - 1) "" rest
          else split_go sep 0 (String c cur) rest
      end
  end.

Definition split (s sep : string) : list string := split_go sep 0 "" s.

(** Whitespace stripped by [int()]: [str.isspace] on code points
    below 256. *)
Definition is_space (c : ascii) : bool :=
  let n := N_of_ascii c in
  ((9 <=? n) && (n <=? 13) || (28 <=? n) && (n <=? 32) || (n =? 133) || (n =? 160))%N.

Definition digit_value (c : ascii) : option Z :=
  let n := Z.of_N (N_of_ascii c) in
  if (48 <=? n) && (n <=? 57) then Some (n - 48) else None.

Fixpoint lstrip (s : string) : string :=
  match s with
  | String c rest => if is_space c then lstrip rest else s
  | EmptyString => s
  end.

Definition strip (s : string) : string :=
  rev_string "" (lstrip (rev_string "" (lstrip s))).

(** Decimal digits with single underscores allowed between digits. *)
Fixpoint digits_go (acc : Z) (after_digit : bool) (s : string) : option Z :=
  match s with
  | EmptyString => if after_digit then Some acc else None
  | String c rest =>
      match digit_value c with
      | Some d => digits_go (10 * acc + d) true rest
      | None =>
          if Ascii.eqb c "_" && after_digit
          then match rest with
               | String c' _ =>
                   match digit_value c' with
                   | Some _ => digits_go acc false rest
                   | None => None
                   end
               | EmptyString => None
               end
          else None
      end
  end.

(** CPython's limit on the number of digits in a conversion between
    [int] and [str] ([sys.int_info.default_max_str_digits]). *)
Definition max_str_digits : Z := 4300.

Fixpoint count_digits (s : string) : Z :=
  match s with
  | EmptyString => 0
  | String c rest =>
      match digit_value c with
      | Some _ => 1 + count_digits rest
      | None => count_digits rest
      end
  end.

(** [int(s)]: [None] stands for [ValueError], which is also raised for
    a string of more than [max_str_digits] digits. *)
Definition int (s : string) : option Z :=
  let body := strip s in
  if max_str_digits <? count_digits body then None
  else
    match body with
    | String "-" rest => Z.opp <$> digits_go 0 false rest
    | String "+" rest => digits_go 0 false rest
    | _ => digits_go 0 false body
    end.

(** [str(n)] for an integer: the decimal digits.  The conversion raises
    [ValueError] when [str_raises n]: the number has more than
    [max_str_digits] digits. *)
Definition str (n : Z) : string := NilZero.string_of_int (Z.to_int n).

Definition str_raises (n : Z) : bool :=
  max_str_digits <? Z.of_nat (String.length (str (Z.abs n))).

(** [sum(xs)] on floats: left to right from [0]. *)
Definition sum (xs : list Q) : Q := foldl Qplus 0%Q xs.

(** [sorted(ks)] on integers. *)
Definition sorted (ks : list Z) : list Z := merge_sort Z.le ks.

(** [a <= b], [a < b] on floats. *)
Definition le (a b : Q) : bool := Qle_bool a b.
Definition lt (a b : Q) : bool := negb (Qle_bool b a).

End Py.

(** ** A small regular-expression matcher for [re.compile(...).match] *)

Module Re.

Inductive t : Type :=
| Void
| Eps
| Class (member : ascii -> bool)
| Cat (r1 r2 : t)
| Alt (r1 r2 : t)
| Star (r : t).

Fixpoint nullable (r : t) : bool :=
  match r with
  | Void => false
  | Eps => true
  | Class _ => false
  | Cat r1 r2 => nullable r1 && nullable r2
  | Alt r1 r2 => nullable r1 || nullable r2
  | Star _ => true
  end.

Fixpoint deriv (c : ascii) (r : t) : t :=
  match r with
  | Void | Eps => Void
  | Class member => if member c then Eps else Void
  | Cat r1 r2 =>
      if nullable r1
      then Alt (Cat (deriv c r1) r2) (deriv c r2)
      else Cat (deriv c r1) r2
  | Alt r1 r2 => Alt (deriv c r1) (deriv c r2)
  | Star r1 => Cat (deriv c r1) (Star r1)
  end.

Fixpoint fullmatch (r : t) (s : string) : bool :=
  match s with
  | EmptyString => nullable r
  | String c rest => fullmatch (deriv c r) rest
  end.

Fixpoint lit (s : string) : t :=
  match s with
  | EmptyString => Eps
  | String c rest => Cat (Class (Ascii.eqb c)) (lit rest)
  end.

Fixpoint times (n : nat) (r : t) : t :=
  match n with
  | O => Eps
  | S k => Cat r (times k r)
  end.

Definition plus (r : t) : t := Cat r (Star r).

Definition in_range (lo hi c : ascii) : bool :=
  ((N_of_ascii lo <=? N_of_ascii c) && (N_of_ascii c <=? N_of_ascii hi))%N.

(** [\d] on code points below 256. *)
Definition digit : t := Class (in_range "0" "9").

Fixpoint drop_last (s : string) : string :=
  match s with
  | EmptyString => EmptyString
  | String c EmptyString => EmptyString
  | String c rest => String c (drop_last rest)
  end.

Fixpoint ends_with_newline (s : string) : bool :=
  match s with
  | EmptyString => false
  | String c EmptyString => Ascii.eqb c "010"
  | String _ rest => ends_with_newline rest
  end.

(** [re.compile("^" r "$").match(s)] where [r] cannot consume a line
    feed: [$] matches at the very end, or just before a line feed
    that ends the string. *)
Definition match_anchored (r : t) (s : string) : bool :=
  fullmatch r s || (ends_with_newline s && fullmatch r (drop_last s)).

End Re.

(** ** Configuration (lines 25-31) *)

Definition PRICE_HISTORY_LEN : nat := 100.

(** [[0-9a-fA-F]] *)
Definition hex_any_case (c : ascii) : bool :=
  Re.in_range "0" "9" c || Re.in_range "a" "f" c || Re.in_range "A" "F" c.

(** [TRADE_ID_PATTERN = re.compile(r"^(sell|buy)_[0-9a-fA-F]{8}_idx\d+$")] *)
Definition TRADE_ID_PATTERN : Re.t :=
  Re.Cat (Re.Alt (Re.lit "sell") (Re.lit "buy"))
    (Re.Cat (Re.lit "_")
       (Re.Cat (Re.times 8 (Re.Class hex_any_case))
          (Re.Cat (Re.lit "_idx") (Re.plus Re.digit)))).

Definition TRADE_ID_PATTERN_match (s : string) : bool :=
  Re.match_anchored TRADE_ID_PATTERN s.

Definition EXTERNAL_CLOSE_GRACE_PERIOD : Q := 5%Q.

(** ** Data models (lines 35-131) *)

Module GridRow.
Record t := mk { index : Z; dollar : Q; lots : Q; alert : bool }.
End GridRow.

Module Position.
Record t := mk {
  ticket : Z;
  symbol : string;
  type : string;
  volume : Q;
  price : Q;
  profit : Q;
  comment : string
}.
End Position.

Module TickData.
Record t := mk {
  account_id : string;
  equity : Q;
  balance : Q;
  symbol : string;
  ask : Q;
  bid : Q;
  positions : list Position.t
}.
End TickData.

Module RowExecStats.
Record t := mk {
  index : Z;
  entry_price : Q;
  lots : Q;
  profit : Q;
  timestamp : string;
  cumulative_lots : Q;
  cumulative_profit : Q
}.

(** The constructor call of the source: the two cumulative fields
    take their default [0.0]. *)
Definition new (index : Z) (entry_price lots profit : Q) (timestamp : string) : t :=
  mk index entry_price lots profit timestamp 0%Q 0%Q.

Definition set_cumulative (cl cp : Q) (r : t) : t :=
  mk (index r) (entry_price r) (lots r) (profit r) (timestamp r) cl cp.
End RowExecStats.

Record RuntimeState := {
  buy_on : bool;
  sell_on : bool;
  cyclic_on : bool;
  buy_id : string;
  sell_id : string;
  buy_is_closing : bool;
  sell_is_closing : bool;
  buy_hedge_triggered : bool;
  sell_hedge_triggered : bool;
  buy_waiting_limit : bool;
  sell_waiting_limit : bool;
  buy_start_ref : Q;
  sell_start_ref : Q;
  buy_exec_map : gmap Z RowExecStats.t;
  sell_exec_map : gmap Z RowExecStats.t;
  pending_actions : list string;
  current_price : Q;
  current_ask : Q;
  current_bid : Q;
  price_direction : string;
  error_status : string;
  buy_last_order_sent_ts : Q;
  sell_last_order_sent_ts : Q
}.

Definition set_buy_on (v : bool) (rt : RuntimeState) : RuntimeState :=
  {| buy_on := v; sell_on := sell_on rt; cyclic_on := cyclic_on rt; buy_id := buy_id rt;
     sell_id := sell_id rt; buy_is_closing := buy_is_closing rt; sell_is_closing :=
     sell_is_closing rt; buy_hedge_triggered := buy_hedge_triggered rt; sell_hedge_triggered
     := sell_hedge_triggered rt; buy_waiting_limit := buy_waiting_limit rt;
     sell_waiting_limit := sell_waiting_limit rt; buy_start_ref := buy_start_ref rt;
     sell_start_ref := sell_start_ref rt; buy_exec_map := buy_exec_map rt; sell_exec_map :=
     sell_exec_map rt; pending_actions := pending_actions rt; current_price := current_price
     rt; current_ask := current_ask rt; current_bid := current_bid rt; price_direction :=
     price_direction rt; error_status := error_status rt; buy_last_order_sent_ts :=
     buy_last_order_sent_ts rt; sell_last_order_sent_ts := sell_last_order_sent_ts rt |}.
Definition set_sell_on (v : bool) (rt : RuntimeState) : RuntimeState :=
  {| buy_on := buy_on rt; sell_on := v; cyclic_on := cyclic_on rt; buy_id := buy_id rt;
     sell_id := sell_id rt; buy_is_closing := buy_is_closing rt; sell_is_closing :=
     sell_is_closing rt; buy_hedge_triggered := buy_hedge_triggered rt; sell_hedge_triggered
     := sell_hedge_triggered rt; buy_waiting_limit := buy_waiting_limit rt;
     sell_waiting_limit := sell_waiting_limit rt; buy_start_ref := buy_start_ref rt;
     sell_start_ref := sell_start_ref rt; buy_exec_map := buy_exec_map rt; sell_exec_map :=
     sell_exec_map rt; pending_actions := pending_actions rt; current_price := current_price
     rt; current_ask := current_ask rt; current_bid := current_bid rt; price_direction :=
     price_direction rt; error_status := error_status rt; buy_last_order_sent_ts :=
     buy_last_order_sent_ts rt; sell_last_order_sent_ts := sell_last_order_sent_ts rt |}.
Definition set_cyclic_on (v : bool) (rt : RuntimeState) : RuntimeState :=
  {| buy_on := buy_on rt; sell_on := sell_on rt; cyclic_on := v; buy_id := buy_id rt;
     sell_id := sell_id rt; buy_is_closing := buy_is_closing rt; sell_is_closing :=
     sell_is_closing rt; buy_hedge_triggered := buy_hedge_triggered rt; sell_hedge_triggered
     := sell_hedge_triggered rt; buy_waiting_limit := buy_waiting_limit rt;
     sell_waiting_limit := sell_waiting_limit rt; buy_start_ref := buy_start_ref rt;
     sell_start_ref := sell_start_ref rt; buy_exec_map := buy_exec_map rt; sell_exec_map :=
     sell_exec_map rt; pending_actions := pending_actions rt; current_price := current_price
     rt; current_ask := current_ask rt; current_bid := current_bid rt; price_direction :=
     price_direction rt; error_status := error_status rt; buy_last_order_sent_ts :=
     buy_last_order_sent_ts rt; sell_last_order_sent_ts := sell_last_order_sent_ts rt |}.
Definition set_buy_id (v : string) (rt : RuntimeState) : RuntimeState :=
  {| buy_on := buy_on rt; sell_on := sell_on rt; cyclic_on := cyclic_on rt; buy_id := v;
     sell_id := sell_id rt; buy_is_closing := buy_is_closing rt; sell_is_closing :=
     sell_is_closing rt; buy_hedge_triggered := buy_hedge_triggered rt; sell_hedge_triggered
     := sell_hedge_triggered rt; buy_waiting_limit := buy_waiting_limit rt;
     sell_waiting_limit := sell_waiting_limit rt; buy_start_ref := buy_start_ref rt;
     sell_start_ref := sell_start_ref rt; buy_exec_map := buy_exec_map rt; sell_exec_map :=
     sell_exec_map rt; pending_actions := pending_actions rt; current_price := current_price
     rt; current_ask := current_ask rt; current_bid := current_bid rt; price_direction :=
     price_direction rt; error_status := error_status rt; buy_last_order_sent_ts :=
     buy_last_order_sent_ts rt; sell_last_order_sent_ts := sell_last_order_sent_ts rt |}.
Definition set_sell_id (v : string) (rt : RuntimeState) : RuntimeState :=
  {| buy_on := buy_on rt; sell_on := sell_on rt; cyclic_on := cyclic_on rt; buy_id :=
     buy_id rt; sell_id := v; buy_is_closing := buy_is_closing rt; sell_is_closing :=
     sell_is_closing rt; buy_hedge_triggered := buy_hedge_triggered rt; sell_hedge_triggered
     := sell_hedge_triggered rt; buy_waiting_limit := buy_waiting_limit rt;
     sell_waiting_limit := sell_waiting_limit rt; buy_start_ref := buy_start_ref rt;
     sell_start_ref := sell_start_ref rt; buy_exec_map := buy_exec_map rt; sell_exec_map :=
     sell_exec_map rt; pending_actions := pending_actions rt; current_price := current_price
     rt; current_ask := current_ask rt; current_bid := current_bid rt; price_direction :=
     price_direction rt; error_status := error_status rt; buy_last_order_sent_ts :=
     buy_last_order_sent_ts rt; sell_last_order_sent_ts := sell_last_order_sent_ts rt |}.
Definition set_buy_is_closing (v : bool) (rt : RuntimeState) : RuntimeState :=
  {| buy_on := buy_on rt; sell_on := sell_on rt; cyclic_on := cyclic_on rt; buy_id :=
     buy_id rt; sell_id := sell_id rt; buy_is_closing := v; sell_is_closing :=
     sell_is_closing rt; buy_hedge_triggered := buy_hedge_triggered rt; sell_hedge_triggered
     := sell_hedge_triggered rt; buy_waiting_limit := buy_waiting_limit rt;
     sell_waiting_limit := sell_waiting_limit rt; buy_start_ref := buy_start_ref rt;
     sell_start_ref := sell_start_ref rt; buy_exec_map := buy_exec_map rt; sell_exec_map :=
     sell_exec_map rt; pending_actions := pending_actions rt; current_price := current_price
     rt; current_ask := current_ask rt; current_bid := current_bid rt; price_direction :=
     price_direction rt; error_status := error_status rt; buy_last_order_sent_ts :=
     buy_last_order_sent_ts rt; sell_last_order_sent_ts := sell_last_order_sent_ts rt |}.
Definition set_sell_is_closing (v : bool) (rt : RuntimeState) : RuntimeState :=
  {| buy_on := buy_on rt; sell_on := sell_on rt; cyclic_on := cyclic_on rt; buy_id :=
     buy_id rt; sell_id := sell_id rt; buy_is_closing := buy_is_closing rt; sell_is_closing
     := v; buy_hedge_triggered := buy_hedge_triggered rt; sell_hedge_triggered :=
     sell_hedge_triggered rt; buy_waiting_limit := buy_waiting_limit rt; sell_waiting_limit
     := sell_waiting_limit rt; buy_start_ref := buy_start_ref rt; sell_start_ref :=
     sell_start_ref rt; buy_exec_map := buy_exec_map rt; sell_exec_map := sell_exec_map rt;
     pending_actions := pending_actions rt; current_price := current_price rt; current_ask :=
     current_ask rt; current_bid := current_bid rt; price_direction := price_direction rt;
     error_status := error_status rt; buy_last_order_sent_ts := buy_last_order_sent_ts rt;
     sell_last_order_sent_ts := sell_last_order_sent_ts rt |}.
Definition set_buy_hedge_triggered (v : bool) (rt : RuntimeState) : RuntimeState :=
  {| buy_on := buy_on rt; sell_on := sell_on rt; cyclic_on := cyclic_on rt; buy_id :=
     buy_id rt; sell_id := sell_id rt; buy_is_closing := buy_is_closing rt; sell_is_closing
     := sell_is_closing rt; buy_hedge_triggered := v; sell_hedge_triggered :=
     sell_hedge_triggered rt; buy_waiting_limit := buy_waiting_limit rt; sell_waiting_limit
     := sell_waiting_limit rt; buy_start_ref := buy_start_ref rt; sell_start_ref :=
     sell_start_ref rt; buy_exec_map := buy_exec_map rt; sell_exec_map := sell_exec_map rt;
     pending_actions := pending_actions rt; current_price := current_price rt; current_ask :=
     current_ask rt; current_bid := current_bid rt; price_direction := price_direction rt;
     error_status := error_status rt; buy_last_order_sent_ts := buy_last_order_sent_ts rt;
     sell_last_order_sent_ts := sell_last_order_sent_ts rt |}.
Definition set_sell_hedge_triggered (v : bool) (rt : RuntimeState) : RuntimeState :=
  {| buy_on := buy_on rt; sell_on := sell_on rt; cyclic_on := cyclic_on rt; buy_id :=
     buy_id rt; sell_id := sell_id rt; buy_is_closing := buy_is_closing rt; sell_is_closing
     := sell_is_closing rt; buy_hedge_triggered := buy_hedge_triggered rt;
     sell_hedge_triggered := v; buy_waiting_limit := buy_waiting_limit rt; sell_waiting_limit
     := sell_waiting_limit rt; buy_start_ref := buy_start_ref rt; sell_start_ref :=
     sell_start_ref rt; buy_exec_map := buy_exec_map rt; sell_exec_map := sell_exec_map rt;
     pending_actions := pending_actions rt; current_price := current_price rt; current_ask :=
     current_ask rt; current_bid := current_bid rt; price_direction := price_direction rt;
     error_status := error_status rt; buy_last_order_sent_ts := buy_last_order_sent_ts rt;
     sell_last_order_sent_ts := sell_last_order_sent_ts rt |}.
Definition set_buy_waiting_limit (v : bool) (rt : RuntimeState) : RuntimeState :=
  {| buy_on := buy_on rt; sell_on := sell_on rt; cyclic_on := cyclic_on rt; buy_id :=
     buy_id rt; sell_id := sell_id rt; buy_is_closing := buy_is_closing rt; sell_is_closing
     := sell_is_closing rt; buy_hedge_triggered := buy_hedge_triggered rt;
     sell_hedge_triggered := sell_hedge_triggered rt; buy_waiting_limit := v;
     sell_waiting_limit := sell_waiting_limit rt; buy_start_ref := buy_start_ref rt;
     sell_start_ref := sell_start_ref rt; buy_exec_map := buy_exec_map rt; sell_exec_map :=
     sell_exec_map rt; pending_actions := pending_actions rt; current_price := current_price
     rt; current_ask := current_ask rt; current_bid := current_bid rt; price_direction :=
     price_direction rt; error_status := error_status rt; buy_last_order_sent_ts :=
     buy_last_order_sent_ts rt; sell_last_order_sent_ts := sell_last_order_sent_ts rt |}.
Definition set_sell_waiting_limit (v : bool) (rt : RuntimeState) : RuntimeState :=
  {| buy_on := buy_on rt; sell_on := sell_on rt; cyclic_on := cyclic_on rt; buy_id :=
     buy_id rt; sell_id := sell_id rt; buy_is_closing := buy_is_closing rt; sell_is_closing
     := sell_is_closing rt; buy_hedge_triggered := buy_hedge_triggered rt;
     sell_hedge_triggered := sell_hedge_triggered rt; buy_waiting_limit := buy_waiting_limit
     rt; sell_waiting_limit := v; buy_start_ref := buy_start_ref rt; sell_start_ref :=
     sell_start_ref rt; buy_exec_map := buy_exec_map rt; sell_exec_map := sell_exec_map rt;
     pending_actions := pending_actions rt; current_price := current_price rt; current_ask :=
     current_ask rt; current_bid := current_bid rt; price_direction := price_direction rt;
     error_status := error_status rt; buy_last_order_sent_ts := buy_last_order_sent_ts rt;
     sell_last_order_sent_ts := sell_last_order_sent_ts rt |}.
Definition set_buy_start_ref (v : Q) (rt : RuntimeState) : RuntimeState :=
  {| buy_on := buy_on rt; sell_on := sell_on rt; cyclic_on := cyclic_on rt; buy_id :=
     buy_id rt; sell_id := sell_id rt; buy_is_closing := buy_is_closing rt; sell_is_closing
     := sell_is_closing rt; buy_hedge_triggered := buy_hedge_triggered rt;
     sell_hedge_triggered := sell_hedge_triggered rt; buy_waiting_limit := buy_waiting_limit
     rt; sell_waiting_limit := sell_waiting_limit rt; buy_start_ref := v; sell_start_ref :=
     sell_start_ref rt; buy_exec_map := buy_exec_map rt; sell_exec_map := sell_exec_map rt;
     pending_actions := pending_actions rt; current_price := current_price rt; current_ask :=
     current_ask rt; current_bid := current_bid rt; price_direction := price_direction rt;
     error_status := error_status rt; buy_last_order_sent_ts := buy_last_order_sent_ts rt;
     sell_last_order_sent_ts := sell_last_order_sent_ts rt |}.
Definition set_sell_start_ref (v : Q) (rt : RuntimeState) : RuntimeState :=
  {| buy_on := buy_on rt; sell_on := sell_on rt; cyclic_on := cyclic_on rt; buy_id :=
     buy_id rt; sell_id := sell_id rt; buy_is_closing := buy_is_closing rt; sell_is_closing
     := sell_is_closing rt; buy_hedge_triggered := buy_hedge_triggered rt;
     sell_hedge_triggered := sell_hedge_triggered rt; buy_waiting_limit := buy_waiting_limit
     rt; sell_waiting_limit := sell_waiting_limit rt; buy_start_ref := buy_start_ref rt;
     sell_start_ref := v; buy_exec_map := buy_exec_map rt; sell_exec_map := sell_exec_map rt;
     pending_actions := pending_actions rt; current_price := current_price rt; current_ask :=
     current_ask rt; current_bid := current_bid rt; price_direction := price_direction rt;
     error_status := error_status rt; buy_last_order_sent_ts := buy_last_order_sent_ts rt;
     sell_last_order_sent_ts := sell_last_order_sent_ts rt |}.
Definition set_buy_exec_map (v : gmap Z RowExecStats.t) (rt : RuntimeState) : RuntimeState :=
  {| buy_on := buy_on rt; sell_on := sell_on rt; cyclic_on := cyclic_on rt; buy_id :=
     buy_id rt; sell_id := sell_id rt; buy_is_closing := buy_is_closing rt; sell_is_closing
     := sell_is_closing rt; buy_hedge_triggered := buy_hedge_triggered rt;
     sell_hedge_triggered := sell_hedge_triggered rt; buy_waiting_limit := buy_waiting_limit
     rt; sell_waiting_limit := sell_waiting_limit rt; buy_start_ref := buy_start_ref rt;
     sell_start_ref := sell_start_ref rt; buy_exec_map := v; sell_exec_map := sell_exec_map
     rt; pending_actions := pending_actions rt; current_price := current_price rt;
     current_ask := current_ask rt; current_bid := current_bid rt; price_direction :=
     price_direction rt; error_status := error_status rt; buy_last_order_sent_ts :=
     buy_last_order_sent_ts rt; sell_last_order_sent_ts := sell_last_order_sent_ts rt |}.
Definition set_sell_exec_map (v : gmap Z RowExecStats.t) (rt : RuntimeState) : RuntimeState :=
  {| buy_on := buy_on rt; sell_on := sell_on rt; cyclic_on := cyclic_on rt; buy_id :=
     buy_id rt; sell_id := sell_id rt; buy_is_closing := buy_is_closing rt; sell_is_closing
     := sell_is_closing rt; buy_hedge_triggered := buy_hedge_triggered rt;
     sell_hedge_triggered := sell_hedge_triggered rt; buy_waiting_limit := buy_waiting_limit
     rt; sell_waiting_limit := sell_waiting_limit rt; buy_start_ref := buy_start_ref rt;
     sell_start_ref := sell_start_ref rt; buy_exec_map := buy_exec_map rt; sell_exec_map :=
     v; pending_actions := pending_actions rt; current_price := current_price rt; current_ask
     := current_ask rt; current_bid := current_bid rt; price_direction := price_direction rt;
     error_status := error_status rt; buy_last_order_sent_ts := buy_last_order_sent_ts rt;
     sell_last_order_sent_ts := sell_last_order_sent_ts rt |}.
Definition set_pending_actions (v : list string) (rt : RuntimeState) : RuntimeState :=
  {| buy_on := buy_on rt; sell_on := sell_on rt; cyclic_on := cyclic_on rt; buy_id :=
     buy_id rt; sell_id := sell_id rt; buy_is_closing := buy_is_closing rt; sell_is_closing
     := sell_is_closing rt; buy_hedge_triggered := buy_hedge_triggered rt;
     sell_hedge_triggered := sell_hedge_triggered rt; buy_waiting_limit := buy_waiting_limit
     rt; sell_waiting_limit := sell_waiting_limit rt; buy_start_ref := buy_start_ref rt;
     sell_start_ref := sell_start_ref rt; buy_exec_map := buy_exec_map rt; sell_exec_map :=
     sell_exec_map rt; pending_actions := v; current_price := current_price rt; current_ask
     := current_ask rt; current_bid := current_bid rt; price_direction := price_direction rt;
     error_status := error_status rt; buy_last_order_sent_ts := buy_last_order_sent_ts rt;
     sell_last_order_sent_ts := sell_last_order_sent_ts rt |}.
Definition set_current_price (v : Q) (rt : RuntimeState) : RuntimeState :=
  {| buy_on := buy_on rt; sell_on := sell_on rt; cyclic_on := cyclic_on rt; buy_id :=
     buy_id rt; sell_id := sell_id rt; buy_is_closing := buy_is_closing rt; sell_is_closing
     := sell_is_closing rt; buy_hedge_triggered := buy_hedge_triggered rt;
     sell_hedge_triggered := sell_hedge_triggered rt; buy_waiting_limit := buy_waiting_limit
     rt; sell_waiting_limit := sell_waiting_limit rt; buy_start_ref := buy_start_ref rt;
     sell_start_ref := sell_start_ref rt; buy_exec_map := buy_exec_map rt; sell_exec_map :=
     sell_exec_map rt; pending_actions := pending_actions rt; current_price := v; current_ask
     := current_ask rt; current_bid := current_bid rt; price_direction := price_direction rt;
     error_status := error_status rt; buy_last_order_sent_ts := buy_last_order_sent_ts rt;
     sell_last_order_sent_ts := sell_last_order_sent_ts rt |}.
Definition set_current_ask (v : Q) (rt : RuntimeState) : RuntimeState :=
  {| buy_on := buy_on rt; sell_on := sell_on rt; cyclic_on := cyclic_on rt; buy_id :=
     buy_id rt; sell_id := sell_id rt; buy_is_closing := buy_is_closing rt; sell_is_closing
     := sell_is_closing rt; buy_hedge_triggered := buy_hedge_triggered rt;
     sell_hedge_triggered := sell_hedge_triggered rt; buy_waiting_limit := buy_waiting_limit
     rt; sell_waiting_limit := sell_waiting_limit rt; buy_start_ref := buy_start_ref rt;
     sell_start_ref := sell_start_ref rt; buy_exec_map := buy_exec_map rt; sell_exec_map :=
     sell_exec_map rt; pending_actions := pending_actions rt; current_price := current_price
     rt; current_ask := v; current_bid := current_bid rt; price_direction := price_direction
     rt; error_status := error_status rt; buy_last_order_sent_ts := buy_last_order_sent_ts
     rt; sell_last_order_sent_ts := sell_last_order_sent_ts rt |}.
Definition set_current_bid (v : Q) (rt : RuntimeState) : RuntimeState :=
  {| buy_on := buy_on rt; sell_on := sell_on rt; cyclic_on := cyclic_on rt; buy_id :=
     buy_id rt; sell_id := sell_id rt; buy_is_closing := buy_is_closing rt; sell_is_closing
     := sell_is_closing rt; buy_hedge_triggered := buy_hedge_triggered rt;
     sell_hedge_triggered := sell_hedge_triggered rt; buy_waiting_limit := buy_waiting_limit
     rt; sell_waiting_limit := sell_waiting_limit rt; buy_start_ref := buy_start_ref rt;
     sell_start_ref := sell_start_ref rt; buy_exec_map := buy_exec_map rt; sell_exec_map :=
     sell_exec_map rt; pending_actions := pending_actions rt; current_price := current_price
     rt; current_ask := current_ask rt; current_bid := v; price_direction := price_direction
     rt; error_status := error_status rt; buy_last_order_sent_ts := buy_last_order_sent_ts
     rt; sell_last_order_sent_ts := sell_last_order_sent_ts rt |}.
Definition set_price_direction (v : string) (rt : RuntimeState) : RuntimeState :=
  {| buy_on := buy_on rt; sell_on := sell_on rt; cyclic_on := cyclic_on rt; buy_id :=
     buy_id rt; sell_id := sell_id rt; buy_is_closing := buy_is_closing rt; sell_is_closing
     := sell_is_closing rt; buy_hedge_triggered := buy_hedge_triggered rt;
     sell_hedge_triggered := sell_hedge_triggered rt; buy_waiting_limit := buy_waiting_limit
     rt; sell_waiting_limit := sell_waiting_limit rt; buy_start_ref := buy_start_ref rt;
     sell_start_ref := sell_start_ref rt; buy_exec_map := buy_exec_map rt; sell_exec_map :=
     sell_exec_map rt; pending_actions := pending_actions rt; current_price := current_price
     rt; current_ask := current_ask rt; current_bid := current_bid rt; price_direction := v;
     error_status := error_status rt; buy_last_order_sent_ts := buy_last_order_sent_ts rt;
     sell_last_order_sent_ts := sell_last_order_sent_ts rt |}.
Definition set_error_status (v : string) (rt : RuntimeState) : RuntimeState :=
  {| buy_on := buy_on rt; sell_on := sell_on rt; cyclic_on := cyclic_on rt; buy_id :=
     buy_id rt; sell_id := sell_id rt; buy_is_closing := buy_is_closing rt; sell_is_closing
     := sell_is_closing rt; buy_hedge_triggered := buy_hedge_triggered rt;
     sell_hedge_triggered := sell_hedge_triggered rt; buy_waiting_limit := buy_waiting_limit
     rt; sell_waiting_limit := sell_waiting_limit rt; buy_start_ref := buy_start_ref rt;
     sell_start_ref := sell_start_ref rt; buy_exec_map := buy_exec_map rt; sell_exec_map :=
     sell_exec_map rt; pending_actions := pending_actions rt; current_price := current_price
     rt; current_ask := current_ask rt; current_bid := current_bid rt; price_direction :=
     price_direction rt; error_status := v; buy_last_order_sent_ts := buy_last_order_sent_ts
     rt; sell_last_order_sent_ts := sell_last_order_sent_ts rt |}.
Definition set_buy_last_order_sent_ts (v : Q) (rt : RuntimeState) : RuntimeState :=
  {| buy_on := buy_on rt; sell_on := sell_on rt; cyclic_on := cyclic_on rt; buy_id :=
     buy_id rt; sell_id := sell_id rt; buy_is_closing := buy_is_closing rt; sell_is_closing
     := sell_is_closing rt; buy_hedge_triggered := buy_hedge_triggered rt;
     sell_hedge_triggered := sell_hedge_triggered rt; buy_waiting_limit := buy_waiting_limit
     rt; sell_waiting_limit := sell_waiting_limit rt; buy_start_ref := buy_start_ref rt;
     sell_start_ref := sell_start_ref rt; buy_exec_map := buy_exec_map rt; sell_exec_map :=
     sell_exec_map rt; pending_actions := pending_actions rt; current_price := current_price
     rt; current_ask := current_ask rt; current_bid := current_bid rt; price_direction :=
     price_direction rt; error_status := error_status rt; buy_last_order_sent_ts := v;
     sell_last_order_sent_ts := sell_last_order_sent_ts rt |}.
Definition set_sell_last_order_sent_ts (v : Q) (rt : RuntimeState) : RuntimeState :=
  {| buy_on := buy_on rt; sell_on := sell_on rt; cyclic_on := cyclic_on rt; buy_id :=
     buy_id rt; sell_id := sell_id rt; buy_is_closing := buy_is_closing rt; sell_is_closing
     := sell_is_closing rt; buy_hedge_triggered := buy_hedge_triggered rt;
     sell_hedge_triggered := sell_hedge_triggered rt; buy_waiting_limit := buy_waiting_limit
     rt; sell_waiting_limit := sell_waiting_limit rt; buy_start_ref := buy_start_ref rt;
     sell_start_ref := sell_start_ref rt; buy_exec_map := buy_exec_map rt; sell_exec_map :=
     sell_exec_map rt; pending_actions := pending_actions rt; current_price := current_price
     rt; current_ask := current_ask rt; current_bid := current_bid rt; price_direction :=
     price_direction rt; error_status := error_status rt; buy_last_order_sent_ts :=
     buy_last_order_sent_ts rt; sell_last_order_sent_ts := v |}.

Record UserSettings := {
  buy_limit_price : Q;
  sell_limit_price : Q;
  buy_tp_type : string;
  buy_tp_value : Q;
  sell_tp_type : string;
  sell_tp_value : Q;
  buy_hedge_value : Q;
  sell_hedge_value : Q;
  rows_buy : list GridRow.t;
  rows_sell : list GridRow.t
}.

Definition set_buy_limit_price (v : Q) (st : UserSettings) : UserSettings :=
  {| buy_limit_price := v; sell_limit_price := sell_limit_price st; buy_tp_type :=
     buy_tp_type st; buy_tp_value := buy_tp_value st; sell_tp_type := sell_tp_type st;
     sell_tp_value := sell_tp_value st; buy_hedge_value := buy_hedge_value st;
     sell_hedge_value := sell_hedge_value st; rows_buy := rows_buy st; rows_sell := rows_sell
     st |}.
Definition set_sell_limit_price (v : Q) (st : UserSettings) : UserSettings :=
  {| buy_limit_price := buy_limit_price st; sell_limit_price := v; buy_tp_type :=
     buy_tp_type st; buy_tp_value := buy_tp_value st; sell_tp_type := sell_tp_type st;
     sell_tp_value := sell_tp_value st; buy_hedge_value := buy_hedge_value st;
     sell_hedge_value := sell_hedge_value st; rows_buy := rows_buy st; rows_sell := rows_sell
     st |}.
Definition set_buy_tp_type (v : string) (st : UserSettings) : UserSettings :=
  {| buy_limit_price := buy_limit_price st; sell_limit_price := sell_limit_price st;
     buy_tp_type := v; buy_tp_value := buy_tp_value st; sell_tp_type := sell_tp_type st;
     sell_tp_value := sell_tp_value st; buy_hedge_value := buy_hedge_value st;
     sell_hedge_value := sell_hedge_value st; rows_buy := rows_buy st; rows_sell := rows_sell
     st |}.
Definition set_buy_tp_value (v : Q) (st : UserSettings) : UserSettings :=
  {| buy_limit_price := buy_limit_price st; sell_limit_price := sell_limit_price st;
     buy_tp_type := buy_tp_type st; buy_tp_value := v; sell_tp_type := sell_tp_type st;
     sell_tp_value := sell_tp_value st; buy_hedge_value := buy_hedge_value st;
     sell_hedge_value := sell_hedge_value st; rows_buy := rows_buy st; rows_sell := rows_sell
     st |}.
Definition set_sell_tp_type (v : string) (st : UserSettings) : UserSettings :=
  {| buy_limit_price := buy_limit_price st; sell_limit_price := sell_limit_price st;
     buy_tp_type := buy_tp_type st; buy_tp_value := buy_tp_value st; sell_tp_type := v;
     sell_tp_value := sell_tp_value st; buy_hedge_value := buy_hedge_value st;
     sell_hedge_value := sell_hedge_value st; rows_buy := rows_buy st; rows_sell := rows_sell
     st |}.
Definition set_sell_tp_value (v : Q) (st : UserSettings) : UserSettings :=
  {| buy_limit_price := buy_limit_price st; sell_limit_price := sell_limit_price st;
     buy_tp_type := buy_tp_type st; buy_tp_value := buy_tp_value st; sell_tp_type :=
     sell_tp_type st; sell_tp_value := v; buy_hedge_value := buy_hedge_value st;
     sell_hedge_value := sell_hedge_value st; rows_buy := rows_buy st; rows_sell := rows_sell
     st |}.
Definition set_buy_hedge_value (v : Q) (st : UserSettings) : UserSettings :=
  {| buy_limit_price := buy_limit_price st; sell_limit_price := sell_limit_price st;
     buy_tp_type := buy_tp_type st; buy_tp_value := buy_tp_value st; sell_tp_type :=
     sell_tp_type st; sell_tp_value := sell_tp_value st; buy_hedge_value := v;
     sell_hedge_value := sell_hedge_value st; rows_buy := rows_buy st; rows_sell := rows_sell
     st |}.
Definition set_sell_hedge_value (v : Q) (st : UserSettings) : UserSettings :=
  {| buy_limit_price := buy_limit_price st; sell_limit_price := sell_limit_price st;
     buy_tp_type := buy_tp_type st; buy_tp_value := buy_tp_value st; sell_tp_type :=
     sell_tp_type st; sell_tp_value := sell_tp_value st; buy_hedge_value := buy_hedge_value
     st; sell_hedge_value := v; rows_buy := rows_buy st; rows_sell := rows_sell st |}.
Definition set_rows_buy (v : list GridRow.t) (st : UserSettings) : UserSettings :=
  {| buy_limit_price := buy_limit_price st; sell_limit_price := sell_limit_price st;
     buy_tp_type := buy_tp_type st; buy_tp_value := buy_tp_value st; sell_tp_type :=
     sell_tp_type st; sell_tp_value := sell_tp_value st; buy_hedge_value := buy_hedge_value
     st; sell_hedge_value := sell_hedge_value st; rows_buy := v; rows_sell := rows_sell st
     |}.
Definition set_rows_sell (v : list GridRow.t) (st : UserSettings) : UserSettings :=
  {| buy_limit_price := buy_limit_price st; sell_limit_price := sell_limit_price st;
     buy_tp_type := buy_tp_type st; buy_tp_value := buy_tp_value st; sell_tp_type :=
     sell_tp_type st; sell_tp_value := sell_tp_value st; buy_hedge_value := buy_hedge_value
     st; sell_hedge_value := sell_hedge_value st; rows_buy := rows_buy st; rows_sell := v |}.

Record SystemState := {
  settings : UserSettings;
  runtime : RuntimeState;
  last_update_ts : string
}.

(** ** Global state (lines 134-135)

    [state] and the bounded deque [price_history], whose entries are
    the dictionaries [{"mid": mid, "ts": now_ts}], oldest first. *)

Record Globals := {
  state : SystemState;
  price_history : list (Q * Q)
}.

Definition rt_of (g : Globals) : RuntimeState := runtime (state g).
Definition st_of (g : Globals) : UserSettings := settings (state g).

Definition put_rt (rt : RuntimeState) (g : Globals) : Globals :=
  {| state := {| settings := st_of g; runtime := rt;
                 last_update_ts := last_update_ts (state g) |};
     price_history := price_history g |}.

Definition put_st (st : UserSettings) (g : Globals) : Globals :=
  {| state := {| settings := st; runtime := rt_of g;
                 last_update_ts := last_update_ts (state g) |};
     price_history := price_history g |}.

Definition default_RuntimeState : RuntimeState :=
  {| buy_on := false; sell_on := false; cyclic_on := false;
     buy_id := ""; sell_id := "";
     buy_is_closing := false; sell_is_closing := false;
     buy_hedge_triggered := false; sell_hedge_triggered := false;
     buy_waiting_limit := false; sell_waiting_limit := false;
     buy_start_ref := 0%Q; sell_start_ref := 0%Q;
     buy_exec_map := ∅; sell_exec_map := ∅;
     pending_actions := [];
     current_price := 0%Q; current_ask := 0%Q; current_bid := 0%Q;
     price_direction := "neutral";
     error_status := "";
     buy_last_order_sent_ts := 0%Q; sell_last_order_sent_ts := 0%Q |}.

Definition default_UserSettings : UserSettings :=
  {| buy_limit_price := 0%Q; sell_limit_price := 0%Q;
     buy_tp_type := "equity_pct"; buy_tp_value := 0%Q;
     sell_tp_type := "equity_pct"; sell_tp_value := 0%Q;
     buy_hedge_value := 0%Q; sell_hedge_value := 0%Q;
     rows_buy := []; rows_sell := [] |}.

(** [state = SystemState()], [price_history = deque(maxlen=...)]. *)
Definition initial : Globals :=
  {| state := {| settings := default_UserSettings;
                 runtime := default_RuntimeState;
                 last_update_ts := "" |};
     price_history := [] |}.

(** What a tick reads from outside the state: [time.time()] (read once,
    line 378), [datetime.now().isoformat()] (read at several places and
    only stored; one reading stands for all of them), and the
    hexadecimal digest of the uuid drawn when a buy (sell) session id is
    minted.  A tick mints at most one id per side. *)
Record Env := {
  now_ts : Q;
  now_iso : string;
  uuid_buy : string;
  uuid_sell : string
}.

(** The reply dictionaries of [handle_tick]. *)
Inductive OrderKind := BUY | SELL.

Inductive Reply :=
| Wait (error : option string)
| Open (action : OrderKind) (volume : Q) (comment : string) (alert : bool)
| CloseAll (comment : string).

Inductive Action := ActWAIT | ActBUY | ActSELL | ActCLOSE_ALL.

(** The ["action"] entry of a reply. *)
Definition action_of (r : Reply) : Action :=
  match r with
  | Wait _ => ActWAIT
  | Open BUY _ _ _ => ActBUY
  | Open SELL _ _ _ => ActSELL
  | CloseAll _ => ActCLOSE_ALL
  end.

(** ** Core logic (lines 166-323) *)

(** [get_hash]: [f"{side}_{uuid.uuid4().hex[:8]}"]. *)
Definition get_hash (side uuid_hex : string) : string :=
  side +:+ "_" +:+ String.substring 0 8 uuid_hex.

(** The body of [for i in range(level_index + 1)], with [step] the
    signed update of [ref]. *)
Definition grid_walk (step : Q -> Q -> Q) (rows : list GridRow.t)
    (start : Q) (level_index : Z) : Q :=
  foldl (fun ref i =>
           match rows !! i with
           | Some row => step ref (GridRow.dollar row)
           | None => ref
           end)
        start (seq 0 (Z.to_nat (level_index + 1))).

Definition calculate_grid_level_price (g : Globals) (side : string)
    (level_index : Z) : Q :=
  let rt := rt_of g in
  let st := st_of g in
  if String.eqb side "buy"
  then grid_walk Qminus (rows_buy st) (buy_start_ref rt) level_index
  else grid_walk Qplus (rows_sell st) (sell_start_ref rt) level_index.

(** [calculate_grid_level_price] on IEEE binary64 numbers, the values
    of Python's [float]: the anchors and the gaps of the two layer
    tables are doubles, and [ref -= gap], [ref += gap] round to
    nearest. *)
Module Binary64.

Import PrimFloat.

Definition grid_walk (step : float -> float -> float) (gaps : list float)
    (start : float) (level_index : Z) : float :=
  foldl (fun ref i =>
           match gaps !! i with
           | Some gap => step ref gap
           | None => ref
           end)
        start (seq 0 (Z.to_nat (level_index + 1))).

Definition calculate_grid_level_price (buy_start_ref sell_start_ref : float)
    (rows_buy rows_sell : list float) (side : string) (level_index : Z) : float :=
  if String.eqb side "buy"
  then grid_walk sub rows_buy buy_start_ref level_index
  else grid_walk add rows_sell sell_start_ref level_index.

(** The rational number that a finite double denotes. *)
Definition exact (x : float) : Q :=
  match FloatOps.Prim2SF x with
  | SpecFloat.S754_finite s m e =>
      (inject_Z (if s then Z.neg m else Z.pos m) * Qpower 2 e)%Q
  | _ => 0%Q
  end.

(** The doubles that Python reads from [100.0], [0.2] and [0.4], and
    the ones it prints as [99.39999999999999] and [99.4]. *)
Definition d100 : float := 100%float.
Definition d0_2 : float := 0x1.999999999999ap-3%float.
Definition d0_4 : float := 0x1.999999999999ap-2%float.
Definition d99_39999999999999 : float := 0x1.8d99999999999p+6%float.
Definition d99_4 : float := 0x1.8d9999999999ap+6%float.

End Binary64.

Definition exec_keys (m : gmap Z RowExecStats.t) : list Z := (map_to_list m).*1.

(** [sorted([int(k) for k in m.keys()])] *)
Definition sorted_indices (m : gmap Z RowExecStats.t) : list Z :=
  Py.sorted (exec_keys m).

(** The exec-map update of one position inside the [try] block
    (lines 212-228).  [None] is an exception raised by [int], which the
    [except Exception: pass] swallows. *)
Definition record_fill (e : Env) (p : Position.t) (parts : list string)
    (m : gmap Z RowExecStats.t) : option (gmap Z RowExecStats.t) :=
  match parts with
  | [_; tail] =>
      match Py.int tail with
      | Some idx =>
          Some (<[idx := RowExecStats.new idx (Position.price p) (Position.volume p)
                           (Position.profit p) (now_iso e)]> m)
      | None => None
      end
  | _ => Some m
  end.

(** One iteration of [for p in tick.positions] (lines 196-230):
    [inl msg] is the early [return] with [error_status = msg]. *)
Definition absorb_position (e : Env) (rt : RuntimeState) (p : Position.t)
    (maps : gmap Z RowExecStats.t * gmap Z RowExecStats.t)
    : string + (gmap Z RowExecStats.t * gmap Z RowExecStats.t) :=
  let cmt := Position.comment p in
  if negb (TRADE_ID_PATTERN_match cmt) then inr maps
  else if Py.str_in "buy_" cmt
          && (negb (Py.truthy (buy_id rt)) || negb (Py.str_in (buy_id rt) cmt))
  then inl ("CRITICAL: Identity Conflict. Unknown Buy trade "
            +:+ Py.str (Position.ticket p) +:+ " detected.")
  else if Py.str_in "sell_" cmt
          && (negb (Py.truthy (sell_id rt)) || negb (Py.str_in (sell_id rt) cmt))
  then inl ("CRITICAL: Identity Conflict. Unknown Sell trade "
            +:+ Py.str (Position.ticket p) +:+ " detected.")
  else
    let '(buy_map, sell_map) := maps in
    let after_buy :=
      if String.eqb (Position.type p) "BUY" && Py.str_in (buy_id rt) cmt
      then record_fill e p (Py.split cmt "_idx") buy_map
      else Some buy_map in
    match after_buy with
    | None => inr maps
    | Some buy_map' =>
        if String.eqb (Position.type p) "SELL" && Py.str_in (sell_id rt) cmt
        then match record_fill e p (Py.split cmt "_idx") sell_map with
             | Some sell_map' => inr (buy_map', sell_map')
             | None => inr (buy_map', sell_map)
             end
        else inr (buy_map', sell_map)
    end.

Fixpoint absorb_positions (e : Env) (rt : RuntimeState) (ps : list Position.t)
    (maps : gmap Z RowExecStats.t * gmap Z RowExecStats.t)
    : string + (gmap Z RowExecStats.t * gmap Z RowExecStats.t) :=
  match ps with
  | [] => inr maps
  | p :: rest =>
      match absorb_position e rt p maps with
      | inl msg => inl msg
      | inr maps' => absorb_positions e rt rest maps'
      end
  end.

(** The basket statistics of one map (lines 233-241). *)
Definition cumulate (m : gmap Z RowExecStats.t) : gmap Z RowExecStats.t :=
  (foldl (fun '(cum_lots, cum_profit, acc) idx =>
            match acc !! idx with
            | Some row =>
                let cum_lots := (cum_lots + RowExecStats.lots row)%Q in
                let cum_profit := (cum_profit + RowExecStats.profit row)%Q in
                (cum_lots, cum_profit,
                 <[idx := RowExecStats.set_cumulative cum_lots cum_profit row]> acc)
            | None => (cum_lots, cum_profit, acc)
            end)
         (0%Q, 0%Q, m) (sorted_indices m)).2.

Definition update_exec_stats (e : Env) (tick : TickData.t) (rt : RuntimeState)
    : RuntimeState :=
  match absorb_positions e rt (TickData.positions tick)
          (buy_exec_map rt, sell_exec_map rt) with
  | inl msg => set_error_status msg rt
  | inr (buy_map, sell_map) =>
      let rt := set_buy_exec_map (cumulate buy_map) rt in
      set_sell_exec_map (cumulate sell_map) rt
  end.

Definition basket (hash_id : string) (tick : TickData.t) : list Position.t :=
  List.filter (fun p => Py.str_in hash_id (Position.comment p)) (TickData.positions tick).

Definition tp_target (tp_type : string) (tp_value : Q) (tick : TickData.t) : Q :=
  if String.eqb tp_type "equity_pct" then (TickData.equity tick * (tp_value / 100))%Q
  else if String.eqb tp_type "balance_pct" then (TickData.balance tick * (tp_value / 100))%Q
  else if String.eqb tp_type "fixed_money" then tp_value
  else 0%Q.

Definition check_tp_buy (g : Globals) (tick : TickData.t) : Z :=
  let st := st_of g in
  let rt := rt_of g in
  if Py.le (buy_tp_value st) 0 || negb (Py.truthy (buy_id rt)) then -1
  else
    let buy_positions := basket (buy_id rt) tick in
    match buy_positions with
    | [] => 0
    | _ =>
        let profit := Py.sum (Position.profit <$> buy_positions) in
        let target := tp_target (buy_tp_type st) (buy_tp_value st) tick in
        if Py.lt 0 target && Py.le target profit then 1 else 0
    end.

Definition check_tp_sell (g : Globals) (tick : TickData.t) : Z :=
  let st := st_of g in
  let rt := rt_of g in
  if Py.le (sell_tp_value st) 0 || negb (Py.truthy (sell_id rt)) then -1
  else
    let sell_positions := basket (sell_id rt) tick in
    match sell_positions with
    | [] => 0
    | _ =>
        let profit := Py.sum (Position.profit <$> sell_positions) in
        let target := tp_target (sell_tp_type st) (sell_tp_value st) tick in
        if Py.lt 0 target && Py.le target profit then 1 else 0
    end.

Definition count_active_trades (tick : TickData.t) (hash_id : string) : nat :=
  if negb (Py.truthy hash_id) then 0%nat
  else length (basket hash_id tick).

Definition last_entry_price (m : gmap Z RowExecStats.t) (start_ref : Q) : Q :=
  match last (sorted_indices m) with
  | None => start_ref
  | Some last_idx =>
      match m !! last_idx with
      | Some row => RowExecStats.entry_price row
      | None => start_ref
      end
  end.

Definition get_last_executed_price (g : Globals) (side : string) : Q :=
  let rt := rt_of g in
  if String.eqb side "buy"
  then last_entry_price (buy_exec_map rt) (buy_start_ref rt)
  else last_entry_price (sell_exec_map rt) (sell_start_ref rt).

(** ** The tick handler (lines 358-792)

    The body of [handle_tick] is a sequence of prioritised blocks, each
    of which may [return] a reply.  A block is a [Stage]: it maps the
    globals to the updated globals and, when it returns, the reply.  The
    request-body decoding of lines 361-374 is outside the model: a tick
    is a decoded [TickData]. *)

Definition Stage := Globals -> Globals * option Reply.

(** Run [a]; unless it returned, run [b]. *)
Definition and_then (a b : Stage) : Stage :=
  fun g =>
    match a g with
    | (g', Some r) => (g', Some r)
    | (g', None) => b g'
    end.

Infix ">->" := and_then (at level 65, right associativity).

(** A block that never returns. *)
Definition silently (f : Globals -> Globals) : Stage := fun g => (f g, None).

Definition mid_of (tick : TickData.t) : Q :=
  ((TickData.ask tick + TickData.bid tick) / 2)%Q.

(** [deque.append] with [maxlen=PRICE_HISTORY_LEN]. *)
Definition deque_append (h : list (Q * Q)) (x : Q * Q) : list (Q * Q) :=
  let h' := h ++ [x] in
  if (PRICE_HISTORY_LEN <? length h')%nat then tail h' else h'.

(** Market data update (lines 385-395). *)
Definition market_update (e : Env) (tick : TickData.t) (g : Globals) : Globals :=
  let mid := mid_of tick in
  let rt := rt_of g in
  let rt := set_current_ask (TickData.ask tick) rt in
  let rt := set_current_bid (TickData.bid tick) rt in
  let rt :=
    match last (price_history g) with
    | Some (prev_mid, _) =>
        set_price_direction (if Py.lt prev_mid mid then "up" else "down") rt
    | None => rt
    end in
  let rt := set_current_price mid rt in
  {| state := {| settings := st_of g; runtime := rt; last_update_ts := now_iso e |};
     price_history := deque_append (price_history g) (mid, now_ts e) |}.

(** Priority 1: pending actions (lines 403-409). *)
Definition pending_stage : Stage := fun g =>
  let rt := rt_of g in
  match pending_actions rt with
  | action :: rest =>
      let rt := set_pending_actions rest rt in
      let cmt :=
        if Py.str_in "BUY" action then buy_id rt
        else if Py.str_in "SELL" action then sell_id rt
        else "server" in
      (put_rt rt g, Some (CloseAll cmt))
  | [] => (g, None)
  end.

(** Priority 1.5: closing confirmation, buy (lines 414-432). *)
Definition closing_buy_stage (tick : TickData.t) : Stage := fun g =>
  let rt := rt_of g in
  if buy_is_closing rt then
    if (count_active_trades tick (buy_id rt) =? 0)%nat then
      let rt := set_buy_is_closing false rt in
      let rt := set_buy_exec_map ∅ rt in
      let rt := set_buy_hedge_triggered false rt in
      let rt :=
        if cyclic_on rt
        then set_buy_start_ref (mid_of tick) (set_buy_id "" rt)
        else set_buy_start_ref 0%Q (set_buy_id "" (set_buy_on false rt)) in
      (put_rt rt g, Some (Wait None))
    else (g, Some (CloseAll (buy_id rt)))
  else (g, None).

(** Priority 1.5: closing confirmation, sell (lines 435-453). *)
Definition closing_sell_stage (tick : TickData.t) : Stage := fun g =>
  let rt := rt_of g in
  if sell_is_closing rt then
    if (count_active_trades tick (sell_id rt) =? 0)%nat then
      let rt := set_sell_is_closing false rt in
      let rt := set_sell_exec_map ∅ rt in
      let rt := set_sell_hedge_triggered false rt in
      let rt :=
        if cyclic_on rt
        then set_sell_start_ref (mid_of tick) (set_sell_id "" rt)
        else set_sell_start_ref 0%Q (set_sell_id "" (set_sell_on false rt)) in
      (put_rt rt g, Some (Wait None))
    else (g, Some (CloseAll (sell_id rt)))
  else (g, None).

(** [indices[-1] if indices else -1] *)
Definition last_index (m : gmap Z RowExecStats.t) : Z :=
  default (-1) (last (sorted_indices m)).

(** Priority 1.8: hedge monitor, buy side losing (lines 458-549). *)
Definition hedge_buy_stage (e : Env) (tick : TickData.t) : Stage := fun g =>
  let rt := rt_of g in
  let st := st_of g in
  if buy_on rt && Py.truthy (buy_id rt) && negb (buy_hedge_triggered rt)
     && Py.lt 0 (buy_hedge_value st) && negb (buy_is_closing rt)
  then
    let buy_positions := basket (buy_id rt) tick in
    match buy_positions with
    | [] => (g, None)
    | _ =>
        let total_buy_profit := Py.sum (Position.profit <$> buy_positions) in
        let loss_threshold := (-1 * buy_hedge_value st)%Q in
        if Py.le total_buy_profit loss_threshold then
          let rt := set_buy_hedge_triggered true rt in
          let hedge_lots := Py.sum (Position.volume <$> buy_positions) in
          if negb (sell_is_closing rt) then
            if negb (sell_on rt) || negb (Py.truthy (sell_id rt))
               || (size (sell_exec_map rt) =? 0)%nat
            then
              (* Scenario A *)
              let rt := set_sell_id (get_hash "sell" (uuid_sell e)) rt in
              let rt := set_sell_start_ref (TickData.bid tick) rt in
              let rt := set_sell_exec_map ∅ rt in
              let rt := set_sell_on true rt in
              let rt := set_sell_waiting_limit false rt in
              let st := set_rows_sell [GridRow.mk 0 0%Q hedge_lots true] st in
              let rt :=
                set_sell_exec_map
                  (<[0 := RowExecStats.new 0 (TickData.bid tick) hedge_lots 0%Q
                            (now_iso e)]> (sell_exec_map rt)) rt in
              let rt := set_sell_last_order_sent_ts (now_ts e) rt in
              (put_st st (put_rt rt g),
               Some (Open SELL hedge_lots (sell_id rt +:+ "_idx0") true))
            else
              (* Scenario B *)
              let new_idx := last_index (sell_exec_map rt) + 1 in
              let last_price := get_last_executed_price (put_rt rt g) "sell" in
              let new_dollar_gap := Qabs (TickData.bid tick - last_price) in
              let new_row := GridRow.mk new_idx new_dollar_gap hedge_lots true in
              let st := set_rows_sell (rows_sell st ++ [new_row]) st in
              if Py.str_raises new_idx then
                (* [str(new_idx)] raises: caught at lines 789-792 *)
                (put_st st (put_rt rt g), Some (Wait None))
              else
              let rt :=
                set_sell_exec_map
                  (<[new_idx := RowExecStats.new new_idx (TickData.bid tick) hedge_lots
                                  0%Q (now_iso e)]> (sell_exec_map rt)) rt in
              let rt := set_sell_last_order_sent_ts (now_ts e) rt in
              (put_st st (put_rt rt g),
               Some (Open SELL hedge_lots
                       (sell_id rt +:+ "_idx" +:+ Py.str new_idx) true))
          else (put_rt rt g, None)
        else (g, None)
    end
  else (g, None).

(** Priority 1.8: hedge monitor, sell side losing (lines 552-643). *)
Definition hedge_sell_stage (e : Env) (tick : TickData.t) : Stage := fun g =>
  let rt := rt_of g in
  let st := st_of g in
  if sell_on rt && Py.truthy (sell_id rt) && negb (sell_hedge_triggered rt)
     && Py.lt 0 (sell_hedge_value st) && negb (sell_is_closing rt)
  then
    let sell_positions := basket (sell_id rt) tick in
    match sell_positions with
    | [] => (g, None)
    | _ =>
        let total_sell_profit := Py.sum (Position.profit <$> sell_positions) in
        let loss_threshold := (-1 * sell_hedge_value st)%Q in
        if Py.le total_sell_profit loss_threshold then
          let rt := set_sell_hedge_triggered true rt in
          let hedge_lots := Py.sum (Position.volume <$> sell_positions) in
          if negb (buy_is_closing rt) then
            if negb (buy_on rt) || negb (Py.truthy (buy_id rt))
               || (size (buy_exec_map rt) =? 0)%nat
            then
              (* Scenario A *)
              let rt := set_buy_id (get_hash "buy" (uuid_buy e)) rt in
              let rt := set_buy_start_ref (TickData.ask tick) rt in
              let rt := set_buy_exec_map ∅ rt in
              let rt := set_buy_on true rt in
              let rt := set_buy_waiting_limit false rt in
              let st := set_rows_buy [GridRow.mk 0 0%Q hedge_lots true] st in
              let rt :=
                set_buy_exec_map
                  (<[0 := RowExecStats.new 0 (TickData.ask tick) hedge_lots 0%Q
                            (now_iso e)]> (buy_exec_map rt)) rt in
              let rt := set_buy_last_order_sent_ts (now_ts e) rt in
              (put_st st (put_rt rt g),
               Some (Open BUY hedge_lots (buy_id rt +:+ "_idx0") true))
            else
              (* Scenario B *)
              let new_idx := last_index (buy_exec_map rt) + 1 in
              let last_price := get_last_executed_price (put_rt rt g) "buy" in
              let new_dollar_gap := Qabs (TickData.ask tick - last_price) in
              let new_row := GridRow.mk new_idx new_dollar_gap hedge_lots true in
              let st := set_rows_buy (rows_buy st ++ [new_row]) st in
              if Py.str_raises new_idx then
                (* [str(new_idx)] raises: caught at lines 789-792 *)
                (put_st st (put_rt rt g), Some (Wait None))
              else
              let rt :=
                set_buy_exec_map
                  (<[new_idx := RowExecStats.new new_idx (TickData.ask tick) hedge_lots
                                  0%Q (now_iso e)]> (buy_exec_map rt)) rt in
              let rt := set_buy_last_order_sent_ts (now_ts e) rt in
              (put_st st (put_rt rt g),
               Some (Open BUY hedge_lots
                       (buy_id rt +:+ "_idx" +:+ Py.str new_idx) true))
          else (put_rt rt g, None)
        else (g, None)
    end
  else (g, None).

(** Priority 2: take profit, buy (lines 646-652). *)
Definition tp_buy_stage (tick : TickData.t) : Stage := fun g =>
  let rt := rt_of g in
  if Py.truthy (buy_id rt) && (check_tp_buy g tick =? 1) then
    let rt := set_buy_is_closing true rt in
    (put_rt rt g, Some (CloseAll (buy_id rt)))
  else (g, None).

(** Priority 2: take profit, sell (lines 655-661). *)
Definition tp_sell_stage (tick : TickData.t) : Stage := fun g =>
  let rt := rt_of g in
  if Py.truthy (sell_id rt) && (check_tp_sell g tick =? 1) then
    let rt := set_sell_is_closing true rt in
    (put_rt rt g, Some (CloseAll (sell_id rt)))
  else (g, None).

(** Priority 3: external close, buy (lines 666-683). *)
Definition external_close_buy (e : Env) (tick : TickData.t) (g : Globals) : Globals :=
  let rt := rt_of g in
  let buy_grace_passed :=
    Py.le EXTERNAL_CLOSE_GRACE_PERIOD (now_ts e - buy_last_order_sent_ts rt) in
  if Py.truthy (buy_id rt) && (0 <? size (buy_exec_map rt))%nat
     && negb (buy_is_closing rt) && buy_grace_passed
  then
    if (count_active_trades tick (buy_id rt) =? 0)%nat then
      let rt :=
        if cyclic_on rt then
          let rt := set_buy_id "" rt in
          let rt := set_buy_exec_map ∅ rt in
          let rt := set_buy_start_ref (mid_of tick) rt in
          set_buy_hedge_triggered false rt
        else
          let rt := set_buy_on false rt in
          let rt := set_buy_id "" rt in
          let rt := set_buy_exec_map ∅ rt in
          set_buy_hedge_triggered false rt in
      put_rt rt g
    else g
  else g.

(** Priority 3: external close, sell (lines 686-703). *)
Definition external_close_sell (e : Env) (tick : TickData.t) (g : Globals) : Globals :=
  let rt := rt_of g in
  let sell_grace_passed :=
    Py.le EXTERNAL_CLOSE_GRACE_PERIOD (now_ts e - sell_last_order_sent_ts rt) in
  if Py.truthy (sell_id rt) && (0 <? size (sell_exec_map rt))%nat
     && negb (sell_is_closing rt) && sell_grace_passed
  then
    if (count_active_trades tick (sell_id rt) =? 0)%nat then
      let rt :=
        if cyclic_on rt then
          let rt := set_sell_id "" rt in
          let rt := set_sell_exec_map ∅ rt in
          let rt := set_sell_start_ref (mid_of tick) rt in
          set_sell_hedge_triggered false rt
        else
          let rt := set_sell_on false rt in
          let rt := set_sell_id "" rt in
          let rt := set_sell_exec_map ∅ rt in
          set_sell_hedge_triggered false rt in
      put_rt rt g
    else g
  else g.

(** Priority 4: grid expansion, buy (lines 706-744). *)
Definition accumulate_buy_stage (e : Env) (tick : TickData.t) : Stage := fun g =>
  let rt := rt_of g in
  let st := st_of g in
  if buy_on rt && negb (buy_is_closing rt) && negb (buy_hedge_triggered rt) then
    let rt :=
      if negb (Py.truthy (buy_id rt)) then
        let rt := set_buy_id (get_hash "buy" (uuid_buy e)) rt in
        let rt := set_buy_exec_map ∅ rt in
        let rt :=
          set_buy_start_ref
            (if Py.lt 0 (buy_limit_price st) then buy_limit_price st
             else TickData.ask tick) rt in
        set_buy_waiting_limit (Py.lt 0 (buy_limit_price st)) rt
      else rt in
    if buy_waiting_limit rt then
      if Py.le (TickData.ask tick) (buy_limit_price st) then
        let rt := set_buy_waiting_limit false rt in
        let rt := set_buy_start_ref (TickData.ask tick) rt in
        (put_rt rt g, None)
      else (put_rt rt g, None)
    else
      let idx := size (buy_exec_map rt) in
      match rows_buy st !! idx with
      | Some row =>
          if Py.le (GridRow.dollar row) 0 || Py.le (GridRow.lots row) 0
          then (put_rt rt g, Some (Wait None))
          else
            let target := calculate_grid_level_price (put_rt rt g) "buy" (Z.of_nat idx) in
            if Py.le (TickData.ask tick) target then
              let rt :=
                set_buy_exec_map
                  (<[Z.of_nat idx := RowExecStats.new (Z.of_nat idx) (TickData.ask tick)
                                       (GridRow.lots row) 0%Q (now_iso e)]>
                     (buy_exec_map rt)) rt in
              let rt := set_buy_last_order_sent_ts (now_ts e) rt in
              (put_rt rt g,
               Some (Open BUY (GridRow.lots row)
                       (buy_id rt +:+ "_idx" +:+ Py.str (Z.of_nat idx))
                       (GridRow.alert row)))
            else (put_rt rt g, None)
      | None => (put_rt rt g, None)
      end
  else (g, None).

(** Priority 5: grid expansion, sell (lines 747-785). *)
Definition accumulate_sell_stage (e : Env) (tick : TickData.t) : Stage := fun g =>
  let rt := rt_of g in
  let st := st_of g in
  if sell_on rt && negb (sell_is_closing rt) && negb (sell_hedge_triggered rt) then
    let rt :=
      if negb (Py.truthy (sell_id rt)) then
        let rt := set_sell_id (get_hash "sell" (uuid_sell e)) rt in
        let rt := set_sell_exec_map ∅ rt in
        let rt :=
          set_sell_start_ref
            (if Py.lt 0 (sell_limit_price st) then sell_limit_price st
             else TickData.bid tick) rt in
        set_sell_waiting_limit (Py.lt 0 (sell_limit_price st)) rt
      else rt in
    if sell_waiting_limit rt then
      if Py.le (sell_limit_price st) (TickData.bid tick) then
        let rt := set_sell_waiting_limit false rt in
        let rt := set_sell_start_ref (TickData.bid tick) rt in
        (put_rt rt g, None)
      else (put_rt rt g, None)
    else
      let idx := size (sell_exec_map rt) in
      match rows_sell st !! idx with
      | Some row =>
          if Py.le (GridRow.dollar row) 0 || Py.le (GridRow.lots row) 0
          then (put_rt rt g, Some (Wait None))
          else
            let target := calculate_grid_level_price (put_rt rt g) "sell" (Z.of_nat idx) in
            if Py.le target (TickData.bid tick) then
              let rt :=
                set_sell_exec_map
                  (<[Z.of_nat idx := RowExecStats.new (Z.of_nat idx) (TickData.bid tick)
                                       (GridRow.lots row) 0%Q (now_iso e)]>
                     (sell_exec_map rt)) rt in
              let rt := set_sell_last_order_sent_ts (now_ts e) rt in
              (put_rt rt g,
               Some (Open SELL (GridRow.lots row)
                       (sell_id rt +:+ "_idx" +:+ Py.str (Z.of_nat idx))
                       (GridRow.alert row)))
            else (put_rt rt g, None)
      | None => (put_rt rt g, None)
      end
  else (g, None).

(** The blocks after reconciliation, grouped by priority and in source
    order. *)
Definition closing_stage (tick : TickData.t) : Stage :=
  closing_buy_stage tick >-> closing_sell_stage tick.

Definition hedge_stage (e : Env) (tick : TickData.t) : Stage :=
  hedge_buy_stage e tick >-> hedge_sell_stage e tick.

Definition take_profit_stage (tick : TickData.t) : Stage :=
  tp_buy_stage tick >-> tp_sell_stage tick.

Definition external_close_stage (e : Env) (tick : TickData.t) : Stage :=
  silently (external_close_buy e tick) >-> silently (external_close_sell e tick).

Definition accumulate_stage (e : Env) (tick : TickData.t) : Stage :=
  accumulate_buy_stage e tick >-> accumulate_sell_stage e tick.

Definition decide_stage (e : Env) (tick : TickData.t) : Stage :=
  pending_stage >->
  closing_stage tick >->
  hedge_stage e tick >->
  take_profit_stage tick >->
  external_close_stage e tick >->
  accumulate_stage e tick.

(** Market update followed by [update_exec_stats(tick)] (lines 385-398). *)
Definition reconcile (e : Env) (tick : TickData.t) (g : Globals) : Globals :=
  let g := market_update e tick g in
  put_rt (update_exec_stats e tick (rt_of g)) g.

Definition handle_tick (e : Env) (tick : TickData.t) (g : Globals) : Globals * Reply :=
  if Py.truthy (error_status (rt_of g))
  then (g, Wait (Some (error_status (rt_of g))))
  else
    let g := reconcile e tick g in
    if Py.truthy (error_status (rt_of g))
    then (g, Wait (Some (error_status (rt_of g))))
    else
      match decide_stage e tick g with
      | (g', Some reply) => (g', reply)
      | (g', None) => (g', Wait None)
      end.

(** ** Commands (lines 794-910) *)

(** [{r.index: r for r in rows}]: a later row replaces an earlier one
    with the same index. *)
Definition rows_dict (rows : list GridRow.t) : gmap Z GridRow.t :=
  foldl (fun d r => <[GridRow.index r := r]> d) ∅ rows.

(** The loop over the submitted rows of one side (lines 824-839):
    [executed] tells whether [str(index)] is a key of the live exec map. *)
Definition merge_rows (executed : Z -> bool) (current : gmap Z GridRow.t)
    (new_rows : list GridRow.t) : list GridRow.t :=
  foldl (fun final new_row =>
           if Py.le (GridRow.dollar new_row) 0 || Py.le (GridRow.lots new_row) 0
           then final
           else
             match executed (GridRow.index new_row), current !! GridRow.index new_row with
             | true, Some old =>
                 final ++ [GridRow.mk (GridRow.index old) (GridRow.dollar old)
                             (GridRow.lots old) (GridRow.alert new_row)]
             | _, _ => final ++ [new_row]
             end)
        [] new_rows.

Definition has_key (m : gmap Z RowExecStats.t) (k : Z) : bool :=
  match m !! k with Some _ => true | None => false end.

(** [update_settings]: [inl msg] is the raised exception. *)
Definition update_settings (new : UserSettings) (g : Globals) : string + Globals :=
  let rt := rt_of g in
  if Py.lt (buy_tp_value new) 0 || Py.lt (sell_tp_value new) 0
  then inl "TP values cannot be negative"
  else if Py.lt (buy_hedge_value new) 0 || Py.lt (sell_hedge_value new) 0
  then inl "Hedge values cannot be negative"
  else
    let st := st_of g in
    let st := set_buy_limit_price (buy_limit_price new) st in
    let st := set_sell_limit_price (sell_limit_price new) st in
    let st := set_buy_tp_type (buy_tp_type new) st in
    let st := set_buy_tp_value (buy_tp_value new) st in
    let st := set_sell_tp_type (sell_tp_type new) st in
    let st := set_sell_tp_value (sell_tp_value new) st in
    let st := set_buy_hedge_value (buy_hedge_value new) st in
    let st := set_sell_hedge_value (sell_hedge_value new) st in
    let final_buy_rows :=
      merge_rows (has_key (buy_exec_map rt)) (rows_dict (rows_buy st)) (rows_buy new) in
    let st := set_rows_buy final_buy_rows st in
    let final_sell_rows :=
      merge_rows (has_key (sell_exec_map rt)) (rows_dict (rows_sell st)) (rows_sell new) in
    let st := set_rows_sell final_sell_rows st in
    inr (put_st st g).

Definition is_true_opt (o : option bool) : bool := default false o.

(** [control]: the returned string is the ["status"] of the reply. *)
Definition control (buy_switch sell_switch cyclic emergency_close : option bool)
    (g : Globals) : Globals * string :=
  let rt := rt_of g in
  if is_true_opt emergency_close then
    let rt := set_buy_on false rt in
    let rt := set_sell_on false rt in
    let rt := set_cyclic_on false rt in
    let rt := set_buy_is_closing true rt in
    let rt := set_sell_is_closing true rt in
    let rt := set_pending_actions (pending_actions rt ++ ["CLOSE_ALL_EMERGENCY"]) rt in
    let rt := set_error_status "" rt in
    (put_rt rt g, "emergency")
  else
    let rt :=
      match buy_switch with
      | Some sw =>
          let rt :=
            if buy_on rt && negb sw then
              let rt := set_pending_actions (pending_actions rt ++ ["CLOSE_ALL_BUY"]) rt in
              set_buy_is_closing true rt
            else rt in
          set_buy_on sw rt
      | None => rt
      end in
    let rt :=
      match sell_switch with
      | Some sw =>
          let rt :=
            if sell_on rt && negb sw then
              let rt := set_pending_actions (pending_actions rt ++ ["CLOSE_ALL_SELL"]) rt in
              set_sell_is_closing true rt
            else rt in
          set_sell_on sw rt
      | None => rt
      end in
    let rt :=
      match cyclic with
      | Some c => set_cyclic_on c rt
      | None => rt
      end in
    (put_rt rt g, "ok").

(** ** Runs of the engine *)

Inductive Request :=
| Tick (e : Env) (tick : TickData.t)
| Settings (new : UserSettings)
| Control (buy_switch sell_switch cyclic emergency_close : option bool).

(** The state after a request; a rejected settings update leaves the
    state as it was. *)
Definition serve (r : Request) (g : Globals) : Globals :=
  match r with
  | Tick e tick => (handle_tick e tick g).1
  | Settings new =>
      match update_settings new g with
      | inr g' => g'
      | inl _ => g
      end
  | Control b s c x => (control b s c x g).1
  end.

Definition run (rs : list Request) (g : Globals) : Globals :=
  foldl (fun g r => serve r g) g rs.

Definition reachable (g : Globals) : Prop := ∃ rs, g = run rs initial.

(** ** Definitions used to state the properties *)

(** [Σ_{j=0..i} L[j].gap], the sum in the specification's formula. *)
Definition gap_total (L : list GridRow.t) (i : nat) : Q :=
  foldr Qplus 0%Q (GridRow.dollar <$> take (S i) L).

Definition side_rows (g : Globals) (side : string) : list GridRow.t :=
  if String.eqb side "buy" then rows_buy (st_of g) else rows_sell (st_of g).

Definition side_anchor (g : Globals) (side : string) : Q :=
  if String.eqb side "buy" then buy_start_ref (rt_of g) else sell_start_ref (rt_of g).

(** The tick with another position list. *)
Definition with_positions (ps : list Position.t) (tick : TickData.t) : TickData.t :=
  TickData.mk (TickData.account_id tick) (TickData.equity tick) (TickData.balance tick)
    (TickData.symbol tick) (TickData.ask tick) (TickData.bid tick) ps.

(** What one submitted row contributes to the merged table. *)
Definition merge_row (executed : Z → bool) (current : gmap Z GridRow.t)
    (new_row : GridRow.t) : list GridRow.t :=
  if Py.le (GridRow.dollar new_row) 0 || Py.le (GridRow.lots new_row) 0 then []
  else
    match executed (GridRow.index new_row), current !! GridRow.index new_row with
    | true, Some old =>
        [GridRow.mk (GridRow.index old) (GridRow.dollar old) (GridRow.lots old)
           (GridRow.alert new_row)]
    | _, _ => [new_row]
    end.

(** The lowercase comment grammar of the specification,
    [^(buy|sell)_[0-9a-f]{8}_idx\d+$]. *)
Definition hex_lower (c : ascii) : bool :=
  Re.in_range "0" "9" c || Re.in_range "a" "f" c.

Definition lowercase_grammar : Re.t :=
  Re.Cat (Re.Alt (Re.lit "buy") (Re.lit "sell"))
    (Re.Cat (Re.lit "_")
       (Re.Cat (Re.times 8 (Re.Class hex_lower))
          (Re.Cat (Re.lit "_idx") (Re.plus Re.digit)))).

Definition lowercase_grammar_match (s : string) : bool :=
  Re.match_anchored lowercase_grammar s.

(** Language inclusion of regular expressions. *)
Definition re_incl (r1 r2 : Re.t) : Prop :=
  ∀ s, Re.fullmatch r1 s = true → Re.fullmatch r2 s = true.

(** [hedge_triggered] is false whenever [session_id] is empty. *)
Definition hedge_needs_session (g : Globals) : Prop :=
  (buy_id (rt_of g) = "" → buy_hedge_triggered (rt_of g) = false) ∧
  (sell_id (rt_of g) = "" → sell_hedge_triggered (rt_of g) = false).

(** A block keeps an invariant of the globals. *)
Definition preserves (P : Globals → Prop) (s : Stage) : Prop :=
  ∀ g, P g → P (s g).1.

(** The buy basket has breached its loss limit: the guard of the
    buy-side hedge block.  The basket is written out: the positions of
    the tick whose comment contains the session id. *)
Definition hedge_due_buy (g : Globals) (tick : TickData.t) : Prop :=
  buy_on (rt_of g) = true ∧ buy_id (rt_of g) ≠ "" ∧
  buy_hedge_triggered (rt_of g) = false ∧
  (0 < buy_hedge_value (st_of g))%Q ∧
  buy_is_closing (rt_of g) = false ∧
  List.filter (fun p => Py.str_in (buy_id (rt_of g)) (Position.comment p))
    (TickData.positions tick) ≠ [] ∧
  (Py.sum (Position.profit <$>
           List.filter (fun p => Py.str_in (buy_id (rt_of g)) (Position.comment p))
             (TickData.positions tick))
   <= - buy_hedge_value (st_of g))%Q.

Definition hedge_due_sell (g : Globals) (tick : TickData.t) : Prop :=
  sell_on (rt_of g) = true ∧ sell_id (rt_of g) ≠ "" ∧
  sell_hedge_triggered (rt_of g) = false ∧
  (0 < sell_hedge_value (st_of g))%Q ∧
  sell_is_closing (rt_of g) = false ∧
  List.filter (fun p => Py.str_in (sell_id (rt_of g)) (Position.comment p))
    (TickData.positions tick) ≠ [] ∧
  (Py.sum (Position.profit <$>
           List.filter (fun p => Py.str_in (sell_id (rt_of g)) (Position.comment p))
             (TickData.positions tick))
   <= - sell_hedge_value (st_of g))%Q.





(** The index under which the reconciler files a position in the buy
    (sell) exec map, if it files it at all. *)
Definition fill_index (side_type hash_id : string) (p : Position.t) : option Z :=
  if TRADE_ID_PATTERN_match (Position.comment p)
     && String.eqb (Position.type p) side_type
     && Py.str_in hash_id (Position.comment p)
  then match Py.split (Position.comment p) "_idx" with
       | [_; tail] => Py.int tail
       | _ => None
       end
  else None.

Definition fill_keys (side_type hash_id : string) (ps : list Position.t) : gset Z :=
  list_to_set (omap (fill_index side_type hash_id) ps).

(** The tests of the hedge and take-profit blocks. *)
Definition hedge_trigger_buy (g : Globals) (tick : TickData.t) : bool :=
  buy_on (rt_of g) && Py.truthy (buy_id (rt_of g)) && negb (buy_hedge_triggered (rt_of g))
  && Py.lt 0 (buy_hedge_value (st_of g)) && negb (buy_is_closing (rt_of g))
  && match basket (buy_id (rt_of g)) tick with
     | [] => false
     | ps => Py.le (Py.sum (Position.profit <$> ps)) (-1 * buy_hedge_value (st_of g))
     end.

Definition hedge_trigger_sell (g : Globals) (tick : TickData.t) : bool :=
  sell_on (rt_of g) && Py.truthy (sell_id (rt_of g))
  && negb (sell_hedge_triggered (rt_of g))
  && Py.lt 0 (sell_hedge_value (st_of g)) && negb (sell_is_closing (rt_of g))
  && match basket (sell_id (rt_of g)) tick with
     | [] => false
     | ps => Py.le (Py.sum (Position.profit <$> ps)) (-1 * sell_hedge_value (st_of g))
     end.

Definition tp_trigger_buy (g : Globals) (tick : TickData.t) : bool :=
  Py.truthy (buy_id (rt_of g)) && (check_tp_buy g tick =? 1).

Definition tp_trigger_sell (g : Globals) (tick : TickData.t) : bool :=
  Py.truthy (sell_id (rt_of g)) && (check_tp_sell g tick =? 1).

(** The blocks that precede grid expansion. *)
Definition before_accumulate (e : Env) (tick : TickData.t) : Stage :=
  pending_stage >-> closing_stage tick >-> hedge_stage e tick >->
  take_profit_stage tick >-> external_close_stage e tick.

(** Two states agree on the settings and on every runtime field that
    reconciliation leaves alone. *)
Definition same_sessions (g g' : Globals) : Prop :=
  st_of g' = st_of g ∧
  buy_on (rt_of g') = buy_on (rt_of g) ∧
  sell_on (rt_of g') = sell_on (rt_of g) ∧
  cyclic_on (rt_of g') = cyclic_on (rt_of g) ∧
  buy_id (rt_of g') = buy_id (rt_of g) ∧
  sell_id (rt_of g') = sell_id (rt_of g) ∧
  buy_is_closing (rt_of g') = buy_is_closing (rt_of g) ∧
  sell_is_closing (rt_of g') = sell_is_closing (rt_of g) ∧
  buy_hedge_triggered (rt_of g') = buy_hedge_triggered (rt_of g) ∧
  sell_hedge_triggered (rt_of g') = sell_hedge_triggered (rt_of g) ∧
  buy_waiting_limit (rt_of g') = buy_waiting_limit (rt_of g) ∧
  sell_waiting_limit (rt_of g') = sell_waiting_limit (rt_of g) ∧
  buy_start_ref (rt_of g') = buy_start_ref (rt_of g) ∧
  sell_start_ref (rt_of g') = sell_start_ref (rt_of g) ∧
  pending_actions (rt_of g') = pending_actions (rt_of g) ∧
  buy_last_order_sent_ts (rt_of g') = buy_last_order_sent_ts (rt_of g) ∧
  sell_last_order_sent_ts (rt_of g') = sell_last_order_sent_ts (rt_of g).

(** Nothing before the external-close check returns: empty queue, no
    closing phase, no hedge and no take-profit trigger. *)
Definition quiet (g : Globals) (tick : TickData.t) : Prop :=
  pending_actions (rt_of g) = [] ∧
  buy_is_closing (rt_of g) = false ∧ sell_is_closing (rt_of g) = false ∧
  hedge_trigger_buy g tick = false ∧ hedge_trigger_sell g tick = false ∧
  tp_trigger_buy g tick = false ∧ tp_trigger_sell g tick = false.

(** The fields of a side that the hedge and take-profit tests read. *)
Definition buy_session_kept (g g' : Globals) : Prop :=
  buy_on (rt_of g') = buy_on (rt_of g) ∧
  buy_id (rt_of g') = buy_id (rt_of g) ∧
  buy_is_closing (rt_of g') = buy_is_closing (rt_of g) ∧
  buy_hedge_triggered (rt_of g') = buy_hedge_triggered (rt_of g).

Definition sell_session_kept (g g' : Globals) : Prop :=
  sell_on (rt_of g') = sell_on (rt_of g) ∧
  sell_id (rt_of g') = sell_id (rt_of g) ∧
  sell_is_closing (rt_of g') = sell_is_closing (rt_of g) ∧
  sell_hedge_triggered (rt_of g') = sell_hedge_triggered (rt_of g).

(** A side that is not closing and has no basket in the tick: no
    session id, or an id that no position comment contains. *)
Definition no_buy_basket (g : Globals) (tick : TickData.t) : Prop :=
  buy_is_closing (rt_of g) = false ∧
  (buy_id (rt_of g) = "" ∨ basket (buy_id (rt_of g)) tick = []).

Definition no_sell_basket (g : Globals) (tick : TickData.t) : Prop :=
  sell_is_closing (rt_of g) = false ∧
  (sell_id (rt_of g) = "" ∨ basket (sell_id (rt_of g)) tick = []).

(** A live session of a side whose last order is younger than the grace
    period. *)
Definition buy_session_young (e : Env) (g : Globals) : Prop :=
  buy_id (rt_of g) ≠ "" ∧ buy_exec_map (rt_of g) ≠ ∅ ∧
  (now_ts e - buy_last_order_sent_ts (rt_of g) < EXTERNAL_CLOSE_GRACE_PERIOD)%Q.

Definition sell_session_young (e : Env) (g : Globals) : Prop :=
  sell_id (rt_of g) ≠ "" ∧ sell_exec_map (rt_of g) ≠ ∅ ∧
  (now_ts e - sell_last_order_sent_ts (rt_of g) < EXTERNAL_CLOSE_GRACE_PERIOD)%Q.

(** The session [id] of a side that is switched on, with the layers [K]
    among its executed ones and its last order younger than the grace
    period. *)
Definition buy_session_held (e : Env) (id : string) (K : gset Z) (g : Globals) : Prop :=
  buy_on (rt_of g) = true ∧ buy_id (rt_of g) = id ∧
  K ⊆ dom (buy_exec_map (rt_of g)) ∧
  (now_ts e - buy_last_order_sent_ts (rt_of g) < EXTERNAL_CLOSE_GRACE_PERIOD)%Q.

Definition sell_session_held (e : Env) (id : string) (K : gset Z) (g : Globals) : Prop :=
  sell_on (rt_of g) = true ∧ sell_id (rt_of g) = id ∧
  K ⊆ dom (sell_exec_map (rt_of g)) ∧
  (now_ts e - sell_last_order_sent_ts (rt_of g) < EXTERNAL_CLOSE_GRACE_PERIOD)%Q.

(** ** Sample inputs *)

Module Sample.

Definition env (t : Q) : Env :=
  {| now_ts := t; now_iso := "2025-01-01T00:00:00";
     uuid_buy := "0123456789abcdef0123456789abcdef";
     uuid_sell := "fedcba9876543210fedcba9876543210" |}.

Definition tick (ask bid : Q) (ps : list Position.t) : TickData.t :=
  TickData.mk "acct" 10000 10000 "XAUUSD" ask bid ps.

Definition two_rows : list GridRow.t :=
  [GridRow.mk 0 1 (1 # 10) false; GridRow.mk 1 (3 # 2) (2 # 10) false].

(** Buy side switched on, two layers configured, nothing else. *)
Definition armed : Globals :=
  put_st (set_rows_buy two_rows default_UserSettings)
    (put_rt (set_buy_on true default_RuntimeState) initial).

(** A buy session anchored at 100 with no layer executed. *)
Definition anchored : Globals :=
  (handle_tick (env 10) (tick 100 100 []) armed).1.

(** The same session after layer 0 was filled at 97, order sent at
    time 11. *)
Definition one_layer : Globals :=
  (handle_tick (env 11) (tick 97 97 []) anchored).1.

Definition both_layers : Globals :=
  (handle_tick (env 12) (tick 97 97 []) one_layer).1.


(** The session of [one_layer] in its closing phase. *)
Definition closing : Globals :=
  put_rt (set_buy_is_closing true (rt_of one_layer)) one_layer.

Definition fill0 : Position.t :=
  Position.mk 1 "XAUUSD" "BUY" (1 # 10) 97 (-300) "buy_01234567_idx0".

Definition fill1 : Position.t :=
  Position.mk 2 "XAUUSD" "BUY" (2 # 10) 97 (-200) "buy_01234567_idx1".

(** Both layers filled, hedge limit 500. *)
Definition hedged : Globals :=
  put_st (set_buy_hedge_value 500 (st_of both_layers)) both_layers.

Definition foreign : Position.t :=
  Position.mk 7 "XAUUSD" "BUY" 1 100 0 "buy_ABCDEF12_idx0".

Definition manual : Position.t :=
  Position.mk 8 "XAUUSD" "BUY" 1 100 0 "manual trade".

Definition locked : Globals :=
  put_rt (set_error_status "CRITICAL: Identity Conflict." (rt_of armed)) armed.

(** A settings payload that resubmits layer 0 with other numbers and
    its alert switched on. *)
Definition resubmit : UserSettings :=
  set_rows_buy [GridRow.mk 0 5 5 true; GridRow.mk 1 2 2 false] default_UserSettings.

Definition resubmitted : Globals :=
  match update_settings resubmit one_layer with
  | inr g' => g'
  | inl _ => one_layer
  end.

(** A payload whose row for layer 0 has gap zero. *)
Definition zero_gap : UserSettings :=
  set_rows_buy [GridRow.mk 0 0 (1 # 2) true] default_UserSettings.

(** A payload whose row for layer 0 has volume zero. *)
Definition zero_lots : UserSettings :=
  set_rows_buy [GridRow.mk 0 (1 # 2) 0 true] default_UserSettings.

(** A payload without a row for layer 0, and one that submits layer 0
    again with gap 5 and volume 5. *)
Definition without_layer0 : UserSettings :=
  set_rows_buy [GridRow.mk 1 (3 # 2) (2 # 10) false] default_UserSettings.

Definition layer0_anew : UserSettings :=
  set_rows_buy [GridRow.mk 0 5 5 false; GridRow.mk 1 (3 # 2) (2 # 10) false]
    default_UserSettings.

(** A payload of four rows: layer 0 resubmitted with other numbers, a row
    of volume zero, a row of gap zero and a new layer 3. *)
Definition mixed : UserSettings :=
  set_rows_buy
    [GridRow.mk 0 5 5 true; GridRow.mk 1 2 0 false; GridRow.mk 2 0 1 false;
     GridRow.mk 3 4 4 true]
    default_UserSettings.

(** A short run: switch the buy side on, configure two layers, three
    ticks, then an emergency close. *)
Definition session : list Request :=
  [Control (Some true) None None None;
   Settings (set_rows_buy two_rows default_UserSettings);
   Tick (env 10) (tick 100 100 []);
   Tick (env 11) (tick 97 97 []);
   Tick (env 12) (tick 97 97 []);
   Control None None None (Some true)].

End Sample.

(** ** Further definitions used to state properties *)

(** Every character of [s] satisfies [f]. *)
Fixpoint all_chars (f : ascii → bool) (s : string) : bool :=
  match s with
  | EmptyString => true
  | String c rest => f c && all_chars f rest
  end.

Definition is_digit (c : ascii) : bool := Re.in_range "0" "9" c.

(** What [uuid.uuid4().hex] returns: 32 lowercase hexadecimal digits. *)
Definition is_uuid_hex (u : string) : bool :=
  (String.length u =? 32)%nat && all_chars hex_lower u.

(** The comment of an order, [f"{session_id}_idx{idx}"]. *)
Definition order_comment (session_id : string) (idx : Z) : string :=
  session_id +:+ "_idx" +:+ Py.str idx.

(** [x in s] for a character [x]. *)
Fixpoint has_char (x : ascii) (s : string) : bool :=
  match s with
  | EmptyString => false
  | String c rest => Ascii.eqb x c || has_char x rest
  end.


(** The rows of an exec map at the keys up to [k], in ascending order of
    their keys. *)
Definition rows_upto (m : gmap Z RowExecStats.t) (k : Z) : list RowExecStats.t :=
  omap (λ j, m !! j) (filter (λ j, j ≤ k) (sorted_indices m)).

(** A control command with [emergency_close] set. *)
Definition is_emergency (r : Request) : bool :=
  match r with
  | Control _ _ _ x => is_true_opt x
  | _ => false
  end.

(** Scenario B of the hedge: the opposite side is not closing and runs
    a session with at least one executed layer. *)
Definition sell_engaged (g : Globals) : Prop :=
  sell_is_closing (rt_of g) = false ∧ sell_on (rt_of g) = true ∧
  sell_id (rt_of g) ≠ "" ∧ sell_exec_map (rt_of g) ≠ ∅.

Definition buy_engaged (g : Globals) : Prop :=
  buy_is_closing (rt_of g) = false ∧ buy_on (rt_of g) = true ∧
  buy_id (rt_of g) ≠ "" ∧ buy_exec_map (rt_of g) ≠ ∅.

(** The outcome of a Scenario B hedge on behalf of a losing buy basket
    of total volume [vol], from state [g]: a layer stacked on the running
    sell session. *)
Definition stacked_sell_hedge (e : Env) (tick : TickData.t) (vol : Q) (g : Globals)
    (out : Globals * Reply) : Prop :=
  let rt' := rt_of out.1 in
  let n := last_index (sell_exec_map (rt_of g)) + 1 in
  buy_hedge_triggered rt' = true ∧
  sell_id rt' = sell_id (rt_of g) ∧
  sell_start_ref rt' = sell_start_ref (rt_of g) ∧
  sell_on rt' = true ∧
  rows_sell (st_of out.1)
  = rows_sell (st_of g)
    ++ [GridRow.mk n (Qabs (TickData.bid tick - get_last_executed_price g "sell")) vol true] ∧
  (∀ k, k ∈ dom (sell_exec_map (rt_of g)) → k < n) ∧
  sell_exec_map rt'
  = <[n := RowExecStats.new n (TickData.bid tick) vol 0%Q (now_iso e)]>
      (sell_exec_map (rt_of g)) ∧
  sell_last_order_sent_ts rt' = now_ts e ∧
  out.2 = Open SELL vol (order_comment (sell_id (rt_of g)) n) true.

Definition stacked_buy_hedge (e : Env) (tick : TickData.t) (vol : Q) (g : Globals)
    (out : Globals * Reply) : Prop :=
  let rt' := rt_of out.1 in
  let n := last_index (buy_exec_map (rt_of g)) + 1 in
  sell_hedge_triggered rt' = true ∧
  buy_id rt' = buy_id (rt_of g) ∧
  buy_start_ref rt' = buy_start_ref (rt_of g) ∧
  buy_on rt' = true ∧
  rows_buy (st_of out.1)
  = rows_buy (st_of g)
    ++ [GridRow.mk n (Qabs (TickData.ask tick - get_last_executed_price g "buy")) vol true] ∧
  (∀ k, k ∈ dom (buy_exec_map (rt_of g)) → k < n) ∧
  buy_exec_map rt'
  = <[n := RowExecStats.new n (TickData.ask tick) vol 0%Q (now_iso e)]>
      (buy_exec_map (rt_of g)) ∧
  buy_last_order_sent_ts rt' = now_ts e ∧
  out.2 = Open BUY vol (order_comment (buy_id (rt_of g)) n) true.

(** The outcome of a Scenario B hedge when [str(n)] raises for the new
    index [n]: the hedge flag is latched and the row appended, but no
    execution is recorded, the order time is not stamped and the reply
    is WAIT.  Everything else is as in [g]. *)
Definition stalled_sell_hedge (tick : TickData.t) (vol : Q) (g : Globals)
    (out : Globals * Reply) : Prop :=
  let n := last_index (sell_exec_map (rt_of g)) + 1 in
  out.1
  = put_st
      (set_rows_sell
         (rows_sell (st_of g)
          ++ [GridRow.mk n (Qabs (TickData.bid tick - get_last_executed_price g "sell"))
                vol true])
         (st_of g))
      (put_rt (set_buy_hedge_triggered true (rt_of g)) g) ∧
  out.2 = Wait None.

Definition stalled_buy_hedge (tick : TickData.t) (vol : Q) (g : Globals)
    (out : Globals * Reply) : Prop :=
  let n := last_index (buy_exec_map (rt_of g)) + 1 in
  out.1
  = put_st
      (set_rows_buy
         (rows_buy (st_of g)
          ++ [GridRow.mk n (Qabs (TickData.ask tick - get_last_executed_price g "buy"))
                vol true])
         (st_of g))
      (put_rt (set_sell_hedge_triggered true (rt_of g)) g) ∧
  out.2 = Wait None.

(** The market snapshot and the price history of [g'] are those of [g]. *)
Definition market_kept (g g' : Globals) : Prop :=
  price_history g' = price_history g ∧
  last_update_ts (state g') = last_update_ts (state g) ∧
  current_price (rt_of g') = current_price (rt_of g) ∧
  current_ask (rt_of g') = current_ask (rt_of g) ∧
  current_bid (rt_of g') = current_bid (rt_of g) ∧
  price_direction (rt_of g') = price_direction (rt_of g).

(** Every entry of an exec map sits under the key given by its own
    [index] field. *)
Definition keyed (m : gmap Z RowExecStats.t) : Prop :=
  ∀ k r, m !! k = Some r → RowExecStats.index r = k.

Definition well_keyed (g : Globals) : Prop :=
  keyed (buy_exec_map (rt_of g)) ∧ keyed (sell_exec_map (rt_of g)).

(** The entries that [control] puts on the administrative queue. *)
Definition admin_action (a : string) : Prop :=
  a = "CLOSE_ALL_BUY" ∨ a = "CLOSE_ALL_SELL" ∨ a = "CLOSE_ALL_EMERGENCY".

Definition admin_queue (g : Globals) : Prop :=
  Forall admin_action (pending_actions (rt_of g)).

(** A side at rest: switched off, without session, executed layers,
    closing phase, hedge flag or anchor. *)
Definition buy_at_rest (g : Globals) : Prop :=
  buy_on (rt_of g) = false ∧ buy_id (rt_of g) = "" ∧ buy_exec_map (rt_of g) = ∅ ∧
  buy_is_closing (rt_of g) = false ∧ buy_hedge_triggered (rt_of g) = false ∧
  buy_start_ref (rt_of g) = 0%Q.

Definition sell_at_rest (g : Globals) : Prop :=
  sell_on (rt_of g) = false ∧ sell_id (rt_of g) = "" ∧ sell_exec_map (rt_of g) = ∅ ∧
  sell_is_closing (rt_of g) = false ∧ sell_hedge_triggered (rt_of g) = false ∧
  sell_start_ref (rt_of g) = 0%Q.

(** The values drawn from [uuid.uuid4().hex] on a tick are 32 lowercase
    hexadecimal digits. *)
Definition hex_env (e : Env) : bool :=
  is_uuid_hex (uuid_buy e) && is_uuid_hex (uuid_sell e).

Definition hex_request (r : Request) : bool :=
  match r with
  | Tick e _ => hex_env e
  | _ => true
  end.

(** A session id is empty or was minted by [get_hash] from such a
    value. *)
Definition minted (side id : string) : Prop :=
  id = "" ∨ ∃ u, is_uuid_hex u = true ∧ id = get_hash side u.

Definition minted_ids (g : Globals) : Prop :=
  minted "buy" (buy_id (rt_of g)) ∧ minted "sell" (sell_id (rt_of g)).

(** No key of an exec map is negative. *)
Definition nonneg_keys (m : gmap Z RowExecStats.t) : Prop :=
  ∀ k, k ∈ dom m → 0 ≤ k.

Definition nonneg_keyed (g : Globals) : Prop :=
  nonneg_keys (buy_exec_map (rt_of g)) ∧ nonneg_keys (sell_exec_map (rt_of g)).

(** Further sample states and positions. *)
Module Scenario.

(** The session of [Sample.one_layer] with a take profit of 1% of the
    equity. *)
Definition with_tp : Globals :=
  put_st (set_buy_tp_value 1 (st_of Sample.one_layer)) Sample.one_layer.

(** Layer 0 of that session, 200 in profit. *)
Definition winner : Position.t :=
  Position.mk 3 "XAUUSD" "BUY" (1 # 10) 97 200 "buy_01234567_idx0".

(** The hedged buy session of [Sample.hedged] next to a running sell
    session with one executed layer. *)
Definition two_sided : Globals :=
  put_rt (set_sell_exec_map
            {[ 0 := RowExecStats.new 0 100 (1 # 10) 0 "2025-01-01T00:00:00" ]}
            (set_sell_id "sell_fedcba98" (set_sell_on true (rt_of Sample.hedged))))
    Sample.hedged.

(** The same with the executed sell layer under the largest index that
    [str] still prints, [10^4300 - 1]. *)
Definition brim : Globals :=
  put_rt (set_sell_exec_map
            {[ 10 ^ 4300 - 1
               := RowExecStats.new (10 ^ 4300 - 1) 100 (1 # 10) 0 "2025-01-01T00:00:00" ]}
            (rt_of two_sided))
    two_sided.

(** The session of [Sample.one_layer] whose next layer has gap zero. *)
Definition stuck : Globals :=
  put_st (set_rows_buy [GridRow.mk 0 1 (1 # 10) false; GridRow.mk 1 0 (2 # 10) false]
            (st_of Sample.one_layer)) Sample.one_layer.

(** A buy session started at ask 100 under a limit price of 90. *)
Definition waiting : Globals :=
  (handle_tick (Sample.env 10) (Sample.tick 100 100 [])
     (put_st (set_buy_limit_price 90 (st_of Sample.armed)) Sample.armed)).1.

End Scenario.

(** * Properties *)

Arguments market_update : simpl never.
Arguments update_exec_stats : simpl never.
Arguments reconcile : simpl never.
Arguments external_close_buy : simpl never.
Arguments external_close_sell : simpl never.
Arguments calculate_grid_level_price : simpl never.
Arguments basket : simpl never.
Arguments check_tp_buy : simpl never.
Arguments check_tp_sell : simpl never.
Arguments count_active_trades : simpl never.
Arguments get_hash : simpl never.
Arguments cumulate : simpl never.
Arguments Py.sum : simpl never.
Arguments Py.str_raises : simpl never.

(** ** Grid geometry *)

Lemma foldr_Qplus_snoc (xs : list Q) (d : Q) :
  (foldr Qplus 0 (xs ++ [d]) == foldr Qplus 0 xs + d)%Q.
Proof.
  induction xs as [|x xs IH]; simpl; [ring|].
  rewrite IH. ring.
Qed.

Lemma grid_walk_minus L A n :
  (n ≤ length L)%nat →
  (foldl (fun ref i => match L !! i with
                       | Some row => ref - GridRow.dollar row
                       | None => ref
                       end) A (seq 0 n)
   == A - foldr Qplus 0 (GridRow.dollar <$> take n L))%Q.
Proof.
  induction n as [|n IH]; intros Hn.
  - simpl. ring.
  - rewrite seq_S, foldl_app. simpl.
    destruct (lookup_lt_is_Some_2 L n ltac:(lia)) as [row Hrow].
    rewrite Hrow, (take_S_r _ _ _ Hrow), fmap_app. simpl.
    rewrite IH, foldr_Qplus_snoc by lia. ring.
Qed.

Lemma grid_walk_plus L A n :
  (n ≤ length L)%nat →
  (foldl (fun ref i => match L !! i with
                       | Some row => ref + GridRow.dollar row
                       | None => ref
                       end) A (seq 0 n)
   == A + foldr Qplus 0 (GridRow.dollar <$> take n L))%Q.
Proof.
  induction n as [|n IH]; intros Hn.
  - simpl. ring.
  - rewrite seq_S, foldl_app. simpl.
    destruct (lookup_lt_is_Some_2 L n ltac:(lia)) as [row Hrow].
    rewrite Hrow, (take_S_r _ _ _ Hrow), fmap_app. simpl.
    rewrite IH, foldr_Qplus_snoc by lia. ring.
Qed.

(** In exact arithmetic the walk ends at the anchor minus (plus) the
    sum of the gaps. *)
Lemma grid_level_price_exact (g : Globals) (side : string) (i : nat) :
  (i < length (side_rows g side))%nat →
  (calculate_grid_level_price g side (Z.of_nat i)
   == if String.eqb side "buy"
      then side_anchor g side - gap_total (side_rows g side) i
      else side_anchor g side + gap_total (side_rows g side) i)%Q.
Proof.
  unfold calculate_grid_level_price, side_rows, side_anchor, gap_total, grid_walk.
  replace (Z.to_nat (Z.of_nat i + 1)) with (S i) by lia.
  destruct (String.eqb side "buy"); intros Hi.
  - apply grid_walk_minus. lia.
  - apply grid_walk_plus. lia.
Qed.

(** The loop over [range(n)] with its bounds test is a left fold over
    the first [n] elements. *)
Lemma range_walk_fold {A B : Type} (step : A → B → A) (l : list B) (a : A) (n : nat) :
  (n ≤ length l)%nat →
  foldl (fun ref i => match l !! i with
                      | Some x => step ref x
                      | None => ref
                      end) a (seq 0 n)
  = foldl step a (take n l).
Proof.
  induction n as [|n IH]; intros Hn; [reflexivity|].
  rewrite seq_S, foldl_app. cbn [foldl Nat.add].
  destruct (lookup_lt_is_Some_2 l n ltac:(lia)) as [x Hx].
  rewrite Hx, (take_S_r _ _ _ Hx), foldl_app, IH by lia. reflexivity.
Qed.

(** C7 (amended). For each side, anchor [A], layer table [L] and index
    [i < |L|], the trigger price computed by [calculate_grid_level_price]
    is the anchor with the gaps of layers 0 through [i] subtracted (buy
    side) or added (sell side) one after another, in table order:
    [(..((A - L[0].gap) - L[1].gap) ..) - L[i].gap].  This holds of the
    function on exact numbers and of the function on doubles, where
    every step rounds. *)
Theorem C7_grid_level_price (side : string) (i : nat) :
  (∀ g : Globals,
     (i < length (side_rows g side))%nat →
     calculate_grid_level_price g side (Z.of_nat i)
     = foldl (if String.eqb side "buy" then Qminus else Qplus) (side_anchor g side)
         (GridRow.dollar <$> take (S i) (side_rows g side))) ∧
  (∀ (buy_ref sell_ref : PrimFloat.float) (gaps_buy gaps_sell : list PrimFloat.float),
     (i < length (if String.eqb side "buy" then gaps_buy else gaps_sell))%nat →
     Binary64.calculate_grid_level_price buy_ref sell_ref gaps_buy gaps_sell side
       (Z.of_nat i)
     = foldl (if String.eqb side "buy" then PrimFloat.sub else PrimFloat.add)
         (if String.eqb side "buy" then buy_ref else sell_ref)
         (take (S i) (if String.eqb side "buy" then gaps_buy else gaps_sell))).
Proof.
  split.
  - intros g Hi.
    unfold calculate_grid_level_price, side_rows, side_anchor, grid_walk in *.
    replace (Z.to_nat (Z.of_nat i + 1)) with (S i) by lia.
    rewrite foldl_fmap.
    destruct (String.eqb side "buy");
      apply (range_walk_fold (fun ref row => _ ref (GridRow.dollar row))); lia.
  - intros buy_ref sell_ref gaps_buy gaps_sell Hi.
    unfold Binary64.calculate_grid_level_price, Binary64.grid_walk.
    replace (Z.to_nat (Z.of_nat i + 1)) with (S i) by lia.
    destruct (String.eqb side "buy"); apply range_walk_fold; lia.
Qed.

Lemma C7_grid_level_price_witness :
  calculate_grid_level_price Sample.armed "buy" 1
  = (buy_start_ref (rt_of Sample.armed) - 1 - (3 # 2))%Q ∧
  Binary64.calculate_grid_level_price Binary64.d100 Binary64.d100
    [Binary64.d0_2; Binary64.d0_4] [] "buy" 1
  = PrimFloat.sub (PrimFloat.sub Binary64.d100 Binary64.d0_2) Binary64.d0_4.
Proof.
  destruct (C7_grid_level_price "buy" 1) as [HQ HF].
  split.
  - apply (HQ Sample.armed). vm_compute. lia.
  - apply (HF Binary64.d100 Binary64.d100 [Binary64.d0_2; Binary64.d0_4] []).
    vm_compute. lia.
Defined.

(** C7 (as stated) fails on doubles.  With anchor 100.0 and the gaps
    0.2 and 0.4 the buy price of layer 1 is computed as
    (100.0 - 0.2) - 0.4 = 99.39999999999999, whereas 100.0 minus the sum
    0.2 + 0.4 is the double 99.4; nor is the computed price the exact
    difference of the anchor and the exact sum of the two gaps. *)
Lemma C7_rounding_counterexample :
  Binary64.calculate_grid_level_price Binary64.d100 Binary64.d100
    [Binary64.d0_2; Binary64.d0_4] [] "buy" 1
  = Binary64.d99_39999999999999 ∧
  PrimFloat.sub Binary64.d100 (PrimFloat.add Binary64.d0_2 Binary64.d0_4)
  = Binary64.d99_4 ∧
  PrimFloat.eqb
    (Binary64.calculate_grid_level_price Binary64.d100 Binary64.d100
       [Binary64.d0_2; Binary64.d0_4] [] "buy" 1)
    (PrimFloat.sub Binary64.d100 (PrimFloat.add Binary64.d0_2 Binary64.d0_4))
  = false ∧
  ¬ (Binary64.exact
       (Binary64.calculate_grid_level_price Binary64.d100 Binary64.d100
          [Binary64.d0_2; Binary64.d0_4] [] "buy" 1)
     == Binary64.exact Binary64.d100
        - (Binary64.exact Binary64.d0_2 + Binary64.exact Binary64.d0_4))%Q.
Proof.
  split; [vm_compute; reflexivity|].
  split; [vm_compute; reflexivity|].
  split; [vm_compute; reflexivity|].
  vm_compute. intros H. discriminate H.
Qed.

(** ** Error gate *)

Lemma truthy_ne (s : string) : Py.truthy s = true ↔ s ≠ "".
Proof. destruct s; simpl; split; congruence. Qed.

Lemma truthy_false (s : string) : Py.truthy s = false ↔ s = "".
Proof. destruct s; simpl; split; congruence. Qed.

(** C3. A tick that arrives while [error_status] is non-empty is
    answered WAIT with that error and leaves the whole state (runtime,
    settings, price history) as it was; a tick whose reconciliation sets
    [error_status] is answered WAIT with the error as well. *)
Theorem C3_error_gate (e : Env) (tick : TickData.t) (g : Globals) :
  error_status (rt_of g) ≠ "" ∨ error_status (rt_of (reconcile e tick g)) ≠ "" →
  (∃ err, err ≠ "" ∧ (handle_tick e tick g).2 = Wait (Some err)) ∧
  action_of (handle_tick e tick g).2 = ActWAIT ∧
  (error_status (rt_of g) ≠ "" →
   handle_tick e tick g = (g, Wait (Some (error_status (rt_of g))))) ∧
  (error_status (rt_of g) = "" →
   (handle_tick e tick g).2 = Wait (Some (error_status (rt_of (reconcile e tick g))))).
Proof.
  intros H. unfold handle_tick.
  destruct (Py.truthy (error_status (rt_of g))) eqn:Hgate.
  - apply truthy_ne in Hgate. simpl.
    repeat split; eauto. intros Hempty. contradiction.
  - apply truthy_false in Hgate.
    destruct H as [H|H]; [contradiction|].
    apply truthy_ne in H as Ht. rewrite Ht. simpl.
    repeat split; eauto. intros Hne. contradiction.
Qed.

Lemma C3_error_gate_witness :
  handle_tick (Sample.env 20) (Sample.tick 97 97 []) Sample.locked
  = (Sample.locked, Wait (Some "CRITICAL: Identity Conflict.")).
Proof.
  apply (C3_error_gate (Sample.env 20) (Sample.tick 97 97 []) Sample.locked).
  - left. vm_compute. discriminate.
  - vm_compute. discriminate.
Defined.

(** ** The comment grammar *)

Lemma fullmatch_Void s : Re.fullmatch Re.Void s = false.
Proof. induction s as [|c s IH]; simpl; auto. Qed.

Lemma fullmatch_Eps s : Re.fullmatch Re.Eps s = true ↔ s = "".
Proof.
  destruct s as [|c s]; simpl; [tauto|].
  rewrite fullmatch_Void. split; discriminate.
Qed.

Lemma fullmatch_Alt r1 r2 s :
  Re.fullmatch (Re.Alt r1 r2) s = Re.fullmatch r1 s || Re.fullmatch r2 s.
Proof.
  revert r1 r2. induction s as [|c s IH]; intros r1 r2; simpl; [reflexivity|].
  apply IH.
Qed.

Lemma fullmatch_Cat r1 r2 s :
  Re.fullmatch (Re.Cat r1 r2) s = true ↔
  ∃ s1 s2, s = s1 +:+ s2 ∧ Re.fullmatch r1 s1 = true ∧ Re.fullmatch r2 s2 = true.
Proof.
  revert r1 r2. induction s as [|c s IH]; intros r1 r2; simpl.
  - rewrite andb_true_iff. split.
    + intros [H1 H2]. exists "", "". auto.
    + intros (s1 & s2 & Hs & H1 & H2).
      destruct s1; [|discriminate Hs]. destruct s2; [|discriminate Hs]. auto.
  - destruct (Re.nullable r1) eqn:Hn.
    + rewrite fullmatch_Alt, orb_true_iff, IH. split.
      * intros [(s1 & s2 & -> & H1 & H2)|H].
        -- exists (String c s1), s2. auto.
        -- exists "", (String c s). auto.
      * intros (s1 & s2 & Hs & H1 & H2). destruct s1 as [|c1 s1].
        -- change (String c s = s2) in Hs. right. rewrite <- Hs in H2. exact H2.
        -- change (String c s = String c1 (s1 +:+ s2)) in Hs.
           injection Hs as <- ->. left. exists s1, s2. auto.
    + rewrite IH. split.
      * intros (s1 & s2 & -> & H1 & H2). exists (String c s1), s2. auto.
      * intros (s1 & s2 & Hs & H1 & H2). destruct s1 as [|c1 s1].
        -- simpl in H1. congruence.
        -- change (String c s = String c1 (s1 +:+ s2)) in Hs.
           injection Hs as <- ->. exists s1, s2. auto.
Qed.

Lemma incl_Cat r1 r1' r2 r2' :
  re_incl r1 r1' → re_incl r2 r2' → re_incl (Re.Cat r1 r2) (Re.Cat r1' r2').
Proof.
  intros H1 H2 s Hs. apply fullmatch_Cat in Hs as (s1 & s2 & -> & Ha & Hb).
  apply fullmatch_Cat. exists s1, s2. auto.
Qed.

Lemma incl_Alt_swap r1 r2 : re_incl (Re.Alt r1 r2) (Re.Alt r2 r1).
Proof. intros s. rewrite !fullmatch_Alt, orb_comm. auto. Qed.

Lemma incl_Class (f f' : ascii → bool) :
  (∀ c, f c = true → f' c = true) → re_incl (Re.Class f) (Re.Class f').
Proof.
  intros H [|c s]; simpl; [auto|].
  destruct (f c) eqn:Hc; [|now rewrite fullmatch_Void].
  now rewrite (H c Hc).
Qed.

Lemma incl_times n r r' : re_incl r r' → re_incl (Re.times n r) (Re.times n r').
Proof.
  intros H. induction n as [|n IH]; simpl; [intros s; auto|].
  now apply incl_Cat.
Qed.

(** Every comment of the lowercase grammar matches the pattern of the
    code, which only adds the uppercase hex digits. *)
Lemma lowercase_grammar_accepted s :
  lowercase_grammar_match s = true → TRADE_ID_PATTERN_match s = true.
Proof.
  assert (H : re_incl lowercase_grammar TRADE_ID_PATTERN).
  { unfold lowercase_grammar, TRADE_ID_PATTERN.
    apply incl_Cat; [apply incl_Alt_swap|].
    apply incl_Cat; [intros ?; auto|].
    apply incl_Cat; [|intros ?; auto].
    apply incl_times, incl_Class. intros c. unfold hex_lower, hex_any_case.
    intros ->. reflexivity. }
  unfold lowercase_grammar_match, TRADE_ID_PATTERN_match, Re.match_anchored.
  rewrite !orb_true_iff, !andb_true_iff. intros [H1|[H1 H2]]; auto.
Qed.

(** ** Reconciliation *)

Lemma absorb_position_unmatched e rt p maps :
  TRADE_ID_PATTERN_match (Position.comment p) = false →
  absorb_position e rt p maps = inr maps.
Proof. intros H. unfold absorb_position. now rewrite H. Qed.

Lemma absorb_positions_skip e rt p ps1 ps2 maps :
  TRADE_ID_PATTERN_match (Position.comment p) = false →
  absorb_positions e rt (ps1 ++ p :: ps2) maps = absorb_positions e rt (ps1 ++ ps2) maps.
Proof.
  intros H. revert maps.
  induction ps1 as [|q ps1 IH]; intros maps; simpl.
  - now rewrite absorb_position_unmatched.
  - destruct (absorb_position e rt q maps); [reflexivity|apply IH].
Qed.

Lemma update_exec_stats_cases e tick rt :
  (∃ msg, absorb_positions e rt (TickData.positions tick)
            (buy_exec_map rt, sell_exec_map rt) = inl msg ∧
          update_exec_stats e tick rt = set_error_status msg rt) ∨
  (∃ bm sm, absorb_positions e rt (TickData.positions tick)
              (buy_exec_map rt, sell_exec_map rt) = inr (bm, sm) ∧
            update_exec_stats e tick rt
            = set_sell_exec_map (cumulate sm) (set_buy_exec_map (cumulate bm) rt)).
Proof.
  unfold update_exec_stats.
  destruct (absorb_positions _ _ _ _) as [msg|[bm sm]]; eauto.
Qed.

(** C1 (amended). A position whose comment does not match the pattern
    the code compiles, [^(sell|buy)_[0-9a-fA-F]{8}_idx\d+$] with hex
    digits of either case, is ignored by the reconciler: the result of
    [update_exec_stats] is the one obtained without that position, so no
    exec-map entry is written and [error_status] is not set for it.
    Such a comment is outside the lowercase grammar as well. *)
Theorem C1_unmatched_comment_ignored (e : Env) (rt : RuntimeState)
    (tick : TickData.t) (ps1 ps2 : list Position.t) (p : Position.t) :
  TRADE_ID_PATTERN_match (Position.comment p) = false →
  lowercase_grammar_match (Position.comment p) = false ∧
  update_exec_stats e (with_positions (ps1 ++ p :: ps2) tick) rt
  = update_exec_stats e (with_positions (ps1 ++ ps2) tick) rt.
Proof.
  intros H. split.
  - destruct (lowercase_grammar_match (Position.comment p)) eqn:Hl; [|reflexivity].
    apply lowercase_grammar_accepted in Hl. congruence.
  - unfold update_exec_stats, with_positions. simpl.
    now rewrite absorb_positions_skip.
Qed.

Lemma C1_unmatched_comment_ignored_witness :
  update_exec_stats (Sample.env 20)
    (with_positions ([Sample.fill0] ++ Sample.manual :: [Sample.fill1])
       (Sample.tick 97 97 [])) (rt_of Sample.both_layers)
  = update_exec_stats (Sample.env 20)
      (with_positions ([Sample.fill0] ++ [Sample.fill1]) (Sample.tick 97 97 []))
      (rt_of Sample.both_layers).
Proof.
  apply (C1_unmatched_comment_ignored (Sample.env 20) (rt_of Sample.both_layers)
           (Sample.tick 97 97 []) [Sample.fill0] [Sample.fill1] Sample.manual).
  vm_compute. reflexivity.
Defined.

(** C1 (as stated) fails: a comment with an uppercase hash is outside
    the lowercase grammar, yet the reconciler does not ignore it. *)
Lemma C1_uppercase_hash_not_ignored :
  lowercase_grammar_match (Position.comment Sample.foreign) = false ∧
  error_status (update_exec_stats (Sample.env 20)
                  (Sample.tick 97 97 [Sample.foreign]) default_RuntimeState)
  = "CRITICAL: Identity Conflict. Unknown Buy trade 7 detected." ∧
  update_exec_stats (Sample.env 20) (Sample.tick 97 97 [Sample.foreign])
    default_RuntimeState
  ≠ update_exec_stats (Sample.env 20) (Sample.tick 97 97 []) default_RuntimeState.
Proof.
  split; [vm_compute; reflexivity|].
  assert (Hl : error_status (update_exec_stats (Sample.env 20)
                                (Sample.tick 97 97 [Sample.foreign]) default_RuntimeState)
               = "CRITICAL: Identity Conflict. Unknown Buy trade 7 detected.")
    by (vm_compute; reflexivity).
  assert (Hr : error_status (update_exec_stats (Sample.env 20)
                                (Sample.tick 97 97 []) default_RuntimeState) = "")
    by (vm_compute; reflexivity).
  split; [exact Hl|].
  intros H. rewrite H, Hr in Hl. discriminate Hl.
Qed.

(** ** Frame properties of reconciliation *)

Lemma reconcile_pending e tick g :
  pending_actions (rt_of (reconcile e tick g)) = pending_actions (rt_of g).
Proof.
  unfold reconcile.
  destruct (update_exec_stats_cases e tick (rt_of (market_update e tick g)))
    as [(msg & _ & ->)|(bm & sm & _ & ->)];
    unfold market_update; simpl; destruct (last (price_history g)) as [[? ?]|];
    reflexivity.
Qed.

(** ** Emergency close *)

Lemma decide_stage_pending e tick g action rest :
  pending_actions (rt_of g) = action :: rest →
  decide_stage e tick g
  = (put_rt (set_pending_actions rest (rt_of g)) g,
     Some (CloseAll (if Py.str_in "BUY" action then buy_id (rt_of g)
                     else if Py.str_in "SELL" action then sell_id (rt_of g)
                     else "server"))).
Proof.
  intros H. unfold decide_stage, and_then at 1, pending_stage. rewrite H. reflexivity.
Qed.

(** C9 (amended). After an emergency-close command issued on an empty
    administrative queue, the next tick whose reconciliation raises no
    identity conflict pops the entry and emits CLOSE_ALL with the
    generic comment ["server"], which no minted session id equals. *)
Theorem C9_emergency_close_tag (e : Env) (tick : TickData.t) (g : Globals)
    (buy_switch sell_switch cyclic : option bool) :
  pending_actions (rt_of g) = [] →
  error_status
    (rt_of (reconcile e tick (control buy_switch sell_switch cyclic (Some true) g).1)) = "" →
  (handle_tick e tick (control buy_switch sell_switch cyclic (Some true) g).1).2
  = CloseAll "server" ∧
  pending_actions
    (rt_of (handle_tick e tick (control buy_switch sell_switch cyclic (Some true) g).1).1)
  = [] ∧
  (∀ u, get_hash "buy" u ≠ "server" ∧ get_hash "sell" u ≠ "server").
Proof.
  intros Hq Herr.
  set (g1 := (control buy_switch sell_switch cyclic (Some true) g).1) in *.
  assert (Hp : pending_actions (rt_of (reconcile e tick g1)) = ["CLOSE_ALL_EMERGENCY"]).
  { rewrite reconcile_pending. subst g1. simpl. now rewrite Hq. }
  unfold handle_tick.
  replace (Py.truthy (error_status (rt_of g1))) with false by reflexivity.
  rewrite Herr, (decide_stage_pending _ _ _ _ _ Hp). simpl.
  split; [reflexivity|]. split; [reflexivity|].
  intros u. unfold get_hash. simpl. split; discriminate.
Qed.

Lemma C9_emergency_close_tag_witness :
  (handle_tick (Sample.env 20) (Sample.tick 97 97 [])
     (control None None None (Some true) Sample.both_layers).1).2
  = CloseAll "server".
Proof.
  apply (C9_emergency_close_tag (Sample.env 20) (Sample.tick 97 97 [])
           Sample.both_layers None None None); vm_compute; reflexivity.
Defined.

(** C9 (as stated) fails: the comment of the CLOSE_ALL that answers an
    emergency close is not the literal ["CLOSE_ALL_EMERGENCY"]. *)
Lemma C9_comment_is_not_the_queue_entry :
  error_status (rt_of (control None None None (Some true) initial).1) = "" ∧
  pending_actions (rt_of (control None None None (Some true) initial).1)
  = ["CLOSE_ALL_EMERGENCY"] ∧
  (handle_tick (Sample.env 20) (Sample.tick 97 97 [])
     (control None None None (Some true) initial).1).2
  ≠ CloseAll "CLOSE_ALL_EMERGENCY".
Proof.
  split; [reflexivity|]. split; [reflexivity|].
  assert (Hs : (handle_tick (Sample.env 20) (Sample.tick 97 97 [])
                  (control None None None (Some true) initial).1).2
               = CloseAll "server") by (vm_compute; reflexivity).
  rewrite Hs. discriminate.
Qed.

(** ** External close *)

Lemma Py_le_true a b : Py.le a b = true ↔ (a <= b)%Q.
Proof. apply Qle_bool_iff. Qed.

Lemma Py_le_false a b : Py.le a b = false ↔ (b < a)%Q.
Proof.
  unfold Py.le. split; intros H.
  - apply Qnot_le_lt. intros Hle. apply Qle_bool_iff in Hle. congruence.
  - destruct (Qle_bool a b) eqn:E; [|reflexivity].
    apply Qle_bool_iff in E. lra.
Qed.

Lemma Py_lt_true a b : Py.lt a b = true ↔ (a < b)%Q.
Proof.
  unfold Py.lt. rewrite negb_true_iff. apply Py_le_false.
Qed.

Lemma Py_lt_false a b : Py.lt a b = false ↔ (b <= a)%Q.
Proof.
  unfold Py.lt. rewrite negb_false_iff. apply Py_le_true.
Qed.

Lemma size_pos_nonempty (m : gmap Z RowExecStats.t) :
  (0 <? size m)%nat = true ↔ m ≠ ∅.
Proof.
  rewrite Nat.ltb_lt. split.
  - intros H ->. rewrite map_size_empty in H. lia.
  - intros H. destruct (size m) eqn:E; [|lia].
    apply map_size_empty_inv in E. contradiction.
Qed.

Lemma external_close_buy_grace e tick g :
  (now_ts e - buy_last_order_sent_ts (rt_of g) < EXTERNAL_CLOSE_GRACE_PERIOD)%Q →
  external_close_buy e tick g = g.
Proof.
  intros H. apply Py_le_false in H. unfold external_close_buy.
  rewrite H. now rewrite !andb_false_r.
Qed.

Lemma external_close_sell_grace e tick g :
  (now_ts e - sell_last_order_sent_ts (rt_of g) < EXTERNAL_CLOSE_GRACE_PERIOD)%Q →
  external_close_sell e tick g = g.
Proof.
  intros H. apply Py_le_false in H. unfold external_close_sell.
  rewrite H. now rewrite !andb_false_r.
Qed.

(** What the external-close block leaves behind on the buy side when it
    fires. *)
Lemma external_close_buy_fires e tick g :
  (EXTERNAL_CLOSE_GRACE_PERIOD <= now_ts e - buy_last_order_sent_ts (rt_of g))%Q →
  buy_id (rt_of g) ≠ "" →
  buy_exec_map (rt_of g) ≠ ∅ →
  buy_is_closing (rt_of g) = false →
  count_active_trades tick (buy_id (rt_of g)) = 0%nat →
  let rt' := rt_of (external_close_buy e tick g) in
  buy_id rt' = "" ∧ buy_exec_map rt' = ∅ ∧ buy_hedge_triggered rt' = false ∧
  buy_on rt' = (cyclic_on (rt_of g) && buy_on (rt_of g)) ∧
  buy_start_ref rt'
  = (if cyclic_on (rt_of g) then mid_of tick else buy_start_ref (rt_of g)).
Proof.
  intros Hg Hid Hmap Hcl Hcnt. unfold external_close_buy.
  apply Py_le_true in Hg. apply truthy_ne in Hid. apply size_pos_nonempty in Hmap.
  rewrite Hg, Hid, Hmap, Hcl, Hcnt. simpl.
  destruct (cyclic_on (rt_of g)); simpl; repeat split; reflexivity.
Qed.

Lemma external_close_sell_fires e tick g :
  (EXTERNAL_CLOSE_GRACE_PERIOD <= now_ts e - sell_last_order_sent_ts (rt_of g))%Q →
  sell_id (rt_of g) ≠ "" →
  sell_exec_map (rt_of g) ≠ ∅ →
  sell_is_closing (rt_of g) = false →
  count_active_trades tick (sell_id (rt_of g)) = 0%nat →
  let rt' := rt_of (external_close_sell e tick g) in
  sell_id rt' = "" ∧ sell_exec_map rt' = ∅ ∧ sell_hedge_triggered rt' = false ∧
  sell_on rt' = (cyclic_on (rt_of g) && sell_on (rt_of g)) ∧
  sell_start_ref rt'
  = (if cyclic_on (rt_of g) then mid_of tick else sell_start_ref (rt_of g)).
Proof.
  intros Hg Hid Hmap Hcl Hcnt. unfold external_close_sell.
  apply Py_le_true in Hg. apply truthy_ne in Hid. apply size_pos_nonempty in Hmap.
  rewrite Hg, Hid, Hmap, Hcl, Hcnt. simpl.
  destruct (cyclic_on (rt_of g)); simpl; repeat split; reflexivity.
Qed.

(** The same boundary through the whole tick handler. *)
Example grace_boundary_tick :
  buy_id (rt_of (handle_tick (Sample.env (12 + (4999 # 1000))) (Sample.tick 97 97 [])
                   Sample.both_layers).1) = "buy_01234567" ∧
  buy_id (rt_of (handle_tick (Sample.env (12 + (5001 # 1000))) (Sample.tick 97 97 [])
                   Sample.both_layers).1) = "".
Proof. split; vm_compute; reflexivity. Qed.

(** The sibling reset, the closing confirmation of lines 425-428, does
    zero the anchor in non-cyclic mode. *)
Example closing_confirmation_zeroes_anchor :
  cyclic_on (rt_of Sample.closing) = false ∧
  buy_start_ref (rt_of Sample.closing) = 100%Q ∧
  (handle_tick (Sample.env 20) (Sample.tick 97 97 []) Sample.closing).2 = Wait None ∧
  buy_start_ref (rt_of (handle_tick (Sample.env 20) (Sample.tick 97 97 [])
                          Sample.closing).1) = 0%Q.
Proof. vm_compute. repeat split; reflexivity. Qed.

(** C6. The external-close reset in non-cyclic mode on a concrete
    session (anchor 100, two layers executed, last order at time 12, no
    broker position at time 20): the tick answers WAIT, clears the
    session id, the exec map and the hedge flag and switches the side
    off, but the anchor price keeps its value 100 instead of being
    zeroed. *)
Theorem C6_external_close_keeps_anchor :
  cyclic_on (rt_of Sample.both_layers) = false ∧
  buy_start_ref (rt_of Sample.both_layers) = 100%Q ∧
  size (buy_exec_map (rt_of Sample.both_layers)) = 2%nat ∧
  (handle_tick (Sample.env 20) (Sample.tick 97 97 []) Sample.both_layers).2 = Wait None ∧
  let rt' := rt_of (handle_tick (Sample.env 20) (Sample.tick 97 97 [])
                      Sample.both_layers).1 in
  buy_id rt' = "" ∧ size (buy_exec_map rt') = 0%nat ∧ buy_hedge_triggered rt' = false ∧
  buy_on rt' = false ∧ buy_start_ref rt' = 100%Q.
Proof. vm_compute. repeat split; reflexivity. Qed.

(** ** Settings update *)

Lemma rows_dict_sound (rows : list GridRow.t) (i : Z) (old : GridRow.t) :
  rows_dict rows !! i = Some old → GridRow.index old = i ∧ old ∈ rows.
Proof.
  unfold rows_dict.
  assert (G : ∀ (d : gmap Z GridRow.t) (seen : list GridRow.t),
             (∀ j r, d !! j = Some r → GridRow.index r = j ∧ r ∈ seen) →
             foldl (fun d r => <[GridRow.index r := r]> d) d rows !! i = Some old →
             GridRow.index old = i ∧ old ∈ seen ++ rows).
  { induction rows as [|r rows IH]; intros d seen Hd H; simpl in H.
    - rewrite app_nil_r. eauto.
    - replace (seen ++ r :: rows) with ((seen ++ [r]) ++ rows)
        by (rewrite <- app_assoc; reflexivity).
      apply (IH (<[GridRow.index r := r]> d)); [|exact H].
      intros j r' Hj. destruct (decide (GridRow.index r = j)) as [<-|Hne].
      + rewrite lookup_insert_eq in Hj. injection Hj as <-.
        split; [reflexivity|]. apply elem_of_app. right. apply list_elem_of_singleton.
        reflexivity.
      + rewrite lookup_insert_ne in Hj by exact Hne.
        destruct (Hd _ _ Hj). split; [assumption|]. apply elem_of_app. now left. }
  intros H. apply (G ∅ []); [|exact H].
  intros j r Hj. rewrite lookup_empty in Hj. discriminate Hj.
Qed.

Lemma merge_rows_flat executed current new_rows :
  merge_rows executed current new_rows
  = mjoin (merge_row executed current <$> new_rows).
Proof.
  unfold merge_rows.
  assert (G : ∀ acc,
             foldl (fun final new_row =>
                      if Py.le (GridRow.dollar new_row) 0 || Py.le (GridRow.lots new_row) 0
                      then final
                      else
                        match executed (GridRow.index new_row),
                              current !! GridRow.index new_row with
                        | true, Some old =>
                            final ++ [GridRow.mk (GridRow.index old) (GridRow.dollar old)
                                        (GridRow.lots old) (GridRow.alert new_row)]
                        | _, _ => final ++ [new_row]
                        end) acc new_rows
             = acc ++ mjoin (merge_row executed current <$> new_rows)).
  { induction new_rows as [|r rows IH]; intros acc; simpl.
    - now rewrite app_nil_r.
    - rewrite IH. unfold merge_row at 2.
      destruct (Py.le (GridRow.dollar r) 0 || Py.le (GridRow.lots r) 0);
        [reflexivity|].
      destruct (executed (GridRow.index r)), (current !! GridRow.index r);
        now rewrite <- app_assoc. }
  apply (G []).
Qed.

Lemma merge_rows_keeps executed current new_rows r old :
  r ∈ new_rows →
  (0 < GridRow.dollar r)%Q → (0 < GridRow.lots r)%Q →
  executed (GridRow.index r) = true →
  current !! GridRow.index r = Some old →
  GridRow.mk (GridRow.index old) (GridRow.dollar old) (GridRow.lots old) (GridRow.alert r)
  ∈ merge_rows executed current new_rows.
Proof.
  intros Hin Hd Hl Hex Hcur. rewrite merge_rows_flat.
  apply list_elem_of_join. exists (merge_row executed current r). split.
  - unfold merge_row.
    apply Py_le_false in Hd. apply Py_le_false in Hl.
    rewrite Hd, Hl, Hex, Hcur. simpl. apply list_elem_of_singleton. reflexivity.
  - apply list_elem_of_fmap. eauto.
Qed.

Lemma merge_rows_locked executed current new_rows r' old :
  r' ∈ merge_rows executed current new_rows →
  executed (GridRow.index r') = true →
  current !! GridRow.index r' = Some old →
  (∀ j r, current !! j = Some r → GridRow.index r = j) →
  GridRow.dollar r' = GridRow.dollar old ∧ GridRow.lots r' = GridRow.lots old.
Proof.
  intros Hin Hex Hcur Hkeys. rewrite merge_rows_flat in Hin.
  apply list_elem_of_join in Hin as (piece & Hr' & Hpiece).
  apply list_elem_of_fmap in Hpiece as (r & -> & _).
  unfold merge_row in Hr'.
  destruct (Py.le (GridRow.dollar r) 0 || Py.le (GridRow.lots r) 0);
    [now apply elem_of_nil in Hr'|].
  destruct (executed (GridRow.index r)) eqn:Hexr;
    [destruct (current !! GridRow.index r) as [old'|] eqn:Hcurr|];
    apply list_elem_of_singleton in Hr'; subst r'.
  - simpl in *. rewrite (Hkeys _ _ Hcurr) in Hcur. rewrite Hcurr in Hcur.
    injection Hcur as ->. auto.
  - rewrite Hcurr in Hcur. discriminate Hcur.
  - rewrite Hexr in Hex. discriminate Hex.
Qed.

Lemma has_key_true (m : gmap Z RowExecStats.t) (k : Z) :
  has_key m k = true ↔ is_Some (m !! k).
Proof.
  unfold has_key. destruct (m !! k); split; intros H; try reflexivity; eauto.
  - discriminate H.
  - destruct H as [? H]. discriminate H.
Qed.

Lemma update_settings_rows new g g' :
  update_settings new g = inr g' →
  rt_of g' = rt_of g ∧
  rows_buy (st_of g')
  = merge_rows (has_key (buy_exec_map (rt_of g))) (rows_dict (rows_buy (st_of g)))
      (rows_buy new) ∧
  rows_sell (st_of g')
  = merge_rows (has_key (sell_exec_map (rt_of g))) (rows_dict (rows_sell (st_of g)))
      (rows_sell new).
Proof.
  unfold update_settings. intros H.
  destruct (Py.lt (buy_tp_value new) 0 || Py.lt (sell_tp_value new) 0); [discriminate H|].
  destruct (Py.lt (buy_hedge_value new) 0 || Py.lt (sell_hedge_value new) 0);
    [discriminate H|].
  injection H as <-. repeat split.
Qed.

(** The merged table: the submitted rows whose gap and volume pass the
    test of line 825, in their order, each replaced by its locked
    version when its index is executed and configured. *)
Lemma merge_rows_filter (m : gmap Z RowExecStats.t) (rows new_rows : list GridRow.t) :
  merge_rows (has_key m) (rows_dict rows) new_rows
  = (fun r =>
       match m !! GridRow.index r, rows_dict rows !! GridRow.index r with
       | Some _, Some old =>
           GridRow.mk (GridRow.index r) (GridRow.dollar old) (GridRow.lots old)
             (GridRow.alert r)
       | _, _ => r
       end)
    <$> List.filter
          (fun r => negb (Py.le (GridRow.dollar r) 0 || Py.le (GridRow.lots r) 0))
          new_rows.
Proof.
  rewrite merge_rows_flat.
  induction new_rows as [|r new_rows IH]; [reflexivity|].
  rewrite fmap_cons.
  change (mjoin (merge_row (has_key m) (rows_dict rows) r
                 :: (merge_row (has_key m) (rows_dict rows) <$> new_rows)))
    with (merge_row (has_key m) (rows_dict rows) r
          ++ mjoin (merge_row (has_key m) (rows_dict rows) <$> new_rows)).
  rewrite IH. cbn [List.filter].
  unfold merge_row, has_key.
  destruct (Py.le (GridRow.dollar r) 0 || Py.le (GridRow.lots r) 0);
    [reflexivity|].
  cbn [negb]. rewrite fmap_cons.
  destruct (m !! GridRow.index r); [|reflexivity].
  destruct (rows_dict rows !! GridRow.index r) as [old|] eqn:Hold; [|reflexivity].
  now rewrite (proj1 (rows_dict_sound _ _ _ Hold)).
Qed.

(** C5 (amended). In an accepted settings update, the new layer table
    of a side consists of the submitted rows whose gap and volume are
    both positive (a row with [dollar <= 0] or [lots <= 0] is dropped),
    in the submitted order; a row among them whose index is in the live
    exec map of its side and in the current configuration enters with
    the stored gap and volume and its own alert flag, every other one as
    submitted.  So every submitted row with positive gap and volume for
    an executed and configured index is in the new table with the stored
    gap and volume, and every row of the new table with such an index
    carries the stored gap and volume.  The update leaves the runtime
    state, and with it the exec maps, as they are. *)
Theorem C5_settings_keep_executed_layers (new : UserSettings) (g g' : Globals) :
  update_settings new g = inr g' →
  (∀ r old,
     r ∈ rows_buy new → (0 < GridRow.dollar r)%Q → (0 < GridRow.lots r)%Q →
     is_Some (buy_exec_map (rt_of g) !! GridRow.index r) →
     rows_dict (rows_buy (st_of g)) !! GridRow.index r = Some old →
     GridRow.mk (GridRow.index r) (GridRow.dollar old) (GridRow.lots old) (GridRow.alert r)
     ∈ rows_buy (st_of g')) ∧
  (∀ r old,
     r ∈ rows_sell new → (0 < GridRow.dollar r)%Q → (0 < GridRow.lots r)%Q →
     is_Some (sell_exec_map (rt_of g) !! GridRow.index r) →
     rows_dict (rows_sell (st_of g)) !! GridRow.index r = Some old →
     GridRow.mk (GridRow.index r) (GridRow.dollar old) (GridRow.lots old) (GridRow.alert r)
     ∈ rows_sell (st_of g')) ∧
  (∀ r' old,
     r' ∈ rows_buy (st_of g') →
     is_Some (buy_exec_map (rt_of g) !! GridRow.index r') →
     rows_dict (rows_buy (st_of g)) !! GridRow.index r' = Some old →
     GridRow.dollar r' = GridRow.dollar old ∧ GridRow.lots r' = GridRow.lots old) ∧
  (∀ r' old,
     r' ∈ rows_sell (st_of g') →
     is_Some (sell_exec_map (rt_of g) !! GridRow.index r') →
     rows_dict (rows_sell (st_of g)) !! GridRow.index r' = Some old →
     GridRow.dollar r' = GridRow.dollar old ∧ GridRow.lots r' = GridRow.lots old) ∧
  rows_buy (st_of g')
  = (fun r =>
       match buy_exec_map (rt_of g) !! GridRow.index r,
             rows_dict (rows_buy (st_of g)) !! GridRow.index r with
       | Some _, Some old =>
           GridRow.mk (GridRow.index r) (GridRow.dollar old) (GridRow.lots old)
             (GridRow.alert r)
       | _, _ => r
       end)
    <$> List.filter
          (fun r => negb (Py.le (GridRow.dollar r) 0 || Py.le (GridRow.lots r) 0))
          (rows_buy new) ∧
  rows_sell (st_of g')
  = (fun r =>
       match sell_exec_map (rt_of g) !! GridRow.index r,
             rows_dict (rows_sell (st_of g)) !! GridRow.index r with
       | Some _, Some old =>
           GridRow.mk (GridRow.index r) (GridRow.dollar old) (GridRow.lots old)
             (GridRow.alert r)
       | _, _ => r
       end)
    <$> List.filter
          (fun r => negb (Py.le (GridRow.dollar r) 0 || Py.le (GridRow.lots r) 0))
          (rows_sell new) ∧
  rt_of g' = rt_of g.
Proof.
  intros H. apply update_settings_rows in H as (Hrt & -> & ->).
  split; [|split; [|split; [|split; [|split; [|split]]]]].
  - intros r old Hin Hd Hl Hex Hcur.
    rewrite <- (proj1 (rows_dict_sound _ _ _ Hcur)).
    apply merge_rows_keeps; try assumption. now apply has_key_true.
  - intros r old Hin Hd Hl Hex Hcur.
    rewrite <- (proj1 (rows_dict_sound _ _ _ Hcur)).
    apply merge_rows_keeps; try assumption. now apply has_key_true.
  - intros r' old Hin Hex Hcur.
    eapply merge_rows_locked; eauto.
    + now apply has_key_true.
    + intros j r Hj. apply (rows_dict_sound _ _ _ Hj).
  - intros r' old Hin Hex Hcur.
    eapply merge_rows_locked; eauto.
    + now apply has_key_true.
    + intros j r Hj. apply (rows_dict_sound _ _ _ Hj).
  - apply merge_rows_filter.
  - apply merge_rows_filter.
  - exact Hrt.
Qed.

(** On the session of [Sample.one_layer], where layer 0 (gap 1, volume
    0.1) is executed: of the four rows of [Sample.mixed], layer 0 keeps
    its stored gap and volume and takes the new alert flag, the rows of
    volume zero and of gap zero are dropped, and layer 3 is accepted as
    submitted. *)
Lemma C5_settings_keep_executed_layers_witness :
  ∃ g', update_settings Sample.mixed Sample.one_layer = inr g' ∧
        rows_buy (st_of g') = [GridRow.mk 0 1 (1 # 10) true; GridRow.mk 3 4 4 true] ∧
        GridRow.mk 0 1 (1 # 10) true ∈ rows_buy (st_of g').
Proof.
  destruct (update_settings Sample.mixed Sample.one_layer) as [msg|g'] eqn:H;
    [vm_compute in H; discriminate H|].
  exists g'. split; [reflexivity|].
  destruct (C5_settings_keep_executed_layers _ _ _ H)
    as (Hkeep & _ & _ & _ & Hrows & _).
  split.
  - rewrite Hrows. vm_compute. reflexivity.
  - apply (Hkeep (GridRow.mk 0 5 5 true) (GridRow.mk 0 1 (1 # 10) false)).
    + constructor.
    + vm_compute. reflexivity.
    + vm_compute. reflexivity.
    + apply has_key_true. vm_compute. reflexivity.
    + vm_compute. reflexivity.
Defined.

(** C5 (as stated) fails.  On the session of [Sample.one_layer], where
    layer 0 is executed and configured with gap 1 and volume 0.1: a
    submitted row for layer 0 with gap zero is dropped, and so is one
    with volume zero, and the new configuration has no row for the
    executed layer at all.  Nor are the gap and volume of an executed
    layer unchanged after every command: an update that does not submit
    layer 0 removes its row, and the next update sets gap and volume 5
    for the layer, which is still in the exec map. *)
Lemma C5_executed_layer_not_retained :
  is_Some (buy_exec_map (rt_of Sample.one_layer) !! 0) ∧
  rows_dict (rows_buy (st_of Sample.one_layer)) !! 0 = Some (GridRow.mk 0 1 (1 # 10) false) ∧
  (GridRow.mk 0 0 (1 # 2) true ∈ rows_buy Sample.zero_gap ∧
   ∃ g', update_settings Sample.zero_gap Sample.one_layer = inr g' ∧
         rows_buy (st_of g') = []) ∧
  (GridRow.mk 0 (1 # 2) 0 true ∈ rows_buy Sample.zero_lots ∧
   ∃ g', update_settings Sample.zero_lots Sample.one_layer = inr g' ∧
         rows_buy (st_of g') = []) ∧
  (∃ g1 g2,
     update_settings Sample.without_layer0 Sample.one_layer = inr g1 ∧
     update_settings Sample.layer0_anew g1 = inr g2 ∧
     is_Some (buy_exec_map (rt_of g2) !! 0) ∧
     rows_buy (st_of g2)
     = [GridRow.mk 0 5 5 false; GridRow.mk 1 (3 # 2) (2 # 10) false]).
Proof.
  split; [apply has_key_true; vm_compute; reflexivity|].
  split; [vm_compute; reflexivity|].
  split; [|split].
  - split; [constructor|].
    eexists. split; [reflexivity|]. vm_compute. reflexivity.
  - split; [constructor|].
    eexists. split; [reflexivity|]. vm_compute. reflexivity.
  - eexists _, _. split; [reflexivity|]. split; [reflexivity|].
    split; [apply has_key_true; vm_compute; reflexivity|].
    vm_compute. reflexivity.
Qed.

(** ** Hedge, Scenario A *)

Lemma decide_stage_to_hedge e tick g :
  pending_actions (rt_of g) = [] →
  buy_is_closing (rt_of g) = false →
  sell_is_closing (rt_of g) = false →
  decide_stage e tick g
  = (hedge_stage e tick >-> take_profit_stage tick >->
     external_close_stage e tick >-> accumulate_stage e tick) g.
Proof.
  intros Hp Hb Hs.
  unfold decide_stage, and_then at 1, pending_stage. rewrite Hp.
  unfold and_then at 1, closing_stage, and_then at 1, closing_buy_stage. rewrite Hb.
  unfold closing_sell_stage. rewrite Hs. reflexivity.
Qed.





Example hedge_scenario_A_reply :
  handle_tick (Sample.env 13)
    (Sample.tick 95 95 [Sample.fill0; Sample.manual; Sample.fill1]) Sample.hedged
  = (put_st (set_rows_sell [GridRow.mk 0 0 (Py.sum [1 # 10; 2 # 10]) true]
               (st_of Sample.hedged))
       (put_rt
          (set_sell_last_order_sent_ts 13
             (set_sell_exec_map
                {[ 0 := RowExecStats.new 0 95 (Py.sum [1 # 10; 2 # 10]) 0
                          "2025-01-01T00:00:00" ]}
                (set_sell_waiting_limit false
                   (set_sell_on true
                      (set_sell_start_ref 95
                         (set_sell_id "sell_fedcba98"
                            (set_buy_hedge_triggered true
                               (rt_of (reconcile (Sample.env 13)
                                         (Sample.tick 95 95
                                            [Sample.fill0; Sample.manual; Sample.fill1])
                                         Sample.hedged)))))))))
          (reconcile (Sample.env 13)
             (Sample.tick 95 95 [Sample.fill0; Sample.manual; Sample.fill1])
             Sample.hedged)),
     Open SELL (Py.sum [1 # 10; 2 # 10]) "sell_fedcba98_idx0" true).
Proof. vm_compute. reflexivity. Qed.

(** ** The hedge flag needs a session *)

Lemma preserves_and_then P a b :
  preserves P a → preserves P b → preserves P (a >-> b).
Proof.
  intros Ha Hb g Hg. unfold and_then.
  specialize (Ha g Hg). destruct (a g) as [g' [r|]]; simpl in *; auto.
Qed.

Lemma preserves_silently P f :
  (∀ g, P g → P (f g)) → preserves P (silently f).
Proof. intros H g Hg. apply H, Hg. Qed.

Lemma get_hash_nonempty side u : get_hash side u ≠ "".
Proof. unfold get_hash. destruct side; discriminate. Qed.

(** Closes a goal of the invariant after all tests of a block have
    been destructed. *)
Ltac session_flag :=
  unfold hedge_needs_session in *; simpl in *;
  repeat match goal with
         | H : _ ∧ _ |- _ => destruct H
         | H : _ && _ = true |- _ => apply andb_prop in H
         | H : negb _ = true |- _ => apply negb_true_iff in H
         | H : Py.truthy _ = true |- _ => apply truthy_ne in H
         end;
  split; intros; auto; try congruence;
  try match goal with
      | H : get_hash _ _ = "" |- _ => now apply get_hash_nonempty in H
      end.

Ltac stage_cases :=
  repeat match goal with
         | |- context [if ?b then _ else _] => destruct b eqn:?
         | |- context [match ?x with _ => _ end] => destruct x eqn:?
         end.

Lemma market_update_session e tick g :
  hedge_needs_session g → hedge_needs_session (market_update e tick g).
Proof.
  intros H. unfold market_update. destruct (last (price_history g)) as [[? ?]|];
    session_flag.
Qed.

Lemma reconcile_session e tick g :
  hedge_needs_session g → hedge_needs_session (reconcile e tick g).
Proof.
  intros H. apply (market_update_session e tick) in H. unfold reconcile.
  destruct (update_exec_stats_cases e tick (rt_of (market_update e tick g)))
    as [(msg & _ & ->)|(bm & sm & _ & ->)]; session_flag.
Qed.

Lemma pending_stage_session : preserves hedge_needs_session pending_stage.
Proof. intros g H. unfold pending_stage. stage_cases; session_flag. Qed.

Lemma closing_buy_stage_session tick :
  preserves hedge_needs_session (closing_buy_stage tick).
Proof. intros g H. unfold closing_buy_stage. stage_cases; session_flag. Qed.

Lemma closing_sell_stage_session tick :
  preserves hedge_needs_session (closing_sell_stage tick).
Proof. intros g H. unfold closing_sell_stage. stage_cases; session_flag. Qed.

Lemma hedge_buy_stage_session e tick :
  preserves hedge_needs_session (hedge_buy_stage e tick).
Proof. intros g H. unfold hedge_buy_stage. stage_cases; session_flag. Qed.

Lemma hedge_sell_stage_session e tick :
  preserves hedge_needs_session (hedge_sell_stage e tick).
Proof. intros g H. unfold hedge_sell_stage. stage_cases; session_flag. Qed.

Lemma tp_buy_stage_session tick : preserves hedge_needs_session (tp_buy_stage tick).
Proof. intros g H. unfold tp_buy_stage. stage_cases; session_flag. Qed.

Lemma tp_sell_stage_session tick : preserves hedge_needs_session (tp_sell_stage tick).
Proof. intros g H. unfold tp_sell_stage. stage_cases; session_flag. Qed.

Lemma external_close_buy_session e tick g :
  hedge_needs_session g → hedge_needs_session (external_close_buy e tick g).
Proof. intros H. unfold external_close_buy. stage_cases; session_flag. Qed.

Lemma external_close_sell_session e tick g :
  hedge_needs_session g → hedge_needs_session (external_close_sell e tick g).
Proof. intros H. unfold external_close_sell. stage_cases; session_flag. Qed.

Lemma accumulate_buy_stage_session e tick :
  preserves hedge_needs_session (accumulate_buy_stage e tick).
Proof. intros g H. unfold accumulate_buy_stage. stage_cases; session_flag. Qed.

Lemma accumulate_sell_stage_session e tick :
  preserves hedge_needs_session (accumulate_sell_stage e tick).
Proof. intros g H. unfold accumulate_sell_stage. stage_cases; session_flag. Qed.

Lemma decide_stage_session e tick :
  preserves hedge_needs_session (decide_stage e tick).
Proof.
  unfold decide_stage, closing_stage, hedge_stage, take_profit_stage,
    external_close_stage, accumulate_stage.
  repeat apply preserves_and_then;
    auto using pending_stage_session, closing_buy_stage_session,
      closing_sell_stage_session, hedge_buy_stage_session, hedge_sell_stage_session,
      tp_buy_stage_session, tp_sell_stage_session, accumulate_buy_stage_session,
      accumulate_sell_stage_session;
    apply preserves_silently;
    auto using external_close_buy_session, external_close_sell_session.
Qed.

Lemma handle_tick_session e tick g :
  hedge_needs_session g → hedge_needs_session (handle_tick e tick g).1.
Proof.
  intros H. unfold handle_tick.
  destruct (Py.truthy (error_status (rt_of g))); [exact H|].
  apply (reconcile_session e tick) in H.
  destruct (Py.truthy (error_status (rt_of (reconcile e tick g)))); [exact H|].
  apply (decide_stage_session e tick) in H.
  destruct (decide_stage e tick (reconcile e tick g)) as [g' [r|]]; exact H.
Qed.

Lemma update_settings_session new g g' :
  update_settings new g = inr g' → hedge_needs_session g → hedge_needs_session g'.
Proof.
  intros Hu H. apply update_settings_rows in Hu as (Hrt & _).
  unfold hedge_needs_session in *. now rewrite Hrt.
Qed.

Lemma control_session b s c x g :
  hedge_needs_session g → hedge_needs_session (control b s c x g).1.
Proof.
  intros H. unfold control.
  destruct (is_true_opt x); [session_flag|].
  destruct b as [b|], s as [s|], c as [c|]; stage_cases; session_flag.
Qed.

Lemma serve_session r g :
  hedge_needs_session g → hedge_needs_session (serve r g).
Proof.
  intros H. destruct r as [e tick|new|b s c x]; simpl.
  - now apply handle_tick_session.
  - destruct (update_settings new g) as [msg|g'] eqn:Hu; [exact H|].
    eapply update_settings_session; eauto.
  - now apply control_session.
Qed.

Lemma run_session rs g :
  hedge_needs_session g → hedge_needs_session (run rs g).
Proof.
  revert g. induction rs as [|r rs IH]; intros g H; simpl; [exact H|].
  apply IH, serve_session, H.
Qed.

(** C10. In every state reachable from the initial state by ticks and
    commands, a side whose session id is empty has its hedge flag
    down. *)
Theorem C10_hedge_flag_needs_session (g : Globals) :
  reachable g →
  (buy_id (rt_of g) = "" → buy_hedge_triggered (rt_of g) = false) ∧
  (sell_id (rt_of g) = "" → sell_hedge_triggered (rt_of g) = false).
Proof.
  intros [rs ->]. apply run_session. split; reflexivity.
Qed.

Lemma C10_hedge_flag_needs_session_witness :
  (buy_id (rt_of (run Sample.session initial)) = "" →
   buy_hedge_triggered (rt_of (run Sample.session initial)) = false) ∧
  (sell_id (rt_of (run Sample.session initial)) = "" →
   sell_hedge_triggered (rt_of (run Sample.session initial)) = false).
Proof.
  apply (C10_hedge_flag_needs_session (run Sample.session initial)).
  exists Sample.session. reflexivity.
Defined.

(** ** Replaying a tick *)

(** *** Keys of the exec maps after reconciliation *)

Lemma record_fill_dom e p parts (m m' : gmap Z RowExecStats.t) :
  record_fill e p parts m = Some m' →
  dom m' = dom m ∪ match parts with
                   | [_; tail] => match Py.int tail with
                                  | Some k => {[k]}
                                  | None => ∅
                                  end
                   | _ => ∅
                   end.
Proof.
  unfold record_fill. intros H.
  destruct parts as [|a [|tail [|b rest]]]; try (simplify_eq; set_solver).
  destruct (Py.int tail) as [k|]; [|discriminate H].
  simplify_eq. rewrite dom_insert_L. set_solver.
Qed.

Lemma absorb_position_dom e rt p (bm sm bm' sm' : gmap Z RowExecStats.t) :
  absorb_position e rt p (bm, sm) = inr (bm', sm') →
  dom bm' = dom bm ∪ from_option singleton ∅ (fill_index "BUY" (buy_id rt) p) ∧
  dom sm' = dom sm ∪ from_option singleton ∅ (fill_index "SELL" (sell_id rt) p).
Proof.
  unfold absorb_position, fill_index. intros H.
  destruct (TRADE_ID_PATTERN_match (Position.comment p)); simpl in *;
    [|simplify_eq; set_solver].
  destruct (Py.str_in "buy_" (Position.comment p)
            && (negb (Py.truthy (buy_id rt))
                || negb (Py.str_in (buy_id rt) (Position.comment p))));
    [discriminate H|].
  destruct (Py.str_in "sell_" (Position.comment p)
            && (negb (Py.truthy (sell_id rt))
                || negb (Py.str_in (sell_id rt) (Position.comment p))));
    [discriminate H|].
  destruct (String.eqb (Position.type p) "BUY") eqn:Hb;
    destruct (String.eqb (Position.type p) "SELL") eqn:Hs; simpl in *.
  - apply String.eqb_eq in Hb, Hs. rewrite Hb in Hs. discriminate Hs.
  - destruct (Py.str_in (buy_id rt) (Position.comment p)); simpl in *;
      [|simplify_eq; set_solver].
    destruct (record_fill e p (Py.split (Position.comment p) "_idx") bm) as [m|] eqn:Hr.
    + simplify_eq. apply record_fill_dom in Hr. rewrite Hr.
      repeat case_match; set_solver.
    + simplify_eq. unfold record_fill in Hr.
      repeat case_match; simplify_eq; set_solver.
  - destruct (Py.str_in (sell_id rt) (Position.comment p)); simpl in *;
      [|simplify_eq; set_solver].
    destruct (record_fill e p (Py.split (Position.comment p) "_idx") sm) as [m|] eqn:Hr.
    + simplify_eq. apply record_fill_dom in Hr. rewrite Hr.
      repeat case_match; set_solver.
    + simplify_eq. unfold record_fill in Hr.
      repeat case_match; simplify_eq; set_solver.
  - simplify_eq. set_solver.
Qed.

Lemma absorb_positions_dom e rt ps (bm sm bm' sm' : gmap Z RowExecStats.t) :
  absorb_positions e rt ps (bm, sm) = inr (bm', sm') →
  dom bm' = dom bm ∪ fill_keys "BUY" (buy_id rt) ps ∧
  dom sm' = dom sm ∪ fill_keys "SELL" (sell_id rt) ps.
Proof.
  unfold fill_keys. revert bm sm.
  induction ps as [|p ps IH]; intros bm sm H; simpl in H.
  - simplify_eq. set_solver.
  - destruct (absorb_position e rt p (bm, sm)) as [msg|[bm1 sm1]] eqn:Hp;
      [discriminate H|].
    apply absorb_position_dom in Hp as [Hb Hs].
    apply IH in H as [Hb' Hs']. rewrite Hb', Hs', Hb, Hs. simpl.
    destruct (fill_index "BUY" (buy_id rt) p), (fill_index "SELL" (sell_id rt) p);
      simpl; set_solver.
Qed.

Lemma cumulate_dom (m : gmap Z RowExecStats.t) : dom (cumulate m) = dom m.
Proof.
  unfold cumulate. generalize (sorted_indices m) as ks. generalize 0%Q at 1 as a.
  generalize 0%Q as b. revert m.
  intros m b a ks. revert m a b.
  induction ks as [|k ks IH]; intros m a b; simpl; [reflexivity|].
  destruct (m !! k) as [row|] eqn:Hk.
  - rewrite IH, dom_insert_L.
    assert (k ∈ dom m) by (apply elem_of_dom; eauto). set_solver.
  - apply IH.
Qed.

(** *** When the blocks before grid expansion stay silent *)

Lemma hedge_buy_stage_quiet e tick g :
  hedge_trigger_buy g tick = false → hedge_buy_stage e tick g = (g, None).
Proof.
  unfold hedge_trigger_buy, hedge_buy_stage. intros H.
  destruct (buy_on (rt_of g) && Py.truthy (buy_id (rt_of g))
            && negb (buy_hedge_triggered (rt_of g))
            && Py.lt 0 (buy_hedge_value (st_of g)) && negb (buy_is_closing (rt_of g)));
    [|reflexivity].
  rewrite andb_true_l in H.
  destruct (basket (buy_id (rt_of g)) tick); [reflexivity|].
  now rewrite H.
Qed.

Lemma hedge_buy_stage_fires e tick g :
  hedge_trigger_buy g tick = true → sell_is_closing (rt_of g) = false →
  ∃ g' r, hedge_buy_stage e tick g = (g', Some r).
Proof.
  unfold hedge_trigger_buy, hedge_buy_stage. intros H Hc.
  apply andb_prop in H as [-> H].
  destruct (basket (buy_id (rt_of g)) tick); [discriminate H|].
  rewrite H. simpl. rewrite Hc. simpl.
  destruct (negb (sell_on (rt_of g)) || negb (Py.truthy (sell_id (rt_of g)))
            || (size (sell_exec_map (rt_of g)) =? 0)%nat); eauto.
  destruct (Py.str_raises (last_index (sell_exec_map (rt_of g)) + 1)); eauto.
Qed.

Lemma hedge_sell_stage_quiet e tick g :
  hedge_trigger_sell g tick = false → hedge_sell_stage e tick g = (g, None).
Proof.
  unfold hedge_trigger_sell, hedge_sell_stage. intros H.
  destruct (sell_on (rt_of g) && Py.truthy (sell_id (rt_of g))
            && negb (sell_hedge_triggered (rt_of g))
            && Py.lt 0 (sell_hedge_value (st_of g)) && negb (sell_is_closing (rt_of g)));
    [|reflexivity].
  rewrite andb_true_l in H.
  destruct (basket (sell_id (rt_of g)) tick); [reflexivity|].
  now rewrite H.
Qed.

Lemma hedge_sell_stage_fires e tick g :
  hedge_trigger_sell g tick = true → buy_is_closing (rt_of g) = false →
  ∃ g' r, hedge_sell_stage e tick g = (g', Some r).
Proof.
  unfold hedge_trigger_sell, hedge_sell_stage. intros H Hc.
  apply andb_prop in H as [-> H].
  destruct (basket (sell_id (rt_of g)) tick); [discriminate H|].
  rewrite H. simpl. rewrite Hc. simpl.
  destruct (negb (buy_on (rt_of g)) || negb (Py.truthy (buy_id (rt_of g)))
            || (size (buy_exec_map (rt_of g)) =? 0)%nat); eauto.
  destruct (Py.str_raises (last_index (buy_exec_map (rt_of g)) + 1)); eauto.
Qed.

Lemma tp_buy_stage_cases tick g :
  tp_buy_stage tick g
  = if tp_trigger_buy g tick
    then (put_rt (set_buy_is_closing true (rt_of g)) g, Some (CloseAll (buy_id (rt_of g))))
    else (g, None).
Proof. reflexivity. Qed.

Lemma tp_sell_stage_cases tick g :
  tp_sell_stage tick g
  = if tp_trigger_sell g tick
    then (put_rt (set_sell_is_closing true (rt_of g)) g,
          Some (CloseAll (sell_id (rt_of g))))
    else (g, None).
Proof. reflexivity. Qed.

(** The tests under which a tick gets past hedge and take profit. *)
Lemma before_accumulate_inv e tick g ga :
  before_accumulate e tick g = (ga, None) →
  pending_actions (rt_of g) = [] ∧
  buy_is_closing (rt_of g) = false ∧ sell_is_closing (rt_of g) = false ∧
  hedge_trigger_buy g tick = false ∧ hedge_trigger_sell g tick = false ∧
  tp_trigger_buy g tick = false ∧ tp_trigger_sell g tick = false ∧
  ga = external_close_sell e tick (external_close_buy e tick g).
Proof.
  unfold before_accumulate, and_then at 1, pending_stage.
  destruct (pending_actions (rt_of g)) as [|a q]; [|discriminate].
  unfold and_then at 1, closing_stage, and_then at 1, closing_buy_stage.
  destruct (buy_is_closing (rt_of g)) eqn:Hcb.
  { destruct (count_active_trades tick (buy_id (rt_of g)) =? 0)%nat; discriminate. }
  unfold closing_sell_stage.
  destruct (sell_is_closing (rt_of g)) eqn:Hcs.
  { destruct (count_active_trades tick (sell_id (rt_of g)) =? 0)%nat; discriminate. }
  unfold and_then at 1, hedge_stage, and_then at 1.
  destruct (hedge_trigger_buy g tick) eqn:Hhb.
  { destruct (hedge_buy_stage_fires e tick g Hhb Hcs) as (g' & r & ->). discriminate. }
  rewrite (hedge_buy_stage_quiet e tick g Hhb).
  destruct (hedge_trigger_sell g tick) eqn:Hhs.
  { destruct (hedge_sell_stage_fires e tick g Hhs Hcb) as (g' & r & ->). discriminate. }
  rewrite (hedge_sell_stage_quiet e tick g Hhs).
  unfold and_then at 1, take_profit_stage, and_then at 1.
  rewrite tp_buy_stage_cases. destruct (tp_trigger_buy g tick) eqn:Htb; [discriminate|].
  rewrite tp_sell_stage_cases. destruct (tp_trigger_sell g tick) eqn:Hts; [discriminate|].
  unfold external_close_stage, and_then, silently. intros H. simplify_eq.
  repeat split; reflexivity.
Qed.

Lemma decide_stage_to_accumulate e tick g :
  pending_actions (rt_of g) = [] →
  buy_is_closing (rt_of g) = false → sell_is_closing (rt_of g) = false →
  hedge_trigger_buy g tick = false → hedge_trigger_sell g tick = false →
  tp_trigger_buy g tick = false → tp_trigger_sell g tick = false →
  decide_stage e tick g
  = accumulate_stage e tick (external_close_sell e tick (external_close_buy e tick g)).
Proof.
  intros Hp Hcb Hcs Hhb Hhs Htb Hts.
  rewrite decide_stage_to_hedge by assumption.
  unfold and_then at 1, hedge_stage, and_then at 1.
  rewrite (hedge_buy_stage_quiet e tick g Hhb), (hedge_sell_stage_quiet e tick g Hhs).
  unfold and_then at 1, take_profit_stage, and_then at 1.
  rewrite tp_buy_stage_cases, Htb, tp_sell_stage_cases, Hts.
  reflexivity.
Qed.

(** *** Frame properties *)

Lemma reconcile_same_sessions e tick g : same_sessions g (reconcile e tick g).
Proof.
  unfold reconcile.
  destruct (update_exec_stats_cases e tick (rt_of (market_update e tick g)))
    as [(msg & _ & ->)|(bm & sm & _ & ->)];
    unfold market_update; simpl; destruct (last (price_history g)) as [[? ?]|];
    repeat split.
Qed.

Lemma absorb_positions_error e rt ps maps msg :
  absorb_positions e rt ps maps = inl msg → msg ≠ "".
Proof.
  revert maps. induction ps as [|p ps IH]; intros maps H; simpl in H;
    [discriminate H|].
  destruct (absorb_position e rt p maps) as [m|maps'] eqn:Hp; [|eauto].
  simplify_eq. unfold absorb_position in Hp.
  repeat case_match; simplify_eq; discriminate.
Qed.

Lemma market_update_rt e tick g :
  buy_id (rt_of (market_update e tick g)) = buy_id (rt_of g) ∧
  sell_id (rt_of (market_update e tick g)) = sell_id (rt_of g) ∧
  buy_exec_map (rt_of (market_update e tick g)) = buy_exec_map (rt_of g) ∧
  sell_exec_map (rt_of (market_update e tick g)) = sell_exec_map (rt_of g) ∧
  error_status (rt_of (market_update e tick g)) = error_status (rt_of g).
Proof.
  unfold market_update. destruct (last (price_history g)) as [[? ?]|]; repeat split.
Qed.

(** The keys of the exec maps after a reconciliation without conflict. *)
Lemma reconcile_dom e tick g :
  error_status (rt_of g) = "" →
  error_status (rt_of (reconcile e tick g)) = "" →
  dom (buy_exec_map (rt_of (reconcile e tick g)))
  = dom (buy_exec_map (rt_of g))
    ∪ fill_keys "BUY" (buy_id (rt_of g)) (TickData.positions tick) ∧
  dom (sell_exec_map (rt_of (reconcile e tick g)))
  = dom (sell_exec_map (rt_of g))
    ∪ fill_keys "SELL" (sell_id (rt_of g)) (TickData.positions tick).
Proof.
  intros Herr Herr'.
  destruct (market_update_rt e tick g) as (Hb & Hs & Hbm & Hsm & Hem).
  unfold reconcile in *.
  destruct (update_exec_stats_cases e tick (rt_of (market_update e tick g)))
    as [(msg & Habs & Hu)|(bm & sm & Habs & Hu)]; rewrite Hu in *; cbn in *.
  - apply absorb_positions_error in Habs. contradiction.
  - apply absorb_positions_dom in Habs as [Hdb Hds].
    rewrite !cumulate_dom, Hdb, Hds, Hb, Hs, Hbm, Hsm. split; reflexivity.
Qed.

Lemma put_rt_id g : put_rt (rt_of g) g = g.
Proof. destruct g as [[st rt ts] h]. reflexivity. Qed.

Lemma external_close_buy_shape e tick g :
  external_close_buy e tick g = g ∨
  buy_id (rt_of (external_close_buy e tick g)) = "".
Proof.
  unfold external_close_buy. repeat case_match; auto.
Qed.

Lemma external_close_sell_shape e tick g :
  external_close_sell e tick g = g ∨
  sell_id (rt_of (external_close_sell e tick g)) = "".
Proof.
  unfold external_close_sell. repeat case_match; auto.
Qed.

(** The sell block of the external-close check leaves the buy side,
    the settings and the shared fields alone. *)
Lemma external_close_sell_frame e tick g :
  let g' := external_close_sell e tick g in
  st_of g' = st_of g ∧
  buy_on (rt_of g') = buy_on (rt_of g) ∧
  buy_id (rt_of g') = buy_id (rt_of g) ∧
  buy_is_closing (rt_of g') = buy_is_closing (rt_of g) ∧
  buy_hedge_triggered (rt_of g') = buy_hedge_triggered (rt_of g) ∧
  buy_waiting_limit (rt_of g') = buy_waiting_limit (rt_of g) ∧
  buy_start_ref (rt_of g') = buy_start_ref (rt_of g) ∧
  buy_exec_map (rt_of g') = buy_exec_map (rt_of g) ∧
  buy_last_order_sent_ts (rt_of g') = buy_last_order_sent_ts (rt_of g) ∧
  error_status (rt_of g') = error_status (rt_of g) ∧
  pending_actions (rt_of g') = pending_actions (rt_of g) ∧
  sell_is_closing (rt_of g') = sell_is_closing (rt_of g) ∧
  (sell_on (rt_of g') = true → sell_on (rt_of g) = true).
Proof.
  unfold external_close_sell. repeat case_match; simpl; repeat split; auto;
    intros; congruence.
Qed.

Lemma external_close_buy_frame e tick g :
  let g' := external_close_buy e tick g in
  st_of g' = st_of g ∧
  sell_on (rt_of g') = sell_on (rt_of g) ∧
  sell_id (rt_of g') = sell_id (rt_of g) ∧
  sell_is_closing (rt_of g') = sell_is_closing (rt_of g) ∧
  sell_hedge_triggered (rt_of g') = sell_hedge_triggered (rt_of g) ∧
  sell_waiting_limit (rt_of g') = sell_waiting_limit (rt_of g) ∧
  sell_start_ref (rt_of g') = sell_start_ref (rt_of g) ∧
  sell_exec_map (rt_of g') = sell_exec_map (rt_of g) ∧
  sell_last_order_sent_ts (rt_of g') = sell_last_order_sent_ts (rt_of g) ∧
  error_status (rt_of g') = error_status (rt_of g) ∧
  pending_actions (rt_of g') = pending_actions (rt_of g) ∧
  buy_is_closing (rt_of g') = buy_is_closing (rt_of g) ∧
  (buy_on (rt_of g') = true → buy_on (rt_of g) = true).
Proof.
  unfold external_close_buy. repeat case_match; simpl; repeat split; auto;
    intros; congruence.
Qed.

(** *** Grid expansion *)

Lemma accumulate_buy_order e tick g g1 v c a :
  accumulate_buy_stage e tick g = (g1, Some (Open BUY v c a)) →
  buy_on (rt_of g) = true ∧ buy_is_closing (rt_of g) = false ∧
  buy_hedge_triggered (rt_of g) = false ∧ buy_id (rt_of g) ≠ "" ∧
  buy_waiting_limit (rt_of g) = false ∧
  ∃ row,
    rows_buy (st_of g) !! size (buy_exec_map (rt_of g)) = Some row ∧
    (0 < GridRow.dollar row)%Q ∧ (0 < GridRow.lots row)%Q ∧
    (TickData.ask tick
     <= calculate_grid_level_price g "buy" (Z.of_nat (size (buy_exec_map (rt_of g)))))%Q ∧
    v = GridRow.lots row ∧ a = GridRow.alert row ∧
    c = buy_id (rt_of g) +:+ "_idx" +:+ Py.str (Z.of_nat (size (buy_exec_map (rt_of g)))) ∧
    g1 = put_rt
           (set_buy_last_order_sent_ts (now_ts e)
              (set_buy_exec_map
                 (<[Z.of_nat (size (buy_exec_map (rt_of g))) :=
                      RowExecStats.new (Z.of_nat (size (buy_exec_map (rt_of g))))
                        (TickData.ask tick) (GridRow.lots row) 0%Q (now_iso e)]>
                    (buy_exec_map (rt_of g))) (rt_of g))) g.
Proof.
  unfold accumulate_buy_stage.
  destruct (buy_on (rt_of g)) eqn:Hon; [|discriminate].
  destruct (buy_is_closing (rt_of g)) eqn:Hcl; [discriminate|].
  destruct (buy_hedge_triggered (rt_of g)) eqn:Hh; [discriminate|].
  cbn [andb negb].
  destruct (Py.truthy (buy_id (rt_of g))) eqn:Hid; cbn [negb].
  - apply truthy_ne in Hid.
    destruct (buy_waiting_limit (rt_of g)) eqn:Hw.
    { destruct (Py.le (TickData.ask tick) (buy_limit_price (st_of g))); discriminate. }
    destruct (rows_buy (st_of g) !! size (buy_exec_map (rt_of g))) as [row|] eqn:Hrow;
      [|discriminate].
    destruct (Py.le (GridRow.dollar row) 0) eqn:Hd; [discriminate|].
    destruct (Py.le (GridRow.lots row) 0) eqn:Hl; [discriminate|].
    cbn [orb]. rewrite put_rt_id.
    destruct (Py.le (TickData.ask tick) _) eqn:Hx; [|discriminate].
    intros H. simplify_eq.
    apply Py_le_false in Hd, Hl. apply Py_le_true in Hx.
    repeat split; eauto 10.
  - destruct (Py.lt 0 (buy_limit_price (st_of g))) eqn:Hlim; cbn.
    { destruct (Py.le (TickData.ask tick) (buy_limit_price (st_of g))); discriminate. }
    rewrite map_size_empty.
    destruct (rows_buy (st_of g) !! 0%nat) as [row|] eqn:Hrow; [|discriminate].
    destruct (Py.le (GridRow.dollar row) 0) eqn:Hd; [discriminate|].
    destruct (Py.le (GridRow.lots row) 0) eqn:Hl; [discriminate|].
    cbn [orb].
    destruct (Py.le (TickData.ask tick) _) eqn:Hx; [|discriminate].
    exfalso. unfold calculate_grid_level_price, grid_walk in Hx. cbn in Hx.
    change (Z.to_nat (Z.of_nat 0 + 1)) with 1%nat in Hx. cbn in Hx.
    rewrite Hrow in Hx. apply Py_le_false in Hd. apply Py_le_true in Hx. lra.
Qed.

Lemma accumulate_sell_order e tick g g1 v c a :
  accumulate_sell_stage e tick g = (g1, Some (Open SELL v c a)) →
  sell_on (rt_of g) = true ∧ sell_is_closing (rt_of g) = false ∧
  sell_hedge_triggered (rt_of g) = false ∧ sell_id (rt_of g) ≠ "" ∧
  sell_waiting_limit (rt_of g) = false ∧
  ∃ row,
    rows_sell (st_of g) !! size (sell_exec_map (rt_of g)) = Some row ∧
    (0 < GridRow.dollar row)%Q ∧ (0 < GridRow.lots row)%Q ∧
    (calculate_grid_level_price g "sell" (Z.of_nat (size (sell_exec_map (rt_of g))))
     <= TickData.bid tick)%Q ∧
    v = GridRow.lots row ∧ a = GridRow.alert row ∧
    c = sell_id (rt_of g) +:+ "_idx" +:+ Py.str (Z.of_nat (size (sell_exec_map (rt_of g)))) ∧
    g1 = put_rt
           (set_sell_last_order_sent_ts (now_ts e)
              (set_sell_exec_map
                 (<[Z.of_nat (size (sell_exec_map (rt_of g))) :=
                      RowExecStats.new (Z.of_nat (size (sell_exec_map (rt_of g))))
                        (TickData.bid tick) (GridRow.lots row) 0%Q (now_iso e)]>
                    (sell_exec_map (rt_of g))) (rt_of g))) g.
Proof.
  unfold accumulate_sell_stage.
  destruct (sell_on (rt_of g)) eqn:Hon; [|discriminate].
  destruct (sell_is_closing (rt_of g)) eqn:Hcl; [discriminate|].
  destruct (sell_hedge_triggered (rt_of g)) eqn:Hh; [discriminate|].
  cbn [andb negb].
  destruct (Py.truthy (sell_id (rt_of g))) eqn:Hid; cbn [negb].
  - apply truthy_ne in Hid.
    destruct (sell_waiting_limit (rt_of g)) eqn:Hw.
    { destruct (Py.le (sell_limit_price (st_of g)) (TickData.bid tick)); discriminate. }
    destruct (rows_sell (st_of g) !! size (sell_exec_map (rt_of g))) as [row|] eqn:Hrow;
      [|discriminate].
    destruct (Py.le (GridRow.dollar row) 0) eqn:Hd; [discriminate|].
    destruct (Py.le (GridRow.lots row) 0) eqn:Hl; [discriminate|].
    cbn [orb]. rewrite put_rt_id.
    destruct (Py.le _ (TickData.bid tick)) eqn:Hx; [|discriminate].
    intros H. simplify_eq.
    apply Py_le_false in Hd, Hl. apply Py_le_true in Hx.
    repeat split; eauto 10.
  - destruct (Py.lt 0 (sell_limit_price (st_of g))) eqn:Hlim; cbn.
    { destruct (Py.le (sell_limit_price (st_of g)) (TickData.bid tick)); discriminate. }
    rewrite map_size_empty.
    destruct (rows_sell (st_of g) !! 0%nat) as [row|] eqn:Hrow; [|discriminate].
    destruct (Py.le (GridRow.dollar row) 0) eqn:Hd; [discriminate|].
    destruct (Py.le (GridRow.lots row) 0) eqn:Hl; [discriminate|].
    cbn [orb].
    destruct (Py.le _ (TickData.bid tick)) eqn:Hx; [|discriminate].
    exfalso. unfold calculate_grid_level_price, grid_walk in Hx. cbn in Hx.
    change (Z.to_nat (Z.of_nat 0 + 1)) with 1%nat in Hx. cbn in Hx.
    rewrite Hrow in Hx. apply Py_le_false in Hd. apply Py_le_true in Hx. lra.
Qed.

(** *** Tests that read the same fields give the same verdict *)

Lemma hedge_trigger_buy_kept g g' tick :
  st_of g' = st_of g → buy_session_kept g g' →
  hedge_trigger_buy g' tick = hedge_trigger_buy g tick.
Proof.
  intros Hst (H1 & H2 & H3 & H4). unfold hedge_trigger_buy.
  now rewrite Hst, H1, H2, H3, H4.
Qed.

Lemma hedge_trigger_sell_kept g g' tick :
  st_of g' = st_of g → sell_session_kept g g' →
  hedge_trigger_sell g' tick = hedge_trigger_sell g tick.
Proof.
  intros Hst (H1 & H2 & H3 & H4). unfold hedge_trigger_sell.
  now rewrite Hst, H1, H2, H3, H4.
Qed.

Lemma tp_trigger_buy_kept g g' tick :
  st_of g' = st_of g → buy_session_kept g g' →
  tp_trigger_buy g' tick = tp_trigger_buy g tick.
Proof.
  intros Hst (H1 & H2 & H3 & H4). unfold tp_trigger_buy, check_tp_buy.
  now rewrite Hst, H2.
Qed.

Lemma tp_trigger_sell_kept g g' tick :
  st_of g' = st_of g → sell_session_kept g g' →
  tp_trigger_sell g' tick = tp_trigger_sell g tick.
Proof.
  intros Hst (H1 & H2 & H3 & H4). unfold tp_trigger_sell, check_tp_sell.
  now rewrite Hst, H2.
Qed.

Lemma no_buy_basket_quiet g tick :
  no_buy_basket g tick →
  hedge_trigger_buy g tick = false ∧ tp_trigger_buy g tick = false.
Proof.
  intros [_ [H|H]]; unfold hedge_trigger_buy, tp_trigger_buy, check_tp_buy;
    rewrite H; cbn.
  - split; [|reflexivity]. destruct (buy_on (rt_of g)); reflexivity.
  - split; [apply andb_false_r|].
    destruct (Py.le (buy_tp_value (st_of g)) 0 || negb (Py.truthy (buy_id (rt_of g))));
      apply andb_false_r.
Qed.

Lemma no_sell_basket_quiet g tick :
  no_sell_basket g tick →
  hedge_trigger_sell g tick = false ∧ tp_trigger_sell g tick = false.
Proof.
  intros [_ [H|H]]; unfold hedge_trigger_sell, tp_trigger_sell, check_tp_sell;
    rewrite H; cbn.
  - split; [|reflexivity]. destruct (sell_on (rt_of g)); reflexivity.
  - split; [apply andb_false_r|].
    destruct (Py.le (sell_tp_value (st_of g)) 0 || negb (Py.truthy (sell_id (rt_of g))));
      apply andb_false_r.
Qed.

Lemma quiet_transfer g g' tick :
  quiet g tick →
  st_of g' = st_of g →
  pending_actions (rt_of g') = [] →
  buy_session_kept g g' ∨ no_buy_basket g' tick →
  sell_session_kept g g' ∨ no_sell_basket g' tick →
  quiet g' tick.
Proof.
  intros (Hp & Hcb & Hcs & Hhb & Hhs & Htb & Hts) Hst Hp' Hb Hs.
  unfold quiet. split; [exact Hp'|].
  assert (Hb' : buy_is_closing (rt_of g') = false ∧ hedge_trigger_buy g' tick = false
                ∧ tp_trigger_buy g' tick = false).
  { destruct Hb as [Hk|Hn].
    - rewrite (hedge_trigger_buy_kept g g' tick Hst Hk),
        (tp_trigger_buy_kept g g' tick Hst Hk).
      destruct Hk as (_ & _ & -> & _). auto.
    - destruct (no_buy_basket_quiet g' tick Hn). destruct Hn. auto. }
  assert (Hs' : sell_is_closing (rt_of g') = false ∧ hedge_trigger_sell g' tick = false
                ∧ tp_trigger_sell g' tick = false).
  { destruct Hs as [Hk|Hn].
    - rewrite (hedge_trigger_sell_kept g g' tick Hst Hk),
        (tp_trigger_sell_kept g g' tick Hst Hk).
      destruct Hk as (_ & _ & -> & _). auto.
    - destruct (no_sell_basket_quiet g' tick Hn). destruct Hn. auto. }
  tauto.
Qed.

Lemma quiet_decide e tick g :
  quiet g tick →
  decide_stage e tick g
  = accumulate_stage e tick (external_close_sell e tick (external_close_buy e tick g)).
Proof.
  intros (Hp & Hcb & Hcs & Hhb & Hhs & Htb & Hts).
  now apply decide_stage_to_accumulate.
Qed.

Lemma decide_stage_split e tick g :
  decide_stage e tick g = (before_accumulate e tick >-> accumulate_stage e tick) g.
Proof.
  unfold decide_stage, before_accumulate, and_then.
  destruct (pending_stage g) as [g1 [r|]]; [reflexivity|].
  destruct (closing_stage tick g1) as [g2 [r|]]; [reflexivity|].
  destruct (hedge_stage e tick g2) as [g3 [r|]]; [reflexivity|].
  destruct (take_profit_stage tick g3) as [g4 [r|]]; [reflexivity|].
  destruct (external_close_stage e tick g4) as [g5 [r|]]; reflexivity.
Qed.

(** *** What grid expansion can reply *)

Lemma accumulate_buy_replies e tick g g' r :
  accumulate_buy_stage e tick g = (g', Some r) →
  buy_on (rt_of g) = true ∧ (r = Wait None ∨ ∃ v c a, r = Open BUY v c a).
Proof.
  unfold accumulate_buy_stage. intros H.
  destruct (buy_on (rt_of g)); [|discriminate H]. split; [reflexivity|].
  repeat case_match; simplify_eq; eauto.
Qed.

Lemma accumulate_sell_replies e tick g g' r :
  accumulate_sell_stage e tick g = (g', Some r) →
  sell_on (rt_of g) = true ∧ (r = Wait None ∨ ∃ v c a, r = Open SELL v c a).
Proof.
  unfold accumulate_sell_stage. intros H.
  destruct (sell_on (rt_of g)); [|discriminate H]. split; [reflexivity|].
  repeat case_match; simplify_eq; eauto.
Qed.

(** The sell block of grid expansion leaves the buy side alone, and
    conversely. *)
Lemma accumulate_buy_frame e tick g g' r :
  accumulate_buy_stage e tick g = (g', r) →
  st_of g' = st_of g ∧
  pending_actions (rt_of g') = pending_actions (rt_of g) ∧
  error_status (rt_of g') = error_status (rt_of g) ∧
  sell_on (rt_of g') = sell_on (rt_of g) ∧
  sell_id (rt_of g') = sell_id (rt_of g) ∧
  sell_is_closing (rt_of g') = sell_is_closing (rt_of g) ∧
  sell_hedge_triggered (rt_of g') = sell_hedge_triggered (rt_of g) ∧
  sell_waiting_limit (rt_of g') = sell_waiting_limit (rt_of g) ∧
  sell_start_ref (rt_of g') = sell_start_ref (rt_of g) ∧
  sell_exec_map (rt_of g') = sell_exec_map (rt_of g) ∧
  sell_last_order_sent_ts (rt_of g') = sell_last_order_sent_ts (rt_of g) ∧
  buy_on (rt_of g') = buy_on (rt_of g) ∧
  buy_is_closing (rt_of g') = buy_is_closing (rt_of g) ∧
  buy_hedge_triggered (rt_of g') = buy_hedge_triggered (rt_of g) ∧
  (buy_id (rt_of g') = buy_id (rt_of g) ∨
   buy_id (rt_of g') = get_hash "buy" (uuid_buy e)).
Proof.
  unfold accumulate_buy_stage. intros H.
  repeat case_match; simplify_eq; cbn; repeat split; auto.
Qed.

Lemma calculate_grid_level_price_buy g g' i :
  rows_buy (st_of g') = rows_buy (st_of g) →
  buy_start_ref (rt_of g') = buy_start_ref (rt_of g) →
  calculate_grid_level_price g' "buy" i = calculate_grid_level_price g "buy" i.
Proof.
  intros H1 H2. unfold calculate_grid_level_price. cbn. now rewrite H1, H2.
Qed.


(** After a fill of a layer that had no record, reconciling the same
    positions again leaves one record more. *)
Lemma replay_size (M M1 M2 : gmap Z RowExecStats.t) (K : gset Z) (i : Z)
    (x : RowExecStats.t) :
  K ⊆ dom M → M !! i = None → M1 = <[i := x]> M → dom M2 = dom M1 ∪ K →
  size M2 = S (size M).
Proof.
  intros HK Hi -> Hd.
  rewrite <- (size_dom (D := gset Z) M2), Hd, dom_insert_L.
  replace ({[i]} ∪ dom M ∪ K) with ({[i]} ∪ dom M) by set_solver.
  rewrite size_union by (apply not_elem_of_dom in Hi; set_solver).
  now rewrite size_singleton, size_dom.
Qed.

(** *** The replay after a grid-expansion order *)

Lemma replay_after_buy_order (e1 e2 : Env) (tick : TickData.t) (g0 ga g1 : Globals)
    (v : Q) (c : string) (a : bool) :
  error_status (rt_of g0) = "" →
  error_status (rt_of (reconcile e1 tick g0)) = "" →
  before_accumulate e1 tick (reconcile e1 tick g0) = (ga, None) →
  accumulate_buy_stage e1 tick ga = (g1, Some (Open BUY v c a)) →
  buy_exec_map (rt_of ga) !! Z.of_nat (size (buy_exec_map (rt_of ga))) = None →
  (now_ts e2 - now_ts e1 < 5)%Q →
  handle_tick e1 tick g0 = (g1, Open BUY v c a) ∧
  (action_of (handle_tick e2 tick g1).2 = ActWAIT ∨
   (∃ row,
      rows_buy (st_of g1) !! S (size (buy_exec_map (rt_of ga))) = Some row ∧
      (TickData.ask tick
       <= calculate_grid_level_price g1 "buy"
            (Z.of_nat (S (size (buy_exec_map (rt_of ga))))))%Q ∧
      (handle_tick e2 tick g1).2
      = Open BUY (GridRow.lots row)
          (buy_id (rt_of g1) +:+ "_idx"
           +:+ Py.str (Z.of_nat (S (size (buy_exec_map (rt_of ga))))))
          (GridRow.alert row)) ∨
   (sell_on (rt_of g1) = true ∧ ∃ v' c' a', (handle_tick e2 tick g1).2 = Open SELL v' c' a')).
Proof.
  intros Herr0 Herr1 Hbefore Hacc Hfresh Hgrace.
  split.
  { unfold handle_tick. rewrite Herr0, Herr1. cbn [Py.truthy].
    rewrite decide_stage_split. unfold and_then at 1. rewrite Hbefore.
    unfold accumulate_stage, and_then. now rewrite Hacc. }
  set (gr := reconcile e1 tick g0) in *.
  destruct (reconcile_dom e1 tick g0 Herr0 Herr1) as [Hdom _]. fold gr in Hdom.
  pose proof (reconcile_same_sessions e1 tick g0) as Hs0. fold gr in Hs0.
  apply before_accumulate_inv in Hbefore
    as (Hp & Hcb & Hcs & Hhb & Hhs & Htb & Hts & Hga).
  apply accumulate_buy_order in Hacc
    as (Hon & _ & Hh & Hid & Hw & row & Hrow & Hd & Hl & Hx & -> & -> & -> & Hg1).
  (* the buy session was not re-synced in the first tick *)
  destruct (external_close_sell_frame e1 tick (external_close_buy e1 tick gr))
    as (Fst & Fon & Fid & Fcl & Fh & Fw & Fref & Fmap & Fts & Ferr & Fp & Fscl & Fson).
  rewrite <- Hga in *.
  assert (Hxb : external_close_buy e1 tick gr = gr).
  { destruct (external_close_buy_shape e1 tick gr) as [E|E]; [exact E|].
    rewrite Fid, E in Hid. contradiction. }
  rewrite Hxb in *. clear Hxb.
  (* the state after the order *)
  assert (G : st_of g1 = st_of ga ∧ error_status (rt_of g1) = error_status (rt_of ga) ∧
              pending_actions (rt_of g1) = pending_actions (rt_of ga) ∧
              buy_session_kept ga g1 ∧ sell_session_kept ga g1 ∧
              buy_waiting_limit (rt_of g1) = buy_waiting_limit (rt_of ga) ∧
              buy_start_ref (rt_of g1) = buy_start_ref (rt_of ga) ∧
              buy_last_order_sent_ts (rt_of g1) = now_ts e1 ∧
              buy_exec_map (rt_of g1)
              = <[Z.of_nat (size (buy_exec_map (rt_of ga))) :=
                    RowExecStats.new (Z.of_nat (size (buy_exec_map (rt_of ga))))
                      (TickData.ask tick) (GridRow.lots row) 0%Q (now_iso e1)]>
                  (buy_exec_map (rt_of ga))).
  { rewrite Hg1. repeat split. }
  destruct G as (Gst & Gerr & Gp & (Gon & Gid & Gcl & Gh) & (Gson & Gsid & Gscl & Gsh)
                 & Gw & Gref & Gts & Gmap).
  clear Hg1.
  (* the replay *)
  assert (Herr1' : error_status (rt_of g1) = "") by congruence.
  unfold handle_tick. rewrite Herr1'. cbn [Py.truthy].
  set (gr2 := reconcile e2 tick g1).
  destruct (Py.truthy (error_status (rt_of gr2))) eqn:Herr2; [left; reflexivity|].
  apply truthy_false in Herr2.
  destruct (reconcile_dom e2 tick g1 Herr1' Herr2) as [Hdom2 _]. fold gr2 in Hdom2.
  destruct (reconcile_same_sessions e2 tick g1)
    as (Rst & Ron & Rson & _ & Rid & Rsid & Rcl & Rscl & Rh & Rsh & Rw & _ & Rref & _
        & Rp & Rts & _).
  fold gr2 in Rst, Ron, Rson, Rid, Rsid, Rcl, Rscl, Rh, Rsh, Rw, Rref, Rp, Rts.
  assert (Hq : quiet gr2 tick).
  { apply (quiet_transfer gr); [unfold quiet; tauto|congruence|congruence| |].
    - left. unfold buy_session_kept. repeat split; congruence.
    - destruct (external_close_sell_shape e1 tick gr) as [E|E]; rewrite <- Hga in E.
      + left. rewrite E in *. unfold sell_session_kept. repeat split; congruence.
      + right. split; [congruence|]. left. congruence. }
  rewrite (quiet_decide e2 tick gr2 Hq).
  rewrite (external_close_buy_grace e2 tick gr2)
    by (rewrite Rts, Gts; exact Hgrace).
  destruct (external_close_sell_frame e2 tick gr2)
    as (Xst & Xon & Xid & Xcl & Xh & Xw & Xref & Xmap & Xts & _ & _ & _ & Xson).
  set (gx := external_close_sell e2 tick gr2) in *.
  assert (Hsize : size (buy_exec_map (rt_of gx)) = S (size (buy_exec_map (rt_of ga)))).
  { rewrite Xmap.
    eapply (replay_size (buy_exec_map (rt_of ga)) (buy_exec_map (rt_of g1)));
      [|exact Hfresh|exact Gmap|exact Hdom2].
    destruct Hs0 as (_ & _ & _ & _ & S0id & _).
    rewrite Gid, Fid, S0id, Fmap, Hdom. set_solver. }
  unfold accumulate_stage, and_then.
  destruct (accumulate_buy_stage e2 tick gx) as [gb [r|]] eqn:Hab.
  - destruct (accumulate_buy_replies _ _ _ _ _ Hab) as [_ [->|(v' & c' & a' & ->)]];
      [left; reflexivity|].
    right. left.
    apply accumulate_buy_order in Hab
      as (_ & _ & _ & _ & _ & row' & Hrow' & _ & _ & Hx' & -> & -> & -> & _).
    rewrite Hsize in *. exists row'. split; [congruence|]. split.
    + rewrite (calculate_grid_level_price_buy gx g1); [exact Hx'| |]; congruence.
    + cbn. rewrite Xid, Rid. reflexivity.
  - destruct (accumulate_buy_frame _ _ _ _ _ Hab)
      as (_ & _ & _ & Bson & _).
    destruct (accumulate_sell_stage e2 tick gb) as [gs [r|]] eqn:Has;
      [|left; reflexivity].
    destruct (accumulate_sell_replies _ _ _ _ _ Has) as [Hson [->|Hr]];
      [left; reflexivity|].
    right. right. split; [|exact Hr].
    rewrite <- Rson. apply Xson. congruence.
Qed.


(** When the filled layer was the last row and the sell side is off,
    the replay answers WAIT. *)
Corollary replay_after_last_buy_layer (e1 e2 : Env) (tick : TickData.t)
    (g0 ga g1 : Globals) (v : Q) (c : string) (a : bool) :
  error_status (rt_of g0) = "" →
  error_status (rt_of (reconcile e1 tick g0)) = "" →
  before_accumulate e1 tick (reconcile e1 tick g0) = (ga, None) →
  accumulate_buy_stage e1 tick ga = (g1, Some (Open BUY v c a)) →
  buy_exec_map (rt_of ga) !! Z.of_nat (size (buy_exec_map (rt_of ga))) = None →
  (now_ts e2 - now_ts e1 < 5)%Q →
  rows_buy (st_of g1) !! S (size (buy_exec_map (rt_of ga))) = None →
  sell_on (rt_of g1) = false →
  action_of (handle_tick e2 tick g1).2 = ActWAIT.
Proof.
  intros Herr0 Herr1 Hbefore Hacc Hfresh Hgrace Hlast Hoff.
  destruct (replay_after_buy_order e1 e2 tick g0 ga g1 v c a
              Herr0 Herr1 Hbefore Hacc Hfresh Hgrace)
    as [_ [H|[(row & Hrow & _)|[Hon _]]]]; [exact H| |]; congruence.
Qed.



(** The replay of the witness answers WAIT: layer 1 was the last row and
    the sell side is off. *)
Example replay_waits :
  (handle_tick (Sample.env 12) (Sample.tick 97 97 []) Sample.both_layers).2 = Wait None.
Proof. vm_compute. reflexivity. Qed.


(** ** The grace period of the external-close check *)

Lemma grace_at_once (t : Q) : (t - t < EXTERNAL_CLOSE_GRACE_PERIOD)%Q.
Proof. unfold EXTERNAL_CLOSE_GRACE_PERIOD. lra. Qed.

Ltac young_frame :=
  unfold buy_session_young, sell_session_young in *; cbn in *;
  repeat match goal with
         | H : _ ∧ _ |- _ => destruct H
         | H : _ && _ = true |- _ => apply andb_prop in H
         | H : negb _ = true |- _ => apply negb_true_iff in H
         | H : Py.truthy _ = false |- _ => apply truthy_false in H
         end;
  try contradiction;
  repeat split;
  auto using get_hash_nonempty, grace_at_once;
  try (apply insert_non_empty).

Lemma pending_stage_young e : preserves (buy_session_young e) pending_stage.
Proof. intros g H. unfold pending_stage. stage_cases; young_frame. Qed.

Lemma closing_sell_stage_young e tick :
  preserves (buy_session_young e) (closing_sell_stage tick).
Proof. intros g H. unfold closing_sell_stage. stage_cases; young_frame. Qed.

Lemma hedge_buy_stage_young e tick :
  preserves (buy_session_young e) (hedge_buy_stage e tick).
Proof. intros g H. unfold hedge_buy_stage. stage_cases; young_frame. Qed.

Lemma hedge_sell_stage_young e tick :
  preserves (buy_session_young e) (hedge_sell_stage e tick).
Proof. intros g H. unfold hedge_sell_stage. stage_cases; young_frame. Qed.

Lemma tp_buy_stage_young e tick : preserves (buy_session_young e) (tp_buy_stage tick).
Proof. intros g H. unfold tp_buy_stage. stage_cases; young_frame. Qed.

Lemma tp_sell_stage_young e tick : preserves (buy_session_young e) (tp_sell_stage tick).
Proof. intros g H. unfold tp_sell_stage. stage_cases; young_frame. Qed.

Lemma external_close_buy_young e tick g :
  buy_session_young e g → buy_session_young e (external_close_buy e tick g).
Proof.
  intros H. rewrite external_close_buy_grace; [exact H|apply H].
Qed.

Lemma external_close_sell_young e tick g :
  buy_session_young e g → buy_session_young e (external_close_sell e tick g).
Proof.
  intros (Hid & Hmap & Hts).
  destruct (external_close_sell_frame e tick g)
    as (_ & _ & Hi & _ & _ & _ & _ & Hm & Ht & _).
  unfold buy_session_young. now rewrite Hi, Hm, Ht.
Qed.

Lemma accumulate_buy_stage_young e tick :
  preserves (buy_session_young e) (accumulate_buy_stage e tick).
Proof. intros g H. unfold accumulate_buy_stage. stage_cases; young_frame. Qed.

Lemma accumulate_sell_stage_young e tick :
  preserves (buy_session_young e) (accumulate_sell_stage e tick).
Proof. intros g H. unfold accumulate_sell_stage. stage_cases; young_frame. Qed.

Lemma pending_stage_young_sell e : preserves (sell_session_young e) pending_stage.
Proof. intros g H. unfold pending_stage. stage_cases; young_frame. Qed.

Lemma closing_buy_stage_young_sell e tick :
  preserves (sell_session_young e) (closing_buy_stage tick).
Proof. intros g H. unfold closing_buy_stage. stage_cases; young_frame. Qed.

Lemma hedge_buy_stage_young_sell e tick :
  preserves (sell_session_young e) (hedge_buy_stage e tick).
Proof. intros g H. unfold hedge_buy_stage. stage_cases; young_frame. Qed.

Lemma hedge_sell_stage_young_sell e tick :
  preserves (sell_session_young e) (hedge_sell_stage e tick).
Proof. intros g H. unfold hedge_sell_stage. stage_cases; young_frame. Qed.

Lemma tp_buy_stage_young_sell e tick :
  preserves (sell_session_young e) (tp_buy_stage tick).
Proof. intros g H. unfold tp_buy_stage. stage_cases; young_frame. Qed.

Lemma tp_sell_stage_young_sell e tick :
  preserves (sell_session_young e) (tp_sell_stage tick).
Proof. intros g H. unfold tp_sell_stage. stage_cases; young_frame. Qed.

Lemma external_close_sell_young_sell e tick g :
  sell_session_young e g → sell_session_young e (external_close_sell e tick g).
Proof.
  intros H. rewrite external_close_sell_grace; [exact H|apply H].
Qed.

Lemma external_close_buy_young_sell e tick g :
  sell_session_young e g → sell_session_young e (external_close_buy e tick g).
Proof.
  intros (Hid & Hmap & Hts).
  destruct (external_close_buy_frame e tick g)
    as (_ & _ & Hi & _ & _ & _ & _ & Hm & Ht & _).
  unfold sell_session_young. now rewrite Hi, Hm, Ht.
Qed.

Lemma accumulate_buy_stage_young_sell e tick :
  preserves (sell_session_young e) (accumulate_buy_stage e tick).
Proof. intros g H. unfold accumulate_buy_stage. stage_cases; young_frame. Qed.

Lemma accumulate_sell_stage_young_sell e tick :
  preserves (sell_session_young e) (accumulate_sell_stage e tick).
Proof. intros g H. unfold accumulate_sell_stage. stage_cases; young_frame. Qed.

(** Reconciliation never empties an exec map. *)
Lemma reconcile_maps_nonempty e tick g :
  (buy_exec_map (rt_of g) ≠ ∅ → buy_exec_map (rt_of (reconcile e tick g)) ≠ ∅) ∧
  (sell_exec_map (rt_of g) ≠ ∅ → sell_exec_map (rt_of (reconcile e tick g)) ≠ ∅).
Proof.
  destruct (market_update_rt e tick g) as (_ & _ & Hbm & Hsm & _).
  unfold reconcile.
  destruct (update_exec_stats_cases e tick (rt_of (market_update e tick g)))
    as [(msg & _ & ->)|(bm & sm & Habs & ->)]; cbn.
  - now rewrite Hbm, Hsm.
  - apply absorb_positions_dom in Habs as [Hdb Hds].
    rewrite Hbm in Hdb. rewrite Hsm in Hds.
    split; intros Hne He; apply Hne, dom_empty_iff_L;
      apply dom_empty_iff_L in He; rewrite cumulate_dom in He; set_solver.
Qed.

Lemma reconcile_young e tick g :
  (buy_session_young e g → buy_session_young e (reconcile e tick g)) ∧
  (sell_session_young e g → sell_session_young e (reconcile e tick g)).
Proof.
  destruct (reconcile_same_sessions e tick g)
    as (_ & _ & _ & _ & Hb & Hs & _ & _ & _ & _ & _ & _ & _ & _ & _ & Hbt & Hst).
  destruct (reconcile_maps_nonempty e tick g) as [Hbm Hsm].
  unfold buy_session_young, sell_session_young. rewrite Hb, Hs, Hbt, Hst.
  split; intros (Hid & Hmap & Hts); auto.
Qed.

Lemma closing_buy_stage_idle tick g :
  buy_is_closing (rt_of g) = false → closing_buy_stage tick g = (g, None).
Proof. intros H. unfold closing_buy_stage. now rewrite H. Qed.

Lemma closing_sell_stage_idle tick g :
  sell_is_closing (rt_of g) = false → closing_sell_stage tick g = (g, None).
Proof. intros H. unfold closing_sell_stage. now rewrite H. Qed.

Lemma decide_stage_past_pending e tick g :
  pending_actions (rt_of g) = [] →
  decide_stage e tick g
  = (closing_stage tick >-> hedge_stage e tick >-> take_profit_stage tick >->
     external_close_stage e tick >-> accumulate_stage e tick) g.
Proof.
  intros Hp. unfold decide_stage, and_then at 1, pending_stage. now rewrite Hp.
Qed.

(** Within the grace period a tick does not clear the session of a side
    that is not closing. *)
Lemma decide_stage_young_buy e tick g :
  buy_is_closing (rt_of g) = false →
  buy_session_young e g → buy_session_young e (decide_stage e tick g).1.
Proof.
  intros Hcl H.
  destruct (pending_actions (rt_of g)) as [|a q] eqn:Hq.
  - rewrite (decide_stage_past_pending e tick g Hq).
    unfold and_then at 1, closing_stage, and_then at 1.
    rewrite (closing_buy_stage_idle tick g Hcl).
    change (buy_session_young e
              ((closing_sell_stage tick >-> hedge_stage e tick >->
                take_profit_stage tick >-> external_close_stage e tick >->
                accumulate_stage e tick) g).1).
    revert g H Hcl Hq.
    assert (Hall : preserves (buy_session_young e)
                     (closing_sell_stage tick >-> hedge_stage e tick >->
                      take_profit_stage tick >-> external_close_stage e tick >->
                      accumulate_stage e tick)).
    { unfold hedge_stage, take_profit_stage, external_close_stage, accumulate_stage.
      repeat apply preserves_and_then;
        auto using closing_sell_stage_young, hedge_buy_stage_young,
          hedge_sell_stage_young, tp_buy_stage_young, tp_sell_stage_young,
          accumulate_buy_stage_young, accumulate_sell_stage_young;
        apply preserves_silently;
        auto using external_close_buy_young, external_close_sell_young. }
    intros g H _ _. now apply Hall.
  - unfold decide_stage, and_then at 1.
    pose proof (pending_stage_young e g H) as Hp.
    unfold pending_stage in *. rewrite Hq in *. exact Hp.
Qed.

Lemma decide_stage_young_sell e tick g :
  sell_is_closing (rt_of g) = false →
  sell_session_young e g → sell_session_young e (decide_stage e tick g).1.
Proof.
  intros Hcl H.
  destruct (pending_actions (rt_of g)) as [|a q] eqn:Hq.
  - rewrite (decide_stage_past_pending e tick g Hq).
    unfold and_then at 1, closing_stage, and_then at 1.
    pose proof (closing_buy_stage_young_sell e tick g H) as Hb.
    destruct (closing_buy_stage tick g) as [g1 [r|]] eqn:Hcb; [exact Hb|].
    cbn [fst] in Hb.
    assert (Hcl1 : sell_is_closing (rt_of g1) = false).
    { unfold closing_buy_stage in Hcb. revert Hcb. stage_cases; intros; simplify_eq;
        cbn; assumption. }
    rewrite (closing_sell_stage_idle tick g1 Hcl1).
    assert (Hall : preserves (sell_session_young e)
                     (hedge_stage e tick >-> take_profit_stage tick >->
                      external_close_stage e tick >-> accumulate_stage e tick)).
    { unfold hedge_stage, take_profit_stage, external_close_stage, accumulate_stage.
      repeat apply preserves_and_then;
        auto using hedge_buy_stage_young_sell, hedge_sell_stage_young_sell,
          tp_buy_stage_young_sell, tp_sell_stage_young_sell,
          accumulate_buy_stage_young_sell, accumulate_sell_stage_young_sell;
        apply preserves_silently;
        auto using external_close_buy_young_sell, external_close_sell_young_sell. }
    now apply Hall.
  - unfold decide_stage, and_then at 1.
    pose proof (pending_stage_young_sell e g H) as Hp.
    unfold pending_stage in *. rewrite Hq in *. exact Hp.
Qed.

Lemma handle_tick_young e tick g :
  (buy_is_closing (rt_of g) = false →
   buy_session_young e g → buy_session_young e (handle_tick e tick g).1) ∧
  (sell_is_closing (rt_of g) = false →
   sell_session_young e g → sell_session_young e (handle_tick e tick g).1).
Proof.
  destruct (reconcile_young e tick g) as [Hrb Hrs].
  destruct (reconcile_same_sessions e tick g)
    as (_ & _ & _ & _ & _ & _ & Hcb & Hcs & _).
  unfold handle_tick.
  destruct (Py.truthy (error_status (rt_of g))); [split; auto|].
  destruct (Py.truthy (error_status (rt_of (reconcile e tick g)))); [split; auto|].
  split; intros Hcl H.
  - rewrite <- Hcb in Hcl.
    pose proof (decide_stage_young_buy e tick _ Hcl (Hrb H)) as Hd.
    destruct (decide_stage e tick (reconcile e tick g)) as [g' [r|]]; exact Hd.
  - rewrite <- Hcs in Hcl.
    pose proof (decide_stage_young_sell e tick _ Hcl (Hrs H)) as Hd.
    destruct (decide_stage e tick (reconcile e tick g)) as [g' [r|]]; exact Hd.
Qed.

Lemma size_zero_dom (m : gmap Z RowExecStats.t) (K : gset Z) :
  K ≠ ∅ → K ⊆ dom m → (size m =? 0)%nat = false.
Proof.
  intros HK Hsub. apply Nat.eqb_neq. intros Hz.
  apply map_size_empty_inv in Hz. subst m. rewrite dom_empty_L in Hsub.
  apply HK. set_solver.
Qed.

Section Held.
Context (e : Env) (id : string) (K : gset Z).
Hypothesis Hid : id ≠ "".
Hypothesis HK : K ≠ ∅.

Ltac held_frame :=
  unfold buy_session_held, sell_session_held in *; cbn in *;
  repeat match goal with
         | H : _ ∧ _ |- _ => destruct H
         end;
  subst;
  repeat match goal with
         | H : _ && _ = true |- _ => apply andb_prop in H; destruct H
         | H : _ || _ = true |- _ => apply orb_prop in H; destruct H
         | H : negb _ = true |- _ => apply negb_true_iff in H
         | H : Py.truthy _ = false |- _ => apply truthy_false in H
         | H : (size ?m =? 0)%nat = true, S : K ⊆ dom ?m |- _ =>
             rewrite (size_zero_dom m K HK S) in H
         end;
  try contradiction; try congruence;
  repeat split;
  auto using grace_at_once;
  try (rewrite dom_insert_L; set_solver).

Lemma pending_stage_held : preserves (buy_session_held e id K) pending_stage.
Proof. intros g H. unfold pending_stage. stage_cases; held_frame. Qed.

Lemma closing_sell_stage_held tick :
  preserves (buy_session_held e id K) (closing_sell_stage tick).
Proof. intros g H. unfold closing_sell_stage. stage_cases; held_frame. Qed.

Lemma hedge_buy_stage_held tick :
  preserves (buy_session_held e id K) (hedge_buy_stage e tick).
Proof. intros g H. unfold hedge_buy_stage. stage_cases; held_frame. Qed.

Lemma hedge_sell_stage_held tick :
  preserves (buy_session_held e id K) (hedge_sell_stage e tick).
Proof. intros g H. unfold hedge_sell_stage. stage_cases; held_frame. Qed.

Lemma tp_buy_stage_held tick : preserves (buy_session_held e id K) (tp_buy_stage tick).
Proof. intros g H. unfold tp_buy_stage. stage_cases; held_frame. Qed.

Lemma tp_sell_stage_held tick : preserves (buy_session_held e id K) (tp_sell_stage tick).
Proof. intros g H. unfold tp_sell_stage. stage_cases; held_frame. Qed.

Lemma accumulate_buy_stage_held tick :
  preserves (buy_session_held e id K) (accumulate_buy_stage e tick).
Proof. intros g H. unfold accumulate_buy_stage. stage_cases; held_frame. Qed.

Lemma accumulate_sell_stage_held tick :
  preserves (buy_session_held e id K) (accumulate_sell_stage e tick).
Proof. intros g H. unfold accumulate_sell_stage. stage_cases; held_frame. Qed.

Lemma external_close_buy_held tick g :
  buy_session_held e id K g → buy_session_held e id K (external_close_buy e tick g).
Proof.
  intros H. rewrite external_close_buy_grace; [exact H|apply H].
Qed.

Lemma external_close_sell_held tick g :
  buy_session_held e id K g → buy_session_held e id K (external_close_sell e tick g).
Proof.
  intros (Hon & Hi & Hmap & Hts).
  destruct (external_close_sell_frame e tick g)
    as (_ & Fon & Fi & _ & _ & _ & _ & Fm & Ft & _).
  unfold buy_session_held. now rewrite Fon, Fi, Fm, Ft.
Qed.

Lemma pending_stage_held_sell : preserves (sell_session_held e id K) pending_stage.
Proof. intros g H. unfold pending_stage. stage_cases; held_frame. Qed.

Lemma closing_buy_stage_held_sell tick :
  preserves (sell_session_held e id K) (closing_buy_stage tick).
Proof. intros g H. unfold closing_buy_stage. stage_cases; held_frame. Qed.

Lemma hedge_buy_stage_held_sell tick :
  preserves (sell_session_held e id K) (hedge_buy_stage e tick).
Proof. intros g H. unfold hedge_buy_stage. stage_cases; held_frame. Qed.

Lemma hedge_sell_stage_held_sell tick :
  preserves (sell_session_held e id K) (hedge_sell_stage e tick).
Proof. intros g H. unfold hedge_sell_stage. stage_cases; held_frame. Qed.

Lemma tp_buy_stage_held_sell tick :
  preserves (sell_session_held e id K) (tp_buy_stage tick).
Proof. intros g H. unfold tp_buy_stage. stage_cases; held_frame. Qed.

Lemma tp_sell_stage_held_sell tick :
  preserves (sell_session_held e id K) (tp_sell_stage tick).
Proof. intros g H. unfold tp_sell_stage. stage_cases; held_frame. Qed.

Lemma accumulate_buy_stage_held_sell tick :
  preserves (sell_session_held e id K) (accumulate_buy_stage e tick).
Proof. intros g H. unfold accumulate_buy_stage. stage_cases; held_frame. Qed.

Lemma accumulate_sell_stage_held_sell tick :
  preserves (sell_session_held e id K) (accumulate_sell_stage e tick).
Proof. intros g H. unfold accumulate_sell_stage. stage_cases; held_frame. Qed.

Lemma external_close_sell_held_sell tick g :
  sell_session_held e id K g → sell_session_held e id K (external_close_sell e tick g).
Proof.
  intros H. rewrite external_close_sell_grace; [exact H|apply H].
Qed.

Lemma external_close_buy_held_sell tick g :
  sell_session_held e id K g → sell_session_held e id K (external_close_buy e tick g).
Proof.
  intros (Hon & Hi & Hmap & Hts).
  destruct (external_close_buy_frame e tick g)
    as (_ & Fon & Fi & _ & _ & _ & _ & Fm & Ft & _).
  unfold sell_session_held. now rewrite Fon, Fi, Fm, Ft.
Qed.

Lemma decide_stage_held_buy tick g :
  buy_is_closing (rt_of g) = false →
  buy_session_held e id K g → buy_session_held e id K (decide_stage e tick g).1.
Proof.
  intros Hcl H.
  destruct (pending_actions (rt_of g)) as [|a q] eqn:Hq.
  - rewrite (decide_stage_past_pending e tick g Hq).
    unfold and_then at 1, closing_stage, and_then at 1.
    rewrite (closing_buy_stage_idle tick g Hcl).
    change (buy_session_held e id K
              ((closing_sell_stage tick >-> hedge_stage e tick >->
                take_profit_stage tick >-> external_close_stage e tick >->
                accumulate_stage e tick) g).1).
    assert (Hall : preserves (buy_session_held e id K)
                     (closing_sell_stage tick >-> hedge_stage e tick >->
                      take_profit_stage tick >-> external_close_stage e tick >->
                      accumulate_stage e tick)).
    { unfold hedge_stage, take_profit_stage, external_close_stage, accumulate_stage.
      repeat apply preserves_and_then;
        auto using closing_sell_stage_held, hedge_buy_stage_held,
          hedge_sell_stage_held, tp_buy_stage_held, tp_sell_stage_held,
          accumulate_buy_stage_held, accumulate_sell_stage_held;
        apply preserves_silently;
        auto using external_close_buy_held, external_close_sell_held. }
    now apply Hall.
  - unfold decide_stage, and_then at 1.
    pose proof (pending_stage_held g H) as Hp.
    unfold pending_stage in *. rewrite Hq in *. exact Hp.
Qed.

Lemma decide_stage_held_sell tick g :
  sell_is_closing (rt_of g) = false →
  sell_session_held e id K g → sell_session_held e id K (decide_stage e tick g).1.
Proof.
  intros Hcl H.
  destruct (pending_actions (rt_of g)) as [|a q] eqn:Hq.
  - rewrite (decide_stage_past_pending e tick g Hq).
    unfold and_then at 1, closing_stage, and_then at 1.
    pose proof (closing_buy_stage_held_sell tick g H) as Hb.
    destruct (closing_buy_stage tick g) as [g1 [r|]] eqn:Hcb; [exact Hb|].
    cbn [fst] in Hb.
    assert (Hcl1 : sell_is_closing (rt_of g1) = false).
    { unfold closing_buy_stage in Hcb. revert Hcb. stage_cases; intros; simplify_eq;
        cbn; assumption. }
    rewrite (closing_sell_stage_idle tick g1 Hcl1).
    assert (Hall : preserves (sell_session_held e id K)
                     (hedge_stage e tick >-> take_profit_stage tick >->
                      external_close_stage e tick >-> accumulate_stage e tick)).
    { unfold hedge_stage, take_profit_stage, external_close_stage, accumulate_stage.
      repeat apply preserves_and_then;
        auto using hedge_buy_stage_held_sell, hedge_sell_stage_held_sell,
          tp_buy_stage_held_sell, tp_sell_stage_held_sell,
          accumulate_buy_stage_held_sell, accumulate_sell_stage_held_sell;
        apply preserves_silently;
        auto using external_close_buy_held_sell, external_close_sell_held_sell. }
    now apply Hall.
  - unfold decide_stage, and_then at 1.
    pose proof (pending_stage_held_sell g H) as Hp.
    unfold pending_stage in *. rewrite Hq in *. exact Hp.
Qed.

End Held.

(** Reconciliation only adds keys to the exec maps. *)
Lemma reconcile_dom_grows e tick g :
  dom (buy_exec_map (rt_of g)) ⊆ dom (buy_exec_map (rt_of (reconcile e tick g))) ∧
  dom (sell_exec_map (rt_of g)) ⊆ dom (sell_exec_map (rt_of (reconcile e tick g))).
Proof.
  destruct (market_update_rt e tick g) as (_ & _ & Hbm & Hsm & _).
  unfold reconcile.
  destruct (update_exec_stats_cases e tick (rt_of (market_update e tick g)))
    as [(msg & _ & ->)|(bm & sm & Habs & ->)]; cbn.
  - now rewrite Hbm, Hsm.
  - apply absorb_positions_dom in Habs as [Hdb Hds].
    rewrite Hbm in Hdb. rewrite Hsm in Hds.
    rewrite !cumulate_dom, Hdb, Hds. set_solver.
Qed.

(** Within the grace period a tick keeps the session of a side that is
    switched on and not closing, with every layer it has recorded. *)
Lemma handle_tick_held e tick g :
  (buy_on (rt_of g) = true → buy_id (rt_of g) ≠ "" → buy_exec_map (rt_of g) ≠ ∅ →
   buy_is_closing (rt_of g) = false →
   (now_ts e - buy_last_order_sent_ts (rt_of g) < EXTERNAL_CLOSE_GRACE_PERIOD)%Q →
   buy_on (rt_of (handle_tick e tick g).1) = true ∧
   buy_id (rt_of (handle_tick e tick g).1) = buy_id (rt_of g) ∧
   dom (buy_exec_map (rt_of g)) ⊆ dom (buy_exec_map (rt_of (handle_tick e tick g).1))) ∧
  (sell_on (rt_of g) = true → sell_id (rt_of g) ≠ "" → sell_exec_map (rt_of g) ≠ ∅ →
   sell_is_closing (rt_of g) = false →
   (now_ts e - sell_last_order_sent_ts (rt_of g) < EXTERNAL_CLOSE_GRACE_PERIOD)%Q →
   sell_on (rt_of (handle_tick e tick g).1) = true ∧
   sell_id (rt_of (handle_tick e tick g).1) = sell_id (rt_of g) ∧
   dom (sell_exec_map (rt_of g)) ⊆ dom (sell_exec_map (rt_of (handle_tick e tick g).1))).
Proof.
  destruct (reconcile_same_sessions e tick g)
    as (_ & Hbon & Hson & _ & Hbid & Hsid & Hcb & Hcs & _ & _ & _ & _ & _ & _ & _
        & Hbts & Hsts).
  destruct (reconcile_dom_grows e tick g) as [Hbd Hsd].
  split.
  - intros Hon Hid Hmap Hcl Hts.
    assert (HK : dom (buy_exec_map (rt_of g)) ≠ ∅).
    { intros E. now apply dom_empty_iff_L in E. }
    assert (H0 : buy_session_held e (buy_id (rt_of g)) (dom (buy_exec_map (rt_of g))) g).
    { repeat split; auto. }
    assert (H1 : buy_session_held e (buy_id (rt_of g)) (dom (buy_exec_map (rt_of g)))
                   (reconcile e tick g)).
    { unfold buy_session_held. rewrite Hbon, Hbid, Hbts. repeat split; auto. }
    assert (H : buy_session_held e (buy_id (rt_of g)) (dom (buy_exec_map (rt_of g)))
                  (handle_tick e tick g).1).
    { unfold handle_tick.
      destruct (Py.truthy (error_status (rt_of g))); [exact H0|].
      destruct (Py.truthy (error_status (rt_of (reconcile e tick g)))); [exact H1|].
      rewrite <- Hcb in Hcl.
      pose proof (decide_stage_held_buy e _ _ Hid HK tick _ Hcl H1) as Hd.
      destruct (decide_stage e tick (reconcile e tick g)) as [g' [r|]]; exact Hd. }
    destruct H as (A & B & C & _). auto.
  - intros Hon Hid Hmap Hcl Hts.
    assert (HK : dom (sell_exec_map (rt_of g)) ≠ ∅).
    { intros E. now apply dom_empty_iff_L in E. }
    assert (H0 : sell_session_held e (sell_id (rt_of g)) (dom (sell_exec_map (rt_of g))) g).
    { repeat split; auto. }
    assert (H1 : sell_session_held e (sell_id (rt_of g)) (dom (sell_exec_map (rt_of g)))
                   (reconcile e tick g)).
    { unfold sell_session_held. rewrite Hson, Hsid, Hsts. repeat split; auto. }
    assert (H : sell_session_held e (sell_id (rt_of g)) (dom (sell_exec_map (rt_of g)))
                  (handle_tick e tick g).1).
    { unfold handle_tick.
      destruct (Py.truthy (error_status (rt_of g))); [exact H0|].
      destruct (Py.truthy (error_status (rt_of (reconcile e tick g)))); [exact H1|].
      rewrite <- Hcs in Hcl.
      pose proof (decide_stage_held_sell e _ _ Hid HK tick _ Hcl H1) as Hd.
      destruct (decide_stage e tick (reconcile e tick g)) as [g' [r|]]; exact Hd. }
    destruct H as (A & B & C & _). auto.
Qed.

Lemma accumulate_sell_frame e tick g g' r :
  accumulate_sell_stage e tick g = (g', r) →
  buy_on (rt_of g') = buy_on (rt_of g) ∧
  buy_id (rt_of g') = buy_id (rt_of g) ∧
  buy_hedge_triggered (rt_of g') = buy_hedge_triggered (rt_of g) ∧
  buy_exec_map (rt_of g') = buy_exec_map (rt_of g).
Proof.
  unfold accumulate_sell_stage. intros H.
  repeat case_match; simplify_eq; cbn; repeat split; auto.
Qed.

Lemma handle_tick_quiet e tick g :
  error_status (rt_of g) = "" →
  error_status (rt_of (reconcile e tick g)) = "" →
  quiet (reconcile e tick g) tick →
  handle_tick e tick g
  = match accumulate_stage e tick
            (external_close_sell e tick
               (external_close_buy e tick (reconcile e tick g))) with
    | (g', Some reply) => (g', reply)
    | (g', None) => (g', Wait None)
    end.
Proof.
  intros Herr Herr1 Hq. unfold handle_tick. rewrite Herr, Herr1. cbn [Py.truthy].
  now rewrite (quiet_decide e tick _ Hq).
Qed.

(** Grid expansion leaves a side that is switched off as it is. *)
Lemma accumulate_stage_buy_off e tick g :
  buy_on (rt_of g) = false →
  let g' := (accumulate_stage e tick g).1 in
  buy_on (rt_of g') = false ∧ buy_id (rt_of g') = buy_id (rt_of g) ∧
  buy_hedge_triggered (rt_of g') = buy_hedge_triggered (rt_of g) ∧
  buy_exec_map (rt_of g') = buy_exec_map (rt_of g).
Proof.
  intros Hoff. unfold accumulate_stage, and_then.
  assert (Hb : accumulate_buy_stage e tick g = (g, None)).
  { unfold accumulate_buy_stage. now rewrite Hoff. }
  rewrite Hb.
  destruct (accumulate_sell_stage e tick g) as [g' r] eqn:Hs.
  apply accumulate_sell_frame in Hs as (Hon & Hid & Hh & Hm).
  destruct r; cbn; rewrite Hon, Hid, Hh, Hm; auto.
Qed.

Lemma accumulate_stage_sell_off e tick g :
  sell_on (rt_of g) = false →
  let g' := (accumulate_stage e tick g).1 in
  sell_on (rt_of g') = false ∧ sell_id (rt_of g') = sell_id (rt_of g) ∧
  sell_hedge_triggered (rt_of g') = sell_hedge_triggered (rt_of g) ∧
  sell_exec_map (rt_of g') = sell_exec_map (rt_of g).
Proof.
  intros Hoff. unfold accumulate_stage, and_then.
  destruct (accumulate_buy_stage e tick g) as [g1 r] eqn:Hb.
  apply accumulate_buy_frame in Hb
    as (_ & _ & _ & Hon & Hid & _ & Hh & _ & _ & Hm & _).
  destruct r as [r|]; cbn; [rewrite Hon, Hid, Hh, Hm; auto|].
  assert (Hs : accumulate_sell_stage e tick g1 = (g1, None)).
  { unfold accumulate_sell_stage. now rewrite Hon, Hoff. }
  rewrite Hs. cbn. rewrite Hon, Hid, Hh, Hm. auto.
Qed.

Lemma external_close_buy_cyclic e tick g :
  cyclic_on (rt_of (external_close_buy e tick g)) = cyclic_on (rt_of g).
Proof.
  unfold external_close_buy.
  destruct (_ && _ && _ && _); [|reflexivity].
  destruct (_ =? _)%nat; [|reflexivity].
  destruct (cyclic_on (rt_of g)) eqn:Hc; cbn; now rewrite Hc.
Qed.

Lemma finish_fst (out : Globals * option Reply) :
  (match out with
   | (g', Some reply) => (g', reply)
   | (g', None) => (g', Wait None)
   end).1 = out.1.
Proof. destruct out as [g' [r|]]; reflexivity. Qed.

(** C8 (amended). Within the grace period, [now - last_order_sent_ts]
    below 5 seconds, the external-close block leaves the state as it is,
    and no tick clears the session of a side that is not closing: a live
    session with executed layers is still live, with executed layers,
    after the tick, and if the side is switched on it is the same
    session, with every layer it had recorded.  Once the difference is
    at least 5 seconds, a tick that gets as far as the external-close
    check (no error, empty administrative queue, no side closing, no
    hedge and no take-profit trigger) re-syncs a live side with a
    non-empty exec map for whose session id the broker reports no
    position: the session id, the exec map and the hedge flag are
    cleared before grid expansion runs on the re-synced state, and they
    are still clear after the tick unless the side is switched on in
    cyclic mode, where grid expansion may start the next session at
    once. *)
Theorem C8_grace_period (e : Env) (tick : TickData.t) (g : Globals) :
  ((now_ts e - buy_last_order_sent_ts (rt_of g) < 5)%Q →
   external_close_buy e tick g = g) ∧
  ((now_ts e - sell_last_order_sent_ts (rt_of g) < 5)%Q →
   external_close_sell e tick g = g) ∧
  ((now_ts e - buy_last_order_sent_ts (rt_of g) < 5)%Q →
   buy_id (rt_of g) ≠ "" → buy_exec_map (rt_of g) ≠ ∅ →
   buy_is_closing (rt_of g) = false →
   buy_id (rt_of (handle_tick e tick g).1) ≠ "" ∧
   buy_exec_map (rt_of (handle_tick e tick g).1) ≠ ∅ ∧
   (buy_on (rt_of g) = true →
    buy_on (rt_of (handle_tick e tick g).1) = true ∧
    buy_id (rt_of (handle_tick e tick g).1) = buy_id (rt_of g) ∧
    dom (buy_exec_map (rt_of g))
    ⊆ dom (buy_exec_map (rt_of (handle_tick e tick g).1)))) ∧
  ((now_ts e - sell_last_order_sent_ts (rt_of g) < 5)%Q →
   sell_id (rt_of g) ≠ "" → sell_exec_map (rt_of g) ≠ ∅ →
   sell_is_closing (rt_of g) = false →
   sell_id (rt_of (handle_tick e tick g).1) ≠ "" ∧
   sell_exec_map (rt_of (handle_tick e tick g).1) ≠ ∅ ∧
   (sell_on (rt_of g) = true →
    sell_on (rt_of (handle_tick e tick g).1) = true ∧
    sell_id (rt_of (handle_tick e tick g).1) = sell_id (rt_of g) ∧
    dom (sell_exec_map (rt_of g))
    ⊆ dom (sell_exec_map (rt_of (handle_tick e tick g).1)))) ∧
  (error_status (rt_of g) = "" →
   error_status (rt_of (reconcile e tick g)) = "" →
   quiet (reconcile e tick g) tick →
   (5 <= now_ts e - buy_last_order_sent_ts (rt_of g))%Q →
   buy_id (rt_of g) ≠ "" → buy_exec_map (rt_of g) ≠ ∅ →
   count_active_trades tick (buy_id (rt_of g)) = 0%nat →
   let gx := external_close_sell e tick
               (external_close_buy e tick (reconcile e tick g)) in
   buy_id (rt_of gx) = "" ∧ buy_exec_map (rt_of gx) = ∅ ∧
   buy_hedge_triggered (rt_of gx) = false ∧
   handle_tick e tick g
   = match accumulate_stage e tick gx with
     | (g', Some reply) => (g', reply)
     | (g', None) => (g', Wait None)
     end ∧
   (buy_on (rt_of g) && cyclic_on (rt_of g) = false →
    buy_id (rt_of (handle_tick e tick g).1) = "" ∧
    buy_exec_map (rt_of (handle_tick e tick g).1) = ∅ ∧
    buy_hedge_triggered (rt_of (handle_tick e tick g).1) = false)) ∧
  (error_status (rt_of g) = "" →
   error_status (rt_of (reconcile e tick g)) = "" →
   quiet (reconcile e tick g) tick →
   (5 <= now_ts e - sell_last_order_sent_ts (rt_of g))%Q →
   sell_id (rt_of g) ≠ "" → sell_exec_map (rt_of g) ≠ ∅ →
   count_active_trades tick (sell_id (rt_of g)) = 0%nat →
   let gx := external_close_sell e tick
               (external_close_buy e tick (reconcile e tick g)) in
   sell_id (rt_of gx) = "" ∧ sell_exec_map (rt_of gx) = ∅ ∧
   sell_hedge_triggered (rt_of gx) = false ∧
   handle_tick e tick g
   = match accumulate_stage e tick gx with
     | (g', Some reply) => (g', reply)
     | (g', None) => (g', Wait None)
     end ∧
   (sell_on (rt_of g) && cyclic_on (rt_of g) = false →
    sell_id (rt_of (handle_tick e tick g).1) = "" ∧
    sell_exec_map (rt_of (handle_tick e tick g).1) = ∅ ∧
    sell_hedge_triggered (rt_of (handle_tick e tick g).1) = false)).
Proof.
  destruct (handle_tick_young e tick g) as [Hyb Hys].
  destruct (handle_tick_held e tick g) as [Hhb Hhs].
  destruct (reconcile_same_sessions e tick g)
    as (_ & Hbon & Hson & Hcy & Hbid & Hsid & Hbcl & Hscl & _ & _ & _ & _ & _ & _ & _
        & Hbts & Hsts).
  destruct (reconcile_maps_nonempty e tick g) as [Hbm Hsm].
  split; [apply external_close_buy_grace|].
  split; [apply external_close_sell_grace|].
  split; [|split; [|split]].
  - intros Hts Hid Hmap Hcl.
    destruct (Hyb Hcl) as (H1 & H2 & _); [repeat split; assumption|].
    split; [exact H1|]. split; [exact H2|].
    intros Hon. now apply Hhb.
  - intros Hts Hid Hmap Hcl.
    destruct (Hys Hcl) as (H1 & H2 & _); [repeat split; assumption|].
    split; [exact H1|]. split; [exact H2|].
    intros Hon. now apply Hhs.
  - intros Herr Herr1 Hq Hts Hid Hmap Hcnt.
    pose proof Hq as (_ & Hcb & _).
    rewrite <- Hbts, <- Hbid in *.
    destruct (external_close_buy_fires e tick (reconcile e tick g) Hts Hid
                (Hbm Hmap) Hcb Hcnt) as (Xid & Xmap & Xh & Xon & _).
    destruct (external_close_sell_frame e tick
                (external_close_buy e tick (reconcile e tick g)))
      as (_ & Fon & Fid & _ & Fh & _ & _ & Fm & _).
    cbv zeta. rewrite Fid, Fm, Fh.
    split; [exact Xid|]. split; [exact Xmap|]. split; [exact Xh|].
    rewrite (handle_tick_quiet e tick g Herr Herr1 Hq).
    split; [reflexivity|].
    intros Hoff. rewrite finish_fst.
    assert (Hoff' : buy_on (rt_of (external_close_sell e tick
                                     (external_close_buy e tick (reconcile e tick g))))
                    = false).
    { rewrite Fon, Xon, Hcy, Hbon, andb_comm. exact Hoff. }
    destruct (accumulate_stage_buy_off e tick _ Hoff') as (_ & -> & -> & ->).
    rewrite Fid, Fm, Fh. auto.
  - intros Herr Herr1 Hq Hts Hid Hmap Hcnt.
    pose proof Hq as (_ & _ & Hcs & _).
    destruct (external_close_buy_frame e tick (reconcile e tick g))
      as (_ & Fon & Fid & Fcl & _ & _ & _ & Fm & Fts & _).
    pose proof (external_close_buy_cyclic e tick (reconcile e tick g)) as Fcy.
    rewrite <- Hsts, <- Fts in Hts. rewrite <- Hsid, <- Fid in Hid, Hcnt.
    rewrite <- Fcl in Hcs.
    assert (Hmap' : sell_exec_map
                      (rt_of (external_close_buy e tick (reconcile e tick g))) ≠ ∅).
    { rewrite Fm. auto. }
    destruct (external_close_sell_fires e tick _ Hts Hid Hmap' Hcs Hcnt)
      as (Xid & Xmap & Xh & Xon & _).
    cbv zeta.
    split; [exact Xid|]. split; [exact Xmap|]. split; [exact Xh|].
    rewrite (handle_tick_quiet e tick g Herr Herr1 Hq).
    split; [reflexivity|].
    intros Hoff. rewrite finish_fst.
    assert (Hoff' : sell_on (rt_of (external_close_sell e tick
                                      (external_close_buy e tick (reconcile e tick g))))
                    = false).
    { rewrite Xon, Fcy, Fon, Hcy, Hson, andb_comm. exact Hoff. }
    destruct (accumulate_stage_sell_off e tick _ Hoff') as (_ & -> & -> & ->).
    auto.
Qed.

(** The session of [Sample.both_layers], whose last order dates from
    time 12, on a tick without positions: 4.999 seconds later the tick
    keeps the session, 5.001 seconds later it clears it. *)
Lemma C8_grace_period_witness :
  (buy_id (rt_of (handle_tick (Sample.env (12 + (4999 # 1000))) (Sample.tick 97 97 [])
                    Sample.both_layers).1) = "buy_01234567" ∧
   dom (buy_exec_map (rt_of Sample.both_layers))
   ⊆ dom (buy_exec_map (rt_of (handle_tick (Sample.env (12 + (4999 # 1000)))
                                 (Sample.tick 97 97 []) Sample.both_layers).1))) ∧
  (buy_id (rt_of (handle_tick (Sample.env (12 + (5001 # 1000))) (Sample.tick 97 97 [])
                    Sample.both_layers).1) = "" ∧
   buy_exec_map (rt_of (handle_tick (Sample.env (12 + (5001 # 1000)))
                          (Sample.tick 97 97 []) Sample.both_layers).1) = ∅ ∧
   buy_hedge_triggered
     (rt_of (handle_tick (Sample.env (12 + (5001 # 1000))) (Sample.tick 97 97 [])
               Sample.both_layers).1) = false).
Proof.
  assert (Hmap : buy_exec_map (rt_of Sample.both_layers) ≠ ∅).
  { apply size_pos_nonempty. vm_compute. reflexivity. }
  destruct (C8_grace_period (Sample.env (12 + (4999 # 1000))) (Sample.tick 97 97 [])
              Sample.both_layers) as (_ & _ & Hwait & _).
  destruct (C8_grace_period (Sample.env (12 + (5001 # 1000))) (Sample.tick 97 97 [])
              Sample.both_layers) as (_ & _ & _ & _ & Hfire & _).
  split.
  - destruct Hwait as (_ & _ & Hkept).
    + vm_compute. reflexivity.
    + vm_compute. discriminate.
    + exact Hmap.
    + vm_compute. reflexivity.
    + destruct Hkept as (_ & Hid & Hdom); [vm_compute; reflexivity|].
      split; [exact Hid|exact Hdom].
  - destruct Hfire as (_ & _ & _ & _ & Hfinal).
    + vm_compute. reflexivity.
    + vm_compute. reflexivity.
    + unfold quiet. repeat split; vm_compute; reflexivity.
    + vm_compute. discriminate.
    + vm_compute. discriminate.
    + exact Hmap.
    + vm_compute. reflexivity.
    + apply Hfinal. vm_compute. reflexivity.
Defined.

(** C8 (as stated) fails: the re-sync does not fire whenever its
    conditions hold.  Switch the idle sell side on and off again next to
    the buy session of [Sample.both_layers], whose last order dates from
    time 12: the second command queues CLOSE_ALL_SELL.  At time 20 the
    buy session is live, has two executed layers, is not closing and has
    no broker position, and 8 seconds have passed; yet the tick serves
    the queue, replies CLOSE_ALL and leaves the buy session as it is. *)
Lemma C8_resync_preempted :
  let g := run [Control None (Some true) None None;
                Control None (Some false) None None] Sample.both_layers in
  let e := Sample.env 20 in
  let tick := Sample.tick 97 97 [] in
  reachable g ∧
  (5 <= now_ts e - buy_last_order_sent_ts (rt_of g))%Q ∧
  buy_id (rt_of g) = "buy_01234567" ∧
  size (buy_exec_map (rt_of g)) = 2%nat ∧
  buy_is_closing (rt_of g) = false ∧
  count_active_trades tick (buy_id (rt_of g)) = 0%nat ∧
  error_status (rt_of g) = "" ∧
  handle_tick e tick g
  = (put_rt (set_pending_actions [] (rt_of (reconcile e tick g))) (reconcile e tick g),
     CloseAll "") ∧
  buy_id (rt_of (handle_tick e tick g).1) = "buy_01234567" ∧
  size (buy_exec_map (rt_of (handle_tick e tick g).1)) = 2%nat.
Proof.
  cbv zeta.
  split.
  { exists (firstn 5 Sample.session
            ++ [Control None (Some true) None None;
                Control None (Some false) None None]).
    vm_compute. reflexivity. }
  split; [vm_compute; discriminate|].
  do 7 (split; [vm_compute; reflexivity|]).
  vm_compute. reflexivity.
Qed.

(** ** Strings *)

Lemma prefix_app (a b : string) : String.prefix a (a +:+ b) = true.
Proof.
  induction a as [|c a IH]; simpl; [now destruct b|].
  destruct (ascii_dec c c); [exact IH|contradiction].
Qed.

Lemma str_in_prefix (a b : string) : Py.str_in a (a +:+ b) = true.
Proof.
  destruct a as [|c a]; [now destruct b|].
  change (Py.str_in (String c a) (String c a +:+ b))
    with (String.prefix (String c a) (String c (a +:+ b))
          || Py.str_in (String c a) (a +:+ b)).
  change (String c (a +:+ b)) with (String c a +:+ b).
  now rewrite prefix_app.
Qed.

Lemma prefix_has_char x needle hay :
  String.prefix needle hay = true → has_char x needle = true → has_char x hay = true.
Proof.
  revert hay. induction needle as [|a needle IH]; intros hay Hp Hx; [discriminate Hx|].
  destruct hay as [|b hay]; [discriminate Hp|]. simpl in *.
  destruct (ascii_dec a b) as [->|]; [|discriminate Hp].
  apply orb_true_iff in Hx as [Hx|Hx]; [now rewrite Hx|].
  rewrite (IH hay Hp Hx). apply orb_true_r.
Qed.

Lemma str_in_has_char x needle hay :
  has_char x needle = true → has_char x hay = false → Py.str_in needle hay = false.
Proof.
  intros Hx. induction hay as [|b hay IH]; intros Hh.
  - destruct needle; [discriminate Hx|reflexivity].
  - simpl in Hh. apply orb_false_iff in Hh as [Hb Hh].
    change (Py.str_in needle (String b hay))
      with (String.prefix needle (String b hay) || Py.str_in needle hay).
    rewrite (IH Hh), orb_false_r.
    destruct (String.prefix needle (String b hay)) eqn:Hp; [|reflexivity].
    pose proof (prefix_has_char x _ _ Hp Hx) as H. simpl in H.
    rewrite Hb, Hh in H. discriminate H.
Qed.

Lemma has_char_app x a b : has_char x (a +:+ b) = has_char x a || has_char x b.
Proof.
  induction a as [|c a IH]; [reflexivity|].
  change (has_char x (String c a +:+ b)) with (Ascii.eqb x c || has_char x (a +:+ b)).
  simpl. now rewrite IH, orb_assoc.
Qed.

Lemma has_char_all x f s :
  f x = false → all_chars f s = true → has_char x s = false.
Proof.
  intros Hx. induction s as [|c s IH]; intros H; [reflexivity|].
  simpl in *. apply andb_prop in H as [Hc Hs]. rewrite (IH Hs), orb_false_r.
  destruct (Ascii.eqb x c) eqn:E; [|reflexivity].
  apply Ascii.eqb_eq in E. congruence.
Qed.

(** ** Decimal printing and parsing *)

Lemma rev_string_rev (s a b : string) :
  Py.rev_string a (Py.rev_string b s) = Py.rev_string (s +:+ a) b.
Proof.
  revert a b. induction s as [|c s IH]; intros a b; [reflexivity|].
  simpl. now rewrite IH.
Qed.

Lemma append_nil_r (s : string) : s +:+ "" = s.
Proof.
  induction s as [|c s IH]; [reflexivity|].
  change (String c (s +:+ "") = String c s). now rewrite IH.
Qed.

Lemma rev_string_involutive (s : string) :
  Py.rev_string "" (Py.rev_string "" s) = s.
Proof. rewrite rev_string_rev. simpl. apply append_nil_r. Qed.

Lemma all_chars_rev f (s acc : string) :
  all_chars f (Py.rev_string acc s) = all_chars f s && all_chars f acc.
Proof.
  revert acc. induction s as [|c s IH]; intros acc; [reflexivity|].
  simpl. rewrite IH. simpl. destruct (f c), (all_chars f s); reflexivity.
Qed.

Lemma lstrip_no_space (s : string) :
  all_chars (fun c => negb (Py.is_space c)) s = true → Py.lstrip s = s.
Proof.
  destruct s as [|c s]; [reflexivity|]. simpl. intros H.
  apply andb_prop in H as [H _]. apply negb_true_iff in H. now rewrite H.
Qed.

Lemma strip_no_space (s : string) :
  all_chars (fun c => negb (Py.is_space c)) s = true → Py.strip s = s.
Proof.
  intros H. unfold Py.strip. rewrite (lstrip_no_space s H).
  rewrite lstrip_no_space by (now rewrite all_chars_rev, H).
  apply rev_string_involutive.
Qed.

Lemma all_chars_impl (f f' : ascii → bool) (s : string) :
  (∀ c, f c = true → f' c = true) → all_chars f s = true → all_chars f' s = true.
Proof.
  intros Hf. induction s as [|c s IH]; [reflexivity|]. simpl. intros H.
  apply andb_prop in H as [Hc Hs]. now rewrite (Hf c Hc), IH.
Qed.

Lemma all_chars_app f (a b : string) :
  all_chars f (a +:+ b) = all_chars f a && all_chars f b.
Proof.
  induction a as [|c a IH]; [reflexivity|].
  change (f c && all_chars f (a +:+ b) = f c && all_chars f a && all_chars f b).
  now rewrite IH, andb_assoc.
Qed.

Lemma digit_facts (c : ascii) :
  is_digit c = true →
  Py.is_space c = false ∧ (∃ d, Py.digit_value c = Some d) ∧
  c ≠ "-"%char ∧ c ≠ "+"%char ∧ c ≠ "_"%char ∧ hex_lower c = true.
Proof.
  destruct c as [[] [] [] [] [] [] [] []]; intros H; try discriminate H;
    (split; [reflexivity|split; [eexists; reflexivity|]]);
    repeat split; discriminate.
Qed.

Lemma string_of_uint_digits (d : Decimal.uint) :
  all_chars is_digit (NilEmpty.string_of_uint d) = true.
Proof. induction d; simpl; auto. Qed.

Lemma digits_go_acc (d : Decimal.uint) (p : positive) :
  Py.digits_go (Z.pos p) true (NilEmpty.string_of_uint d)
  = Some (Z.pos (Pos.of_uint_acc d p)).
Proof.
  revert p. induction d; intros p; [reflexivity|..];
    cbn [NilEmpty.string_of_uint Py.digits_go Pos.of_uint_acc];
    match goal with
    | |- context [Py.digit_value ?c] =>
        let v := eval vm_compute in (Py.digit_value c) in
        change (Py.digit_value c) with v
    end; cbv iota beta; rewrite <- IHd; f_equal; lia.
Qed.

Lemma digits_go_zero (d : Decimal.uint) (b : bool) :
  d ≠ Decimal.Nil ∨ b = true →
  Py.digits_go 0 b (NilEmpty.string_of_uint d) = Some (Z.of_N (Pos.of_uint d)).
Proof.
  revert b. induction d; intros b Hb.
  - destruct Hb as [Hb| ->]; [contradiction|reflexivity].
  - cbn [NilEmpty.string_of_uint Py.digits_go Pos.of_uint].
    change (Py.digit_value "0") with (Some 0). cbv iota beta.
    apply IHd. now right.
  - apply (digits_go_acc d 1).
  - apply (digits_go_acc d 2).
  - apply (digits_go_acc d 3).
  - apply (digits_go_acc d 4).
  - apply (digits_go_acc d 5).
  - apply (digits_go_acc d 6).
  - apply (digits_go_acc d 7).
  - apply (digits_go_acc d 8).
  - apply (digits_go_acc d 9).
Qed.

(** [str] of a non-negative integer: a non-empty string of digits that
    [int] reads back. *)
Lemma str_nonneg (n : Z) :
  0 ≤ n →
  ∃ c ds, Py.str n = String c ds ∧ all_chars is_digit (String c ds) = true ∧
          Py.digits_go 0 false (String c ds) = Some n.
Proof.
  intros Hn. unfold Py.str. destruct n as [|p|p]; [| |lia].
  - exists "0"%char, "". repeat split.
  - cbn [Z.to_int NilZero.string_of_int].
    pose proof (DecimalPos.Unsigned.of_to p) as Hp.
    assert (Hne : Pos.to_uint p ≠ Decimal.Nil).
    { intros E. rewrite E in Hp. discriminate Hp. }
    pose proof (digits_go_zero (Pos.to_uint p) false (or_introl Hne)) as Hg.
    pose proof (string_of_uint_digits (Pos.to_uint p)) as Ha.
    rewrite Hp in Hg. change (Z.of_N (N.pos p)) with (Z.pos p) in Hg.
    destruct (Pos.to_uint p); [contradiction|..];
      cbn [NilZero.string_of_uint NilEmpty.string_of_uint] in *; eauto.
Qed.

Lemma count_digits_le (s : string) :
  0 ≤ Py.count_digits s ≤ Z.of_nat (String.length s).
Proof.
  induction s as [|c s IH]; cbn [Py.count_digits String.length]; [lia|].
  destruct (Py.digit_value c); lia.
Qed.

(** Within the digit limit [int] reads the digits of [str] back. *)
Lemma int_str (n : Z) :
  0 ≤ n → Py.str_raises n = false → Py.int (Py.str n) = Some n.
Proof.
  intros Hn Hr. destruct (str_nonneg n Hn) as (c & ds & Hs & Hd & Hg).
  unfold Py.str_raises in Hr. rewrite Z.abs_eq, Hs in Hr by lia.
  apply Z.ltb_ge in Hr. rewrite Hs.
  unfold Py.int. rewrite strip_no_space.
  - pose proof (count_digits_le (String c ds)) as Hle.
    destruct (Z.ltb_spec Py.max_str_digits (Py.count_digits (String c ds)));
      [lia|].
    simpl in Hd. apply andb_prop in Hd as [Hc _].
    destruct (digit_facts c Hc) as (_ & _ & Hm & Hp & _).
    rewrite <- Hg.
    destruct c as [[] [] [] [] [] [] [] []]; try reflexivity; congruence.
  - eapply all_chars_impl; [|exact Hd]. intros x Hx.
    destruct (digit_facts x Hx) as (-> & _). reflexivity.
Qed.

(** ** Matching the comment of an order *)

Lemma fullmatch_Class_one (f : ascii → bool) (c : ascii) :
  f c = true → Re.fullmatch (Re.Class f) (String c "") = true.
Proof. intros H. simpl. now rewrite H. Qed.

Lemma fullmatch_lit (s : string) : Re.fullmatch (Re.lit s) s = true.
Proof.
  induction s as [|c s IH]; [reflexivity|].
  change (Re.lit (String c s)) with (Re.Cat (Re.Class (Ascii.eqb c)) (Re.lit s)).
  apply fullmatch_Cat. exists (String c ""), s. repeat split; [|exact IH].
  apply fullmatch_Class_one, Ascii.eqb_refl.
Qed.

Lemma fullmatch_times (f : ascii → bool) (n : nat) (h : string) :
  String.length h = n → all_chars f h = true →
  Re.fullmatch (Re.times n (Re.Class f)) h = true.
Proof.
  revert h. induction n as [|n IH]; intros [|c h] Hl Hf; try discriminate Hl;
    [reflexivity|].
  simpl in Hf. apply andb_prop in Hf as [Hc Hh].
  change (Re.times (S n) (Re.Class f))
    with (Re.Cat (Re.Class f) (Re.times n (Re.Class f))).
  apply fullmatch_Cat. exists (String c ""), h. repeat split.
  - now apply fullmatch_Class_one.
  - apply IH; [now injection Hl|exact Hh].
Qed.

Lemma fullmatch_Star_class (f : ascii → bool) (s : string) :
  all_chars f s = true → Re.fullmatch (Re.Star (Re.Class f)) s = true.
Proof.
  induction s as [|c s IH]; intros H; [reflexivity|].
  simpl in H. apply andb_prop in H as [Hc Hs]. simpl. rewrite Hc.
  apply fullmatch_Cat. exists "", s. auto.
Qed.

Lemma fullmatch_plus_digit (c : ascii) (ds : string) :
  all_chars is_digit (String c ds) = true →
  Re.fullmatch (Re.plus Re.digit) (String c ds) = true.
Proof.
  intros H. simpl in H. apply andb_prop in H as [Hc Hs].
  apply fullmatch_Cat. exists (String c ""), ds. repeat split.
  - now apply fullmatch_Class_one.
  - now apply fullmatch_Star_class.
Qed.

Lemma uuid_hex8 (u : string) :
  is_uuid_hex u = true →
  ∃ c1 c2 c3 c4 c5 c6 c7 c8,
    String.substring 0 8 u
    = String c1 (String c2 (String c3 (String c4 (String c5 (String c6
        (String c7 (String c8 ""))))))) ∧
    all_chars hex_lower (String.substring 0 8 u) = true.
Proof.
  unfold is_uuid_hex. intros H. apply andb_prop in H as [Hl Hh].
  apply Nat.eqb_eq in Hl.
  destruct u as [|c1 [|c2 [|c3 [|c4 [|c5 [|c6 [|c7 [|c8 u]]]]]]]]; try discriminate Hl.
  exists c1, c2, c3, c4, c5, c6, c7, c8.
  assert (Hsub : String.substring 0 8
            (String c1 (String c2 (String c3 (String c4 (String c5 (String c6
               (String c7 (String c8 u))))))))
          = String c1 (String c2 (String c3 (String c4 (String c5 (String c6
               (String c7 (String c8 "")))))))) by (now destruct u).
  rewrite Hsub. split; [reflexivity|].
  simpl in *.
  repeat match goal with
         | H : _ && _ = true |- _ => apply andb_prop in H as [? H]
         end.
  repeat (apply andb_true_intro; split; [assumption|]). reflexivity.
Qed.

Lemma hex_facts (c : ascii) :
  hex_lower c = true →
  hex_any_case c = true ∧ c ≠ "_"%char ∧ c ≠ "i"%char ∧ c ≠ "s"%char ∧ c ≠ "u"%char.
Proof.
  destruct c as [[] [] [] [] [] [] [] []]; intros H; try discriminate H;
    (split; [reflexivity|]); repeat split; discriminate.
Qed.

(** *** Splitting at [_idx] *)

Lemma split_go_step (cur : string) (c : ascii) (rest : string) :
  c ≠ "_"%char →
  Py.split_go "_idx" 0 cur (String c rest)
  = Py.split_go "_idx" 0 (String c cur) rest.
Proof.
  intros H. cbn [Py.split_go String.prefix].
  destruct (ascii_dec "_" c) as [E|E]; [congruence|reflexivity].
Qed.

Lemma split_go_underscore (cur : string) (c : ascii) (rest : string) :
  c ≠ "i"%char →
  Py.split_go "_idx" 0 cur (String "_" (String c rest))
  = Py.split_go "_idx" 0 (String "_" cur) (String c rest).
Proof.
  intros H. cbn [Py.split_go String.prefix].
  destruct (ascii_dec "_" "_") as [_|E]; [|contradiction].
  destruct (ascii_dec "i" c) as [E|E]; [congruence|reflexivity].
Qed.

Lemma split_go_plain (cur s : string) :
  all_chars is_digit s = true →
  Py.split_go "_idx" 0 cur s = [Py.rev_string "" (Py.rev_string cur s)].
Proof.
  revert cur. induction s as [|c s IH]; intros cur H; [reflexivity|].
  simpl in H. apply andb_prop in H as [Hc Hs].
  destruct (digit_facts c Hc) as (_ & _ & _ & _ & Hu & _).
  rewrite split_go_step by exact Hu. now rewrite IH.
Qed.

Lemma split_go_skip (sep p cur rest : string) :
  Py.split_go sep (String.length p) cur (p +:+ rest) = Py.split_go sep 0 cur rest.
Proof.
  induction p as [|c p IH]; [now destruct rest|exact IH].
Qed.

Lemma split_go_hit (sep cur : string) (c : ascii) (rest : string) :
  String.prefix sep (String c rest) = true →
  Py.split_go sep 0 cur (String c rest)
  = Py.rev_string "" cur :: Py.split_go sep (String.length sep - 1) "" rest.
Proof.
  intros H.
  change (Py.split_go sep 0 cur (String c rest))
    with (if String.prefix sep (String c rest)
          then Py.rev_string "" cur :: Py.split_go sep (String.length sep - 1) "" rest
          else Py.split_go sep 0 (String c cur) rest).
  now rewrite H.
Qed.

Lemma split_go_separator (cur ds : string) :
  all_chars is_digit ds = true →
  Py.split_go "_idx" 0 cur ("_idx" +:+ ds) = [Py.rev_string "" cur; ds].
Proof.
  intros H.
  change ("_idx" +:+ ds) with (String "_" ("idx" +:+ ds)).
  rewrite split_go_hit.
  - change (String.length "_idx" - 1)%nat with (String.length "idx").
    rewrite split_go_skip, split_go_plain by exact H.
    now rewrite rev_string_involutive.
  - change (String "_" ("idx" +:+ ds)) with ("_idx" +:+ ds).
    apply prefix_app.
Qed.

(** ** The comment of an order, read back *)

Lemma append_assoc (a b c : string) : (a +:+ b) +:+ c = a +:+ (b +:+ c).
Proof.
  induction a as [|x a IH]; [reflexivity|].
  change (String x ((a +:+ b) +:+ c) = String x (a +:+ (b +:+ c))). now rewrite IH.
Qed.

Lemma order_comment_match (side u : string) (n : Z) :
  side = "buy" ∨ side = "sell" → is_uuid_hex u = true → 0 ≤ n →
  Re.fullmatch TRADE_ID_PATTERN (order_comment (get_hash side u) n) = true.
Proof.
  intros Hside Hu Hn.
  destruct (uuid_hex8 u Hu) as (c1 & c2 & c3 & c4 & c5 & c6 & c7 & c8 & Hsub & Hhex).
  destruct (str_nonneg n Hn) as (d & ds & Hstr & Hds & _).
  unfold order_comment, get_hash. rewrite Hstr.
  set (h := String.substring 0 8 u) in *.
  rewrite !append_assoc.
  apply fullmatch_Cat. exists side, ("_" +:+ h +:+ "_idx" +:+ String d ds).
  split; [reflexivity|]. split.
  { destruct Hside as [-> | ->]; reflexivity. }
  apply fullmatch_Cat. exists "_", (h +:+ "_idx" +:+ String d ds).
  split; [reflexivity|]. split; [reflexivity|].
  apply fullmatch_Cat. exists h, ("_idx" +:+ String d ds).
  split; [reflexivity|]. split.
  { apply fullmatch_times; [now rewrite Hsub|].
    apply (all_chars_impl hex_lower); [|exact Hhex].
    intros c Hc. now apply hex_facts. }
  apply fullmatch_Cat. exists "_idx", (String d ds).
  split; [reflexivity|]. split; [apply fullmatch_lit|].
  now apply fullmatch_plus_digit.
Qed.

Lemma order_comment_split (side u : string) (n : Z) :
  side = "buy" ∨ side = "sell" → is_uuid_hex u = true → 0 ≤ n →
  Py.split (order_comment (get_hash side u) n) "_idx" = [get_hash side u; Py.str n].
Proof.
  intros Hside Hu Hn.
  destruct (uuid_hex8 u Hu) as (c1 & c2 & c3 & c4 & c5 & c6 & c7 & c8 & Hsub & Hhex).
  destruct (str_nonneg n Hn) as (d & ds & Hstr & Hds & _).
  unfold order_comment, get_hash, Py.split. rewrite Hstr, Hsub in *.
  simpl in Hhex.
  repeat match goal with
         | H : _ && _ = true |- _ => apply andb_prop in H as [? H]
         end.
  repeat match goal with
         | H : hex_lower _ = true |- _ => apply hex_facts in H as (_ & ? & ? & _)
         end.
  destruct Hside as [-> | ->].
  - change (Py.split_go "_idx" 0 ""
      (String "b" (String "u" (String "y" (String "_" (String c1 (String c2
        (String c3 (String c4 (String c5 (String c6 (String c7 (String c8
          ("_idx" +:+ String d ds)))))))))))))
      = ["buy_" +:+ String c1 (String c2 (String c3 (String c4 (String c5
           (String c6 (String c7 (String c8 ""))))))); String d ds]).
    do 3 (rewrite split_go_step by discriminate).
    rewrite split_go_underscore by assumption.
    do 8 (rewrite split_go_step by assumption).
    now rewrite split_go_separator.
  - change (Py.split_go "_idx" 0 ""
      (String "s" (String "e" (String "l" (String "l" (String "_" (String c1
        (String c2 (String c3 (String c4 (String c5 (String c6 (String c7
          (String c8 ("_idx" +:+ String d ds))))))))))))))
      = ["sell_" +:+ String c1 (String c2 (String c3 (String c4 (String c5
           (String c6 (String c7 (String c8 ""))))))); String d ds]).
    do 4 (rewrite split_go_step by discriminate).
    rewrite split_go_underscore by assumption.
    do 8 (rewrite split_go_step by assumption).
    now rewrite split_go_separator.
Qed.

(** The characters of an order comment: a buy comment holds no [s], a
    sell comment no [y]. *)
Lemma order_comment_chars (side u : string) (n : Z) (x : ascii) :
  is_uuid_hex u = true → 0 ≤ n →
  has_char x side = false → has_char x "_idx" = false →
  hex_lower x = false →
  has_char x (order_comment (get_hash side u) n) = false.
Proof.
  intros Hu Hn Hside Hidx Hx.
  destruct (uuid_hex8 u Hu) as (c1 & c2 & c3 & c4 & c5 & c6 & c7 & c8 & _ & Hhex).
  destruct (str_nonneg n Hn) as (d & ds & Hstr & Hds & _).
  assert (Hus : has_char x "_" = false).
  { simpl in Hidx |- *. apply orb_false_iff in Hidx as [-> _]. reflexivity. }
  unfold order_comment, get_hash.
  rewrite !has_char_app, Hside, Hidx, Hus.
  rewrite (has_char_all x hex_lower _ Hx Hhex).
  rewrite (has_char_all x hex_lower (Py.str n) Hx).
  - reflexivity.
  - rewrite Hstr. apply (all_chars_impl is_digit); [|exact Hds].
    intros c Hc. now apply digit_facts.
Qed.

Lemma order_comment_parses (side u : string) (n : Z) :
  side = "buy" ∨ side = "sell" → is_uuid_hex u = true → 0 ≤ n →
  Py.str_raises n = false →
  TRADE_ID_PATTERN_match (order_comment (get_hash side u) n) = true ∧
  Py.split (order_comment (get_hash side u) n) "_idx" = [get_hash side u; Py.str n] ∧
  Py.int (Py.str n) = Some n.
Proof.
  intros Hside Hu Hn Hr. split; [|split].
  - unfold TRADE_ID_PATTERN_match, Re.match_anchored.
    now rewrite order_comment_match.
  - now apply order_comment_split.
  - now apply int_str.
Qed.

(** ** Orders read back by the reconciler *)

(** X1. Round trip of an order comment.  For a session id minted by
    [get_hash] from a [uuid4().hex] value and a non-negative layer index
    [n] of at most 4300 digits (so that [str(n)] does not raise), the
    comment [f"{session_id}_idx{n}"] that the server puts on its orders
    matches [TRADE_ID_PATTERN], splits at [_idx] into exactly the session
    id and the digits of [n], and [int] reads these digits back as
    [n]. *)
Theorem order_comment_round_trip (side u : string) (n : Z) :
  side = "buy" ∨ side = "sell" → is_uuid_hex u = true → 0 ≤ n →
  Py.str_raises n = false →
  TRADE_ID_PATTERN_match (order_comment (get_hash side u) n) = true ∧
  Py.split (order_comment (get_hash side u) n) "_idx" = [get_hash side u; Py.str n] ∧
  Py.int (Py.str n) = Some n.
Proof.
  intros Hside Hu Hn Hr. split; [|split].
  - unfold TRADE_ID_PATTERN_match, Re.match_anchored.
    now rewrite order_comment_match.
  - now apply order_comment_split.
  - now apply int_str.
Qed.

Lemma order_comment_round_trip_witness :
  TRADE_ID_PATTERN_match
    (order_comment (get_hash "sell" "fedcba9876543210fedcba9876543210") 12) = true ∧
  Py.split (order_comment (get_hash "sell" "fedcba9876543210fedcba9876543210") 12) "_idx"
  = [get_hash "sell" "fedcba9876543210fedcba9876543210"; Py.str 12] ∧
  Py.int (Py.str 12) = Some 12.
Proof.
  apply (order_comment_round_trip "sell" "fedcba9876543210fedcba9876543210" 12).
  - right. reflexivity.
  - vm_compute. reflexivity.
  - lia.
  - vm_compute. reflexivity.
Defined.

Lemma own_comment_no_conflict (side other u : string) (n : Z) (x : ascii) :
  side = "buy" ∨ side = "sell" → is_uuid_hex u = true → 0 ≤ n →
  has_char x other = true → has_char x side = false →
  has_char x "_idx" = false → hex_lower x = false →
  Py.str_in (side +:+ "_") (order_comment (get_hash side u) n) = true ∧
  Py.str_in (get_hash side u) (order_comment (get_hash side u) n) = true ∧
  Py.str_in other (order_comment (get_hash side u) n) = false.
Proof.
  intros Hside Hu Hn Hother Hx Hidx Hhex. split; [|split].
  - unfold order_comment, get_hash. rewrite <- (append_assoc side "_"), append_assoc.
    apply str_in_prefix.
  - apply str_in_prefix.
  - apply (str_in_has_char x); [exact Hother|].
    now apply order_comment_chars.
Qed.

(** A position of type [BUY] that carries the comment of layer [n] of
    the buy session [get_hash "buy" u] is filed under key [n] of the buy
    exec map. *)
Lemma absorb_own_buy (e : Env) (rt : RuntimeState) (p : Position.t)
    (bm sm : gmap Z RowExecStats.t) (u : string) (n : Z) :
  is_uuid_hex u = true → 0 ≤ n → Py.str_raises n = false →
  buy_id rt = get_hash "buy" u →
  Position.comment p = order_comment (buy_id rt) n →
  Position.type p = "BUY" →
  absorb_position e rt p (bm, sm)
  = inr (<[n := RowExecStats.new n (Position.price p) (Position.volume p)
                  (Position.profit p) (now_iso e)]> bm, sm).
Proof.
  intros Hu Hn Hr Hid Hc Ht.
  destruct (order_comment_parses "buy" u n (or_introl eq_refl) Hu Hn Hr)
    as (Hm & Hsplit & Hint).
  destruct (own_comment_no_conflict "buy" "sell_" u n "s" (or_introl eq_refl) Hu Hn
              eq_refl eq_refl eq_refl eq_refl) as (_ & Hown & Hno).
  unfold absorb_position. rewrite Hc, Hid, Ht, Hm, Hown, Hno, Hsplit.
  unfold record_fill. rewrite Hint.
  rewrite !andb_false_r, andb_false_l. reflexivity.
Qed.

(** The same on the sell side. *)
Lemma absorb_own_sell (e : Env) (rt : RuntimeState) (p : Position.t)
    (bm sm : gmap Z RowExecStats.t) (u : string) (n : Z) :
  is_uuid_hex u = true → 0 ≤ n → Py.str_raises n = false →
  sell_id rt = get_hash "sell" u →
  Position.comment p = order_comment (sell_id rt) n →
  Position.type p = "SELL" →
  absorb_position e rt p (bm, sm)
  = inr (bm, <[n := RowExecStats.new n (Position.price p) (Position.volume p)
                      (Position.profit p) (now_iso e)]> sm).
Proof.
  intros Hu Hn Hr Hid Hc Ht.
  destruct (order_comment_parses "sell" u n (or_intror eq_refl) Hu Hn Hr)
    as (Hm & Hsplit & Hint).
  destruct (own_comment_no_conflict "sell" "buy_" u n "y" (or_intror eq_refl) Hu Hn
              eq_refl eq_refl eq_refl eq_refl) as (_ & Hown & Hno).
  unfold absorb_position. rewrite Hc, Hid, Ht, Hm, Hown, Hno, Hsplit.
  unfold record_fill. rewrite Hint.
  rewrite !andb_false_r, !andb_false_l. reflexivity.
Qed.

(** ** Identity conflicts *)

Lemma fullmatch_Class_inv (f : ascii → bool) (s : string) :
  Re.fullmatch (Re.Class f) s = true → ∃ c, s = String c "" ∧ f c = true.
Proof.
  destruct s as [|c s]; simpl; [discriminate|].
  destruct (f c) eqn:Hc; [|now rewrite fullmatch_Void].
  intros H. apply fullmatch_Eps in H as ->. eauto.
Qed.

Lemma fullmatch_lit_inv (a s : string) : Re.fullmatch (Re.lit a) s = true → s = a.
Proof.
  revert s. induction a as [|c a IH]; intros s H.
  - now apply fullmatch_Eps.
  - change (Re.lit (String c a)) with (Re.Cat (Re.Class (Ascii.eqb c)) (Re.lit a)) in H.
    apply fullmatch_Cat in H as (s1 & s2 & -> & H1 & H2).
    apply fullmatch_Class_inv in H1 as (c' & -> & Hc).
    apply Ascii.eqb_eq in Hc as <-. now rewrite (IH _ H2).
Qed.

Lemma prefix_app_r (a w t : string) :
  String.prefix a w = true → String.prefix a (w +:+ t) = true.
Proof.
  revert w. induction a as [|x a IH]; intros w H; [now destruct (w +:+ t)|].
  destruct w as [|y w]; [discriminate H|].
  change (String.prefix (String x a) (String y (w +:+ t)) = true).
  simpl in *. destruct (ascii_dec x y); [now apply IH|discriminate H].
Qed.

Lemma str_in_app_r (a s t : string) : Py.str_in a s = true → Py.str_in a (s +:+ t) = true.
Proof.
  induction s as [|c s IH].
  - destruct a as [|x a]; [now destruct t|discriminate].
  - change (Py.str_in a (String c s))
      with (String.prefix a (String c s) || Py.str_in a s).
    change (Py.str_in a (String c s +:+ t))
      with (String.prefix a (String c s +:+ t) || Py.str_in a (s +:+ t)).
    intros H. apply orb_true_iff in H as [H|H].
    + now rewrite (prefix_app_r _ _ t H).
    + rewrite (IH H). apply orb_true_r.
Qed.

Lemma drop_last_newline (s : string) :
  Re.ends_with_newline s = true → s = Re.drop_last s +:+ String "010" "".
Proof.
  induction s as [|c s IH]; [discriminate|].
  destruct s as [|c' s].
  - simpl. intros H. apply Ascii.eqb_eq in H as ->. reflexivity.
  - intros H. change (Re.ends_with_newline (String c' s) = true) in H.
    change (Re.drop_last (String c (String c' s)))
      with (String c (Re.drop_last (String c' s))).
    change (String c (String c' s)
            = String c (Re.drop_last (String c' s) +:+ String "010" "")).
    now rewrite <- (IH H).
Qed.

(** A comment that the pattern accepts names a side. *)
Lemma pattern_names_side (s : string) :
  TRADE_ID_PATTERN_match s = true →
  Py.str_in "buy_" s = true ∨ Py.str_in "sell_" s = true.
Proof.
  assert (Hfull : ∀ w, Re.fullmatch TRADE_ID_PATTERN w = true →
                       Py.str_in "buy_" w = true ∨ Py.str_in "sell_" w = true).
  { intros w H. unfold TRADE_ID_PATTERN in H.
    apply fullmatch_Cat in H as (s1 & s2 & -> & H1 & H2).
    apply fullmatch_Cat in H2 as (s3 & s4 & -> & H3 & _).
    apply fullmatch_lit_inv in H3 as ->.
    rewrite fullmatch_Alt in H1. apply orb_true_iff in H1 as [H1|H1];
      apply fullmatch_lit_inv in H1 as ->; [right|left];
      rewrite <- append_assoc; apply str_in_prefix. }
  unfold TRADE_ID_PATTERN_match, Re.match_anchored. intros H.
  apply orb_true_iff in H as [H|H]; [now apply Hfull|].
  apply andb_prop in H as [Hn H].
  rewrite (drop_last_newline s Hn).
  destruct (Hfull _ H) as [Hb|Hb]; [left|right]; now apply str_in_app_r.
Qed.

Lemma absorb_position_conflict e rt p maps :
  TRADE_ID_PATTERN_match (Position.comment p) = true →
  buy_id rt = "" ∨ Py.str_in (buy_id rt) (Position.comment p) = false →
  sell_id rt = "" ∨ Py.str_in (sell_id rt) (Position.comment p) = false →
  ∃ msg, absorb_position e rt p maps = inl msg.
Proof.
  intros Hm Hb Hs. unfold absorb_position. rewrite Hm.
  assert (Hb' : negb (Py.truthy (buy_id rt))
                || negb (Py.str_in (buy_id rt) (Position.comment p)) = true).
  { destruct Hb as [-> | ->]; [reflexivity|apply orb_true_r]. }
  assert (Hs' : negb (Py.truthy (sell_id rt))
                || negb (Py.str_in (sell_id rt) (Position.comment p)) = true).
  { destruct Hs as [-> | ->]; [reflexivity|apply orb_true_r]. }
  rewrite Hb', Hs', !andb_true_r. cbn [negb].
  destruct (Py.str_in "buy_" (Position.comment p)) eqn:Eb; [eauto|].
  destruct (pattern_names_side _ Hm) as [H|H]; [congruence|].
  rewrite H. eauto.
Qed.

(** X2. Identity conflict.  If any position of the tick, wherever it
    stands in the list, carries a comment that matches
    [TRADE_ID_PATTERN] but contains neither the current buy session id
    nor the current sell session id (an empty id counts as absent), then
    [update_exec_stats] sets a non-empty [error_status] and changes
    nothing else: both exec maps stay as they were, also for the
    positions listed before the conflicting one. *)
Theorem identity_conflict_locks (e : Env) (tick : TickData.t) (rt : RuntimeState)
    (p : Position.t) :
  p ∈ TickData.positions tick →
  TRADE_ID_PATTERN_match (Position.comment p) = true →
  buy_id rt = "" ∨ Py.str_in (buy_id rt) (Position.comment p) = false →
  sell_id rt = "" ∨ Py.str_in (sell_id rt) (Position.comment p) = false →
  ∃ msg, msg ≠ "" ∧ update_exec_stats e tick rt = set_error_status msg rt.
Proof.
  intros Hin Hm Hb Hs.
  assert (H : ∀ ps maps, p ∈ ps → ∃ msg, absorb_positions e rt ps maps = inl msg).
  { induction ps as [|q ps IH]; intros maps Hq; [now apply elem_of_nil in Hq|].
    simpl. destruct (absorb_position e rt q maps) as [msg|maps'] eqn:Hq'; [eauto|].
    apply elem_of_cons in Hq as [<- | Hq]; [|now apply IH].
    destruct (absorb_position_conflict e rt p maps Hm Hb Hs) as (msg & Hmsg).
    congruence. }
  destruct (H _ (buy_exec_map rt, sell_exec_map rt) Hin) as (msg & Hmsg).
  exists msg. split; [now apply absorb_positions_error in Hmsg|].
  unfold update_exec_stats. now rewrite Hmsg.
Qed.

Lemma identity_conflict_locks_witness :
  ∃ msg, msg ≠ "" ∧
    update_exec_stats (Sample.env 100) (Sample.tick 1 1 [Sample.foreign])
      (rt_of Sample.one_layer)
    = set_error_status msg (rt_of Sample.one_layer).
Proof.
  apply (identity_conflict_locks (Sample.env 100) (Sample.tick 1 1 [Sample.foreign])
           (rt_of Sample.one_layer) Sample.foreign).
  - apply list_elem_of_singleton. reflexivity.
  - vm_compute. reflexivity.
  - right. vm_compute. reflexivity.
  - left. reflexivity.
Defined.

(** ** Basket statistics *)

Lemma sum_snoc (xs : list Q) (x : Q) : Py.sum (xs ++ [x]) = (Py.sum xs + x)%Q.
Proof. unfold Py.sum. now rewrite foldl_app. Qed.

Lemma sorted_indices_elem (m : gmap Z RowExecStats.t) (k : Z) :
  k ∈ sorted_indices m ↔ is_Some (m !! k).
Proof.
  unfold sorted_indices, Py.sorted, exec_keys.
  rewrite merge_sort_Permutation, list_elem_of_fmap. split.
  - intros ([j r] & -> & H). apply elem_of_map_to_list in H. simpl. eauto.
  - intros [r H]. exists (k, r). split; [reflexivity|]. now apply elem_of_map_to_list.
Qed.

Lemma sorted_indices_NoDup (m : gmap Z RowExecStats.t) : NoDup (sorted_indices m).
Proof.
  unfold sorted_indices, Py.sorted, exec_keys.
  rewrite merge_sort_Permutation. apply NoDup_fst_map_to_list.
Qed.

Lemma sorted_indices_sorted (m : gmap Z RowExecStats.t) :
  StronglySorted Z.le (sorted_indices m).
Proof. apply StronglySorted_merge_sort; apply _. Qed.

Lemma filter_none_above (k : Z) (l : list Z) :
  Forall (λ j, k < j) l → filter (λ j, j ≤ k) l = [].
Proof.
  induction 1 as [|x l Hx _ IH]; [reflexivity|].
  rewrite filter_cons_False by lia. exact IH.
Qed.

Lemma sorted_filter_take (ks : list Z) (i : nat) (k : Z) :
  StronglySorted Z.le ks → NoDup ks → ks !! i = Some k →
  filter (λ j, j ≤ k) ks = take (S i) ks.
Proof.
  intros Hs. revert i. induction Hs as [|x ks Hs IH Hx]; intros i Hn Hi;
    [discriminate Hi|].
  apply NoDup_cons in Hn as [Hnx Hn].
  destruct i as [|i]; simpl in Hi.
  - injection Hi as ->. rewrite filter_cons_True by lia.
    change (take 1 (k :: ks)) with [k]. f_equal. apply filter_none_above.
    rewrite Forall_forall in Hx |- *. intros j Hj.
    assert (j ≠ k) by (intros ->; contradiction).
    specialize (Hx j Hj). lia.
  - rewrite Forall_forall in Hx.
    assert (x ≤ k) by (apply Hx; eapply list_elem_of_lookup_2; eauto).
    rewrite filter_cons_True by assumption.
    rewrite (IH i Hn Hi). reflexivity.
Qed.

Lemma cumulate_loop (m : gmap Z RowExecStats.t) (ks pre : list Z) (cl cp : Q)
    (acc : gmap Z RowExecStats.t) :
  NoDup (pre ++ ks) →
  cl = Py.sum (RowExecStats.lots <$> omap (λ j, m !! j) pre) →
  cp = Py.sum (RowExecStats.profit <$> omap (λ j, m !! j) pre) →
  (∀ j, j ∉ pre → acc !! j = m !! j) →
  (∀ i j row, pre !! i = Some j → m !! j = Some row →
     acc !! j = Some (RowExecStats.set_cumulative
                        (Py.sum (RowExecStats.lots <$> omap (λ j, m !! j) (take (S i) pre)))
                        (Py.sum (RowExecStats.profit <$> omap (λ j, m !! j) (take (S i) pre)))
                        row)) →
  ∀ i j row, (pre ++ ks) !! i = Some j → m !! j = Some row →
    (foldl (fun '(cum_lots, cum_profit, acc) idx =>
              match acc !! idx with
              | Some row =>
                  let cum_lots := (cum_lots + RowExecStats.lots row)%Q in
                  let cum_profit := (cum_profit + RowExecStats.profit row)%Q in
                  (cum_lots, cum_profit,
                   <[idx := RowExecStats.set_cumulative cum_lots cum_profit row]> acc)
              | None => (cum_lots, cum_profit, acc)
              end)
           (cl, cp, acc) ks).2 !! j
    = Some (RowExecStats.set_cumulative
              (Py.sum (RowExecStats.lots <$> omap (λ j, m !! j) (take (S i) (pre ++ ks))))
              (Py.sum (RowExecStats.profit <$> omap (λ j, m !! j) (take (S i) (pre ++ ks))))
              row).
Proof.
  revert pre cl cp acc.
  induction ks as [|k ks IH]; intros pre cl cp acc Hnd Hcl Hcp Hout Hin i j row Hi Hj.
  - rewrite app_nil_r in *. simpl. now apply Hin.
  - assert (Hk : k ∉ pre).
    { apply NoDup_app in Hnd as (_ & Hd & _). intros Hk. apply (Hd k Hk). left. }
    replace (pre ++ k :: ks) with ((pre ++ [k]) ++ ks) in *
      by (now rewrite <- app_assoc).
    cbn [foldl]. rewrite (Hout k Hk).
    destruct (m !! k) as [rk|] eqn:Hmk.
    + apply IH; try assumption.
      * rewrite omap_app, fmap_app. simpl. rewrite Hmk. simpl.
        now rewrite sum_snoc, <- Hcl.
      * rewrite omap_app, fmap_app. simpl. rewrite Hmk. simpl.
        now rewrite sum_snoc, <- Hcp.
      * intros j' Hj'. rewrite lookup_insert_ne; [apply Hout|]; set_solver.
      * intros i' j' row' Hi' Hj'.
        apply lookup_app_Some in Hi' as [Hi'|[Hlen Hi']].
        -- assert (j' ≠ k).
           { intros ->. apply Hk. eapply list_elem_of_lookup_2; eauto. }
           rewrite lookup_insert_ne by congruence.
           rewrite take_app_le by (apply lookup_lt_Some in Hi'; lia).
           now apply Hin.
        -- apply list_lookup_singleton_Some in Hi' as [Hz ->].
           rewrite lookup_insert_eq.
           rewrite take_ge by (rewrite length_app; simpl; lia).
           rewrite omap_app, !fmap_app. simpl. rewrite Hmk. simpl.
           rewrite !sum_snoc, <- Hcl, <- Hcp. congruence.
    + apply IH; try assumption.
      * rewrite omap_app, fmap_app. simpl. rewrite Hmk. simpl.
        now rewrite app_nil_r.
      * rewrite omap_app, fmap_app. simpl. rewrite Hmk. simpl.
        now rewrite app_nil_r.
      * intros j' Hj'. apply Hout. set_solver.
      * intros i' j' row' Hi' Hj'.
        apply lookup_app_Some in Hi' as [Hi'|[Hlen Hi']].
        -- rewrite take_app_le by (apply lookup_lt_Some in Hi'; lia).
           now apply Hin.
        -- apply list_lookup_singleton_Some in Hi' as [Hz ->]. congruence.
Qed.

Lemma cumulate_at_position (m : gmap Z RowExecStats.t) (i : nat) (k : Z)
    (row : RowExecStats.t) :
  sorted_indices m !! i = Some k → m !! k = Some row →
  cumulate m !! k
  = Some (RowExecStats.set_cumulative
            (Py.sum (RowExecStats.lots <$>
                     omap (λ j, m !! j) (take (S i) (sorted_indices m))))
            (Py.sum (RowExecStats.profit <$>
                     omap (λ j, m !! j) (take (S i) (sorted_indices m))))
            row).
Proof.
  intros Hi Hk. unfold cumulate.
  apply (cumulate_loop m (sorted_indices m) [] 0%Q 0%Q m); try reflexivity.
  - apply sorted_indices_NoDup.
  - intros i' j' r' H. discriminate H.
  - exact Hi.
  - exact Hk.
Qed.

(** The fields that the cumulation pass leaves alone. *)
Lemma cumulate_lookup (m : gmap Z RowExecStats.t) (k : Z) (row : RowExecStats.t) :
  m !! k = Some row →
  ∃ cl cp, cumulate m !! k = Some (RowExecStats.set_cumulative cl cp row).
Proof.
  intros Hk.
  assert (Hin : k ∈ sorted_indices m) by (apply sorted_indices_elem; eauto).
  apply list_elem_of_lookup in Hin as [i Hi].
  eexists _, _. now apply (cumulate_at_position m i).
Qed.

(** X3. Basket statistics are running sums.  After the cumulation pass
    of [update_exec_stats], the row at key [k] keeps its index, entry
    price, lots, profit and timestamp, and its [cumulative_lots]
    ([cumulative_profit]) is the sum, accumulated from [0.0] in ascending
    order of the keys, of the lots (profits) of all rows of the map with
    keys up to and including [k]. *)
Theorem cumulate_running_sums (m : gmap Z RowExecStats.t) (k : Z)
    (row : RowExecStats.t) :
  m !! k = Some row →
  cumulate m !! k
  = Some (RowExecStats.set_cumulative
            (Py.sum (RowExecStats.lots <$> rows_upto m k))
            (Py.sum (RowExecStats.profit <$> rows_upto m k))
            row).
Proof.
  intros Hk.
  assert (Hin : k ∈ sorted_indices m) by (apply sorted_indices_elem; eauto).
  apply list_elem_of_lookup in Hin as [i Hi].
  unfold rows_upto.
  rewrite (sorted_filter_take _ i k (sorted_indices_sorted m)
             (sorted_indices_NoDup m) Hi).
  now apply cumulate_at_position.
Qed.

Lemma cumulate_running_sums_witness :
  cumulate (buy_exec_map (rt_of Sample.both_layers)) !! 1
  = Some (RowExecStats.set_cumulative
            (Py.sum (RowExecStats.lots <$> rows_upto (buy_exec_map (rt_of Sample.both_layers)) 1))
            (Py.sum (RowExecStats.profit <$> rows_upto (buy_exec_map (rt_of Sample.both_layers)) 1))
            (RowExecStats.new 1 97 (2 # 10) 0 "2025-01-01T00:00:00")).
Proof.
  apply (cumulate_running_sums (buy_exec_map (rt_of Sample.both_layers)) 1).
  vm_compute. reflexivity.
Defined.

(** ** Entries of closed trades *)

Lemma absorb_position_lookup e rt p (bm sm bm' sm' : gmap Z RowExecStats.t) (k : Z) :
  absorb_position e rt p (bm, sm) = inr (bm', sm') →
  (fill_index "BUY" (buy_id rt) p ≠ Some k → bm' !! k = bm !! k) ∧
  (fill_index "SELL" (sell_id rt) p ≠ Some k → sm' !! k = sm !! k).
Proof.
  unfold absorb_position, fill_index, record_fill. intros H.
  destruct (TRADE_ID_PATTERN_match (Position.comment p)); simpl in *;
    [|simplify_eq; auto].
  destruct (Py.str_in "buy_" (Position.comment p)
            && (negb (Py.truthy (buy_id rt))
                || negb (Py.str_in (buy_id rt) (Position.comment p))));
    [discriminate H|].
  destruct (Py.str_in "sell_" (Position.comment p)
            && (negb (Py.truthy (sell_id rt))
                || negb (Py.str_in (sell_id rt) (Position.comment p))));
    [discriminate H|].
  destruct (String.eqb (Position.type p) "BUY") eqn:Hb;
    destruct (String.eqb (Position.type p) "SELL") eqn:Hs; simpl in *.
  - apply String.eqb_eq in Hb, Hs. rewrite Hb in Hs. discriminate Hs.
  - destruct (Py.str_in (buy_id rt) (Position.comment p)); simpl in *;
      [|simplify_eq; auto].
    destruct (Py.split (Position.comment p) "_idx") as [|a [|tail [|b rest]]];
      simplify_eq; auto.
    destruct (Py.int tail) as [n|]; simplify_eq; auto.
    split; [|auto]. intros Hne. apply lookup_insert_ne. congruence.
  - destruct (Py.str_in (sell_id rt) (Position.comment p)); simpl in *;
      [|simplify_eq; auto].
    destruct (Py.split (Position.comment p) "_idx") as [|a [|tail [|b rest]]];
      simplify_eq; auto.
    destruct (Py.int tail) as [n|]; simplify_eq; auto.
    split; [auto|]. intros Hne. apply lookup_insert_ne. congruence.
  - simplify_eq. auto.
Qed.

Lemma absorb_positions_lookup e rt ps (bm sm bm' sm' : gmap Z RowExecStats.t) (k : Z) :
  absorb_positions e rt ps (bm, sm) = inr (bm', sm') →
  (k ∉ fill_keys "BUY" (buy_id rt) ps → bm' !! k = bm !! k) ∧
  (k ∉ fill_keys "SELL" (sell_id rt) ps → sm' !! k = sm !! k).
Proof.
  unfold fill_keys. revert bm sm.
  induction ps as [|p ps IH]; intros bm sm H; simpl in H.
  - simplify_eq. auto.
  - destruct (absorb_position e rt p (bm, sm)) as [msg|[bm1 sm1]] eqn:Hp;
      [discriminate H|].
    apply (absorb_position_lookup _ _ _ _ _ _ _ k) in Hp as [Hb Hs].
    apply IH in H as [Hb' Hs']. simpl.
    split; intros Hk.
    + rewrite Hb', Hb; [reflexivity| |].
      * intros E. apply Hk. rewrite E. set_solver.
      * intros E. apply Hk.
        destruct (fill_index "BUY" (buy_id rt) p); set_solver.
    + rewrite Hs', Hs; [reflexivity| |].
      * intros E. apply Hk. rewrite E. set_solver.
      * intros E. apply Hk.
        destruct (fill_index "SELL" (sell_id rt) p); set_solver.
Qed.

Lemma set_cumulative_same (row : RowExecStats.t) :
  RowExecStats.set_cumulative (RowExecStats.cumulative_lots row)
    (RowExecStats.cumulative_profit row) row = row.
Proof. now destruct row. Qed.

(** X4. Entries of closed trades are kept.  An entry of the buy (sell)
    exec map that no position of the tick is filed under, for instance
    because the broker no longer reports the trade, survives
    [update_exec_stats] with its index, entry price, lots, profit and
    timestamp unchanged; only its two cumulative fields may change. *)
Theorem closed_trade_entry_kept (e : Env) (tick : TickData.t) (rt : RuntimeState)
    (k : Z) (row : RowExecStats.t) :
  (buy_exec_map rt !! k = Some row →
   k ∉ fill_keys "BUY" (buy_id rt) (TickData.positions tick) →
   ∃ cl cp, buy_exec_map (update_exec_stats e tick rt) !! k
            = Some (RowExecStats.set_cumulative cl cp row)) ∧
  (sell_exec_map rt !! k = Some row →
   k ∉ fill_keys "SELL" (sell_id rt) (TickData.positions tick) →
   ∃ cl cp, sell_exec_map (update_exec_stats e tick rt) !! k
            = Some (RowExecStats.set_cumulative cl cp row)).
Proof.
  destruct (update_exec_stats_cases e tick rt)
    as [(msg & Habs & ->)|(bm & sm & Habs & ->)].
  - split; intros Hk _; exists (RowExecStats.cumulative_lots row),
      (RowExecStats.cumulative_profit row); rewrite set_cumulative_same; exact Hk.
  - apply (absorb_positions_lookup _ _ _ _ _ _ _ k) in Habs as [Hb Hs].
    split; intros Hk Hfree.
    + apply (cumulate_lookup bm). now rewrite Hb.
    + apply (cumulate_lookup sm). now rewrite Hs.
Qed.

Lemma closed_trade_entry_kept_witness :
  ∃ cl cp,
    buy_exec_map (update_exec_stats (Sample.env 13) (Sample.tick 97 97 [Sample.fill1])
                    (rt_of Sample.both_layers)) !! 0
    = Some (RowExecStats.set_cumulative cl cp
              (RowExecStats.mk 0 97 (1 # 10) 0 "2025-01-01T00:00:00" (1 # 10) 0)).
Proof.
  destruct (closed_trade_entry_kept (Sample.env 13) (Sample.tick 97 97 [Sample.fill1])
              (rt_of Sample.both_layers) 0
              (RowExecStats.mk 0 97 (1 # 10) 0 "2025-01-01T00:00:00" (1 # 10) 0)) as [H _].
  apply H.
  - vm_compute. reflexivity.
  - unfold fill_keys.
    assert (E : omap (fill_index "BUY" (buy_id (rt_of Sample.both_layers)))
                  (TickData.positions (Sample.tick 97 97 [Sample.fill1]))
                = [1]) by (vm_compute; reflexivity).
    rewrite E. intros Hin.
    apply elem_of_list_to_set, list_elem_of_singleton in Hin. discriminate Hin.
Defined.

(** ** Commands *)

Lemma serve_keeps_error (r : Request) (g : Globals) :
  error_status (rt_of g) ≠ "" → is_emergency r = false →
  error_status (rt_of (serve r g)) = error_status (rt_of g).
Proof.
  intros Herr Hr. destruct r as [e tick|new|b s c x]; simpl in *.
  - unfold handle_tick. apply truthy_ne in Herr. now rewrite Herr.
  - unfold update_settings. repeat case_match; simplify_eq; reflexivity.
  - unfold control. rewrite Hr.
    destruct b as [[]|], s as [[]|], c as [[]|]; simpl;
      repeat case_match; reflexivity.
Qed.

(** X5. The error lock.  Once [error_status] is set, no sequence of
    ticks, settings updates and control commands without
    [emergency_close] changes it; an emergency close clears it. *)
Theorem error_lock_persists (rs : list Request) (g : Globals) :
  error_status (rt_of g) ≠ "" →
  Forall (λ r, is_emergency r = false) rs →
  error_status (rt_of (run rs g)) = error_status (rt_of g) ∧
  ∀ b s c, error_status (rt_of (control b s c (Some true) (run rs g)).1) = "".
Proof.
  intros Herr Hrs. split; [|reflexivity].
  revert g Herr. induction Hrs as [|r rs Hr _ IH]; intros g Herr; [reflexivity|].
  simpl. fold (run rs (serve r g)).
  pose proof (serve_keeps_error r g Herr Hr) as Hs.
  rewrite IH; [exact Hs|]. now rewrite Hs.
Qed.

Lemma error_lock_persists_witness :
  error_status
    (rt_of (run [Tick (Sample.env 20) (Sample.tick 97 97 []);
                 Settings Sample.resubmit;
                 Control (Some false) None (Some true) None] Sample.locked))
  = error_status (rt_of Sample.locked) ∧
  ∀ b s c,
    error_status
      (rt_of (control b s c (Some true)
                (run [Tick (Sample.env 20) (Sample.tick 97 97 []);
                      Settings Sample.resubmit;
                      Control (Some false) None (Some true) None] Sample.locked)).1)
    = "".
Proof.
  apply (error_lock_persists
           [Tick (Sample.env 20) (Sample.tick 97 97 []);
            Settings Sample.resubmit;
            Control (Some false) None (Some true) None] Sample.locked).
  - vm_compute. discriminate.
  - repeat constructor.
Defined.

Lemma control_frame b s c x g :
  st_of (control b s c x g).1 = st_of g ∧
  price_history (control b s c x g).1 = price_history g ∧
  buy_id (rt_of (control b s c x g).1) = buy_id (rt_of g) ∧
  sell_id (rt_of (control b s c x g).1) = sell_id (rt_of g) ∧
  buy_exec_map (rt_of (control b s c x g).1) = buy_exec_map (rt_of g) ∧
  sell_exec_map (rt_of (control b s c x g).1) = sell_exec_map (rt_of g) ∧
  buy_start_ref (rt_of (control b s c x g).1) = buy_start_ref (rt_of g) ∧
  sell_start_ref (rt_of (control b s c x g).1) = sell_start_ref (rt_of g) ∧
  buy_hedge_triggered (rt_of (control b s c x g).1) = buy_hedge_triggered (rt_of g) ∧
  sell_hedge_triggered (rt_of (control b s c x g).1) = sell_hedge_triggered (rt_of g).
Proof.
  unfold control.
  destruct (is_true_opt x); [simpl; repeat split|].
  destruct b as [[]|], s as [[]|], c as [[]|]; simpl;
    repeat case_match; simpl; repeat split.
Qed.

(** X6. Switching a side off.  A control command without
    [emergency_close] that switches off a side that was on marks the
    side as closing and queues its CLOSE_ALL; if the administrative
    queue was empty, the next tick that passes the error gate and the
    reconciler replies CLOSE_ALL with that side's session id as comment.
    The buy switch is handled first: when one command switches off both
    running sides, both are marked as closing and that tick serves the
    buy side's entry, replying with the buy session id. *)
Theorem switch_off_closes_basket (e : Env) (tick : TickData.t) (g : Globals)
    (other cyclic x : option bool) :
  is_true_opt x = false →
  pending_actions (rt_of g) = [] →
  error_status (rt_of g) = "" →
  (buy_on (rt_of g) = true →
   error_status (rt_of (reconcile e tick (control (Some false) other cyclic x g).1)) = "" →
   buy_on (rt_of (control (Some false) other cyclic x g).1) = false ∧
   buy_is_closing (rt_of (control (Some false) other cyclic x g).1) = true ∧
   (handle_tick e tick (control (Some false) other cyclic x g).1).2
   = CloseAll (buy_id (rt_of g))) ∧
  (sell_on (rt_of g) = true →
   error_status (rt_of (reconcile e tick (control other (Some false) cyclic x g).1)) = "" →
   sell_on (rt_of (control other (Some false) cyclic x g).1) = false ∧
   sell_is_closing (rt_of (control other (Some false) cyclic x g).1) = true ∧
   (handle_tick e tick (control other (Some false) cyclic x g).1).2
   = CloseAll (match other with
               | Some false =>
                   if buy_on (rt_of g) then buy_id (rt_of g) else sell_id (rt_of g)
               | _ => sell_id (rt_of g)
               end)).
Proof.
  intros Hx Hq Herr. split.
  - intros Hon Hrec.
    set (g1 := (control (Some false) other cyclic x g).1) in *.
    assert (Hg1 : buy_on (rt_of g1) = false ∧ buy_is_closing (rt_of g1) = true ∧
                  buy_id (rt_of g1) = buy_id (rt_of g) ∧
                  error_status (rt_of g1) = "" ∧
                  ∃ rest, pending_actions (rt_of g1) = "CLOSE_ALL_BUY" :: rest).
    { subst g1. unfold control. rewrite Hx, Hon, Hq. simpl.
      destruct other as [[]|], cyclic as [[]|]; simpl;
        repeat case_match; simpl; rewrite ?Herr; eauto 10. }
    destruct Hg1 as (H1 & H2 & Hid & He & rest & Hp).
    split; [exact H1|]. split; [exact H2|].
    unfold handle_tick. rewrite He, Hrec. simpl.
    assert (Hp' : pending_actions (rt_of (reconcile e tick g1)) = "CLOSE_ALL_BUY" :: rest)
      by (now rewrite reconcile_pending).
    rewrite (decide_stage_pending _ _ _ _ _ Hp'). simpl.
    destruct (reconcile_same_sessions e tick g1) as (_ & _ & _ & _ & Hb & _).
    now rewrite Hb, Hid.
  - intros Hon Hrec.
    set (g1 := (control other (Some false) cyclic x g).1) in *.
    destruct (control_frame other (Some false) cyclic x g)
      as (_ & _ & Hbid & Hsid & _).
    fold g1 in Hbid, Hsid.
    assert (Hg1 : sell_on (rt_of g1) = false ∧ sell_is_closing (rt_of g1) = true ∧
                  error_status (rt_of g1) = "" ∧
                  pending_actions (rt_of g1)
                  = match other with
                    | Some false =>
                        if buy_on (rt_of g)
                        then ["CLOSE_ALL_BUY"; "CLOSE_ALL_SELL"]
                        else ["CLOSE_ALL_SELL"]
                    | _ => ["CLOSE_ALL_SELL"]
                    end).
    { subst g1. unfold control. rewrite Hx. simpl.
      destruct other as [[]|], cyclic as [[]|], (buy_on (rt_of g)); simpl;
        rewrite ?Hon, ?Hq, ?Herr; simpl; rewrite ?Hon, ?Hq, ?Herr; auto. }
    destruct Hg1 as (H1 & H2 & He & Hp).
    split; [exact H1|]. split; [exact H2|].
    unfold handle_tick. rewrite He, Hrec. simpl.
    destruct (reconcile_same_sessions e tick g1) as (_ & _ & _ & _ & Hb & Hs & _).
    rewrite <- (reconcile_pending e tick g1) in Hp.
    destruct other as [[]|]; [| destruct (buy_on (rt_of g)) | ];
      rewrite (decide_stage_pending _ _ _ _ _ Hp); simpl;
      now rewrite ?Hb, ?Hs, ?Hbid, ?Hsid.
Qed.

Lemma switch_off_closes_basket_witness :
  (buy_on (rt_of (control (Some false) None None None Sample.one_layer).1) = false ∧
   buy_is_closing (rt_of (control (Some false) None None None Sample.one_layer).1) = true ∧
   (handle_tick (Sample.env 12) (Sample.tick 98 98 [Sample.fill0])
      (control (Some false) None None None Sample.one_layer).1).2
   = CloseAll "buy_01234567") ∧
  (sell_on (rt_of (control (Some false) (Some false) None None Scenario.two_sided).1)
   = false ∧
   sell_is_closing
     (rt_of (control (Some false) (Some false) None None Scenario.two_sided).1) = true ∧
   (handle_tick (Sample.env 14) (Sample.tick 98 98 [Sample.fill0])
      (control (Some false) (Some false) None None Scenario.two_sided).1).2
   = CloseAll "buy_01234567").
Proof.
  destruct (switch_off_closes_basket (Sample.env 12) (Sample.tick 98 98 [Sample.fill0])
              Sample.one_layer None None None) as [H _].
  1-3: vm_compute; reflexivity.
  destruct (switch_off_closes_basket (Sample.env 14) (Sample.tick 98 98 [Sample.fill0])
              Scenario.two_sided (Some false) None None) as [_ H'].
  1-3: vm_compute; reflexivity.
  split.
  - apply H.
    + vm_compute. reflexivity.
    + vm_compute. reflexivity.
  - apply H'.
    + vm_compute. reflexivity.
    + vm_compute. reflexivity.
Defined.

(** X7. What commands leave alone.  A control command, emergency
    close included, never changes the user settings, the price history,
    the session ids, the exec maps, the anchors or the hedge flags: it
    only sets switches, closing flags, the administrative queue and (on
    emergency) the error status.  An emergency close ignores the three
    switches sent with it.  An accepted settings update never changes
    the runtime state or the price history. *)
Theorem commands_frame (b s c x : option bool) (new : UserSettings) (g : Globals) :
  (st_of (control b s c x g).1 = st_of g ∧
   price_history (control b s c x g).1 = price_history g ∧
   buy_id (rt_of (control b s c x g).1) = buy_id (rt_of g) ∧
   sell_id (rt_of (control b s c x g).1) = sell_id (rt_of g) ∧
   buy_exec_map (rt_of (control b s c x g).1) = buy_exec_map (rt_of g) ∧
   sell_exec_map (rt_of (control b s c x g).1) = sell_exec_map (rt_of g) ∧
   buy_start_ref (rt_of (control b s c x g).1) = buy_start_ref (rt_of g) ∧
   sell_start_ref (rt_of (control b s c x g).1) = sell_start_ref (rt_of g) ∧
   buy_hedge_triggered (rt_of (control b s c x g).1) = buy_hedge_triggered (rt_of g) ∧
   sell_hedge_triggered (rt_of (control b s c x g).1) = sell_hedge_triggered (rt_of g)) ∧
  control b s c (Some true) g = control None None None (Some true) g ∧
  (∀ g', update_settings new g = inr g' →
         rt_of g' = rt_of g ∧ price_history g' = price_history g).
Proof.
  split; [apply control_frame|]. split; [reflexivity|].
  intros g' H. unfold update_settings in H.
  repeat case_match; simplify_eq. split; reflexivity.
Qed.

(** X8. Validation of a settings update.  [update_settings] rejects
    the payload exactly when one of the two take-profit values or one of
    the two hedge values is negative; an accepted update copies the
    limit prices, take-profit types and values and hedge values of the
    payload into the settings. *)
Theorem update_settings_validation (new : UserSettings) (g : Globals) :
  ((∃ msg, update_settings new g = inl msg) ↔
   (buy_tp_value new < 0 ∨ sell_tp_value new < 0 ∨
    buy_hedge_value new < 0 ∨ sell_hedge_value new < 0)%Q) ∧
  (∀ g', update_settings new g = inr g' →
     buy_limit_price (st_of g') = buy_limit_price new ∧
     sell_limit_price (st_of g') = sell_limit_price new ∧
     buy_tp_type (st_of g') = buy_tp_type new ∧
     buy_tp_value (st_of g') = buy_tp_value new ∧
     sell_tp_type (st_of g') = sell_tp_type new ∧
     sell_tp_value (st_of g') = sell_tp_value new ∧
     buy_hedge_value (st_of g') = buy_hedge_value new ∧
     sell_hedge_value (st_of g') = sell_hedge_value new).
Proof.
  unfold update_settings.
  destruct (Py.lt (buy_tp_value new) 0) eqn:H1;
    destruct (Py.lt (sell_tp_value new) 0) eqn:H2;
    destruct (Py.lt (buy_hedge_value new) 0) eqn:H3;
    destruct (Py.lt (sell_hedge_value new) 0) eqn:H4; simpl;
    rewrite ?Py_lt_true in *; rewrite ?Py_lt_false in *;
    (split; [split; [intros [msg Hm]; try discriminate Hm; tauto
                    |intros Hn; try (eexists; reflexivity);
                     exfalso; destruct Hn as [Hn|[Hn|[Hn|Hn]]]; lra]
            |intros g' Hg; try discriminate Hg; simplify_eq; repeat split]).
Qed.

Lemma commands_frame_witness :
  rt_of Sample.resubmitted = rt_of Sample.one_layer ∧
  price_history Sample.resubmitted = price_history Sample.one_layer.
Proof.
  destruct (commands_frame None None None None Sample.resubmit Sample.one_layer)
    as (_ & _ & H).
  apply H. vm_compute. reflexivity.
Defined.

Lemma update_settings_validation_witness :
  ∃ msg, update_settings (set_buy_tp_value (-1 # 1) default_UserSettings) Sample.armed
         = inl msg.
Proof.
  destruct (update_settings_validation (set_buy_tp_value (-1 # 1) default_UserSettings)
              Sample.armed) as [[_ H] _].
  apply H. left. vm_compute. reflexivity.
Defined.

(** ** Orders are recorded *)

Lemma and_then_Some (a b : Stage) g g' r :
  (a >-> b) g = (g', Some r) →
  a g = (g', Some r) ∨ ∃ g1, a g = (g1, None) ∧ b g1 = (g', Some r).
Proof.
  unfold and_then. destruct (a g) as [g1 [r1|]]; intros H; [left|right]; eauto.
Qed.

Lemma hedge_buy_stage_order e tick g g' r :
  hedge_buy_stage e tick g = (g', Some r) →
  r = Wait None ∨
  ∃ v n,
    r = Open SELL v (order_comment (sell_id (rt_of g')) n) true ∧
    sell_id (rt_of g') ≠ "" ∧ sell_on (rt_of g') = true ∧
    sell_exec_map (rt_of g') !! n
    = Some (RowExecStats.new n (TickData.bid tick) v 0%Q (now_iso e)) ∧
    sell_last_order_sent_ts (rt_of g') = now_ts e.
Proof.
  unfold hedge_buy_stage.
  destruct (_ && _ && _ && _ && _); [|discriminate].
  destruct (basket (buy_id (rt_of g)) tick) as [|p ps]; [discriminate|].
  destruct (Py.le _ _); [|discriminate].
  cbn [sell_is_closing set_buy_hedge_triggered].
  destruct (negb (sell_is_closing (rt_of g))); [|discriminate].
  cbn [sell_on sell_id sell_exec_map set_buy_hedge_triggered].
  destruct (sell_on (rt_of g)) eqn:Hon; cbn [negb orb].
  - destruct (Py.truthy (sell_id (rt_of g))) eqn:Hid; cbn [negb orb].
    + destruct (size (sell_exec_map (rt_of g)) =? 0)%nat.
      * intros H; simplify_eq; right; eexists _, 0; cbn.
        split; [reflexivity|]. split; [apply get_hash_nonempty|].
        split; [reflexivity|]. split; [apply lookup_insert_eq|reflexivity].
      * destruct (Py.str_raises _); intros H; simplify_eq; [now left|].
        right; eexists _, _; cbn.
        split; [reflexivity|]. split; [now apply truthy_ne|].
        split; [exact Hon|]. split; [apply lookup_insert_eq|reflexivity].
    + intros H; simplify_eq; right; eexists _, 0; cbn.
      split; [reflexivity|]. split; [apply get_hash_nonempty|].
      split; [reflexivity|]. split; [apply lookup_insert_eq|reflexivity].
  - intros H; simplify_eq; right; eexists _, 0; cbn.
    split; [reflexivity|]. split; [apply get_hash_nonempty|].
    split; [reflexivity|]. split; [apply lookup_insert_eq|reflexivity].
Qed.

Lemma hedge_sell_stage_order e tick g g' r :
  hedge_sell_stage e tick g = (g', Some r) →
  r = Wait None ∨
  ∃ v n,
    r = Open BUY v (order_comment (buy_id (rt_of g')) n) true ∧
    buy_id (rt_of g') ≠ "" ∧ buy_on (rt_of g') = true ∧
    buy_exec_map (rt_of g') !! n
    = Some (RowExecStats.new n (TickData.ask tick) v 0%Q (now_iso e)) ∧
    buy_last_order_sent_ts (rt_of g') = now_ts e.
Proof.
  unfold hedge_sell_stage.
  destruct (_ && _ && _ && _ && _); [|discriminate].
  destruct (basket (sell_id (rt_of g)) tick) as [|p ps]; [discriminate|].
  destruct (Py.le _ _); [|discriminate].
  cbn [buy_is_closing set_sell_hedge_triggered].
  destruct (negb (buy_is_closing (rt_of g))); [|discriminate].
  cbn [buy_on buy_id buy_exec_map set_sell_hedge_triggered].
  destruct (buy_on (rt_of g)) eqn:Hon; cbn [negb orb].
  - destruct (Py.truthy (buy_id (rt_of g))) eqn:Hid; cbn [negb orb].
    + destruct (size (buy_exec_map (rt_of g)) =? 0)%nat.
      * intros H; simplify_eq; right; eexists _, 0; cbn.
        split; [reflexivity|]. split; [apply get_hash_nonempty|].
        split; [reflexivity|]. split; [apply lookup_insert_eq|reflexivity].
      * destruct (Py.str_raises _); intros H; simplify_eq; [now left|].
        right; eexists _, _; cbn.
        split; [reflexivity|]. split; [now apply truthy_ne|].
        split; [exact Hon|]. split; [apply lookup_insert_eq|reflexivity].
    + intros H; simplify_eq; right; eexists _, 0; cbn.
      split; [reflexivity|]. split; [apply get_hash_nonempty|].
      split; [reflexivity|]. split; [apply lookup_insert_eq|reflexivity].
  - intros H; simplify_eq; right; eexists _, 0; cbn.
    split; [reflexivity|]. split; [apply get_hash_nonempty|].
    split; [reflexivity|]. split; [apply lookup_insert_eq|reflexivity].
Qed.

Lemma decide_stage_order e tick g g' k v c a :
  decide_stage e tick g = (g', Some (Open k v c a)) →
  (∃ g1, hedge_buy_stage e tick g1 = (g', Some (Open k v c a))) ∨
  (∃ g1, hedge_sell_stage e tick g1 = (g', Some (Open k v c a))) ∨
  (∃ g1, accumulate_buy_stage e tick g1 = (g', Some (Open k v c a))) ∨
  (∃ g1, accumulate_sell_stage e tick g1 = (g', Some (Open k v c a))).
Proof.
  unfold decide_stage. intros H.
  apply and_then_Some in H as [H|(g1 & _ & H)].
  { unfold pending_stage in H. repeat case_match; simplify_eq. }
  apply and_then_Some in H as [H|(g2 & _ & H)].
  { unfold closing_stage in H. apply and_then_Some in H as [H|(g2 & _ & H)].
    - unfold closing_buy_stage in H. repeat case_match; simplify_eq.
    - unfold closing_sell_stage in H. repeat case_match; simplify_eq. }
  apply and_then_Some in H as [H|(g3 & _ & H)].
  { unfold hedge_stage in H. apply and_then_Some in H as [H|(g3 & _ & H)]; eauto. }
  apply and_then_Some in H as [H|(g4 & _ & H)].
  { unfold take_profit_stage in H. apply and_then_Some in H as [H|(g4 & _ & H)].
    - rewrite tp_buy_stage_cases in H. repeat case_match; simplify_eq.
    - rewrite tp_sell_stage_cases in H. repeat case_match; simplify_eq. }
  apply and_then_Some in H as [H|(g5 & _ & H)].
  { unfold external_close_stage in H.
    apply and_then_Some in H as [H|(g5 & _ & H)]; discriminate H. }
  unfold accumulate_stage in H.
  apply and_then_Some in H as [H|(g6 & _ & H)]; eauto 10.
Qed.

(** X9. Every order is recorded.  Whenever a tick is answered with
    BUY (SELL), whichever block emitted it, the state after the tick has
    a non-empty buy (sell) session id with the side switched on, the
    order's comment is [f"{session_id}_idx{n}"] for that id and some
    index [n], the exec map of the side holds at key [n] a fresh record
    with index [n], the tick's ask (bid) as entry price, the order's
    volume and profit 0, and the side's last-order time is the time of
    the tick. *)
Theorem open_order_recorded (e : Env) (tick : TickData.t) (g g' : Globals)
    (k : OrderKind) (v : Q) (c : string) (a : bool) :
  handle_tick e tick g = (g', Open k v c a) →
  match k with
  | BUY =>
      ∃ n, c = order_comment (buy_id (rt_of g')) n ∧
           buy_id (rt_of g') ≠ "" ∧ buy_on (rt_of g') = true ∧
           buy_exec_map (rt_of g') !! n
           = Some (RowExecStats.new n (TickData.ask tick) v 0%Q (now_iso e)) ∧
           buy_last_order_sent_ts (rt_of g') = now_ts e
  | SELL =>
      ∃ n, c = order_comment (sell_id (rt_of g')) n ∧
           sell_id (rt_of g') ≠ "" ∧ sell_on (rt_of g') = true ∧
           sell_exec_map (rt_of g') !! n
           = Some (RowExecStats.new n (TickData.bid tick) v 0%Q (now_iso e)) ∧
           sell_last_order_sent_ts (rt_of g') = now_ts e
  end.
Proof.
  unfold handle_tick.
  destruct (Py.truthy (error_status (rt_of g))); [discriminate|].
  destruct (Py.truthy (error_status (rt_of (reconcile e tick g)))); [discriminate|].
  destruct (decide_stage e tick (reconcile e tick g)) as [g2 [r|]] eqn:Hd;
    [|discriminate].
  intros H. simplify_eq.
  apply decide_stage_order in Hd as [(g1 & H)|[(g1 & H)|[(g1 & H)|(g1 & H)]]].
  - apply hedge_buy_stage_order in H as [Hw|(v' & n & Hr & H)]; [discriminate Hw|].
    simplify_eq. eauto.
  - apply hedge_sell_stage_order in H as [Hw|(v' & n & Hr & H)]; [discriminate Hw|].
    simplify_eq. eauto.
  - pose proof (accumulate_buy_replies _ _ _ _ _ H) as [_ [Hr|(v' & c' & a' & Hr)]];
      simplify_eq.
    apply accumulate_buy_order in H
      as (Hon & _ & _ & Hid & _ & row & _ & _ & _ & _ & -> & _ & -> & ->).
    exists (Z.of_nat (size (buy_exec_map (rt_of g1)))). cbn.
    split; [reflexivity|]. split; [exact Hid|]. split; [exact Hon|].
    split; [apply lookup_insert_eq|reflexivity].
  - pose proof (accumulate_sell_replies _ _ _ _ _ H) as [_ [Hr|(v' & c' & a' & Hr)]];
      simplify_eq.
    apply accumulate_sell_order in H
      as (Hon & _ & _ & Hid & _ & row & _ & _ & _ & _ & -> & _ & -> & ->).
    exists (Z.of_nat (size (sell_exec_map (rt_of g1)))). cbn.
    split; [reflexivity|]. split; [exact Hid|]. split; [exact Hon|].
    split; [apply lookup_insert_eq|reflexivity].
Qed.

Lemma open_order_recorded_witness :
  ∃ n, "buy_01234567_idx0" = order_comment (buy_id (rt_of Sample.one_layer)) n ∧
       buy_id (rt_of Sample.one_layer) ≠ "" ∧ buy_on (rt_of Sample.one_layer) = true ∧
       buy_exec_map (rt_of Sample.one_layer) !! n
       = Some (RowExecStats.new n (TickData.ask (Sample.tick 97 97 [])) (1 # 10) 0%Q
                 (now_iso (Sample.env 11))) ∧
       buy_last_order_sent_ts (rt_of Sample.one_layer) = now_ts (Sample.env 11).
Proof.
  apply (open_order_recorded (Sample.env 11) (Sample.tick 97 97 []) Sample.anchored
           Sample.one_layer BUY (1 # 10) "buy_01234567_idx0" false).
  vm_compute. reflexivity.
Defined.

(** ** Take profit and the closing phase *)

Lemma check_tp_buy_fires g tick :
  check_tp_buy g tick = 1 →
  buy_id (rt_of g) ≠ "" ∧ basket (buy_id (rt_of g)) tick ≠ [] ∧
  (0 < buy_tp_value (st_of g))%Q ∧
  (0 < tp_target (buy_tp_type (st_of g)) (buy_tp_value (st_of g)) tick)%Q ∧
  (tp_target (buy_tp_type (st_of g)) (buy_tp_value (st_of g)) tick
   <= Py.sum (Position.profit <$> basket (buy_id (rt_of g)) tick))%Q.
Proof.
  unfold check_tp_buy. cbv zeta. intros H.
  destruct (Py.le (buy_tp_value (st_of g)) 0) eqn:Hv; cbn [orb] in H;
    [discriminate H|].
  destruct (Py.truthy (buy_id (rt_of g))) eqn:Hid; cbn [negb orb] in H;
    [|discriminate H].
  destruct (basket (buy_id (rt_of g)) tick) as [|p ps] eqn:Hb; [discriminate H|].
  destruct (Py.lt 0 _) eqn:Ht; [|discriminate H].
  destruct (Py.le _ _) eqn:Hp in H; [|discriminate H].
  apply truthy_ne in Hid. apply Py_le_false in Hv.
  apply Py_lt_true in Ht. apply Py_le_true in Hp.
  repeat split; try assumption. discriminate.
Qed.

Lemma check_tp_sell_fires g tick :
  check_tp_sell g tick = 1 →
  sell_id (rt_of g) ≠ "" ∧ basket (sell_id (rt_of g)) tick ≠ [] ∧
  (0 < sell_tp_value (st_of g))%Q ∧
  (0 < tp_target (sell_tp_type (st_of g)) (sell_tp_value (st_of g)) tick)%Q ∧
  (tp_target (sell_tp_type (st_of g)) (sell_tp_value (st_of g)) tick
   <= Py.sum (Position.profit <$> basket (sell_id (rt_of g)) tick))%Q.
Proof.
  unfold check_tp_sell. cbv zeta. intros H.
  destruct (Py.le (sell_tp_value (st_of g)) 0) eqn:Hv; cbn [orb] in H;
    [discriminate H|].
  destruct (Py.truthy (sell_id (rt_of g))) eqn:Hid; cbn [negb orb] in H;
    [|discriminate H].
  destruct (basket (sell_id (rt_of g)) tick) as [|p ps] eqn:Hb; [discriminate H|].
  destruct (Py.lt 0 _) eqn:Ht; [|discriminate H].
  destruct (Py.le _ _) eqn:Hp in H; [|discriminate H].
  apply truthy_ne in Hid. apply Py_le_false in Hv.
  apply Py_lt_true in Ht. apply Py_le_true in Hp.
  repeat split; try assumption. discriminate.
Qed.

Lemma tp_target_unknown ty v tick :
  ty ≠ "equity_pct" → ty ≠ "balance_pct" → ty ≠ "fixed_money" →
  tp_target ty v tick = 0%Q.
Proof.
  intros H1 H2 H3. unfold tp_target.
  apply String.eqb_neq in H1, H2, H3. now rewrite H1, H2, H3.
Qed.

(** X10. Take profit needs a profit.  [check_tp_buy] ([check_tp_sell])
    returns 1 only for a live session with a positive take-profit value
    whose basket, the positions carrying the session id, is non-empty
    and shows a total profit that is strictly positive and at least the
    target; with a take-profit type other than [equity_pct],
    [balance_pct] and [fixed_money] it never returns 1. *)
Theorem take_profit_needs_profit (g : Globals) (tick : TickData.t) :
  (check_tp_buy g tick = 1 →
   buy_id (rt_of g) ≠ "" ∧ basket (buy_id (rt_of g)) tick ≠ [] ∧
   (0 < buy_tp_value (st_of g))%Q ∧
   (0 < Py.sum (Position.profit <$> basket (buy_id (rt_of g)) tick))%Q ∧
   (tp_target (buy_tp_type (st_of g)) (buy_tp_value (st_of g)) tick
    <= Py.sum (Position.profit <$> basket (buy_id (rt_of g)) tick))%Q ∧
   (buy_tp_type (st_of g) = "equity_pct" ∨ buy_tp_type (st_of g) = "balance_pct" ∨
    buy_tp_type (st_of g) = "fixed_money")) ∧
  (check_tp_sell g tick = 1 →
   sell_id (rt_of g) ≠ "" ∧ basket (sell_id (rt_of g)) tick ≠ [] ∧
   (0 < sell_tp_value (st_of g))%Q ∧
   (0 < Py.sum (Position.profit <$> basket (sell_id (rt_of g)) tick))%Q ∧
   (tp_target (sell_tp_type (st_of g)) (sell_tp_value (st_of g)) tick
    <= Py.sum (Position.profit <$> basket (sell_id (rt_of g)) tick))%Q ∧
   (sell_tp_type (st_of g) = "equity_pct" ∨ sell_tp_type (st_of g) = "balance_pct" ∨
    sell_tp_type (st_of g) = "fixed_money")).
Proof.
  split; intros H.
  - apply check_tp_buy_fires in H as (Hid & Hb & Hv & Ht & Hp).
    repeat split; try assumption; [lra|].
    destruct (string_dec (buy_tp_type (st_of g)) "equity_pct") as [|N1]; [auto|].
    destruct (string_dec (buy_tp_type (st_of g)) "balance_pct") as [|N2]; [auto|].
    destruct (string_dec (buy_tp_type (st_of g)) "fixed_money") as [|N3]; [auto|].
    rewrite (tp_target_unknown _ _ _ N1 N2 N3) in Ht. lra.
  - apply check_tp_sell_fires in H as (Hid & Hb & Hv & Ht & Hp).
    repeat split; try assumption; [lra|].
    destruct (string_dec (sell_tp_type (st_of g)) "equity_pct") as [|N1]; [auto|].
    destruct (string_dec (sell_tp_type (st_of g)) "balance_pct") as [|N2]; [auto|].
    destruct (string_dec (sell_tp_type (st_of g)) "fixed_money") as [|N3]; [auto|].
    rewrite (tp_target_unknown _ _ _ N1 N2 N3) in Ht. lra.
Qed.

Lemma take_profit_needs_profit_witness :
  buy_id (rt_of Scenario.with_tp) ≠ "" ∧
  basket (buy_id (rt_of Scenario.with_tp)) (Sample.tick 99 99 [Scenario.winner]) ≠ [] ∧
  (0 < buy_tp_value (st_of Scenario.with_tp))%Q ∧
  (0 < Py.sum (Position.profit <$> basket (buy_id (rt_of Scenario.with_tp))
                                     (Sample.tick 99 99 [Scenario.winner])))%Q ∧
  (tp_target (buy_tp_type (st_of Scenario.with_tp)) (buy_tp_value (st_of Scenario.with_tp))
     (Sample.tick 99 99 [Scenario.winner])
   <= Py.sum (Position.profit <$> basket (buy_id (rt_of Scenario.with_tp))
                                    (Sample.tick 99 99 [Scenario.winner])))%Q ∧
  (buy_tp_type (st_of Scenario.with_tp) = "equity_pct" ∨
   buy_tp_type (st_of Scenario.with_tp) = "balance_pct" ∨
   buy_tp_type (st_of Scenario.with_tp) = "fixed_money").
Proof.
  destruct (take_profit_needs_profit Scenario.with_tp
              (Sample.tick 99 99 [Scenario.winner])) as [H _].
  apply H. vm_compute. reflexivity.
Defined.

Lemma handle_tick_to_take_profit e tick g :
  error_status (rt_of g) = "" →
  error_status (rt_of (reconcile e tick g)) = "" →
  pending_actions (rt_of (reconcile e tick g)) = [] →
  buy_is_closing (rt_of (reconcile e tick g)) = false →
  sell_is_closing (rt_of (reconcile e tick g)) = false →
  hedge_trigger_buy (reconcile e tick g) tick = false →
  hedge_trigger_sell (reconcile e tick g) tick = false →
  handle_tick e tick g
  = match (take_profit_stage tick >-> external_close_stage e tick >->
           accumulate_stage e tick) (reconcile e tick g) with
    | (g', Some reply) => (g', reply)
    | (g', None) => (g', Wait None)
    end.
Proof.
  intros Herr Herr1 Hp Hcb Hcs Hhb Hhs.
  unfold handle_tick. rewrite Herr, Herr1. simpl.
  rewrite decide_stage_to_hedge by assumption.
  unfold and_then at 1, hedge_stage, and_then at 1.
  now rewrite (hedge_buy_stage_quiet e tick _ Hhb), (hedge_sell_stage_quiet e tick _ Hhs).
Qed.

(** X11. Take-profit exit.  On a tick that passes the error gate and
    the reconciler with an empty administrative queue, no side closing
    and no hedge trigger, a buy session whose take-profit check returns
    1 is answered CLOSE_ALL with the buy session id; the tick only sets
    [buy_is_closing] on top of the reconciled state (session id, exec
    map and anchor stay until the closing confirmation).  The sell side
    is treated the same way when the buy check did not fire. *)
Theorem take_profit_closes (e : Env) (tick : TickData.t) (g : Globals) :
  error_status (rt_of g) = "" →
  error_status (rt_of (reconcile e tick g)) = "" →
  pending_actions (rt_of (reconcile e tick g)) = [] →
  buy_is_closing (rt_of (reconcile e tick g)) = false →
  sell_is_closing (rt_of (reconcile e tick g)) = false →
  hedge_trigger_buy (reconcile e tick g) tick = false →
  hedge_trigger_sell (reconcile e tick g) tick = false →
  (buy_id (rt_of (reconcile e tick g)) ≠ "" →
   check_tp_buy (reconcile e tick g) tick = 1 →
   handle_tick e tick g
   = (put_rt (set_buy_is_closing true (rt_of (reconcile e tick g))) (reconcile e tick g),
      CloseAll (buy_id (rt_of (reconcile e tick g))))) ∧
  (tp_trigger_buy (reconcile e tick g) tick = false →
   sell_id (rt_of (reconcile e tick g)) ≠ "" →
   check_tp_sell (reconcile e tick g) tick = 1 →
   handle_tick e tick g
   = (put_rt (set_sell_is_closing true (rt_of (reconcile e tick g))) (reconcile e tick g),
      CloseAll (sell_id (rt_of (reconcile e tick g))))).
Proof.
  intros Herr Herr1 Hp Hcb Hcs Hhb Hhs.
  rewrite handle_tick_to_take_profit by assumption.
  split.
  - intros Hid Htp.
    unfold and_then at 1, take_profit_stage, and_then at 1.
    rewrite tp_buy_stage_cases. unfold tp_trigger_buy.
    apply truthy_ne in Hid. rewrite Hid, Htp. reflexivity.
  - intros Hb Hid Htp.
    unfold and_then at 1, take_profit_stage, and_then at 1.
    rewrite tp_buy_stage_cases, Hb, tp_sell_stage_cases. unfold tp_trigger_sell.
    apply truthy_ne in Hid. rewrite Hid, Htp. reflexivity.
Qed.

Lemma take_profit_closes_witness :
  handle_tick (Sample.env 12) (Sample.tick 99 99 [Scenario.winner]) Scenario.with_tp
  = (put_rt (set_buy_is_closing true
               (rt_of (reconcile (Sample.env 12) (Sample.tick 99 99 [Scenario.winner])
                         Scenario.with_tp)))
       (reconcile (Sample.env 12) (Sample.tick 99 99 [Scenario.winner]) Scenario.with_tp),
     CloseAll (buy_id (rt_of (reconcile (Sample.env 12)
                                (Sample.tick 99 99 [Scenario.winner]) Scenario.with_tp)))).
Proof.
  destruct (take_profit_closes (Sample.env 12) (Sample.tick 99 99 [Scenario.winner])
              Scenario.with_tp) as [H _].
  1-7: vm_compute; reflexivity.
  apply H.
  - vm_compute. discriminate.
  - vm_compute. reflexivity.
Defined.

(** X12. The closing phase.  On a tick that passes the error gate and
    the reconciler with an empty administrative queue while
    [buy_is_closing] is set: as long as the broker still reports a
    position carrying the buy session id, the reply is CLOSE_ALL with
    that id and the state is the reconciled one; once it reports none,
    the reply is WAIT and the buy session is reset (closing and hedge
    flags cleared, exec map emptied, session id erased), with the side
    left on and re-anchored at the mid price in cyclic mode, and
    switched off with anchor 0 otherwise. *)
Theorem closing_phase (e : Env) (tick : TickData.t) (g : Globals) :
  error_status (rt_of g) = "" →
  error_status (rt_of (reconcile e tick g)) = "" →
  pending_actions (rt_of (reconcile e tick g)) = [] →
  buy_is_closing (rt_of (reconcile e tick g)) = true →
  (count_active_trades tick (buy_id (rt_of (reconcile e tick g))) ≠ 0%nat →
   handle_tick e tick g
   = (reconcile e tick g, CloseAll (buy_id (rt_of (reconcile e tick g))))) ∧
  (count_active_trades tick (buy_id (rt_of (reconcile e tick g))) = 0%nat →
   (handle_tick e tick g).2 = Wait None ∧
   buy_is_closing (rt_of (handle_tick e tick g).1) = false ∧
   buy_hedge_triggered (rt_of (handle_tick e tick g).1) = false ∧
   buy_exec_map (rt_of (handle_tick e tick g).1) = ∅ ∧
   buy_id (rt_of (handle_tick e tick g).1) = "" ∧
   (cyclic_on (rt_of (reconcile e tick g)) = true →
    buy_on (rt_of (handle_tick e tick g).1) = buy_on (rt_of (reconcile e tick g)) ∧
    buy_start_ref (rt_of (handle_tick e tick g).1) = mid_of tick) ∧
   (cyclic_on (rt_of (reconcile e tick g)) = false →
    buy_on (rt_of (handle_tick e tick g).1) = false ∧
    buy_start_ref (rt_of (handle_tick e tick g).1) = 0%Q)).
Proof.
  intros Herr Herr1 Hp Hcl.
  assert (Hd : decide_stage e tick (reconcile e tick g)
               = closing_buy_stage tick (reconcile e tick g)).
  { unfold decide_stage, and_then at 1, pending_stage. rewrite Hp.
    unfold and_then at 1, closing_stage, and_then at 1, closing_buy_stage.
    rewrite Hcl. now destruct (count_active_trades tick _ =? 0)%nat. }
  assert (Ht : handle_tick e tick g
               = match closing_buy_stage tick (reconcile e tick g) with
                 | (g', Some reply) => (g', reply)
                 | (g', None) => (g', Wait None)
                 end).
  { unfold handle_tick. rewrite Herr, Herr1. simpl. now rewrite Hd. }
  rewrite Ht. unfold closing_buy_stage. rewrite Hcl. split.
  - intros Hn. apply Nat.eqb_neq in Hn. rewrite Hn. reflexivity.
  - intros Hz. rewrite Hz. cbn.
    destruct (cyclic_on (rt_of (reconcile e tick g))); cbn;
      repeat split; try reflexivity; intros; discriminate.
Qed.

Lemma closing_phase_witness :
  handle_tick (Sample.env 20) (Sample.tick 97 97 [Sample.fill0]) Sample.closing
  = (reconcile (Sample.env 20) (Sample.tick 97 97 [Sample.fill0]) Sample.closing,
     CloseAll (buy_id (rt_of (reconcile (Sample.env 20) (Sample.tick 97 97 [Sample.fill0])
                                Sample.closing)))).
Proof.
  destruct (closing_phase (Sample.env 20) (Sample.tick 97 97 [Sample.fill0])
              Sample.closing) as [H _].
  1-4: vm_compute; reflexivity.
  apply H. vm_compute. discriminate.
Defined.

(** ** Hedge, Scenario B *)

Lemma sorted_last_max (l : list Z) (k x : Z) :
  StronglySorted Z.le l → k ∈ l → last l = Some x → k ≤ x.
Proof.
  induction 1 as [|y l Hs IH Hy]; intros Hk Hl; [now apply elem_of_nil in Hk|].
  destruct l as [|z l].
  - apply list_elem_of_singleton in Hk. simpl in Hl. simplify_eq. lia.
  - change (last (z :: l) = Some x) in Hl.
    apply elem_of_cons in Hk as [-> | Hk]; [|now apply IH].
    rewrite Forall_forall in Hy. apply Hy.
    apply last_Some in Hl as [l' ->]. set_solver.
Qed.

Lemma last_index_max (m : gmap Z RowExecStats.t) (k : Z) :
  k ∈ dom m → k ≤ last_index m.
Proof.
  intros Hk. apply elem_of_dom, sorted_indices_elem in Hk.
  unfold last_index.
  destruct (last (sorted_indices m)) as [x|] eqn:Hl.
  - simpl. eapply sorted_last_max; eauto using sorted_indices_sorted.
  - apply last_None in Hl. rewrite Hl in Hk. now apply elem_of_nil in Hk.
Qed.

Lemma hedge_buy_stage_stacked e tick g :
  hedge_due_buy g tick → sell_engaged g →
  ∃ out,
    hedge_buy_stage e tick g = (out.1, Some out.2) ∧
    if Py.str_raises (last_index (sell_exec_map (rt_of g)) + 1)
    then stalled_sell_hedge tick
           (Py.sum (Position.volume <$>
                    List.filter
                      (fun p => Py.str_in (buy_id (rt_of g)) (Position.comment p))
                      (TickData.positions tick))) g out
    else stacked_sell_hedge e tick
           (Py.sum (Position.volume <$>
                    List.filter
                      (fun p => Py.str_in (buy_id (rt_of g)) (Position.comment p))
                      (TickData.positions tick))) g out.
Proof.
  intros (Hon & Hid & Htr & Hv & Hcl & Hbasket & Hloss) (Hscl & Hson & Hsid & Hmap).
  change (List.filter (fun p => Py.str_in (buy_id (rt_of g)) (Position.comment p))
            (TickData.positions tick)) with (basket (buy_id (rt_of g)) tick) in *.
  unfold hedge_buy_stage.
  apply truthy_ne in Hid, Hsid. apply Py_lt_true in Hv.
  assert (Hle : Py.le (Py.sum (Position.profit <$> basket (buy_id (rt_of g)) tick))
                  (-1 * buy_hedge_value (st_of g)) = true).
  { apply Py_le_true. lra. }
  assert (Hsz : (size (sell_exec_map (rt_of g)) =? 0)%nat = false).
  { apply Nat.eqb_neq. intros Hz. now apply map_size_empty_inv in Hz. }
  rewrite Hon, Hid, Htr, Hv, Hcl. simpl.
  destruct (basket (buy_id (rt_of g)) tick) as [|p ps] eqn:Hb; [contradiction|].
  rewrite Hle. simpl. rewrite Hscl, Hson, Hsid, Hsz. simpl.
  destruct (Py.str_raises (last_index (sell_exec_map (rt_of g)) + 1)).
  - eexists (_, _). split; [reflexivity|].
    unfold stalled_sell_hedge. simpl. split; reflexivity.
  - eexists (_, _). split; [reflexivity|].
    unfold stacked_sell_hedge. simpl.
    split; [reflexivity|]. split; [reflexivity|]. split; [reflexivity|].
    split; [exact Hson|]. split; [reflexivity|].
    split; [|repeat split].
    intros k Hk. apply last_index_max in Hk. lia.
Qed.

Lemma hedge_sell_stage_stacked e tick g :
  hedge_due_sell g tick → buy_engaged g →
  ∃ out,
    hedge_sell_stage e tick g = (out.1, Some out.2) ∧
    if Py.str_raises (last_index (buy_exec_map (rt_of g)) + 1)
    then stalled_buy_hedge tick
           (Py.sum (Position.volume <$>
                    List.filter
                      (fun p => Py.str_in (sell_id (rt_of g)) (Position.comment p))
                      (TickData.positions tick))) g out
    else stacked_buy_hedge e tick
           (Py.sum (Position.volume <$>
                    List.filter
                      (fun p => Py.str_in (sell_id (rt_of g)) (Position.comment p))
                      (TickData.positions tick))) g out.
Proof.
  intros (Hon & Hid & Htr & Hv & Hcl & Hbasket & Hloss) (Hscl & Hson & Hsid & Hmap).
  change (List.filter (fun p => Py.str_in (sell_id (rt_of g)) (Position.comment p))
            (TickData.positions tick)) with (basket (sell_id (rt_of g)) tick) in *.
  unfold hedge_sell_stage.
  apply truthy_ne in Hid, Hsid. apply Py_lt_true in Hv.
  assert (Hle : Py.le (Py.sum (Position.profit <$> basket (sell_id (rt_of g)) tick))
                  (-1 * sell_hedge_value (st_of g)) = true).
  { apply Py_le_true. lra. }
  assert (Hsz : (size (buy_exec_map (rt_of g)) =? 0)%nat = false).
  { apply Nat.eqb_neq. intros Hz. now apply map_size_empty_inv in Hz. }
  rewrite Hon, Hid, Htr, Hv, Hcl. simpl.
  destruct (basket (sell_id (rt_of g)) tick) as [|p ps] eqn:Hb; [contradiction|].
  rewrite Hle. simpl. rewrite Hscl, Hson, Hsid, Hsz. simpl.
  destruct (Py.str_raises (last_index (buy_exec_map (rt_of g)) + 1)).
  - eexists (_, _). split; [reflexivity|].
    unfold stalled_buy_hedge. simpl. split; reflexivity.
  - eexists (_, _). split; [reflexivity|].
    unfold stacked_buy_hedge. simpl.
    split; [reflexivity|]. split; [reflexivity|]. split; [reflexivity|].
    split; [exact Hson|]. split; [reflexivity|].
    split; [|repeat split].
    intros k Hk. apply last_index_max in Hk. lia.
Qed.

(** X13. Hedge, Scenario B.  On a tick that reaches the hedge check
    (no error, empty administrative queue) with a buy basket (the
    positions of the tick whose comment contains the buy session id)
    that is due for a hedge, while the sell side is not closing and runs
    a session with a non-empty exec map, let [n] be the largest key of
    the sell exec map plus one, which exceeds every key in use.  If [n]
    has at most 4300 digits, the tick latches the buy hedge flag, keeps
    the sell session id and anchor, appends to [rows_sell] the row
    (n, |bid - last executed sell price|, total volume of the basket,
    alert), records the execution of index [n] at the bid, stamps the
    sell order time and replies SELL with that volume and comment
    [<sell_id>_idx<n>].  If [n] has more digits, [str(n)] raises after
    the flag was latched and the row appended: the tick changes nothing
    else and replies WAIT.  The sell side is symmetric, once the
    buy-side check has passed without triggering. *)
Theorem hedge_scenario_B (e : Env) (tick : TickData.t) (g : Globals) :
  error_status (rt_of g) = "" →
  error_status (rt_of (reconcile e tick g)) = "" →
  pending_actions (rt_of (reconcile e tick g)) = [] →
  (hedge_due_buy (reconcile e tick g) tick → sell_engaged (reconcile e tick g) →
   if Py.str_raises (last_index (sell_exec_map (rt_of (reconcile e tick g))) + 1)
   then
     stalled_sell_hedge tick
       (Py.sum (Position.volume <$>
                List.filter
                  (fun p => Py.str_in (buy_id (rt_of (reconcile e tick g)))
                              (Position.comment p))
                  (TickData.positions tick)))
       (reconcile e tick g) (handle_tick e tick g)
   else
     stacked_sell_hedge e tick
       (Py.sum (Position.volume <$>
                List.filter
                  (fun p => Py.str_in (buy_id (rt_of (reconcile e tick g)))
                              (Position.comment p))
                  (TickData.positions tick)))
       (reconcile e tick g) (handle_tick e tick g)) ∧
  (hedge_buy_stage e tick (reconcile e tick g) = (reconcile e tick g, None) →
   hedge_due_sell (reconcile e tick g) tick → buy_engaged (reconcile e tick g) →
   if Py.str_raises (last_index (buy_exec_map (rt_of (reconcile e tick g))) + 1)
   then
     stalled_buy_hedge tick
       (Py.sum (Position.volume <$>
                List.filter
                  (fun p => Py.str_in (sell_id (rt_of (reconcile e tick g)))
                              (Position.comment p))
                  (TickData.positions tick)))
       (reconcile e tick g) (handle_tick e tick g)
   else
     stacked_buy_hedge e tick
       (Py.sum (Position.volume <$>
                List.filter
                  (fun p => Py.str_in (sell_id (rt_of (reconcile e tick g)))
                              (Position.comment p))
                  (TickData.positions tick)))
       (reconcile e tick g) (handle_tick e tick g)).
Proof.
  intros Herr Herr1 Hp. split.
  - intros Hdue Heng.
    destruct (hedge_buy_stage_stacked e tick _ Hdue Heng) as ([g' reply] & Hst & Hout).
    cbn [fst snd] in Hst.
    assert (Heq : handle_tick e tick g = (g', reply)).
    { unfold handle_tick. rewrite Herr, Herr1. simpl.
      rewrite decide_stage_to_hedge; [|exact Hp|apply Hdue|apply Heng].
      unfold and_then at 1, hedge_stage, and_then at 1. now rewrite Hst. }
    rewrite Heq. exact Hout.
  - intros Hpass Hdue Heng.
    destruct (hedge_sell_stage_stacked e tick _ Hdue Heng) as ([g' reply] & Hst & Hout).
    cbn [fst snd] in Hst.
    assert (Heq : handle_tick e tick g = (g', reply)).
    { unfold handle_tick. rewrite Herr, Herr1. simpl.
      rewrite decide_stage_to_hedge; [|exact Hp|apply Heng|apply Hdue].
      unfold and_then at 1, hedge_stage, and_then at 1. now rewrite Hpass, Hst. }
    rewrite Heq. exact Hout.
Qed.

(** The witness tick holds the two fills of the buy session, of volumes
    0.1 and 0.2, and a manual trade of volume 1 outside the basket; the
    sell session has executed layer 0, so the hedge is layer 1. *)
Lemma hedge_scenario_B_witness :
  stacked_sell_hedge (Sample.env 13)
    (Sample.tick 95 95 [Sample.fill0; Sample.manual; Sample.fill1])
    (Py.sum [1 # 10; 2 # 10])
    (reconcile (Sample.env 13)
       (Sample.tick 95 95 [Sample.fill0; Sample.manual; Sample.fill1])
       Scenario.two_sided)
    (handle_tick (Sample.env 13)
       (Sample.tick 95 95 [Sample.fill0; Sample.manual; Sample.fill1])
       Scenario.two_sided).
Proof.
  assert (Hn : Py.str_raises
                 (last_index
                    (sell_exec_map
                       (rt_of (reconcile (Sample.env 13)
                                 (Sample.tick 95 95
                                    [Sample.fill0; Sample.manual; Sample.fill1])
                                 Scenario.two_sided))) + 1) = false)
    by (vm_compute; reflexivity).
  destruct (hedge_scenario_B (Sample.env 13)
              (Sample.tick 95 95 [Sample.fill0; Sample.manual; Sample.fill1])
              Scenario.two_sided) as [H _].
  1-3: vm_compute; reflexivity.
  rewrite Hn in H. apply H.
  - unfold hedge_due_buy.
    refine (conj _ (conj _ (conj _ (conj _ (conj _ (conj _ _)))))).
    + vm_compute. reflexivity.
    + apply truthy_ne. vm_compute. reflexivity.
    + vm_compute. reflexivity.
    + vm_compute. reflexivity.
    + vm_compute. reflexivity.
    + intros H'. apply (f_equal length) in H'. revert H'. vm_compute.
      intros H'. discriminate H'.
    + vm_compute. intros H'. discriminate H'.
  - unfold sell_engaged.
    refine (conj _ (conj _ (conj _ _))).
    + vm_compute. reflexivity.
    + vm_compute. reflexivity.
    + apply truthy_ne. vm_compute. reflexivity.
    + apply size_pos_nonempty. vm_compute. reflexivity.
Defined.

(** The other branch on a concrete state: the sell session has executed
    layer [10^4300 - 1], so the hedge would be layer [10^4300], whose
    index [str] refuses to print.  The tick replies WAIT; the hedge flag
    is up and the row is appended, but the exec map still has its one
    entry. *)
Example hedge_index_overflow :
  let out := handle_tick (Sample.env 13) (Sample.tick 95 95 [Sample.fill0; Sample.fill1])
               Scenario.brim in
  Py.str_raises (10 ^ 4300 - 1) = false ∧ Py.str_raises (10 ^ 4300) = true ∧
  out.2 = Wait None ∧
  buy_hedge_triggered (rt_of out.1) = true ∧
  length (rows_sell (st_of out.1)) = S (length (rows_sell (st_of Scenario.brim))) ∧
  size (sell_exec_map (rt_of out.1)) = 1%nat.
Proof. vm_compute. repeat split. Qed.
(** ** Grid expansion: session start, limit price, unusable layers *)

Lemma Py_le_lt_dec_false a b : Py.le a b = false → Py.lt b a = true.
Proof. intros H. apply Py_lt_true. now apply Py_le_false. Qed.

Lemma accumulate_buy_start e tick g :
  buy_on (rt_of g) = true → buy_is_closing (rt_of g) = false →
  buy_hedge_triggered (rt_of g) = false → buy_id (rt_of g) = "" →
  st_of (accumulate_buy_stage e tick g).1 = st_of g ∧
  buy_id (rt_of (accumulate_buy_stage e tick g).1) = get_hash "buy" (uuid_buy e) ∧
  (Py.lt 0 (buy_limit_price (st_of g)) = true →
   (accumulate_buy_stage e tick g).2 = None ∧
   buy_exec_map (rt_of (accumulate_buy_stage e tick g).1) = ∅ ∧
   buy_waiting_limit (rt_of (accumulate_buy_stage e tick g).1)
   = negb (Py.le (TickData.ask tick) (buy_limit_price (st_of g))) ∧
   buy_start_ref (rt_of (accumulate_buy_stage e tick g).1)
   = (if Py.le (TickData.ask tick) (buy_limit_price (st_of g))
      then TickData.ask tick else buy_limit_price (st_of g))) ∧
  (Py.lt 0 (buy_limit_price (st_of g)) = false →
   buy_waiting_limit (rt_of (accumulate_buy_stage e tick g).1) = false ∧
   buy_start_ref (rt_of (accumulate_buy_stage e tick g).1) = TickData.ask tick ∧
   accumulate_buy_stage e tick g
   = accumulate_buy_stage e tick
       (put_rt (set_buy_waiting_limit false
                  (set_buy_start_ref (TickData.ask tick)
                     (set_buy_exec_map ∅
                        (set_buy_id (get_hash "buy" (uuid_buy e)) (rt_of g))))) g)).
Proof.
  intros Hon Hcl Hh Hid.
  assert (Hne : Py.truthy (get_hash "buy" (uuid_buy e)) = true).
  { apply truthy_ne, get_hash_nonempty. }
  unfold accumulate_buy_stage. cbn [rt_of st_of put_rt state runtime settings buy_on
    buy_is_closing buy_hedge_triggered buy_id buy_waiting_limit set_buy_waiting_limit
    set_buy_start_ref set_buy_exec_map set_buy_id].
  rewrite Hon, Hcl, Hh, Hid, Hne. cbn [Py.truthy negb andb].
  destruct (Py.lt 0 (buy_limit_price (st_of g))) eqn:Hlim.
  - cbn. destruct (Py.le (TickData.ask tick) (buy_limit_price (st_of g))); cbn;
      (split; [reflexivity|]); (split; [reflexivity|]);
      (split; [intros _; repeat split|intros A; discriminate A]).
  - cbn. rewrite map_size_empty.
    split; [repeat case_match; reflexivity|].
    split; [repeat case_match; reflexivity|].
    split; [intros A; discriminate A|]. intros _.
    split; [repeat case_match; reflexivity|].
    split; [repeat case_match; reflexivity|].
    reflexivity.
Qed.

Lemma accumulate_sell_start e tick g :
  sell_on (rt_of g) = true → sell_is_closing (rt_of g) = false →
  sell_hedge_triggered (rt_of g) = false → sell_id (rt_of g) = "" →
  st_of (accumulate_sell_stage e tick g).1 = st_of g ∧
  sell_id (rt_of (accumulate_sell_stage e tick g).1) = get_hash "sell" (uuid_sell e) ∧
  (Py.lt 0 (sell_limit_price (st_of g)) = true →
   (accumulate_sell_stage e tick g).2 = None ∧
   sell_exec_map (rt_of (accumulate_sell_stage e tick g).1) = ∅ ∧
   sell_waiting_limit (rt_of (accumulate_sell_stage e tick g).1)
   = negb (Py.le (sell_limit_price (st_of g)) (TickData.bid tick)) ∧
   sell_start_ref (rt_of (accumulate_sell_stage e tick g).1)
   = (if Py.le (sell_limit_price (st_of g)) (TickData.bid tick)
      then TickData.bid tick else sell_limit_price (st_of g))) ∧
  (Py.lt 0 (sell_limit_price (st_of g)) = false →
   sell_waiting_limit (rt_of (accumulate_sell_stage e tick g).1) = false ∧
   sell_start_ref (rt_of (accumulate_sell_stage e tick g).1) = TickData.bid tick ∧
   accumulate_sell_stage e tick g
   = accumulate_sell_stage e tick
       (put_rt (set_sell_waiting_limit false
                  (set_sell_start_ref (TickData.bid tick)
                     (set_sell_exec_map ∅
                        (set_sell_id (get_hash "sell" (uuid_sell e)) (rt_of g))))) g)).
Proof.
  intros Hon Hcl Hh Hid.
  assert (Hne : Py.truthy (get_hash "sell" (uuid_sell e)) = true).
  { apply truthy_ne, get_hash_nonempty. }
  unfold accumulate_sell_stage. cbn [rt_of st_of put_rt state runtime settings sell_on
    sell_is_closing sell_hedge_triggered sell_id sell_waiting_limit set_sell_waiting_limit
    set_sell_start_ref set_sell_exec_map set_sell_id].
  rewrite Hon, Hcl, Hh, Hid, Hne. cbn [Py.truthy negb andb].
  destruct (Py.lt 0 (sell_limit_price (st_of g))) eqn:Hlim.
  - cbn. destruct (Py.le (sell_limit_price (st_of g)) (TickData.bid tick)); cbn;
      (split; [reflexivity|]); (split; [reflexivity|]);
      (split; [intros _; repeat split|intros A; discriminate A]).
  - cbn. rewrite map_size_empty.
    split; [repeat case_match; reflexivity|].
    split; [repeat case_match; reflexivity|].
    split; [intros A; discriminate A|]. intros _.
    split; [repeat case_match; reflexivity|].
    split; [repeat case_match; reflexivity|].
    reflexivity.
Qed.

(** X14. Start of a session by grid expansion.  When the buy block of
    grid expansion runs for a side that is on, not closing and not
    hedged but has no session id, it mints the id with [get_hash] and
    leaves the settings alone.  With a limit price above zero the tick
    places no order and records no layer: the session waits, anchored at
    the limit price, unless the ask is already at or below the limit
    price, in which case it is anchored at the ask with the waiting flag
    cleared.  With no limit price the session is anchored at the ask
    with the waiting flag cleared, and the block goes on with layer 0 on
    the same tick exactly as it does for a session that was opened
    there before.  The sell block does the same with the bid and a limit
    price at or below the bid. *)
Theorem session_start (e : Env) (tick : TickData.t) (g : Globals) :
  (buy_on (rt_of g) = true → buy_is_closing (rt_of g) = false →
   buy_hedge_triggered (rt_of g) = false → buy_id (rt_of g) = "" →
   st_of (accumulate_buy_stage e tick g).1 = st_of g ∧
   buy_id (rt_of (accumulate_buy_stage e tick g).1) = get_hash "buy" (uuid_buy e) ∧
   (Py.lt 0 (buy_limit_price (st_of g)) = true →
    (accumulate_buy_stage e tick g).2 = None ∧
    buy_exec_map (rt_of (accumulate_buy_stage e tick g).1) = ∅ ∧
    buy_waiting_limit (rt_of (accumulate_buy_stage e tick g).1)
    = negb (Py.le (TickData.ask tick) (buy_limit_price (st_of g))) ∧
    buy_start_ref (rt_of (accumulate_buy_stage e tick g).1)
    = (if Py.le (TickData.ask tick) (buy_limit_price (st_of g))
       then TickData.ask tick else buy_limit_price (st_of g))) ∧
   (Py.lt 0 (buy_limit_price (st_of g)) = false →
    buy_waiting_limit (rt_of (accumulate_buy_stage e tick g).1) = false ∧
    buy_start_ref (rt_of (accumulate_buy_stage e tick g).1) = TickData.ask tick ∧
    accumulate_buy_stage e tick g
    = accumulate_buy_stage e tick
        (put_rt (set_buy_waiting_limit false
                   (set_buy_start_ref (TickData.ask tick)
                      (set_buy_exec_map ∅
                         (set_buy_id (get_hash "buy" (uuid_buy e)) (rt_of g))))) g))) ∧
  (sell_on (rt_of g) = true → sell_is_closing (rt_of g) = false →
   sell_hedge_triggered (rt_of g) = false → sell_id (rt_of g) = "" →
   st_of (accumulate_sell_stage e tick g).1 = st_of g ∧
   sell_id (rt_of (accumulate_sell_stage e tick g).1) = get_hash "sell" (uuid_sell e) ∧
   (Py.lt 0 (sell_limit_price (st_of g)) = true →
    (accumulate_sell_stage e tick g).2 = None ∧
    sell_exec_map (rt_of (accumulate_sell_stage e tick g).1) = ∅ ∧
    sell_waiting_limit (rt_of (accumulate_sell_stage e tick g).1)
    = negb (Py.le (sell_limit_price (st_of g)) (TickData.bid tick)) ∧
    sell_start_ref (rt_of (accumulate_sell_stage e tick g).1)
    = (if Py.le (sell_limit_price (st_of g)) (TickData.bid tick)
       then TickData.bid tick else sell_limit_price (st_of g))) ∧
   (Py.lt 0 (sell_limit_price (st_of g)) = false →
    sell_waiting_limit (rt_of (accumulate_sell_stage e tick g).1) = false ∧
    sell_start_ref (rt_of (accumulate_sell_stage e tick g).1) = TickData.bid tick ∧
    accumulate_sell_stage e tick g
    = accumulate_sell_stage e tick
        (put_rt (set_sell_waiting_limit false
                   (set_sell_start_ref (TickData.bid tick)
                      (set_sell_exec_map ∅
                         (set_sell_id (get_hash "sell" (uuid_sell e)) (rt_of g))))) g))).
Proof.
  split; intros Hon Hcl Hh Hid.
  - now apply accumulate_buy_start.
  - now apply accumulate_sell_start.
Qed.

(** A buy side switched on under a limit price of 90: the tick at ask
    100 opens the session, which waits, anchored at 90. *)
Lemma session_start_witness :
  buy_id (rt_of (accumulate_buy_stage (Sample.env 10) (Sample.tick 100 100 [])
                   (put_st (set_buy_limit_price 90 (st_of Sample.armed))
                      Sample.armed)).1)
  = "buy_01234567" ∧
  (accumulate_buy_stage (Sample.env 10) (Sample.tick 100 100 [])
     (put_st (set_buy_limit_price 90 (st_of Sample.armed)) Sample.armed)).2 = None ∧
  buy_exec_map
    (rt_of (accumulate_buy_stage (Sample.env 10) (Sample.tick 100 100 [])
              (put_st (set_buy_limit_price 90 (st_of Sample.armed))
                 Sample.armed)).1) = ∅ ∧
  buy_waiting_limit
    (rt_of (accumulate_buy_stage (Sample.env 10) (Sample.tick 100 100 [])
              (put_st (set_buy_limit_price 90 (st_of Sample.armed))
                 Sample.armed)).1) = true ∧
  buy_start_ref
    (rt_of (accumulate_buy_stage (Sample.env 10) (Sample.tick 100 100 [])
              (put_st (set_buy_limit_price 90 (st_of Sample.armed))
                 Sample.armed)).1) = 90%Q.
Proof.
  destruct (session_start (Sample.env 10) (Sample.tick 100 100 [])
              (put_st (set_buy_limit_price 90 (st_of Sample.armed)) Sample.armed))
    as [H _].
  destruct H as (_ & Hid & Hlim & _); [reflexivity..|].
  destruct Hlim as (Hr & Hm & Hw & Ha); [vm_compute; reflexivity|].
  split; [exact Hid|]. split; [exact Hr|]. split; [exact Hm|].
  split; [exact Hw|exact Ha].
Defined.

(** X15. An unusable layer stops the tick.  If the buy side is in
    grid expansion (on, not closing, not hedged, session open, not
    waiting for its limit price) and the row of [rows_buy] at position
    [len(buy_exec_map)] has a gap or a volume that is not positive, grid
    expansion replies WAIT at once and leaves the whole state as it is:
    no layer is recorded, and the sell block of grid expansion is not
    run on that tick. *)
Theorem unusable_layer_stops_tick (e : Env) (tick : TickData.t) (g : Globals)
    (row : GridRow.t) :
  buy_on (rt_of g) = true → buy_is_closing (rt_of g) = false →
  buy_hedge_triggered (rt_of g) = false → buy_id (rt_of g) ≠ "" →
  buy_waiting_limit (rt_of g) = false →
  rows_buy (st_of g) !! size (buy_exec_map (rt_of g)) = Some row →
  (GridRow.dollar row <= 0 ∨ GridRow.lots row <= 0)%Q →
  accumulate_stage e tick g = (g, Some (Wait None)).
Proof.
  intros Hon Hcl Hh Hid Hw Hrow Hbad.
  assert (Hb : Py.le (GridRow.dollar row) 0 || Py.le (GridRow.lots row) 0 = true).
  { apply orb_true_iff. destruct Hbad as [H|H]; [left|right]; now apply Py_le_true. }
  apply truthy_ne in Hid.
  unfold accumulate_stage, and_then, accumulate_buy_stage.
  rewrite Hon, Hcl, Hh, Hid. cbn. rewrite Hw, Hrow, Hb.
  now rewrite put_rt_id.
Qed.

Lemma unusable_layer_stops_tick_witness :
  accumulate_stage (Sample.env 12) (Sample.tick 90 90 []) Scenario.stuck
  = (Scenario.stuck, Some (Wait None)).
Proof.
  apply (unusable_layer_stops_tick (Sample.env 12) (Sample.tick 90 90 []) Scenario.stuck
           (GridRow.mk 1 0 (2 # 10) false)).
  - reflexivity.
  - reflexivity.
  - reflexivity.
  - apply truthy_ne. vm_compute. reflexivity.
  - reflexivity.
  - vm_compute. reflexivity.
  - left. vm_compute. intros H. discriminate H.
Defined.

(** X16. Waiting for the limit price.  While a buy session waits for
    its limit price, the buy block of grid expansion places no order:
    if the ask is above the limit price it changes nothing, and once the
    ask is at or below it, it clears the waiting flag and moves the
    anchor to that ask, still without an order on that tick.  The sell
    block does the same with the bid at or above its limit price. *)
Theorem limit_price_wait (e : Env) (tick : TickData.t) (g : Globals) :
  (buy_on (rt_of g) = true → buy_is_closing (rt_of g) = false →
   buy_hedge_triggered (rt_of g) = false → buy_id (rt_of g) ≠ "" →
   buy_waiting_limit (rt_of g) = true →
   ((buy_limit_price (st_of g) < TickData.ask tick)%Q →
    accumulate_buy_stage e tick g = (g, None)) ∧
   ((TickData.ask tick <= buy_limit_price (st_of g))%Q →
    accumulate_buy_stage e tick g
    = (put_rt (set_buy_start_ref (TickData.ask tick)
                 (set_buy_waiting_limit false (rt_of g))) g, None))) ∧
  (sell_on (rt_of g) = true → sell_is_closing (rt_of g) = false →
   sell_hedge_triggered (rt_of g) = false → sell_id (rt_of g) ≠ "" →
   sell_waiting_limit (rt_of g) = true →
   ((TickData.bid tick < sell_limit_price (st_of g))%Q →
    accumulate_sell_stage e tick g = (g, None)) ∧
   ((sell_limit_price (st_of g) <= TickData.bid tick)%Q →
    accumulate_sell_stage e tick g
    = (put_rt (set_sell_start_ref (TickData.bid tick)
                 (set_sell_waiting_limit false (rt_of g))) g, None))).
Proof.
  split; intros Hon Hcl Hh Hid Hw; apply truthy_ne in Hid.
  - unfold accumulate_buy_stage. rewrite Hon, Hcl, Hh, Hid. cbn. rewrite Hw.
    split; intros Hx.
    + apply Py_le_false in Hx. rewrite Hx. now rewrite put_rt_id.
    + apply Py_le_true in Hx. now rewrite Hx.
  - unfold accumulate_sell_stage. rewrite Hon, Hcl, Hh, Hid. cbn. rewrite Hw.
    split; intros Hx.
    + apply Py_le_false in Hx. rewrite Hx. now rewrite put_rt_id.
    + apply Py_le_true in Hx. now rewrite Hx.
Qed.

Lemma limit_price_wait_witness :
  accumulate_buy_stage (Sample.env 11) (Sample.tick 95 95 []) Scenario.waiting
  = (Scenario.waiting, None) ∧
  accumulate_buy_stage (Sample.env 11) (Sample.tick 90 90 []) Scenario.waiting
  = (put_rt (set_buy_start_ref 90 (set_buy_waiting_limit false (rt_of Scenario.waiting)))
       Scenario.waiting, None).
Proof.
  split.
  - destruct (limit_price_wait (Sample.env 11) (Sample.tick 95 95 []) Scenario.waiting)
      as [H _].
    destruct H as [H _];
      [reflexivity|reflexivity|reflexivity|apply truthy_ne; vm_compute; reflexivity
      |reflexivity|].
    apply H. vm_compute. reflexivity.
  - destruct (limit_price_wait (Sample.env 11) (Sample.tick 90 90 []) Scenario.waiting)
      as [H _].
    destruct H as [_ H];
      [reflexivity|reflexivity|reflexivity|apply truthy_ne; vm_compute; reflexivity
      |reflexivity|].
    apply H. vm_compute. intros H'. discriminate H'.
Defined.

(** ** Market data *)

Ltac market_frame :=
  unfold market_kept in *; cbn in *;
  repeat match goal with
         | H : _ ∧ _ |- _ => destruct H
         end;
  repeat split; try assumption; try congruence.

Lemma pending_stage_market g0 : preserves (market_kept g0) pending_stage.
Proof. intros g H. unfold pending_stage. stage_cases; market_frame. Qed.

Lemma closing_buy_stage_market g0 tick : preserves (market_kept g0) (closing_buy_stage tick).
Proof. intros g H. unfold closing_buy_stage. stage_cases; market_frame. Qed.

Lemma closing_sell_stage_market g0 tick :
  preserves (market_kept g0) (closing_sell_stage tick).
Proof. intros g H. unfold closing_sell_stage. stage_cases; market_frame. Qed.

Lemma hedge_buy_stage_market g0 e tick : preserves (market_kept g0) (hedge_buy_stage e tick).
Proof. intros g H. unfold hedge_buy_stage. stage_cases; market_frame. Qed.

Lemma hedge_sell_stage_market g0 e tick :
  preserves (market_kept g0) (hedge_sell_stage e tick).
Proof. intros g H. unfold hedge_sell_stage. stage_cases; market_frame. Qed.

Lemma tp_buy_stage_market g0 tick : preserves (market_kept g0) (tp_buy_stage tick).
Proof. intros g H. unfold tp_buy_stage. stage_cases; market_frame. Qed.

Lemma tp_sell_stage_market g0 tick : preserves (market_kept g0) (tp_sell_stage tick).
Proof. intros g H. unfold tp_sell_stage. stage_cases; market_frame. Qed.

Lemma external_close_buy_market g0 e tick g :
  market_kept g0 g → market_kept g0 (external_close_buy e tick g).
Proof. intros H. unfold external_close_buy. stage_cases; market_frame. Qed.

Lemma external_close_sell_market g0 e tick g :
  market_kept g0 g → market_kept g0 (external_close_sell e tick g).
Proof. intros H. unfold external_close_sell. stage_cases; market_frame. Qed.

Lemma accumulate_buy_stage_market g0 e tick :
  preserves (market_kept g0) (accumulate_buy_stage e tick).
Proof. intros g H. unfold accumulate_buy_stage. stage_cases; market_frame. Qed.

Lemma accumulate_sell_stage_market g0 e tick :
  preserves (market_kept g0) (accumulate_sell_stage e tick).
Proof. intros g H. unfold accumulate_sell_stage. stage_cases; market_frame. Qed.

Lemma decide_stage_market g0 e tick : preserves (market_kept g0) (decide_stage e tick).
Proof.
  unfold decide_stage, closing_stage, hedge_stage, take_profit_stage,
    external_close_stage, accumulate_stage.
  repeat apply preserves_and_then;
    auto using pending_stage_market, closing_buy_stage_market,
      closing_sell_stage_market, hedge_buy_stage_market, hedge_sell_stage_market,
      tp_buy_stage_market, tp_sell_stage_market, accumulate_buy_stage_market,
      accumulate_sell_stage_market;
    apply preserves_silently;
    auto using external_close_buy_market, external_close_sell_market.
Qed.

Lemma market_kept_refl g : market_kept g g.
Proof. repeat split. Qed.

Lemma update_exec_stats_market e tick rt :
  current_price (update_exec_stats e tick rt) = current_price rt ∧
  current_ask (update_exec_stats e tick rt) = current_ask rt ∧
  current_bid (update_exec_stats e tick rt) = current_bid rt ∧
  price_direction (update_exec_stats e tick rt) = price_direction rt.
Proof.
  destruct (update_exec_stats_cases e tick rt)
    as [(msg & _ & ->)|(bm & sm & _ & ->)]; repeat split.
Qed.

(** The state of a tick that passed the error gate keeps the market
    snapshot taken by [market_update]. *)
Lemma handle_tick_market e tick g :
  error_status (rt_of g) = "" →
  market_kept (market_update e tick g) (handle_tick e tick g).1.
Proof.
  intros Herr. unfold handle_tick. rewrite Herr. cbn [Py.truthy].
  assert (H : market_kept (market_update e tick g) (reconcile e tick g)).
  { unfold reconcile.
    destruct (update_exec_stats_market e tick (rt_of (market_update e tick g)))
      as (H1 & H2 & H3 & H4).
    unfold market_kept. cbn. rewrite H1, H2, H3, H4. repeat split. }
  destruct (Py.truthy (error_status (rt_of (reconcile e tick g)))); [exact H|].
  apply (decide_stage_market _ e tick) in H.
  destruct (decide_stage e tick (reconcile e tick g)) as [g' [r|]]; exact H.
Qed.

Lemma deque_append_last (h : list (Q * Q)) (x : Q * Q) : last (deque_append h x) = Some x.
Proof.
  unfold deque_append.
  destruct (PRICE_HISTORY_LEN <? length (h ++ [x]))%nat eqn:Hlen; [|apply last_snoc].
  apply Nat.ltb_lt in Hlen. rewrite length_app in Hlen. simpl in Hlen.
  destruct h as [|y h]; [unfold PRICE_HISTORY_LEN in Hlen; simpl in Hlen; lia|].
  simpl. apply last_snoc.
Qed.

Lemma deque_append_length (h : list (Q * Q)) (x : Q * Q) :
  (length h ≤ PRICE_HISTORY_LEN)%nat →
  length (deque_append h x) = Nat.min PRICE_HISTORY_LEN (S (length h)).
Proof.
  intros Hh. unfold deque_append.
  destruct (PRICE_HISTORY_LEN <? length (h ++ [x]))%nat eqn:Hlen.
  - apply Nat.ltb_lt in Hlen. rewrite length_app in Hlen.
    change (length [x]) with 1%nat in Hlen.
    destruct h as [|y h].
    + unfold PRICE_HISTORY_LEN in Hlen. change (length (@nil (Q * Q))) with 0%nat in Hlen.
      lia.
    + change (tail ((y :: h) ++ [x])) with (h ++ [x]). rewrite length_app.
      change (length [x]) with 1%nat.
      change (length (y :: h)) with (S (length h)) in *. lia.
  - apply Nat.ltb_ge in Hlen. rewrite length_app in *.
    change (length [x]) with 1%nat in *. lia.
Qed.

(** X17. A tick records the market.  Every tick that arrives while
    [error_status] is empty, whatever it is answered and even if its
    reconciliation raises an identity conflict, leaves the tick's ask,
    bid and mid price in the runtime state and the time of the tick in
    [last_update_ts], and has appended the pair (mid, time) at the end of
    the price history.  The price direction is ["up"] if the mid is above
    the previous entry of the history and ["down"] otherwise, and is left
    as it was on an empty history. *)
Theorem tick_records_market (e : Env) (tick : TickData.t) (g : Globals) :
  error_status (rt_of g) = "" →
  current_ask (rt_of (handle_tick e tick g).1) = TickData.ask tick ∧
  current_bid (rt_of (handle_tick e tick g).1) = TickData.bid tick ∧
  current_price (rt_of (handle_tick e tick g).1) = mid_of tick ∧
  last_update_ts (state (handle_tick e tick g).1) = now_iso e ∧
  last (price_history (handle_tick e tick g).1) = Some (mid_of tick, now_ts e) ∧
  price_direction (rt_of (handle_tick e tick g).1)
  = match last (price_history g) with
    | Some (prev_mid, _) => if Py.lt prev_mid (mid_of tick) then "up" else "down"
    | None => price_direction (rt_of g)
    end.
Proof.
  intros Herr.
  destruct (handle_tick_market e tick g Herr) as (Hh & Hts & Hp & Ha & Hb & Hd).
  rewrite Hh, Hts, Hp, Ha, Hb, Hd. unfold market_update. cbn.
  rewrite deque_append_last.
  destruct (last (price_history g)) as [[pm pt]|]; repeat split.
Qed.

Lemma tick_records_market_witness :
  current_ask (rt_of (handle_tick (Sample.env 11) (Sample.tick 97 96 []) Sample.anchored).1)
  = 97%Q ∧
  last (price_history (handle_tick (Sample.env 11) (Sample.tick 97 96 [])
                         Sample.anchored).1)
  = Some (mid_of (Sample.tick 97 96 []), 11%Q) ∧
  price_direction (rt_of (handle_tick (Sample.env 11) (Sample.tick 97 96 [])
                            Sample.anchored).1) = "down".
Proof.
  destruct (tick_records_market (Sample.env 11) (Sample.tick 97 96 []) Sample.anchored)
    as (Ha & _ & _ & _ & Hh & Hd).
  - reflexivity.
  - split; [exact Ha|]. split; [exact Hh|]. rewrite Hd. vm_compute. reflexivity.
Defined.

Lemma serve_history_bounded (r : Request) (g : Globals) :
  (length (price_history g) ≤ PRICE_HISTORY_LEN)%nat →
  (length (price_history (serve r g)) ≤ PRICE_HISTORY_LEN)%nat.
Proof.
  intros H. destruct r as [e tick|new|b s c x]; simpl.
  - destruct (Py.truthy (error_status (rt_of g))) eqn:Herr.
    + unfold handle_tick. now rewrite Herr.
    + apply truthy_false in Herr.
      destruct (handle_tick_market e tick g Herr) as (-> & _).
      unfold market_update. cbn. rewrite deque_append_length by exact H. lia.
  - unfold update_settings. repeat case_match; simplify_eq; exact H.
  - destruct (control_frame b s c x g) as (_ & -> & _). exact H.
Qed.

(** X18. The price history is bounded.  In every state reachable from
    the initial state by ticks and commands, the price history holds at
    most [PRICE_HISTORY_LEN] = 100 entries. *)
Theorem price_history_bounded (g : Globals) :
  reachable g → (length (price_history g) ≤ 100)%nat.
Proof.
  intros [rs ->].
  assert (H : ∀ g0, (length (price_history g0) ≤ PRICE_HISTORY_LEN)%nat →
                    (length (price_history (run rs g0)) ≤ PRICE_HISTORY_LEN)%nat).
  { induction rs as [|r rs IH]; intros g0 H0; [exact H0|].
    simpl. apply IH, serve_history_bounded, H0. }
  apply (H initial). unfold PRICE_HISTORY_LEN. simpl. lia.
Qed.

Lemma price_history_bounded_witness :
  (length (price_history (run Sample.session initial)) ≤ 100)%nat.
Proof.
  apply (price_history_bounded (run Sample.session initial)).
  exists Sample.session. reflexivity.
Defined.

(** ** Keys and index fields of the exec maps *)

Lemma keyed_empty : keyed ∅.
Proof. intros k r H. rewrite lookup_empty in H. discriminate H. Qed.

Lemma keyed_insert (m : gmap Z RowExecStats.t) n price lots profit ts :
  keyed m → keyed (<[n := RowExecStats.new n price lots profit ts]> m).
Proof.
  intros Hm k r H. destruct (decide (n = k)) as [->|Hne].
  - rewrite lookup_insert_eq in H. now simplify_eq.
  - rewrite lookup_insert_ne in H by exact Hne. now apply Hm.
Qed.

Lemma keyed_cumulate (m : gmap Z RowExecStats.t) : keyed m → keyed (cumulate m).
Proof.
  intros Hm k r H.
  assert (Hk : k ∈ dom m) by (rewrite <- cumulate_dom; apply elem_of_dom; eauto).
  apply elem_of_dom in Hk as [row Hrow].
  destruct (cumulate_lookup m k row Hrow) as (cl & cp & Hc).
  rewrite Hc in H. injection H as <-.
  cbn. now apply Hm.
Qed.

Lemma keyed_record_fill e p parts (m m' : gmap Z RowExecStats.t) :
  record_fill e p parts m = Some m' → keyed m → keyed m'.
Proof.
  unfold record_fill. intros H Hm.
  repeat case_match; simplify_eq; auto using keyed_insert.
Qed.

Lemma keyed_absorb_position e rt p (bm sm bm' sm' : gmap Z RowExecStats.t) :
  absorb_position e rt p (bm, sm) = inr (bm', sm') →
  keyed bm → keyed sm → keyed bm' ∧ keyed sm'.
Proof.
  unfold absorb_position. intros H Hb Hs.
  repeat case_match; simplify_eq; eauto using keyed_record_fill.
Qed.

Lemma keyed_absorb_positions e rt ps (bm sm bm' sm' : gmap Z RowExecStats.t) :
  absorb_positions e rt ps (bm, sm) = inr (bm', sm') →
  keyed bm → keyed sm → keyed bm' ∧ keyed sm'.
Proof.
  revert bm sm. induction ps as [|p ps IH]; intros bm sm H Hb Hs; simpl in H.
  - now simplify_eq.
  - destruct (absorb_position e rt p (bm, sm)) as [msg|[bm1 sm1]] eqn:Hp;
      [discriminate H|].
    destruct (keyed_absorb_position _ _ _ _ _ _ _ Hp Hb Hs). eauto.
Qed.

Lemma reconcile_keyed e tick g : well_keyed g → well_keyed (reconcile e tick g).
Proof.
  intros [Hb Hs]. unfold reconcile, well_keyed.
  destruct (market_update_rt e tick g) as (_ & _ & Hbm & Hsm & _).
  destruct (update_exec_stats_cases e tick (rt_of (market_update e tick g)))
    as [(msg & _ & ->)|(bm & sm & Habs & ->)]; cbn.
  - rewrite Hbm, Hsm. auto.
  - rewrite Hbm, Hsm in Habs.
    destruct (keyed_absorb_positions _ _ _ _ _ _ _ Habs Hb Hs).
    split; now apply keyed_cumulate.
Qed.

Ltac keyed_frame :=
  unfold well_keyed in *; cbn in *;
  repeat match goal with
         | H : _ ∧ _ |- _ => destruct H
         end;
  split; auto using keyed_empty, keyed_insert.

Lemma pending_stage_keyed : preserves well_keyed pending_stage.
Proof. intros g H. unfold pending_stage. stage_cases; keyed_frame. Qed.

Lemma closing_buy_stage_keyed tick : preserves well_keyed (closing_buy_stage tick).
Proof. intros g H. unfold closing_buy_stage. stage_cases; keyed_frame. Qed.

Lemma closing_sell_stage_keyed tick : preserves well_keyed (closing_sell_stage tick).
Proof. intros g H. unfold closing_sell_stage. stage_cases; keyed_frame. Qed.

Lemma hedge_buy_stage_keyed e tick : preserves well_keyed (hedge_buy_stage e tick).
Proof. intros g H. unfold hedge_buy_stage. stage_cases; keyed_frame. Qed.

Lemma hedge_sell_stage_keyed e tick : preserves well_keyed (hedge_sell_stage e tick).
Proof. intros g H. unfold hedge_sell_stage. stage_cases; keyed_frame. Qed.

Lemma tp_buy_stage_keyed tick : preserves well_keyed (tp_buy_stage tick).
Proof. intros g H. unfold tp_buy_stage. stage_cases; keyed_frame. Qed.

Lemma tp_sell_stage_keyed tick : preserves well_keyed (tp_sell_stage tick).
Proof. intros g H. unfold tp_sell_stage. stage_cases; keyed_frame. Qed.

Lemma external_close_buy_keyed e tick g :
  well_keyed g → well_keyed (external_close_buy e tick g).
Proof. intros H. unfold external_close_buy. stage_cases; keyed_frame. Qed.

Lemma external_close_sell_keyed e tick g :
  well_keyed g → well_keyed (external_close_sell e tick g).
Proof. intros H. unfold external_close_sell. stage_cases; keyed_frame. Qed.

Lemma accumulate_buy_stage_keyed e tick : preserves well_keyed (accumulate_buy_stage e tick).
Proof. intros g H. unfold accumulate_buy_stage. stage_cases; keyed_frame. Qed.

Lemma accumulate_sell_stage_keyed e tick :
  preserves well_keyed (accumulate_sell_stage e tick).
Proof. intros g H. unfold accumulate_sell_stage. stage_cases; keyed_frame. Qed.

Lemma decide_stage_keyed e tick : preserves well_keyed (decide_stage e tick).
Proof.
  unfold decide_stage, closing_stage, hedge_stage, take_profit_stage,
    external_close_stage, accumulate_stage.
  repeat apply preserves_and_then;
    auto using pending_stage_keyed, closing_buy_stage_keyed,
      closing_sell_stage_keyed, hedge_buy_stage_keyed, hedge_sell_stage_keyed,
      tp_buy_stage_keyed, tp_sell_stage_keyed, accumulate_buy_stage_keyed,
      accumulate_sell_stage_keyed;
    apply preserves_silently;
    auto using external_close_buy_keyed, external_close_sell_keyed.
Qed.

Lemma serve_keyed r g : well_keyed g → well_keyed (serve r g).
Proof.
  intros H. destruct r as [e tick|new|b s c x]; simpl.
  - unfold handle_tick.
    destruct (Py.truthy (error_status (rt_of g))); [exact H|].
    apply (reconcile_keyed e tick) in H.
    destruct (Py.truthy (error_status (rt_of (reconcile e tick g)))); [exact H|].
    apply (decide_stage_keyed e tick) in H.
    destruct (decide_stage e tick (reconcile e tick g)) as [g' [r|]]; exact H.
  - destruct (update_settings new g) as [msg|g'] eqn:Hu; [exact H|].
    unfold update_settings in Hu. repeat case_match; simplify_eq. exact H.
  - unfold well_keyed.
    destruct (control_frame b s c x g) as (_ & _ & _ & _ & -> & -> & _). exact H.
Qed.

(** X19. Keys and index fields agree.  In every state reachable from
    the initial state by ticks and commands, each entry of the buy and of
    the sell exec map is stored under the key equal to its own [index]
    field. *)
Theorem exec_map_keys_match_index (g : Globals) (k : Z) (r : RowExecStats.t) :
  reachable g →
  (buy_exec_map (rt_of g) !! k = Some r → RowExecStats.index r = k) ∧
  (sell_exec_map (rt_of g) !! k = Some r → RowExecStats.index r = k).
Proof.
  intros [rs ->].
  assert (H : ∀ g0, well_keyed g0 → well_keyed (run rs g0)).
  { induction rs as [|q rs IH]; intros g0 H0; [exact H0|].
    simpl. apply IH, serve_keyed, H0. }
  destruct (H initial) as [Hb Hs]; [split; apply keyed_empty|].
  split; [apply Hb|apply Hs].
Qed.

Lemma exec_map_keys_match_index_witness :
  buy_exec_map (rt_of (run (firstn 5 Sample.session) initial)) !! 1
  = Some (RowExecStats.new 1 97 (2 # 10) 0 "2025-01-01T00:00:00") ∧
  RowExecStats.index (RowExecStats.new 1 97 (2 # 10) 0 "2025-01-01T00:00:00") = 1.
Proof.
  assert (Hk : buy_exec_map (rt_of (run (firstn 5 Sample.session) initial)) !! 1
               = Some (RowExecStats.new 1 97 (2 # 10) 0 "2025-01-01T00:00:00"))
    by (vm_compute; reflexivity).
  split; [exact Hk|].
  destruct (exec_map_keys_match_index (run (firstn 5 Sample.session) initial) 1
              (RowExecStats.new 1 97 (2 # 10) 0 "2025-01-01T00:00:00")) as [H _].
  - exists (firstn 5 Sample.session). reflexivity.
  - apply H, Hk.
Defined.

(** ** Grid prices outside the table *)

Lemma grid_walk_beyond (step : Q → Q → Q) (rows : list GridRow.t) (start : Q)
    (n extra : nat) :
  (length rows ≤ n)%nat →
  foldl (fun ref i =>
           match rows !! i with
           | Some row => step ref (GridRow.dollar row)
           | None => ref
           end) start (seq n extra) = start.
Proof.
  revert n. induction extra as [|extra IH]; intros n Hn; [reflexivity|].
  simpl. rewrite (lookup_ge_None_2 rows n) by lia. apply IH. lia.
Qed.

Lemma grid_walk_clamped (step : Q → Q → Q) (rows : list GridRow.t) (start : Q)
    (i : nat) :
  (length rows ≤ i)%nat →
  grid_walk step rows start (Z.of_nat i)
  = grid_walk step rows start (Z.of_nat (length rows) - 1).
Proof.
  intros Hi. unfold grid_walk.
  replace (Z.to_nat (Z.of_nat i + 1)) with (length rows + (S i - length rows))%nat by lia.
  replace (Z.to_nat (Z.of_nat (length rows) - 1 + 1)) with (length rows) by lia.
  rewrite seq_app, foldl_app. apply grid_walk_beyond. simpl. lia.
Qed.

(** X20. Grid prices at the edges.  [calculate_grid_level_price]
    returns the anchor itself for a negative level index; for a level
    index at or beyond the end of the layer table it returns the price of
    the last layer of the table, the missing rows counting for nothing;
    and every [side] other than ["buy"] is priced as the sell side. *)
Theorem grid_level_price_edges (g : Globals) (side : string) :
  (∀ i : Z, i < 0 → calculate_grid_level_price g side i = side_anchor g side) ∧
  (∀ i : nat, (length (side_rows g side) ≤ i)%nat →
     calculate_grid_level_price g side (Z.of_nat i)
     = calculate_grid_level_price g side (Z.of_nat (length (side_rows g side)) - 1)) ∧
  (side ≠ "buy" →
   ∀ i : Z, calculate_grid_level_price g side i = calculate_grid_level_price g "sell" i).
Proof.
  unfold calculate_grid_level_price, side_anchor, side_rows.
  split; [|split].
  - intros i Hi. unfold grid_walk.
    replace (Z.to_nat (i + 1)) with 0%nat by lia.
    destruct (String.eqb side "buy"); reflexivity.
  - intros i Hi. destruct (String.eqb side "buy"); now apply grid_walk_clamped.
  - intros Hs i. apply String.eqb_neq in Hs. now rewrite Hs.
Qed.

Lemma grid_level_price_edges_witness :
  calculate_grid_level_price Sample.one_layer "buy" (-1)
  = side_anchor Sample.one_layer "buy" ∧
  calculate_grid_level_price Sample.one_layer "buy" (Z.of_nat 7)
  = calculate_grid_level_price Sample.one_layer "buy"
      (Z.of_nat (length (side_rows Sample.one_layer "buy")) - 1).
Proof.
  destruct (grid_level_price_edges Sample.one_layer "buy") as (H1 & H2 & _).
  split.
  - apply H1. lia.
  - apply H2. vm_compute. lia.
Defined.

(** ** The last executed price *)

Lemma last_entry_price_spec (m : gmap Z RowExecStats.t) (start_ref : Q) :
  (m = ∅ → last_entry_price m start_ref = start_ref) ∧
  (m ≠ ∅ →
   ∃ k row, m !! k = Some row ∧ (∀ j, j ∈ dom m → j ≤ k) ∧
            last_entry_price m start_ref = RowExecStats.entry_price row).
Proof.
  unfold last_entry_price. split.
  - intros ->. reflexivity.
  - intros Hne.
    destruct (last (sorted_indices m)) as [k|] eqn:Hl.
    + assert (Hk : k ∈ sorted_indices m).
      { apply last_Some in Hl as [l' ->]. set_solver. }
      apply sorted_indices_elem in Hk as [row Hrow].
      exists k, row. rewrite Hrow. split; [reflexivity|]. split; [|reflexivity].
      intros j Hj. apply elem_of_dom, sorted_indices_elem in Hj.
      eapply sorted_last_max; eauto using sorted_indices_sorted.
    + exfalso. apply last_None in Hl.
      destruct (map_choose m Hne) as (j & r & Hj).
      assert (Hin : j ∈ sorted_indices m) by (apply sorted_indices_elem; eauto).
      rewrite Hl in Hin. now apply elem_of_nil in Hin.
Qed.

(** X21. The last executed price.  [get_last_executed_price] returns
    the side's anchor when its exec map is empty, and otherwise the entry
    price of the entry with the largest key of the map; every [side]
    other than ["buy"] reads the sell side. *)
Theorem last_executed_price_is_deepest (g : Globals) (side : string) :
  (buy_exec_map (rt_of g) = ∅ →
   get_last_executed_price g "buy" = buy_start_ref (rt_of g)) ∧
  (buy_exec_map (rt_of g) ≠ ∅ →
   ∃ k row, buy_exec_map (rt_of g) !! k = Some row ∧
            (∀ j, j ∈ dom (buy_exec_map (rt_of g)) → j ≤ k) ∧
            get_last_executed_price g "buy" = RowExecStats.entry_price row) ∧
  (sell_exec_map (rt_of g) = ∅ →
   get_last_executed_price g "sell" = sell_start_ref (rt_of g)) ∧
  (sell_exec_map (rt_of g) ≠ ∅ →
   ∃ k row, sell_exec_map (rt_of g) !! k = Some row ∧
            (∀ j, j ∈ dom (sell_exec_map (rt_of g)) → j ≤ k) ∧
            get_last_executed_price g "sell" = RowExecStats.entry_price row) ∧
  (side ≠ "buy" → get_last_executed_price g side = get_last_executed_price g "sell").
Proof.
  unfold get_last_executed_price. cbn [String.eqb Ascii.eqb Bool.eqb].
  destruct (last_entry_price_spec (buy_exec_map (rt_of g)) (buy_start_ref (rt_of g)))
    as [Hb1 Hb2].
  destruct (last_entry_price_spec (sell_exec_map (rt_of g)) (sell_start_ref (rt_of g)))
    as [Hs1 Hs2].
  change ("buy" =? "buy")%string with true.
  change ("sell" =? "buy")%string with false.
  repeat split; auto.
  intros Hs. apply String.eqb_neq in Hs. now rewrite Hs.
Qed.

Lemma last_executed_price_is_deepest_witness :
  ∃ k row, buy_exec_map (rt_of Sample.both_layers) !! k = Some row ∧
           (∀ j, j ∈ dom (buy_exec_map (rt_of Sample.both_layers)) → j ≤ k) ∧
           get_last_executed_price Sample.both_layers "buy"
           = RowExecStats.entry_price row.
Proof.
  destruct (last_executed_price_is_deepest Sample.both_layers "buy") as (_ & H & _).
  apply H. apply size_pos_nonempty. vm_compute. reflexivity.
Defined.

(** ** Sides that place no grid order *)

(** X22. No grid order for a side that is off, closing or hedged.  The
    buy block of grid expansion does nothing, and in particular mints no
    session and records no layer, when the buy side is switched off, is
    closing or has its hedge flag up; a side whose hedge flag is up is
    not hedged a second time either.  The sell blocks behave alike. *)
Theorem idle_side_places_no_order (e : Env) (tick : TickData.t) (g : Globals) :
  (buy_on (rt_of g) = false ∨ buy_is_closing (rt_of g) = true ∨
   buy_hedge_triggered (rt_of g) = true →
   accumulate_buy_stage e tick g = (g, None)) ∧
  (sell_on (rt_of g) = false ∨ sell_is_closing (rt_of g) = true ∨
   sell_hedge_triggered (rt_of g) = true →
   accumulate_sell_stage e tick g = (g, None)) ∧
  (buy_on (rt_of g) = false ∨ buy_is_closing (rt_of g) = true ∨
   buy_hedge_triggered (rt_of g) = true ∨ buy_id (rt_of g) = "" →
   hedge_buy_stage e tick g = (g, None)) ∧
  (sell_on (rt_of g) = false ∨ sell_is_closing (rt_of g) = true ∨
   sell_hedge_triggered (rt_of g) = true ∨ sell_id (rt_of g) = "" →
   hedge_sell_stage e tick g = (g, None)).
Proof.
  split; [|split; [|split]].
  - intros H. unfold accumulate_buy_stage.
    destruct H as [-> |[-> | ->]]; rewrite ?andb_false_r; reflexivity.
  - intros H. unfold accumulate_sell_stage.
    destruct H as [-> |[-> | ->]]; rewrite ?andb_false_r; reflexivity.
  - intros H. apply hedge_buy_stage_quiet. unfold hedge_trigger_buy.
    destruct H as [-> |[-> |[-> | ->]]]; cbn; rewrite ?andb_false_r; reflexivity.
  - intros H. apply hedge_sell_stage_quiet. unfold hedge_trigger_sell.
    destruct H as [-> |[-> |[-> | ->]]]; cbn; rewrite ?andb_false_r; reflexivity.
Qed.

Lemma idle_side_places_no_order_witness :
  accumulate_buy_stage (Sample.env 20) (Sample.tick 90 90 []) Sample.closing
  = (Sample.closing, None).
Proof.
  destruct (idle_side_places_no_order (Sample.env 20) (Sample.tick 90 90 [])
              Sample.closing) as (H & _).
  apply H. right. left. reflexivity.
Defined.

(** ** The administrative queue *)

Ltac queue_frame :=
  unfold admin_queue in *; cbn in *;
  try assumption;
  try match goal with
      | H : Forall _ (_ :: _) |- _ => now apply Forall_cons in H as [_ H]
      end.

Lemma pending_stage_queue : preserves admin_queue pending_stage.
Proof.
  intros g H. unfold pending_stage, admin_queue in *.
  destruct (pending_actions (rt_of g)) as [|a q] eqn:Hq; cbn; [now rewrite Hq|].
  now apply Forall_cons in H as [_ H].
Qed.

Lemma closing_buy_stage_queue tick : preserves admin_queue (closing_buy_stage tick).
Proof. intros g H. unfold closing_buy_stage. stage_cases; queue_frame. Qed.

Lemma closing_sell_stage_queue tick : preserves admin_queue (closing_sell_stage tick).
Proof. intros g H. unfold closing_sell_stage. stage_cases; queue_frame. Qed.

Lemma hedge_buy_stage_queue e tick : preserves admin_queue (hedge_buy_stage e tick).
Proof. intros g H. unfold hedge_buy_stage. stage_cases; queue_frame. Qed.

Lemma hedge_sell_stage_queue e tick : preserves admin_queue (hedge_sell_stage e tick).
Proof. intros g H. unfold hedge_sell_stage. stage_cases; queue_frame. Qed.

Lemma tp_buy_stage_queue tick : preserves admin_queue (tp_buy_stage tick).
Proof. intros g H. unfold tp_buy_stage. stage_cases; queue_frame. Qed.

Lemma tp_sell_stage_queue tick : preserves admin_queue (tp_sell_stage tick).
Proof. intros g H. unfold tp_sell_stage. stage_cases; queue_frame. Qed.

Lemma external_close_buy_queue e tick g :
  admin_queue g → admin_queue (external_close_buy e tick g).
Proof. intros H. unfold external_close_buy. stage_cases; queue_frame. Qed.

Lemma external_close_sell_queue e tick g :
  admin_queue g → admin_queue (external_close_sell e tick g).
Proof. intros H. unfold external_close_sell. stage_cases; queue_frame. Qed.

Lemma accumulate_buy_stage_queue e tick : preserves admin_queue (accumulate_buy_stage e tick).
Proof. intros g H. unfold accumulate_buy_stage. stage_cases; queue_frame. Qed.

Lemma accumulate_sell_stage_queue e tick :
  preserves admin_queue (accumulate_sell_stage e tick).
Proof. intros g H. unfold accumulate_sell_stage. stage_cases; queue_frame. Qed.

Lemma decide_stage_queue e tick : preserves admin_queue (decide_stage e tick).
Proof.
  unfold decide_stage, closing_stage, hedge_stage, take_profit_stage,
    external_close_stage, accumulate_stage.
  repeat apply preserves_and_then;
    auto using pending_stage_queue, closing_buy_stage_queue,
      closing_sell_stage_queue, hedge_buy_stage_queue, hedge_sell_stage_queue,
      tp_buy_stage_queue, tp_sell_stage_queue, accumulate_buy_stage_queue,
      accumulate_sell_stage_queue;
    apply preserves_silently;
    auto using external_close_buy_queue, external_close_sell_queue.
Qed.

Lemma admin_queue_snoc (q : list string) (a : string) :
  Forall admin_action q → admin_action a → Forall admin_action (q ++ [a]).
Proof. intros Hq Ha. apply Forall_app. split; [exact Hq|]. now constructor. Qed.

Lemma control_queue b s c x g : admin_queue g → admin_queue (control b s c x g).1.
Proof.
  intros H. unfold control, admin_queue in *.
  assert (Hb : admin_action "CLOSE_ALL_BUY") by (left; reflexivity).
  assert (Hs : admin_action "CLOSE_ALL_SELL") by (right; left; reflexivity).
  assert (He : admin_action "CLOSE_ALL_EMERGENCY") by (right; right; reflexivity).
  destruct (is_true_opt x); cbn; [now apply admin_queue_snoc|].
  destruct b as [[]|], s as [[]|], c as [[]|]; cbn;
    repeat case_match; cbn; auto using admin_queue_snoc.
Qed.

Lemma serve_queue r g : admin_queue g → admin_queue (serve r g).
Proof.
  intros H. destruct r as [e tick|new|b s c x]; simpl.
  - unfold handle_tick.
    destruct (Py.truthy (error_status (rt_of g))); [exact H|].
    assert (H1 : admin_queue (reconcile e tick g)).
    { unfold admin_queue. now rewrite reconcile_pending. }
    destruct (Py.truthy (error_status (rt_of (reconcile e tick g)))); [exact H1|].
    apply (decide_stage_queue e tick) in H1.
    destruct (decide_stage e tick (reconcile e tick g)) as [g' [r|]]; exact H1.
  - destruct (update_settings new g) as [msg|g'] eqn:Hu; [exact H|].
    unfold update_settings in Hu. repeat case_match; simplify_eq. exact H.
  - now apply control_queue.
Qed.

Lemma run_queue rs g : admin_queue g → admin_queue (run rs g).
Proof.
  revert g. induction rs as [|r rs IH]; intros g H; [exact H|].
  simpl. apply IH, serve_queue, H.
Qed.

(** X23. The administrative queue is served first, in order.  In a
    state reachable from the initial state whose queue is not empty, a
    tick that passes the error gate and the reconciler does nothing but
    pop the oldest entry and reply CLOSE_ALL: with the buy session id for
    [CLOSE_ALL_BUY], the sell session id for [CLOSE_ALL_SELL] and
    ["server"] for [CLOSE_ALL_EMERGENCY], and no other entry occurs. *)
Theorem queue_served_first (e : Env) (tick : TickData.t) (g : Globals)
    (a : string) (rest : list string) :
  reachable g →
  error_status (rt_of g) = "" →
  error_status (rt_of (reconcile e tick g)) = "" →
  pending_actions (rt_of g) = a :: rest →
  (handle_tick e tick g).1
  = put_rt (set_pending_actions rest (rt_of (reconcile e tick g))) (reconcile e tick g) ∧
  ((a = "CLOSE_ALL_BUY" ∧
    (handle_tick e tick g).2 = CloseAll (buy_id (rt_of g))) ∨
   (a = "CLOSE_ALL_SELL" ∧
    (handle_tick e tick g).2 = CloseAll (sell_id (rt_of g))) ∨
   (a = "CLOSE_ALL_EMERGENCY" ∧
    (handle_tick e tick g).2 = CloseAll "server")).
Proof.
  intros [rs ->] Herr Herr1 Hq.
  set (g := run rs initial) in *.
  assert (Ha : admin_action a).
  { assert (H : admin_queue g) by (apply run_queue; constructor).
    unfold admin_queue in H. rewrite Hq in H. now apply Forall_cons in H as [H _]. }
  assert (Hq1 : pending_actions (rt_of (reconcile e tick g)) = a :: rest)
    by (now rewrite reconcile_pending).
  destruct (reconcile_same_sessions e tick g) as (_ & _ & _ & _ & Hb & Hs & _).
  unfold handle_tick. rewrite Herr, Herr1. cbn [Py.truthy].
  rewrite (decide_stage_pending _ _ _ _ _ Hq1). cbn [fst snd].
  split; [reflexivity|].
  rewrite Hb, Hs.
  destruct Ha as [-> |[-> | ->]]; [left|right; left|right; right];
    (split; [reflexivity|]); reflexivity.
Qed.

Lemma queue_served_first_witness :
  (handle_tick (Sample.env 13) (Sample.tick 97 97 []) (run Sample.session initial)).2
  = CloseAll "server".
Proof.
  destruct (queue_served_first (Sample.env 13) (Sample.tick 97 97 [])
              (run Sample.session initial) "CLOSE_ALL_EMERGENCY" [])
    as [_ [[H _]|[[H _]|[_ H]]]].
  - exists Sample.session. reflexivity.
  - vm_compute. reflexivity.
  - vm_compute. reflexivity.
  - vm_compute. reflexivity.
  - discriminate H.
  - discriminate H.
  - exact H.
Defined.

(** ** Emergency close, to the end *)

Lemma cumulate_empty : cumulate ∅ = ∅.
Proof. apply dom_empty_iff_L. rewrite cumulate_dom. apply dom_empty_L. Qed.

Lemma reconcile_flat e tick g :
  TickData.positions tick = [] →
  error_status (rt_of (reconcile e tick g)) = error_status (rt_of g) ∧
  buy_exec_map (rt_of (reconcile e tick g)) = cumulate (buy_exec_map (rt_of g)) ∧
  sell_exec_map (rt_of (reconcile e tick g)) = cumulate (sell_exec_map (rt_of g)).
Proof.
  intros Hp. destruct (market_update_rt e tick g) as (_ & _ & Hbm & Hsm & Herr).
  unfold reconcile, update_exec_stats. rewrite Hp. cbn.
  now rewrite Hbm, Hsm, Herr.
Qed.

Lemma count_flat tick id : TickData.positions tick = [] → count_active_trades tick id = 0%nat.
Proof.
  intros Hp. unfold count_active_trades, basket. rewrite Hp.
  now destruct (negb (Py.truthy id)).
Qed.

Lemma tick_confirms_buy e tick g :
  error_status (rt_of g) = "" →
  error_status (rt_of (reconcile e tick g)) = "" →
  pending_actions (rt_of (reconcile e tick g)) = [] →
  buy_is_closing (rt_of (reconcile e tick g)) = true →
  count_active_trades tick (buy_id (rt_of (reconcile e tick g))) = 0%nat →
  cyclic_on (rt_of (reconcile e tick g)) = false →
  handle_tick e tick g
  = (put_rt (set_buy_start_ref 0%Q
               (set_buy_id ""
                  (set_buy_on false
                     (set_buy_hedge_triggered false
                        (set_buy_exec_map ∅
                           (set_buy_is_closing false (rt_of (reconcile e tick g))))))))
       (reconcile e tick g), Wait None).
Proof.
  intros Herr Herr1 Hp Hcl Hz Hcy.
  unfold handle_tick. rewrite Herr, Herr1. cbn [Py.truthy].
  unfold decide_stage, and_then at 1, pending_stage. rewrite Hp.
  unfold and_then at 1, closing_stage, and_then at 1, closing_buy_stage.
  rewrite Hcl, Hz. cbn. now rewrite Hcy.
Qed.

Lemma tick_confirms_sell e tick g :
  error_status (rt_of g) = "" →
  error_status (rt_of (reconcile e tick g)) = "" →
  pending_actions (rt_of (reconcile e tick g)) = [] →
  buy_is_closing (rt_of (reconcile e tick g)) = false →
  sell_is_closing (rt_of (reconcile e tick g)) = true →
  count_active_trades tick (sell_id (rt_of (reconcile e tick g))) = 0%nat →
  cyclic_on (rt_of (reconcile e tick g)) = false →
  handle_tick e tick g
  = (put_rt (set_sell_start_ref 0%Q
               (set_sell_id ""
                  (set_sell_on false
                     (set_sell_hedge_triggered false
                        (set_sell_exec_map ∅
                           (set_sell_is_closing false (rt_of (reconcile e tick g))))))))
       (reconcile e tick g), Wait None).
Proof.
  intros Herr Herr1 Hp Hcb Hcl Hz Hcy.
  unfold handle_tick. rewrite Herr, Herr1. cbn [Py.truthy].
  unfold decide_stage, and_then at 1, pending_stage. rewrite Hp.
  unfold and_then at 1, closing_stage, and_then at 1, closing_buy_stage.
  rewrite Hcb. unfold closing_sell_stage.
  rewrite Hcl, Hz. cbn. now rewrite Hcy.
Qed.

(** X24. An emergency close runs to completion.  After a control
    command with [emergency_close] issued on an empty administrative
    queue, three ticks bring the engine to rest, provided the first
    raises no identity conflict and the next two report no positions: the
    first is answered CLOSE_ALL with comment ["server"], the second and
    the third WAIT, and afterwards both sides are switched off with no
    session id, empty exec maps, no closing phase, no hedge flag and
    anchor 0, cyclic mode is off, the queue is empty and no error is
    set. *)
Theorem emergency_close_completes (e1 e2 e3 : Env) (t1 t2 t3 : TickData.t)
    (g : Globals) (b s c : option bool) :
  pending_actions (rt_of g) = [] →
  error_status (rt_of (reconcile e1 t1 (control b s c (Some true) g).1)) = "" →
  TickData.positions t2 = [] → TickData.positions t3 = [] →
  (handle_tick e1 t1 (control b s c (Some true) g).1).2 = CloseAll "server" ∧
  (handle_tick e2 t2 (handle_tick e1 t1 (control b s c (Some true) g).1).1).2
  = Wait None ∧
  (handle_tick e3 t3
     (handle_tick e2 t2 (handle_tick e1 t1 (control b s c (Some true) g).1).1).1).2
  = Wait None ∧
  buy_at_rest
    (handle_tick e3 t3
       (handle_tick e2 t2 (handle_tick e1 t1 (control b s c (Some true) g).1).1).1).1 ∧
  sell_at_rest
    (handle_tick e3 t3
       (handle_tick e2 t2 (handle_tick e1 t1 (control b s c (Some true) g).1).1).1).1 ∧
  cyclic_on
    (rt_of (handle_tick e3 t3
              (handle_tick e2 t2
                 (handle_tick e1 t1 (control b s c (Some true) g).1).1).1).1) = false ∧
  pending_actions
    (rt_of (handle_tick e3 t3
              (handle_tick e2 t2
                 (handle_tick e1 t1 (control b s c (Some true) g).1).1).1).1) = [] ∧
  error_status
    (rt_of (handle_tick e3 t3
              (handle_tick e2 t2
                 (handle_tick e1 t1 (control b s c (Some true) g).1).1).1).1) = "".
Proof.
  intros Hq Herr1 Hp2 Hp3.
  set (g1 := (control b s c (Some true) g).1) in *.
  set (R1 := reconcile e1 t1 g1) in *.
  (* first tick: the queue entry is popped *)
  assert (Hq1 : pending_actions (rt_of R1) = ["CLOSE_ALL_EMERGENCY"]).
  { subst R1. rewrite reconcile_pending. subst g1. cbn. now rewrite Hq. }
  assert (H1 : handle_tick e1 t1 g1
               = (put_rt (set_pending_actions [] (rt_of R1)) R1, CloseAll "server")).
  { unfold handle_tick. replace (Py.truthy (error_status (rt_of g1))) with false
      by reflexivity.
    fold R1. rewrite Herr1. cbn [Py.truthy].
    now rewrite (decide_stage_pending _ _ _ _ _ Hq1). }
  rewrite H1. cbn [fst snd].
  set (G1 := put_rt (set_pending_actions [] (rt_of R1)) R1).
  destruct (reconcile_same_sessions e1 t1 g1)
    as (_ & _ & _ & Hcy1 & _ & _ & Hcb1 & Hcs1 & _).
  fold R1 in Hcy1, Hcb1, Hcs1.
  (* second tick: the buy side is confirmed closed *)
  set (R2 := reconcile e2 t2 G1).
  destruct (reconcile_flat e2 t2 G1 Hp2) as (He2 & _ & _).
  destruct (reconcile_same_sessions e2 t2 G1)
    as (_ & _ & _ & Hcy2 & _ & _ & Hcb2 & Hcs2 & _ & _ & _ & _ & _ & _ & Hpd2 & _).
  fold R2 in He2, Hcy2, Hcb2, Hcs2, Hpd2.
  assert (H2 : handle_tick e2 t2 G1
               = (put_rt (set_buy_start_ref 0%Q
                            (set_buy_id ""
                               (set_buy_on false
                                  (set_buy_hedge_triggered false
                                     (set_buy_exec_map ∅
                                        (set_buy_is_closing false (rt_of R2)))))))
                    R2, Wait None)).
  { apply tick_confirms_buy; fold R2.
    - subst G1. cbn. exact Herr1.
    - rewrite He2. subst G1. cbn. exact Herr1.
    - rewrite Hpd2. reflexivity.
    - rewrite Hcb2. subst G1. cbn. rewrite Hcb1. reflexivity.
    - now apply count_flat.
    - rewrite Hcy2. subst G1. cbn. rewrite Hcy1. reflexivity. }
  rewrite H2. cbn [fst snd].
  set (G2 := put_rt _ R2).
  (* third tick: the sell side is confirmed closed *)
  set (R3 := reconcile e3 t3 G2).
  destruct (reconcile_flat e3 t3 G2 Hp3) as (He3 & Hbm3 & _).
  destruct (reconcile_same_sessions e3 t3 G2)
    as (_ & Hon3 & _ & Hcy3 & Hid3 & _ & Hcb3 & Hcs3 & Hh3 & _ & _ & _ & Hsr3 & _
        & Hpd3 & _).
  fold R3 in He3, Hbm3, Hon3, Hcy3, Hid3, Hcb3, Hcs3, Hh3, Hsr3, Hpd3.
  assert (HG2 : error_status (rt_of G2) = "" ∧ pending_actions (rt_of G2) = [] ∧
                cyclic_on (rt_of G2) = false ∧ sell_is_closing (rt_of G2) = true).
  { subst G2. cbn. rewrite He2, Hpd2, Hcy2, Hcs2. subst G1. cbn.
    rewrite Hcy1, Hcs1. auto. }
  destruct HG2 as (HeG2 & HpG2 & HcyG2 & HcsG2).
  assert (H3 : handle_tick e3 t3 G2
               = (put_rt (set_sell_start_ref 0%Q
                            (set_sell_id ""
                               (set_sell_on false
                                  (set_sell_hedge_triggered false
                                     (set_sell_exec_map ∅
                                        (set_sell_is_closing false (rt_of R3)))))))
                    R3, Wait None)).
  { apply tick_confirms_sell; fold R3.
    - exact HeG2.
    - now rewrite He3.
    - now rewrite Hpd3.
    - rewrite Hcb3. reflexivity.
    - now rewrite Hcs3.
    - now apply count_flat.
    - now rewrite Hcy3. }
  rewrite H3. cbn [fst snd].
  split; [reflexivity|]. split; [reflexivity|]. split; [reflexivity|].
  unfold buy_at_rest, sell_at_rest. cbn.
  rewrite Hon3, Hid3, Hbm3, Hcb3, Hh3, Hsr3, He3, Hcy3, Hpd3.
  subst G2. cbn. rewrite cumulate_empty.
  repeat split; assumption.
Qed.

Lemma emergency_close_completes_witness :
  (handle_tick (Sample.env 20) (Sample.tick 97 97 [Sample.fill0; Sample.fill1])
     (control None None None (Some true) Sample.both_layers).1).2 = CloseAll "server" ∧
  buy_at_rest
    (handle_tick (Sample.env 22) (Sample.tick 97 97 [])
       (handle_tick (Sample.env 21) (Sample.tick 97 97 [])
          (handle_tick (Sample.env 20) (Sample.tick 97 97 [Sample.fill0; Sample.fill1])
             (control None None None (Some true) Sample.both_layers).1).1).1).1.
Proof.
  destruct (emergency_close_completes (Sample.env 20) (Sample.env 21) (Sample.env 22)
              (Sample.tick 97 97 [Sample.fill0; Sample.fill1])
              (Sample.tick 97 97 []) (Sample.tick 97 97 [])
              Sample.both_layers None None None) as (H1 & _ & _ & H4 & _).
  - vm_compute. reflexivity.
  - vm_compute. reflexivity.
  - reflexivity.
  - reflexivity.
  - split; [exact H1|exact H4].
Defined.

(** ** Positions filed by type *)

Lemma str_in_empty (s : string) : Py.str_in "" s = true.
Proof. now destruct s. Qed.

(** X25. A position is filed by its type, not by the side its comment
    names.  While no sell session is open (empty [sell_id]), a position
    of type [SELL] that carries the comment of layer [n] of the current
    buy session, for an index [n] of at most 4300 digits (which [int]
    accepts), raises no identity conflict and is filed under key [n] of
    the sell exec map, because the empty session id is contained in every
    comment; the buy exec map is left alone. *)
Theorem sell_typed_position_cross_filed (e : Env) (rt : RuntimeState) (p : Position.t)
    (bm sm : gmap Z RowExecStats.t) (u : string) (n : Z) :
  is_uuid_hex u = true → 0 ≤ n → Py.str_raises n = false →
  buy_id rt = get_hash "buy" u → sell_id rt = "" →
  Position.comment p = order_comment (buy_id rt) n →
  Position.type p = "SELL" →
  absorb_position e rt p (bm, sm)
  = inr (bm, <[n := RowExecStats.new n (Position.price p) (Position.volume p)
                      (Position.profit p) (now_iso e)]> sm).
Proof.
  intros Hu Hn Hr Hid Hsid Hc Ht.
  destruct (order_comment_parses "buy" u n (or_introl eq_refl) Hu Hn Hr)
    as (Hm & Hsplit & Hint).
  destruct (own_comment_no_conflict "buy" "sell_" u n "s" (or_introl eq_refl) Hu Hn
              eq_refl eq_refl eq_refl eq_refl) as (_ & Hown & Hno).
  unfold absorb_position. rewrite Hc, Hid, Hsid, Ht, Hm, Hown, Hno, Hsplit.
  rewrite str_in_empty. unfold record_fill. rewrite Hint.
  rewrite !andb_false_r, andb_false_l. reflexivity.
Qed.

Lemma sell_typed_position_cross_filed_witness :
  absorb_position (Sample.env 100)
    (set_buy_id (get_hash "buy" "0123456789abcdef0123456789abcdef") default_RuntimeState)
    (Position.mk 9 "EURUSD" "SELL" (1 # 10) (11 # 10) (5 # 1) "buy_01234567_idx2") (∅, ∅)
  = inr (∅, <[2 := RowExecStats.new 2 (11 # 10) (1 # 10) (5 # 1)
                     (now_iso (Sample.env 100))]> ∅).
Proof.
  apply (sell_typed_position_cross_filed (Sample.env 100)
           (set_buy_id (get_hash "buy" "0123456789abcdef0123456789abcdef")
              default_RuntimeState)
           (Position.mk 9 "EURUSD" "SELL" (1 # 10) (11 # 10) (5 # 1) "buy_01234567_idx2")
           ∅ ∅ "0123456789abcdef0123456789abcdef" 2).
  - vm_compute. reflexivity.
  - lia.
  - vm_compute. reflexivity.
  - reflexivity.
  - reflexivity.
  - vm_compute. reflexivity.
  - reflexivity.
Defined.

(** ** Session ids in reachable states *)

Ltac minted_frame :=
  unfold minted_ids, minted in *; cbn in *;
  repeat match goal with
         | H : _ ∧ _ |- _ => destruct H
         | H : _ && _ = true |- _ => apply andb_prop in H
         end;
  split; eauto.

Lemma pending_stage_minted : preserves minted_ids pending_stage.
Proof. intros g H. unfold pending_stage. stage_cases; minted_frame. Qed.

Lemma closing_buy_stage_minted tick : preserves minted_ids (closing_buy_stage tick).
Proof. intros g H. unfold closing_buy_stage. stage_cases; minted_frame. Qed.

Lemma closing_sell_stage_minted tick : preserves minted_ids (closing_sell_stage tick).
Proof. intros g H. unfold closing_sell_stage. stage_cases; minted_frame. Qed.

Lemma hedge_buy_stage_minted e tick :
  hex_env e = true → preserves minted_ids (hedge_buy_stage e tick).
Proof.
  unfold hex_env. intros He g H. unfold hedge_buy_stage. stage_cases; minted_frame.
Qed.

Lemma hedge_sell_stage_minted e tick :
  hex_env e = true → preserves minted_ids (hedge_sell_stage e tick).
Proof.
  unfold hex_env. intros He g H. unfold hedge_sell_stage. stage_cases; minted_frame.
Qed.

Lemma tp_buy_stage_minted tick : preserves minted_ids (tp_buy_stage tick).
Proof. intros g H. unfold tp_buy_stage. stage_cases; minted_frame. Qed.

Lemma tp_sell_stage_minted tick : preserves minted_ids (tp_sell_stage tick).
Proof. intros g H. unfold tp_sell_stage. stage_cases; minted_frame. Qed.

Lemma external_close_buy_minted e tick g :
  minted_ids g → minted_ids (external_close_buy e tick g).
Proof. intros H. unfold external_close_buy. stage_cases; minted_frame. Qed.

Lemma external_close_sell_minted e tick g :
  minted_ids g → minted_ids (external_close_sell e tick g).
Proof. intros H. unfold external_close_sell. stage_cases; minted_frame. Qed.

Lemma accumulate_buy_stage_minted e tick :
  hex_env e = true → preserves minted_ids (accumulate_buy_stage e tick).
Proof.
  unfold hex_env. intros He g H. unfold accumulate_buy_stage. stage_cases; minted_frame.
Qed.

Lemma accumulate_sell_stage_minted e tick :
  hex_env e = true → preserves minted_ids (accumulate_sell_stage e tick).
Proof.
  unfold hex_env. intros He g H. unfold accumulate_sell_stage. stage_cases; minted_frame.
Qed.

Lemma decide_stage_minted e tick :
  hex_env e = true → preserves minted_ids (decide_stage e tick).
Proof.
  intros He.
  unfold decide_stage, closing_stage, hedge_stage, take_profit_stage,
    external_close_stage, accumulate_stage.
  repeat apply preserves_and_then;
    auto using pending_stage_minted, closing_buy_stage_minted,
      closing_sell_stage_minted, hedge_buy_stage_minted, hedge_sell_stage_minted,
      tp_buy_stage_minted, tp_sell_stage_minted, accumulate_buy_stage_minted,
      accumulate_sell_stage_minted;
    apply preserves_silently;
    auto using external_close_buy_minted, external_close_sell_minted.
Qed.

Lemma serve_minted r g : hex_request r = true → minted_ids g → minted_ids (serve r g).
Proof.
  intros Hr H. destruct r as [e tick|new|b s c x]; simpl in *.
  - unfold handle_tick.
    destruct (Py.truthy (error_status (rt_of g))); [exact H|].
    assert (H1 : minted_ids (reconcile e tick g)).
    { destruct (reconcile_same_sessions e tick g) as (_ & _ & _ & _ & Hb & Hs & _).
      unfold minted_ids. now rewrite Hb, Hs. }
    destruct (Py.truthy (error_status (rt_of (reconcile e tick g)))); [exact H1|].
    apply (decide_stage_minted e tick Hr) in H1.
    destruct (decide_stage e tick (reconcile e tick g)) as [g' [r|]]; exact H1.
  - destruct (update_settings new g) as [msg|g'] eqn:Hu; [exact H|].
    unfold update_settings in Hu. repeat case_match; simplify_eq. exact H.
  - unfold minted_ids.
    destruct (control_frame b s c x g) as (_ & _ & -> & -> & _). exact H.
Qed.

Lemma run_minted rs g :
  forallb hex_request rs = true → minted_ids g → minted_ids (run rs g).
Proof.
  revert g. induction rs as [|r rs IH]; intros g Hrs H; [exact H|].
  simpl in Hrs. apply andb_prop in Hrs as [Hr Hrs].
  simpl. apply IH; [exact Hrs|]. now apply serve_minted.
Qed.

(** X26. The engine recognises the orders of its sessions.  In every
    state reached from the initial state by ticks and commands (the
    values drawn from [uuid4().hex] being 32 lowercase hexadecimal
    digits) that has a buy session, a broker position of type [BUY] whose
    comment is the order comment of that session for a layer [n >= 0] of
    at most 4300 digits (which [int] accepts) is filed by the reconciler
    under key [n] of the buy exec map with the broker's price, volume and
    profit, without an identity conflict; and likewise for [SELL]
    positions of the sell session. *)
Theorem session_orders_recognised (rs : list Request) (e : Env) (p : Position.t)
    (bm sm : gmap Z RowExecStats.t) (n : Z) :
  forallb hex_request rs = true → 0 ≤ n → Py.str_raises n = false →
  (buy_id (rt_of (run rs initial)) ≠ "" →
   Position.comment p = order_comment (buy_id (rt_of (run rs initial))) n →
   Position.type p = "BUY" →
   absorb_position e (rt_of (run rs initial)) p (bm, sm)
   = inr (<[n := RowExecStats.new n (Position.price p) (Position.volume p)
                   (Position.profit p) (now_iso e)]> bm, sm)) ∧
  (sell_id (rt_of (run rs initial)) ≠ "" →
   Position.comment p = order_comment (sell_id (rt_of (run rs initial))) n →
   Position.type p = "SELL" →
   absorb_position e (rt_of (run rs initial)) p (bm, sm)
   = inr (bm, <[n := RowExecStats.new n (Position.price p) (Position.volume p)
                       (Position.profit p) (now_iso e)]> sm)).
Proof.
  intros Hrs Hn Hr.
  destruct (run_minted rs initial Hrs) as [Hb Hs]; [split; left; reflexivity|].
  split; intros Hid Hc Ht.
  - destruct Hb as [Hb|(u & Hu & Hb)]; [contradiction|].
    now apply (absorb_own_buy e _ p bm sm u n).
  - destruct Hs as [Hs|(u & Hu & Hs)]; [contradiction|].
    now apply (absorb_own_sell e _ p bm sm u n).
Qed.

Lemma session_orders_recognised_witness :
  absorb_position (Sample.env 14) (rt_of (run (firstn 5 Sample.session) initial))
    Sample.fill1 (∅, ∅)
  = inr (<[1 := RowExecStats.new 1 (Position.price Sample.fill1)
                  (Position.volume Sample.fill1) (Position.profit Sample.fill1)
                  (now_iso (Sample.env 14))]> ∅, ∅).
Proof.
  destruct (session_orders_recognised (firstn 5 Sample.session) (Sample.env 14)
              Sample.fill1 ∅ ∅ 1) as [H _].
  - vm_compute. reflexivity.
  - lia.
  - vm_compute. reflexivity.
  - apply H.
    + apply truthy_ne. vm_compute. reflexivity.
    + vm_compute. reflexivity.
    + reflexivity.
Defined.

(** ** The indices that the reconciler files *)

Lemma digit_value_nonneg (c : ascii) (d : Z) : Py.digit_value c = Some d → 0 ≤ d.
Proof.
  unfold Py.digit_value.
  destruct (_ && _) eqn:H; [|discriminate].
  apply andb_prop in H as [H _]. apply Z.leb_le in H.
  intros E. injection E as <-. lia.
Qed.

Lemma digits_go_nonneg (s : string) (acc : Z) (b : bool) (k : Z) :
  0 ≤ acc → Py.digits_go acc b s = Some k → 0 ≤ k.
Proof.
  revert acc b. induction s as [|c s IH]; intros acc b Hacc H.
  - simpl in H. destruct b; [|discriminate H]. injection H as <-. exact Hacc.
  - cbn [Py.digits_go] in H.
    destruct (Py.digit_value c) as [d|] eqn:Hd.
    + apply digit_value_nonneg in Hd. apply IH in H; [exact H|lia].
    + destruct (Ascii.eqb c "_" && b); [|discriminate H].
      destruct s as [|c' s']; [discriminate H|].
      destruct (Py.digit_value c'); [|discriminate H].
      apply IH in H; [exact H|exact Hacc].
Qed.

Lemma rev_string_acc (s acc : string) :
  Py.rev_string acc s = Py.rev_string "" s +:+ acc.
Proof.
  revert acc. induction s as [|c s IH]; intros acc; [reflexivity|].
  cbn [Py.rev_string]. rewrite (IH (String c acc)), (IH (String c "")).
  now rewrite append_assoc.
Qed.

Lemma rev_string_snoc (y acc : string) (d : ascii) :
  Py.rev_string acc (y +:+ String d "") = String d (Py.rev_string acc y).
Proof.
  revert acc. induction y as [|c y IH]; intros acc; [reflexivity|].
  change (Py.rev_string (String c acc) (y +:+ String d "")
          = String d (Py.rev_string (String c acc) y)).
  apply IH.
Qed.

Lemma lstrip_snoc (x : string) (d : ascii) :
  Py.is_space d = false → ∃ y, Py.lstrip (x +:+ String d "") = y +:+ String d "".
Proof.
  intros Hd. induction x as [|c x IH].
  - exists "". simpl. now rewrite Hd.
  - change (String c x +:+ String d "") with (String c (x +:+ String d "")).
    cbn [Py.lstrip]. destruct (Py.is_space c); [exact IH|].
    now exists (String c x).
Qed.

(** Stripping keeps a first character that is not white space. *)
Lemma strip_head (d : ascii) (rest : string) :
  Py.is_space d = false → ∃ rest', Py.strip (String d rest) = String d rest'.
Proof.
  intros Hd. unfold Py.strip.
  assert (Hl : Py.lstrip (String d rest) = String d rest) by (simpl; now rewrite Hd).
  rewrite Hl. cbn [Py.rev_string]. rewrite (rev_string_acc rest (String d "")).
  destruct (lstrip_snoc (Py.rev_string "" rest) d Hd) as [y ->].
  rewrite rev_string_snoc. eauto.
Qed.

Lemma int_digit_head (d : ascii) (rest : string) (k : Z) :
  is_digit d = true → Py.int (String d rest) = Some k → 0 ≤ k.
Proof.
  intros Hd. destruct (digit_facts d Hd) as (Hs & _).
  destruct (strip_head d rest Hs) as [rest' Hstrip].
  unfold Py.int. rewrite Hstrip. cbv zeta. intros H.
  destruct (Py.max_str_digits <? Py.count_digits (String d rest')) in H;
    [discriminate H|].
  apply (digits_go_nonneg (String d rest') 0 false k); [lia|].
  clear - Hd H.
  destruct d as [[] [] [] [] [] [] [] []]; try discriminate Hd; exact H.
Qed.

Lemma fullmatch_times_inv (f : ascii → bool) (n : nat) (h : string) :
  Re.fullmatch (Re.times n (Re.Class f)) h = true →
  String.length h = n ∧ all_chars f h = true.
Proof.
  revert h. induction n as [|n IH]; intros h H.
  - apply fullmatch_Eps in H as ->. split; reflexivity.
  - change (Re.times (S n) (Re.Class f))
      with (Re.Cat (Re.Class f) (Re.times n (Re.Class f))) in H.
    apply fullmatch_Cat in H as (s1 & s2 & -> & H1 & H2).
    apply fullmatch_Class_inv in H1 as (c & -> & Hc).
    apply IH in H2 as [Hl Ha].
    split.
    + change (S (String.length s2) = S n). now rewrite Hl.
    + change (f c && all_chars f s2 = true). now rewrite Hc, Ha.
Qed.

Lemma fullmatch_Star_class_inv (f : ascii → bool) (s : string) :
  Re.fullmatch (Re.Star (Re.Class f)) s = true → all_chars f s = true.
Proof.
  induction s as [|c s IH]; intros H; [reflexivity|].
  simpl in H. apply fullmatch_Cat in H as (s1 & s2 & -> & H1 & H2).
  destruct (f c) eqn:Hc; [|now rewrite fullmatch_Void in H1].
  apply fullmatch_Eps in H1 as ->. simpl. rewrite Hc. now apply IH.
Qed.

(** What the pattern accepts, spelled out. *)
Lemma pattern_shape (w : string) :
  Re.fullmatch TRADE_ID_PATTERN w = true →
  ∃ side h d ds,
    w = side +:+ "_" +:+ h +:+ "_idx" +:+ String d ds ∧
    (side = "buy" ∨ side = "sell") ∧
    String.length h = 8%nat ∧ all_chars hex_any_case h = true ∧
    all_chars is_digit (String d ds) = true.
Proof.
  unfold TRADE_ID_PATTERN. intros H.
  apply fullmatch_Cat in H as (side & s2 & -> & Hside & H).
  apply fullmatch_Cat in H as (us & s3 & -> & Hus & H).
  apply fullmatch_Cat in H as (h & s4 & -> & Hh & H).
  apply fullmatch_Cat in H as (ix & s5 & -> & Hix & H).
  apply fullmatch_lit_inv in Hus as ->. apply fullmatch_lit_inv in Hix as ->.
  apply fullmatch_times_inv in Hh as [Hl Hh].
  unfold Re.plus in H. apply fullmatch_Cat in H as (s6 & ds & -> & Hd & Hds).
  apply fullmatch_Class_inv in Hd as (d & -> & Hd).
  apply fullmatch_Star_class_inv in Hds.
  exists side, h, d, ds. split; [reflexivity|]. split.
  - rewrite fullmatch_Alt in Hside. apply orb_true_iff in Hside as [Hs|Hs];
      apply fullmatch_lit_inv in Hs as ->; auto.
  - split; [exact Hl|]. split; [exact Hh|].
    change (Re.in_range "0" "9" d && all_chars (Re.in_range "0" "9") ds = true).
    now rewrite Hd, Hds.
Qed.

Lemma hex_any_facts (c : ascii) :
  hex_any_case c = true → c ≠ "_"%char ∧ c ≠ "i"%char.
Proof.
  destruct c as [[] [] [] [] [] [] [] []]; intros H; try discriminate H;
    split; discriminate.
Qed.

Lemma split_go_no_underscore (cur s : string) :
  all_chars (λ c, negb (Ascii.eqb c "_")) s = true →
  Py.split_go "_idx" 0 cur s = [Py.rev_string "" (Py.rev_string cur s)].
Proof.
  revert cur. induction s as [|c s IH]; intros cur H; [reflexivity|].
  simpl in H. apply andb_prop in H as [Hc Hs].
  apply negb_true_iff, Ascii.eqb_neq in Hc.
  rewrite split_go_step by exact Hc. now rewrite IH.
Qed.

Lemma split_go_separator_any (cur t : string) :
  all_chars (λ c, negb (Ascii.eqb c "_")) t = true →
  Py.split_go "_idx" 0 cur ("_idx" +:+ t) = [Py.rev_string "" cur; t].
Proof.
  intros H.
  change ("_idx" +:+ t) with (String "_" ("idx" +:+ t)).
  rewrite split_go_hit.
  - change (String.length "_idx" - 1)%nat with (String.length "idx").
    rewrite split_go_skip, split_go_no_underscore by exact H.
    now rewrite rev_string_involutive.
  - change (String "_" ("idx" +:+ t)) with ("_idx" +:+ t).
    apply prefix_app.
Qed.

Lemma comment_split (side h t : string) :
  side = "buy" ∨ side = "sell" →
  String.length h = 8%nat → all_chars hex_any_case h = true →
  all_chars (λ c, negb (Ascii.eqb c "_")) t = true →
  Py.split (side +:+ "_" +:+ h +:+ "_idx" +:+ t) "_idx" = [side +:+ "_" +:+ h; t].
Proof.
  intros Hside Hl Hh Ht.
  destruct h as [|c1 [|c2 [|c3 [|c4 [|c5 [|c6 [|c7 [|c8 [|c9 h]]]]]]]]];
    try discriminate Hl.
  simpl in Hh.
  repeat match goal with
         | H : _ && _ = true |- _ => apply andb_prop in H as [? H]
         end.
  repeat match goal with
         | H : hex_any_case _ = true |- _ => apply hex_any_facts in H as (? & ?)
         end.
  unfold Py.split.
  destruct Hside as [-> | ->].
  - change (Py.split_go "_idx" 0 ""
      (String "b" (String "u" (String "y" (String "_" (String c1 (String c2
        (String c3 (String c4 (String c5 (String c6 (String c7 (String c8
          ("_idx" +:+ t)))))))))))))
      = ["buy_" +:+ String c1 (String c2 (String c3 (String c4 (String c5
           (String c6 (String c7 (String c8 ""))))))); t]).
    do 3 (rewrite split_go_step by discriminate).
    rewrite split_go_underscore by assumption.
    do 8 (rewrite split_go_step by assumption).
    now rewrite split_go_separator_any.
  - change (Py.split_go "_idx" 0 ""
      (String "s" (String "e" (String "l" (String "l" (String "_" (String c1
        (String c2 (String c3 (String c4 (String c5 (String c6 (String c7
          (String c8 ("_idx" +:+ t))))))))))))))
      = ["sell_" +:+ String c1 (String c2 (String c3 (String c4 (String c5
           (String c6 (String c7 (String c8 ""))))))); t]).
    do 4 (rewrite split_go_step by discriminate).
    rewrite split_go_underscore by assumption.
    do 8 (rewrite split_go_step by assumption).
    now rewrite split_go_separator_any.
Qed.

Lemma no_underscore_digits (s : string) :
  all_chars is_digit s = true → all_chars (λ c, negb (Ascii.eqb c "_")) s = true.
Proof.
  apply all_chars_impl. intros c Hc.
  destruct (digit_facts c Hc) as (_ & _ & _ & _ & Hu & _).
  apply negb_true_iff, Ascii.eqb_neq, Hu.
Qed.

(** The index read from a comment that the pattern accepts is never
    negative. *)
Lemma filed_index_nonneg (cmt a tail : string) (k : Z) :
  TRADE_ID_PATTERN_match cmt = true →
  Py.split cmt "_idx" = [a; tail] → Py.int tail = Some k → 0 ≤ k.
Proof.
  unfold TRADE_ID_PATTERN_match, Re.match_anchored. intros Hm Hsplit Hint.
  assert (Hshape : ∃ side h d rest,
             cmt = side +:+ "_" +:+ h +:+ "_idx" +:+ String d rest ∧
             (side = "buy" ∨ side = "sell") ∧
             String.length h = 8%nat ∧ all_chars hex_any_case h = true ∧
             is_digit d = true ∧
             all_chars (λ c, negb (Ascii.eqb c "_")) (String d rest) = true).
  { apply orb_true_iff in Hm as [Hm|Hm].
    - apply pattern_shape in Hm as (side & h & d & ds & -> & Hside & Hl & Hh & Hd).
      exists side, h, d, ds. split; [reflexivity|].
      split; [exact Hside|]. split; [exact Hl|]. split; [exact Hh|].
      split; [|now apply no_underscore_digits].
      simpl in Hd. now apply andb_prop in Hd as [Hd _].
    - apply andb_prop in Hm as [Hn Hm].
      apply pattern_shape in Hm as (side & h & d & ds & Hw & Hside & Hl & Hh & Hd).
      exists side, h, d, (ds +:+ String "010" "").
      split.
      { rewrite (drop_last_newline cmt Hn), Hw. now rewrite !append_assoc. }
      split; [exact Hside|]. split; [exact Hl|]. split; [exact Hh|].
      split; [simpl in Hd; now apply andb_prop in Hd as [Hd _]|].
      change (String d (ds +:+ String "010" ""))
        with (String d ds +:+ String "010" "").
      rewrite all_chars_app, (no_underscore_digits _ Hd). reflexivity. }
  destruct Hshape as (side & h & d & rest & -> & Hside & Hl & Hh & Hd & Hrest).
  rewrite (comment_split side h (String d rest) Hside Hl Hh Hrest) in Hsplit.
  injection Hsplit as _ <-.
  now apply (int_digit_head d rest).
Qed.

Lemma nonneg_empty : nonneg_keys ∅.
Proof. intros k Hk. rewrite dom_empty_L in Hk. set_solver. Qed.

Lemma nonneg_insert (m : gmap Z RowExecStats.t) (n : Z) (v : RowExecStats.t) :
  0 ≤ n → nonneg_keys m → nonneg_keys (<[n := v]> m).
Proof.
  intros Hn Hm k Hk. rewrite dom_insert_L in Hk.
  apply elem_of_union in Hk as [Hk|Hk]; [|now apply Hm].
  apply elem_of_singleton in Hk as ->. exact Hn.
Qed.

Lemma nonneg_insert_nat (m : gmap Z RowExecStats.t) (n : nat) (v : RowExecStats.t) :
  nonneg_keys m → nonneg_keys (<[Z.of_nat n := v]> m).
Proof. apply nonneg_insert. lia. Qed.

Lemma nonneg_insert_zero (m : gmap Z RowExecStats.t) (v : RowExecStats.t) :
  nonneg_keys m → nonneg_keys (<[0 := v]> m).
Proof. apply nonneg_insert. lia. Qed.

Lemma last_index_lower (m : gmap Z RowExecStats.t) : nonneg_keys m → -1 ≤ last_index m.
Proof.
  intros Hm. unfold last_index.
  destruct (last (sorted_indices m)) as [x|] eqn:Hl; [|simpl; lia].
  assert (Hx : x ∈ sorted_indices m).
  { apply last_Some in Hl as [l' ->]. set_solver. }
  apply sorted_indices_elem, elem_of_dom, Hm in Hx. simpl. lia.
Qed.

Lemma nonneg_insert_next (m : gmap Z RowExecStats.t) (v : RowExecStats.t) :
  nonneg_keys m → nonneg_keys (<[last_index m + 1 := v]> m).
Proof.
  intros Hm. apply nonneg_insert; [|exact Hm].
  pose proof (last_index_lower m Hm). lia.
Qed.

Lemma nonneg_cumulate (m : gmap Z RowExecStats.t) :
  nonneg_keys m → nonneg_keys (cumulate m).
Proof. intros Hm k Hk. rewrite cumulate_dom in Hk. now apply Hm. Qed.

Lemma nonneg_absorb_position e rt p (bm sm bm' sm' : gmap Z RowExecStats.t) :
  absorb_position e rt p (bm, sm) = inr (bm', sm') →
  nonneg_keys bm → nonneg_keys sm → nonneg_keys bm' ∧ nonneg_keys sm'.
Proof.
  unfold absorb_position, record_fill. intros H Hb Hs.
  destruct (TRADE_ID_PATTERN_match (Position.comment p)) eqn:Hm; cbn [negb] in H;
    [|now simplify_eq].
  assert (Hk : ∀ a tail k, Py.split (Position.comment p) "_idx" = [a; tail] →
                           Py.int tail = Some k → 0 ≤ k)
    by (intros a tail k; now apply filed_index_nonneg).
  repeat case_match; simplify_eq; split; eauto using nonneg_insert.
Qed.

Lemma nonneg_absorb_positions e rt ps (bm sm bm' sm' : gmap Z RowExecStats.t) :
  absorb_positions e rt ps (bm, sm) = inr (bm', sm') →
  nonneg_keys bm → nonneg_keys sm → nonneg_keys bm' ∧ nonneg_keys sm'.
Proof.
  revert bm sm. induction ps as [|p ps IH]; intros bm sm H Hb Hs; simpl in H.
  - now simplify_eq.
  - destruct (absorb_position e rt p (bm, sm)) as [msg|[bm1 sm1]] eqn:Hp;
      [discriminate H|].
    destruct (nonneg_absorb_position _ _ _ _ _ _ _ Hp Hb Hs). eauto.
Qed.

Lemma reconcile_nonneg e tick g : nonneg_keyed g → nonneg_keyed (reconcile e tick g).
Proof.
  intros [Hb Hs]. unfold reconcile, nonneg_keyed.
  destruct (market_update_rt e tick g) as (_ & _ & Hbm & Hsm & _).
  destruct (update_exec_stats_cases e tick (rt_of (market_update e tick g)))
    as [(msg & _ & ->)|(bm & sm & Habs & ->)]; cbn.
  - rewrite Hbm, Hsm. auto.
  - rewrite Hbm, Hsm in Habs.
    destruct (nonneg_absorb_positions _ _ _ _ _ _ _ Habs Hb Hs).
    split; now apply nonneg_cumulate.
Qed.

Ltac nonneg_frame :=
  unfold nonneg_keyed in *; cbn in *;
  repeat match goal with
         | H : _ ∧ _ |- _ => destruct H
         end;
  split;
  auto using nonneg_empty, nonneg_insert_nat, nonneg_insert_zero, nonneg_insert_next.

Lemma pending_stage_nonneg : preserves nonneg_keyed pending_stage.
Proof. intros g H. unfold pending_stage. stage_cases; nonneg_frame. Qed.

Lemma closing_buy_stage_nonneg tick : preserves nonneg_keyed (closing_buy_stage tick).
Proof. intros g H. unfold closing_buy_stage. stage_cases; nonneg_frame. Qed.

Lemma closing_sell_stage_nonneg tick : preserves nonneg_keyed (closing_sell_stage tick).
Proof. intros g H. unfold closing_sell_stage. stage_cases; nonneg_frame. Qed.

Lemma hedge_buy_stage_nonneg e tick : preserves nonneg_keyed (hedge_buy_stage e tick).
Proof. intros g H. unfold hedge_buy_stage. stage_cases; nonneg_frame. Qed.

Lemma hedge_sell_stage_nonneg e tick : preserves nonneg_keyed (hedge_sell_stage e tick).
Proof. intros g H. unfold hedge_sell_stage. stage_cases; nonneg_frame. Qed.

Lemma tp_buy_stage_nonneg tick : preserves nonneg_keyed (tp_buy_stage tick).
Proof. intros g H. unfold tp_buy_stage. stage_cases; nonneg_frame. Qed.

Lemma tp_sell_stage_nonneg tick : preserves nonneg_keyed (tp_sell_stage tick).
Proof. intros g H. unfold tp_sell_stage. stage_cases; nonneg_frame. Qed.

Lemma external_close_buy_nonneg e tick g :
  nonneg_keyed g → nonneg_keyed (external_close_buy e tick g).
Proof. intros H. unfold external_close_buy. stage_cases; nonneg_frame. Qed.

Lemma external_close_sell_nonneg e tick g :
  nonneg_keyed g → nonneg_keyed (external_close_sell e tick g).
Proof. intros H. unfold external_close_sell. stage_cases; nonneg_frame. Qed.

Lemma accumulate_buy_stage_nonneg e tick :
  preserves nonneg_keyed (accumulate_buy_stage e tick).
Proof. intros g H. unfold accumulate_buy_stage. stage_cases; nonneg_frame. Qed.

Lemma accumulate_sell_stage_nonneg e tick :
  preserves nonneg_keyed (accumulate_sell_stage e tick).
Proof. intros g H. unfold accumulate_sell_stage. stage_cases; nonneg_frame. Qed.

Lemma decide_stage_nonneg e tick : preserves nonneg_keyed (decide_stage e tick).
Proof.
  unfold decide_stage, closing_stage, hedge_stage, take_profit_stage,
    external_close_stage, accumulate_stage.
  repeat apply preserves_and_then;
    auto using pending_stage_nonneg, closing_buy_stage_nonneg,
      closing_sell_stage_nonneg, hedge_buy_stage_nonneg, hedge_sell_stage_nonneg,
      tp_buy_stage_nonneg, tp_sell_stage_nonneg, accumulate_buy_stage_nonneg,
      accumulate_sell_stage_nonneg;
    apply preserves_silently;
    auto using external_close_buy_nonneg, external_close_sell_nonneg.
Qed.

Lemma serve_nonneg r g : nonneg_keyed g → nonneg_keyed (serve r g).
Proof.
  intros H. destruct r as [e tick|new|b s c x]; simpl.
  - unfold handle_tick.
    destruct (Py.truthy (error_status (rt_of g))); [exact H|].
    apply (reconcile_nonneg e tick) in H.
    destruct (Py.truthy (error_status (rt_of (reconcile e tick g)))); [exact H|].
    apply (decide_stage_nonneg e tick) in H.
    destruct (decide_stage e tick (reconcile e tick g)) as [g' [r|]]; exact H.
  - destruct (update_settings new g) as [msg|g'] eqn:Hu; [exact H|].
    unfold update_settings in Hu. repeat case_match; simplify_eq. exact H.
  - unfold nonneg_keyed.
    destruct (control_frame b s c x g) as (_ & _ & _ & _ & -> & -> & _). exact H.
Qed.

(** X27. Layer indices are never negative.  The index that the
    reconciler reads from a comment accepted by [TRADE_ID_PATTERN] (split
    at [_idx], then [int]) is non-negative, also when the comment ends in
    a line feed; and in every state reachable from the initial state by
    ticks and commands, all keys of the buy and of the sell exec map are
    non-negative. *)
Theorem layer_indices_nonneg (k : Z) :
  (∀ cmt a tail, TRADE_ID_PATTERN_match cmt = true →
                 Py.split cmt "_idx" = [a; tail] → Py.int tail = Some k → 0 ≤ k) ∧
  (∀ g, reachable g →
        (k ∈ dom (buy_exec_map (rt_of g)) → 0 ≤ k) ∧
        (k ∈ dom (sell_exec_map (rt_of g)) → 0 ≤ k)).
Proof.
  split; [intros cmt a tail; apply filed_index_nonneg|].
  intros g [rs ->].
  assert (H : ∀ g0, nonneg_keyed g0 → nonneg_keyed (run rs g0)).
  { induction rs as [|q rs IH]; intros g0 H0; [exact H0|].
    simpl. apply IH, serve_nonneg, H0. }
  destruct (H initial) as [Hb Hs]; [split; apply nonneg_empty|].
  split; [apply Hb|apply Hs].
Qed.

Lemma layer_indices_nonneg_witness :
  1 ∈ dom (buy_exec_map (rt_of (run (firstn 5 Sample.session) initial))) ∧ 0 ≤ 1.
Proof.
  assert (Hk : 1 ∈ dom (buy_exec_map (rt_of (run (firstn 5 Sample.session) initial)))).
  { apply elem_of_dom. vm_compute. eauto. }
  split; [exact Hk|].
  destruct (layer_indices_nonneg 1) as (_ & H).
  destruct (H (run (firstn 5 Sample.session) initial)) as (Hb & _).
  - exists (firstn 5 Sample.session). reflexivity.
  - apply Hb, Hk.
Defined.
